(* ===== verification/_CoqProject ===== *)
-Q . S2P
Prelude.v
Rust.v
Fmt.v
Bits.v
Memory.v
Address.v
Layout.v
Multiboot.v
Frame.v
FrameSpec.v
FrameInv.v
Paging.v
Mmu.v
AddressSpace.v
Volatile.v
Vga.v
Machine.v
Cpu.v
Gdt.v
Stack.v
Kernel.v
Report.v
Refusal.v
Builds.v
Boot.v
Protection.v
Services.v
Window.v
