(* ===== verification/Prelude.v ===== *)
(** * zkrnl32: a verification of a 32-bit kernel

    [zkrnl32] is a small higher-half x86 kernel in Rust.  GRUB loads the image at
    2 MiB; the boot stub turns paging on with a bootstrap directory of two 4 MiB
    pages, installs a descriptor table and enters [kernel_main], which reports the
    Multiboot memory map on the text console, builds the physical frame allocator
    from it, builds and loads the real page directory, and idles.  This library
    models the boot stub and all of the kernel's Rust code and proves what makes each
    part correct, up to one theorem that leads from the loader to the idle loop.

    ** How the code is modelled

    Integers are [Z] in the range of their type, [usize] is 32 bits.  Checked
    arithmetic, [debug_assert!] and shifts depend on the Cargo profile, a class
    argument ([BuildProfile], instances [dev] and [release]): the theorems hold in
    both unless they name one.  A computation that may panic is an [outcome];
    effects are the state monad [M], whose state survives a panic, since
    [panic = "abort"] runs the handler on the state at hand.  Pointers are addresses
    into byte-addressed memory and are followed through the page directory in use: an
    access the directory does not allow is a page fault, [CpuException 14].  The check
    is made once per frame cleared, per entry read or written, per console method (for
    the page of the text buffer), per word of the stack dump, and for the loader's
    structures before they are read.

    A [dev] build also checks pointers where the source makes references and slices of
    them: [&*], [&mut *] and [write_bytes] want a non-null, aligned one ([deref_check]),
    [slice::from_raw_parts] a non-null one and a size below 2 GiB
    ([from_raw_parts_check]); a failure is the panic [InvalidPointer].  The checks are
    modelled for the pointers the loader passes and for the frames of the page tables;
    the other pointers are constants or inside the stack.  In a [release] build such a
    pointer is undefined behaviour, which no theorem covers: those about [release]
    assume valid pointers ([handoff]).

    The memory map is a borrowed slice, whose bytes are read when the iterator looks at
    them, between the lines of the report: [MapRef] is the reference, [MemoryMap] the
    bytes and the cursor at one moment.

    The page walk of the processor ([walk] in [Paging], [walk_tables] in [Cpu]) is
    written from the hardware's format, with its bits as numbers, and not with the
    kernel's masks and flags; [walk_accessors] shows that the accessors of
    [src/memory/paging.rs] read entries the same way.

    Loops over iterators take fuel; the theorems state that the fuel granted is enough
    (a memory-map walk makes at most one step per four bytes, a word-mask walk one per
    bitmap word), so they are total.

    Assembly is a list of instructions for the processor of [Cpu], which fetches each
    one through its code segment and the page tables in use.  A Rust function called
    from assembly is one step at its address: it takes its arguments from the stack and
    has the effect of its definition, and [write_gdt], which returns, leaves anything in
    the registers its caller has to save.  The boot takes 39 steps: 11 in [_start], 5 to
    the call of [install_gdt], 21 in [install_gdt] with [write_gdt], the call of
    [kernel_main], and [kernel_main].  How long an instruction is and where the linker
    puts the code are parameters ([Encoding], [BootSymbols]) under what the linker
    script promises ([boot_image]); a concrete image shows that it can be kept.

    ** Files

    - [Prelude]: this header, notations, automation, facts on bits.
    - [Rust]: profiles, panics, machine arithmetic, the monad, loops, [wp], and
      [preserves], an invariant kept however a computation ends.
    - [Fmt]: [core::fmt] as far as the kernel formats with it.
    - [Bits]: [src/utils/bits.rs].
    - [Memory]: byte-addressed memory, little-endian accesses.
    - [Address]: [src/memory/address.rs], a Module per newtype.
    - [Layout]: [src/memory/layout.rs] and the stack symbols; the linker symbols are
      the class [KernelImage], what the code relies on is [ImageOk], and [link]
      computes the symbols as [boot/linker.ld] does.
    - [Multiboot]: [src/multiboot.rs], parsing; the wire format for round trips.
    - [Frame]: [src/memory/frame.rs], every method of [FrameBitmap], its invariant
      [bitmap_wf] and the behaviour of each operation on the set of free frames.
    - [FrameSpec]: the abstract allocator (a set of free frames and the runs handed
      out) and the simulation; the interface [FrameSource] the paging code uses.
    - [FrameInv]: the allocator's type invariant, through panics and on bad inputs.
    - [Paging]: [src/memory/paging.rs]; directories and tables live in memory; the
      two-level walk as a function of memory and [CR3], and dereferencing by it; the
      builder runs over any [FrameSource], the memory and the control registers.
    - [Mmu]: the address spaces of the bootstrap directory and of the running kernel;
      the invariant of a directory under construction ([building]) and what [init],
      running on the bootstrap directory, does or how it fails.
    - [AddressSpace]: the theorems about the address spaces before and after [init].
    - [Volatile]: [src/volatile.rs].
    - [Vga]: [src/vga.rs]; the terminal it implements and the text it shows.
    - [Machine]: the kernel's statics, memory and control registers in one record,
      with a [Lens] for the console and one for the paging code; the console's methods
      through the directory in use ([on_screen]); the macros of [src/console.rs] and
      what a sequence of prints leaves on the terminal.
    - [Cpu]: the processor around the machine: registers, segments with their hidden
      parts, segmentation and paging of every access, the instructions used.
    - [Gdt]: [src/gdt.rs]; descriptors and what they decode to; [write_gdt] and
      [install_gdt] on the processor.
    - [Stack]: [src/stack.rs], the stack dump, reading through the directory in use,
      and its macros.
    - [Kernel]: [src/lib.rs], [src/memory/mod.rs] and [print_memory_map].
    - [Report]: a reader of the memory report, and that it recovers the map.
    - [Refusal]: what [kernel_main] does when it cannot go on.
    - [Builds]: the [release] build against the [dev] build, function by function, and
      that they come to the same.
    - [Boot]: [boot/boot.asm]: the Multiboot header, [_start] and [higher_half], the
      loaded image, and the theorems from the loader on.
    - [Protection]: what the processor lets the booted kernel do to its memory.
    - [Services]: the allocator, the console, the panic handler and the page tables of
      the booted kernel in use together, as a step relation over one machine.
    - [Window]: editing the page tables through the recursive window.

    ** What is proved

    - Frame allocator: it refines the abstract allocator along every sequence of
      calls; live runs are disjoint from each other and from the free frames and
      nothing is lost; no reachable call panics; the exact run [allocate] chooses;
      double frees are refused with the bitmap intact; [init] frees exactly the
      frames wholly inside available regions that the kernel does not keep; the type
      invariant holds after every call, forged, refused or interrupted by a panic.
    - Paging: entries and flags round-trip; the bootstrap directory maps the first
      4 MiB twice; [init] installs exactly the promised address space, writes only to
      frames that were free, leaves no writable view of the kernel's code, keeps every
      address it maps below the recursive window where the bootstrap directory had it, and
      with too few frames
      panics before it has changed a register or a byte in use.
    - Multiboot: walking the bytes a loader writes yields its entries; the walk ends
      in the [dev] build; clamping and the usable total never overflow.
    - Console: the writer is a terminal confined to the text buffer and shows the last
      25 rows of the wrapped text; colours are restored; the copy it scrolls with is
      [memmove].
    - Descriptor table: all segments are flat with the right privilege; [install_gdt]
      passes every segment check, with paging off or with the table mapped, and
      returns with the caller's stack intact.
    - Boot path: from the hand-off with a usable map, [kernel_main] reaches the idle
      loop in its own address space with exactly the boot text on the screen; the
      memory report reads back to the loader's map ([memory_report_roundtrip]); a wrong
      magic, a missing map, a map without low memory and, in a [dev] build, an invalid
      pointer are refused with the panic the code names and nothing in use changed
      ([kernel_refuses]); the panic handler
      prints its message and the stack dump and reaches the halt.
    - Builds: where the map can be walked and offers neither RAM up to the limit nor the
      text buffer, no check of [dev] fires and the two builds end alike, in the verdict
      that the magic, the map and its low memory decide ([builds_agree]).
    - From the loader: the stub reaches [kernel_main] without a fault, with its
      arguments in place and the stack aligned ([boot_stub_enters_kernel]); the image
      boots to the idle loop with everything it still needs mapped ([grub_to_idle]);
      for any magic, map and pointers in reach the [dev] image never ends in silence
      ([grub_never_silent]); and the booted kernel cannot write its code, nor run over
      the end of its stack without a fault ([kernel_memory_protected]).
    - After the boot: along any sequence of calls, prints and stores by clients to the
      frames they hold, the allocator, the memory, the screen and the address space each
      move as their own abstract machine, and every service goes on
      ([kernel_services_isolated]); the recursive window edits exactly the page it
      should ([recursive_window_edits]).

    Three theorems state what the code does against its intent: available RAM that
    starts above 0 and reaches 4 GiB ends [init] in a panic or is dropped
    ([init_drops_region_at_limit]), a memory-map entry can wrap the stride to zero and be
    walked for ever ([memory_map_zero_stride]), and [install_gdt] calls Rust
    code with a misaligned stack ([install_gdt_misaligned_call]).

    ** What is assumed of the loader

    The state the Multiboot specification promises ([multiboot_entry]); its structures
    in the low 4 MiB, since the bootstrap directory maps no more ([in_reach]), with
    pointers that are not null and aligned ([handoff]), off the text buffer
    ([map_clear]), and clear of the image and of the descriptor table at
    0x800 ([loader_clear]).  The map may hold any bytes, but for the theorems that boot
    to the idle loop ([map_ok]); that the [dev] image is never silent needs no valid
    pointers ([in_reach] is enough), but a map that does not offer the text buffer as RAM
    ([map_spares_screen]), as a page table there would be overwritten by the next
    print.

    ** What is not modelled

    The text of Rust's [PanicInfo], which the handler takes as a string; the stack
    traffic of compiled code; caches, the TLB (neither [paging::init] nor a service
    changes a table in use, so an entry it holds is what the walk gives; an edit through
    the window would have to be followed by a flush) and the accessed and dirty bits the
    CPU sets in page-table entries; interrupts, which the kernel keeps off; of the
    processor, PAE, 16-bit segments, rings other than 0 and instructions the kernel
    does not use.  Physical memory and the kernel's statics are separate parts of the
    state: the statics lie in the image, whose frames the builder does not touch.
    [src/prelude.rs], [src/utils/mod.rs] and the build files hold no behaviour beyond
    the two profiles; of the other sources every operation is modelled. *)

From stdpp Require Export prelude numbers list list_numbers strings gmap.
From Stdlib Require Export ZArith Lia.

#[global] Open Scope Z_scope.

(** ** Automation *)

(** Hints for the well-formedness side conditions the components share. *)
Create HintDb zk.

(** [zdiv] solves linear goals with division and modulo by constants. *)
Ltac zdiv := Z.to_euclidean_division_equations; lia.

(** Boolean tests on [Z] and [bool] become propositions, in the goal and in the
    hypotheses. *)
Ltac bprop :=
  repeat match goal with
  | H : _ && _ = true |- _ => apply andb_prop in H as [? ?]
  | H : (_ =? _) = true |- _ => apply Z.eqb_eq in H
  | H : (_ =? _) = false |- _ => apply Z.eqb_neq in H
  | H : (_ <? _) = true |- _ => apply Z.ltb_lt in H
  | H : (_ <? _) = false |- _ => apply Z.ltb_ge in H
  | H : (_ <=? _) = true |- _ => apply Z.leb_le in H
  | H : (_ <=? _) = false |- _ => apply Z.leb_gt in H
  end.

(** Case analysis on the innermost comparison of the goal. *)
Ltac zcase :=
  match goal with
  | |- context [?a =? ?b] => destruct (Z.eqb_spec a b)
  | |- context [?a <? ?b] => destruct (Z.ltb_spec a b)
  | |- context [?a <=? ?b] => destruct (Z.leb_spec a b)
  end.

(** Closes a goal of [Z] comparisons and booleans by exhaustive cases. *)
Ltac zbool := repeat (zcase; simpl); try reflexivity; try lia.

(** ** Bits *)

Lemma testbit_small (x n i : Z) :
  0 <= n -> 0 <= x < 2 ^ n -> n <= i -> Z.testbit x i = false.
Proof.
  intros Hn Hx Hi. rewrite <- (Z.mod_small x (2 ^ n)) by done.
  by apply Z.mod_pow2_bits_high.
Qed.

Lemma testbit_ones_spec (n i : Z) :
  0 <= n -> 0 <= i -> Z.testbit (Z.ones n) i = (i <? n).
Proof.
  intros Hn Hi. destruct (Z.ltb_spec i n).
  - by apply Z.ones_spec_low.
  - by apply Z.ones_spec_high.
Qed.

(** A number below [2 ^ n] is determined by its low [n] bits. *)
Lemma bits_inj_small (n x y : Z) :
  0 <= n -> 0 <= x < 2 ^ n -> 0 <= y < 2 ^ n ->
  (forall i, 0 <= i < n -> Z.testbit x i = Z.testbit y i) -> x = y.
Proof.
  intros Hn Hx Hy H. apply Z.bits_inj'. intros i Hi.
  destruct (Z.lt_ge_cases i n) as [?|?]; [by apply H|].
  by rewrite !(testbit_small _ n i).
Qed.

(** A non-negative number whose bits from [n] on are clear is below [2 ^ n]. *)
Lemma bits_bound (n x : Z) :
  0 <= n -> 0 <= x -> (forall i, n <= i -> Z.testbit x i = false) -> x < 2 ^ n.
Proof.
  intros Hn Hx H.
  assert (x = x mod 2 ^ n) as ->; [|apply Z.mod_pos_bound; lia].
  apply Z.bits_inj'. intros i Hi. destruct (Z.lt_ge_cases i n).
  - by rewrite Z.mod_pow2_bits_low.
  - rewrite Z.mod_pow2_bits_high by lia. by apply H.
Qed.

Lemma land_bound (n x y : Z) : 0 <= n -> 0 <= x < 2 ^ n -> 0 <= y -> 0 <= Z.land x y < 2 ^ n.
Proof.
  intros Hn Hx Hy. split; [apply Z.land_nonneg; lia|].
  apply bits_bound; [done|apply Z.land_nonneg; lia|].
  intros i Hi. by rewrite Z.land_spec, (testbit_small x n i).
Qed.

Lemma lor_bound (n x y : Z) :
  0 <= n -> 0 <= x < 2 ^ n -> 0 <= y < 2 ^ n -> 0 <= Z.lor x y < 2 ^ n.
Proof.
  intros Hn Hx Hy. assert (0 <= Z.lor x y) by (apply Z.lor_nonneg; lia).
  split; [done|]. apply bits_bound; [done|done|].
  intros i Hi. by rewrite Z.lor_spec, !(testbit_small _ n i).
Qed.

#[export] Hint Resolve land_bound lor_bound : zk.

(** A number whose low bits agree with no bit of [y] can be added to it by [|]. *)
Lemma lor_disjoint_add (x y : Z) : Z.land x y = 0 -> Z.lor x y = x + y.
Proof. intros H. symmetry. by apply Z.add_nocarry_lxor in H as ?; rewrite <- Z.lxor_lor. Qed.

(** Packing: a multiple of [2 ^ n] and a number below [2 ^ n] share no bit. *)
Lemma land_shifted (n hi lo : Z) :
  0 <= n -> 0 <= lo < 2 ^ n -> Z.land (hi * 2 ^ n) lo = 0.
Proof.
  intros Hn Hlo. apply Z.bits_inj'. intros i Hi. rewrite Z.land_spec, Z.bits_0.
  destruct (Z.lt_ge_cases i n).
  - by rewrite Z.mul_pow2_bits_low.
  - rewrite (testbit_small lo n i) by done. apply andb_false_r.
Qed.

Lemma lor_shifted (n hi lo : Z) :
  0 <= n -> 0 <= lo < 2 ^ n -> Z.lor (hi * 2 ^ n) lo = hi * 2 ^ n + lo.
Proof. intros. by apply lor_disjoint_add, land_shifted. Qed.

(** ** Pairs *)

Lemma pair_fst_eq {A B} (p : A * B) (a : A) : p.1 = a -> p = (a, p.2).
Proof. intros <-. by destruct p. Qed.
