(* ===== verification/Rust.v ===== *)
(** * The Rust the kernel is written in

    What the sources use of the language and of [core], for the 32-bit target of
    [targets/i386-zkrnl32.json]: panics as values, checked and wrapping machine
    arithmetic under the two Cargo profiles, effects as a state monad in which
    the state survives a panic (the kernel is built with [panic = "abort"] and
    its panic handler runs on the state at hand), [for] loops over ranges and
    over iterators, and total-correctness triples for such programs. *)

From S2P Require Import Prelude.

(** ** Build profile

    Cargo's [dev] profile, the one the Makefile builds, turns overflow checks and
    [debug_assert!] on; [release] turns both off.  Every definition takes the
    profile as an implicit argument. *)
Class BuildProfile := { debug_build : bool }.

Definition dev : BuildProfile := {| debug_build := true |}.

Definition release : BuildProfile := {| debug_build := false |}.

(** ** Panics

    [CpuException] is not a panic of the language but ends the computation like one:
    the kernel installs no interrupt table, so an exception has no handler.  It
    carries the vector, 13 for a protection fault and 14 for a page fault. *)
Inductive panic_info :=
  | ArithmeticOverflow
  | IndexOutOfBounds
  | InvalidPointer
  | AssertionFailed (message : string)
  | Message (message : string)
  | CpuException (vector : Z).

#[global] Instance panic_info_eq_dec : EqDecision panic_info.
Proof. solve_decision. Defined.

(** The outcome of a computation.  [OutOfFuel] is the outcome of a loop that has
    not finished within the iterations granted to it; a total function never has
    it, and a diverging one has it for every fuel. *)
Inductive outcome (A : Type) :=
  | Ok (a : A)
  | Panic (p : panic_info)
  | OutOfFuel.
Arguments Ok {A} a.
Arguments Panic {A} p.
Arguments OutOfFuel {A}.

#[global] Instance outcome_eq_dec `{EqDecision A} : EqDecision (outcome A).
Proof. solve_decision. Defined.

#[global] Instance outcome_ret : MRet outcome := @Ok.

#[global] Instance outcome_bind : MBind outcome := fun A B f o =>
  match o with
  | Ok a => f a
  | Panic p => Panic p
  | OutOfFuel => OutOfFuel
  end.

(** [Option::expect]. *)
Definition expect {A} (message : string) (o : option A) : outcome A :=
  match o with
  | Some a => Ok a
  | None => Panic (Message message)
  end.

(** [assert!]. *)
Definition assert (b : bool) (message : string) : outcome unit :=
  if b then Ok tt else Panic (AssertionFailed message).

(** [debug_assert!]: checked in the [dev] profile only. *)
Definition debug_assert `{BuildProfile} (b : bool) (message : string) : outcome unit :=
  if debug_build then assert b message else Ok tt.

(** The checks a [dev] build makes where a raw pointer is turned into a reference: it
    must not be null and must be aligned; for [slice::from_raw_parts] of bytes, it must
    not be null and the length not exceed [isize::MAX].  A [release] build does not
    look: a pointer that fails them is undefined behaviour there, which no theorem
    covers. *)
Definition deref_check `{BuildProfile} (align ptr : Z) : outcome unit :=
  if debug_build && ((ptr =? 0) || negb (ptr mod align =? 0)) then Panic InvalidPointer else Ok tt.

Definition from_raw_parts_check `{BuildProfile} (ptr len : Z) : outcome unit :=
  if debug_build && ((ptr =? 0) || (2 ^ 31 - 1 <? len)) then Panic InvalidPointer else Ok tt.

Lemma deref_check_ok `{BuildProfile} (align ptr : Z) : ptr <> 0 -> ptr mod align = 0 -> deref_check align ptr = Ok tt.
Proof. intros H1 H2. unfold deref_check. rewrite H2, (proj2 (Z.eqb_neq _ _) H1). by rewrite andb_false_r. Qed.

Lemma from_raw_parts_check_ok `{BuildProfile} (ptr len : Z) :
  ptr <> 0 -> len < 2 ^ 31 -> from_raw_parts_check ptr len = Ok tt.
Proof.
  intros H1 H2. unfold from_raw_parts_check. rewrite (proj2 (Z.eqb_neq _ _) H1), (proj2 (Z.ltb_ge _ _)) by lia.
  by rewrite andb_false_r.
Qed.

(** ** Machine integers

    A [w]-bit unsigned integer is a [Z] in [[0, 2 ^ w)]; [usize] is 32 bits. *)
Abbreviation u32_range x := (0 <= x < 2 ^ 32).
Abbreviation u64_range x := (0 <= x < 2 ^ 64).

(** The result [r] of [+], [-] or [*] on [w]-bit operands: checked in [dev],
    wrapped in [release]. *)
Definition arith `{BuildProfile} (w r : Z) : outcome Z :=
  if (0 <=? r) && (r <? 2 ^ w) then Ok r
  else if debug_build then Panic ArithmeticOverflow
  else Ok (r mod 2 ^ w).

Definition usize_add `{BuildProfile} (a b : Z) : outcome Z := arith 32 (a + b).

Definition usize_sub `{BuildProfile} (a b : Z) : outcome Z := arith 32 (a - b).

Definition usize_mul `{BuildProfile} (a b : Z) : outcome Z := arith 32 (a * b).

Definition u64_add `{BuildProfile} (a b : Z) : outcome Z := arith 64 (a + b).

Definition u64_sub `{BuildProfile} (a b : Z) : outcome Z := arith 64 (a - b).

(** The amount of a shift is checked against the width; bits shifted out are
    dropped silently.  A constant amount below the width needs no check. *)
Definition shift_amount `{BuildProfile} (w n : Z) : outcome Z :=
  if (0 <=? n) && (n <? w) then Ok n
  else if debug_build then Panic ArithmeticOverflow
  else Ok (n mod w).

Definition wrapping_shl (w a n : Z) : Z := Z.shiftl a n mod 2 ^ w.

Definition shl `{BuildProfile} (w a n : Z) : outcome Z :=
  n ← shift_amount w n; Ok (wrapping_shl w a n).

Definition shr `{BuildProfile} (w a n : Z) : outcome Z :=
  n ← shift_amount w n; Ok (Z.shiftr a n).

(** [!x] on [u32]. *)
Definition u32_not (x : Z) : Z := Z.lxor x (Z.ones 32).

(** [x as u32] and [x as usize]. *)
Definition as_u32 (x : Z) : Z := x mod 2 ^ 32.

Definition saturating_add (w a b : Z) : Z := Z.min (a + b) (2 ^ w - 1).

Definition saturating_sub (a b : Z) : Z := Z.max (a - b) 0.

Definition div_ceil (a b : Z) : Z := a / b + (if a mod b =? 0 then 0 else 1).

Definition is_multiple_of (a b : Z) : bool := a mod b =? 0.

Lemma arith_ok `{BuildProfile} (w r : Z) : 0 <= r < 2 ^ w -> arith w r = Ok r.
Proof. intros [H1 H2]. unfold arith. by rewrite (proj2 (Z.leb_le _ _) H1), (proj2 (Z.ltb_lt _ _) H2). Qed.

Lemma arith_overflow_dev (w r : Z) :
  ~ (0 <= r < 2 ^ w) -> @arith dev w r = Panic ArithmeticOverflow.
Proof.
  intros H. unfold arith. simpl.
  destruct (Z.leb_spec 0 r), (Z.ltb_spec r (2 ^ w)); simpl; try done; lia.
Qed.

Lemma arith_wrap_release (w r : Z) : 0 <= w -> @arith release w r = Ok (r mod 2 ^ w).
Proof.
  intros Hw. unfold arith. simpl.
  destruct (Z.leb_spec 0 r), (Z.ltb_spec r (2 ^ w)); simpl; try done.
  by rewrite Z.mod_small.
Qed.

Lemma div_ceil_spec (a b : Z) : 0 < b -> div_ceil a b = (a + b - 1) / b.
Proof.
  intros Hb. unfold div_ceil. pose proof (Z.div_mod a b) as Hd.
  pose proof (Z.mod_pos_bound a b) as Hm. destruct (Z.eqb_spec (a mod b) 0) as [E|E].
  - apply Z.div_unique with (b - 1); lia.
  - apply Z.div_unique with (a mod b - 1); lia.
Qed.

Lemma u32_not_bit (x i : Z) :
  0 <= i -> Z.testbit (u32_not x) i = xorb (Z.testbit x i) (i <? 32).
Proof. intros. unfold u32_not. by rewrite Z.lxor_spec, testbit_ones_spec. Qed.

Lemma u32_not_bound (x : Z) : 0 <= x < 2 ^ 32 -> 0 <= u32_not x < 2 ^ 32.
Proof.
  intros Hx. assert (0 <= u32_not x) as H0.
  { apply Z.lxor_nonneg. pose proof (Z.ones_equiv 32). lia. }
  split; [done|]. apply bits_bound; [lia|done|]. intros i Hi.
  rewrite u32_not_bit, (testbit_small x 32 i) by lia.
  by rewrite (proj2 (Z.ltb_ge i 32)).
Qed.

Lemma usize_add_ok `{BuildProfile} (a b : Z) : u32_range (a + b) -> usize_add a b = Ok (a + b).
Proof. apply arith_ok. Qed.

Lemma usize_sub_ok `{BuildProfile} (a b : Z) : u32_range (a - b) -> usize_sub a b = Ok (a - b).
Proof. apply arith_ok. Qed.

Lemma usize_mul_ok `{BuildProfile} (a b : Z) : u32_range (a * b) -> usize_mul a b = Ok (a * b).
Proof. apply arith_ok. Qed.

Lemma ok_bind {A B} (a : A) (f : A → outcome B) : (Ok a ≫= f) = f a.
Proof. done. Qed.

Lemma shift_amount_ok `{BuildProfile} (w n : Z) : 0 <= n < w -> shift_amount w n = Ok n.
Proof. intros [H1 H2]. unfold shift_amount. by rewrite (proj2 (Z.leb_le _ _) H1), (proj2 (Z.ltb_lt _ _) H2). Qed.

Lemma debug_assert_ok `{BuildProfile} (b : bool) (m : string) : b = true -> debug_assert b m = Ok tt.
Proof. intros ->. unfold debug_assert. by destruct debug_build. Qed.

#[export] Hint Resolve u32_not_bound : zk.

(** Evaluates checked arithmetic and [outcome] binds whose side conditions [lia]
    proves. *)
Ltac rust :=
  repeat first
    [ rewrite ok_bind
    | rewrite usize_add_ok by lia
    | rewrite usize_sub_ok by lia
    | rewrite usize_mul_ok by lia
    | rewrite shift_amount_ok by lia
    | rewrite debug_assert_ok by lia ].

(** ** Effects *)

(** A computation over the state [S]: it ends with an outcome and the state, also
    when it panics. *)
Definition M (S A : Type) : Type := S → outcome A * S.

#[global] Instance M_ret {S} : MRet (M S) := fun A a s => (Ok a, s).

#[global] Instance M_bind {S} : MBind (M S) := fun A B f m s =>
  match m s with
  | (Ok a, s') => f a s'
  | (Panic p, s') => (Panic p, s')
  | (OutOfFuel, s') => (OutOfFuel, s')
  end.

(** A pure computation that may panic, run in any state. *)
Definition lift {S A} (o : outcome A) : M S A := fun s => (o, s).

(** A [&self] method: reads the state and leaves it. *)
Definition reads {S A} (f : S → outcome A) : M S A := fun s => (f s, s).

Definition modify {S} (f : S → S) : M S unit := fun s => (Ok tt, f s).

(** A sub-object of the state: the place a [&mut] borrow of a field points at. *)
Class Lens (S T : Type) := {
  view : S → T;
  put : T → S → S;
  view_put : ∀ t s, view (put t s) = t;
  put_view : ∀ s, put (view s) s = s;
  put_put : ∀ t t' s, put t (put t' s) = put t s
}.

(** Runs a method of a field on the object that holds the field. *)
Definition zoom {S T A} `{Lens S T} (m : M T A) : M S A := fun s =>
  let '(o, t) := m (view s) in (o, put t s).

(** [for x in l { f(x) }] *)
Fixpoint for_in {S A} (l : list A) (f : A → M S unit) : M S unit :=
  match l with
  | [] => mret tt
  | x :: l => f x;; for_in l f
  end.

(** [lo..hi] and [(lo..hi).step_by(step)]. *)
Definition range (lo hi : Z) : list Z := seqZ lo (hi - lo).

Definition range_step_by (lo hi step : Z) : list Z :=
  (fun i => lo + i * step) <$> seqZ 0 (div_ceil (hi - lo) step).

(** [for x in iter { f(x) }] for an iterator given by its [next]: one unit of
    fuel per call of [next]. *)
Fixpoint for_each {S St A} (next : St → outcome (option (A * St))) (f : A → M S unit)
    (fuel : nat) (st : St) : M S unit :=
  match fuel with
  | O => lift OutOfFuel
  | Datatypes.S fuel =>
      r ← lift (next st);
      match r with
      | None => mret tt
      | Some (x, st') => f x;; for_each next f fuel st'
      end
  end.

(** The items an iterator yields, in order. *)
Fixpoint collect {St A} (next : St → outcome (option (A * St))) (fuel : nat) (st : St)
    : outcome (list A) :=
  match fuel with
  | O => OutOfFuel
  | Datatypes.S fuel =>
      r ← next st;
      match r with
      | None => Ok []
      | Some (x, st') => l ← collect next fuel st'; Ok (x :: l)
      end
  end.

(** The first [n] items of an iterator, or all of them where it ends earlier. *)
Fixpoint taken {St A} (next : St → outcome (option (A * St))) (n : nat) (st : St) : outcome (list A) :=
  match n with
  | O => Ok []
  | Datatypes.S n =>
      r ← next st;
      match r with
      | None => Ok []
      | Some (x, st') => l ← taken next n st'; Ok (x :: l)
      end
  end.

(** A walk that yields an item for each step of its fuel has not ended. *)
Lemma collect_unfinished {St A} (next : St → outcome (option (A * St))) n k st l :
  taken next n st = Ok l → length l = n → (k <= n)%nat → collect next k st = OutOfFuel.
Proof.
  revert k st l. induction n as [|n IH]; intros [|k] st l E Hl Hk; try done; [lia|]. cbn [taken collect] in *.
  destruct (next st) as [[[x st']|]| |]; try done; cbn in *; simplify_eq.
  destruct (taken next n st') as [l'| |] eqn:E'; simplify_eq/=. by rewrite (IH k st' l') by (done || lia).
Qed.

(** A panic among the first items ends the walk. *)
Lemma collect_panics {St A} (next : St → outcome (option (A * St))) n k st p :
  taken next n st = Panic p → (n <= k)%nat → collect next k st = Panic p.
Proof.
  revert k st. induction n as [|n IH]; intros [|k] st E Hk; try done; [lia|]. cbn [taken collect] in *.
  destruct (next st) as [[[x st']|]| |]; try done; cbn in *.
  destruct (taken next n st') eqn:E'; simplify_eq/=. by rewrite (IH k st') by (done || lia).
Qed.

Lemma collect_S {St A} (next : St → outcome (option (A * St))) fuel st :
  collect next (S fuel) st =
    (r ← next st;
     match r with
     | None => Ok []
     | Some (x, st') => l ← collect next fuel st'; Ok (x :: l)
     end).
Proof. done. Qed.

Lemma for_each_S {S St A} (next : St → outcome (option (A * St))) (f : A → M S unit) fuel st :
  for_each next f (Datatypes.S fuel) st =
    (r ← lift (next st);
     match r with
     | None => mret tt
     | Some (x, st') => f x;; for_each next f fuel st'
     end).
Proof. done. Qed.

Section monad.
Context {S : Type}.

Lemma bind_ok {A B} (m : M S A) (f : A → M S B) s a s' :
  m s = (Ok a, s') → (m ≫= f) s = f a s'.
Proof. intros H. unfold mbind, M_bind. by rewrite H. Qed.

Lemma bind_panic {A B} (m : M S A) (f : A → M S B) s p s' :
  m s = (Panic p, s') → (m ≫= f) s = (Panic p, s').
Proof. intros H. unfold mbind, M_bind. by rewrite H. Qed.

Lemma bind_lift {A B} (o : A) (f : A → M S B) s : (lift (Ok o) ≫= f) s = f o s.
Proof. done. Qed.

Lemma bind_reads {A B} (g : S → outcome A) (f : A → M S B) s a :
  g s = Ok a → (reads g ≫= f) s = f a s.
Proof. intros H. unfold mbind, M_bind, reads. by rewrite H. Qed.

Lemma for_in_app {A} (l k : list A) (f : A → M S unit) s :
  for_in (l ++ k) f s = (for_in l f;; for_in k f) s.
Proof.
  revert s. induction l as [|x l IH]; intros s; [done|].
  simpl. unfold mbind, M_bind in *. destruct (f x s) as [[] s1]; [|done|done].
  apply IH.
Qed.

(** A loop over an iterator that yields the items [l] is the loop over [l]. *)
Lemma for_each_collect {St A} (next : St → outcome (option (A * St))) (f : A → M S unit)
    fuel st l s :
  collect next fuel st = Ok l → for_each next f fuel st s = for_in l f s.
Proof.
  revert st l s. induction fuel as [|fuel IH]; intros st l s H; [done|].
  simpl in *. unfold mbind, M_bind, outcome_bind, lift in *.
  destruct (next st) as [[[x st']|]| |]; simplify_eq; [|done].
  destruct (collect next fuel st') as [l'| |] eqn:E; simplify_eq. simpl.
  unfold mbind, M_bind. destruct (f x s) as [[] s1]; [|done|done].
  by apply IH.
Qed.
End monad.

(** ** Total correctness

    [wp m Q s]: run from [s], [m] returns (it neither panics nor runs out of
    fuel) and its result and final state satisfy [Q]. *)
Definition wp {S A} (m : M S A) (Q : A → S → Prop) (s : S) : Prop :=
  ∃ a s', m s = (Ok a, s') ∧ Q a s'.

Section wp.
Context {S : Type}.
Implicit Types (s : S).

Lemma wp_ret {A} (a : A) (Q : A → S → Prop) s : Q a s → wp (mret a) Q s.
Proof. intros. by exists a, s. Qed.

Lemma wp_lift {A} (o : outcome A) a (Q : A → S → Prop) s :
  o = Ok a → Q a s → wp (lift o) Q s.
Proof. intros -> ?. by exists a, s. Qed.

Lemma wp_reads {A} (f : S → outcome A) a (Q : A → S → Prop) s :
  f s = Ok a → Q a s → wp (reads f) Q s.
Proof. intros H ?. exists a, s. unfold reads. by rewrite H. Qed.

Lemma wp_modify (f : S → S) (Q : unit → S → Prop) s : Q tt (f s) → wp (modify f) Q s.
Proof. intros. by exists tt, (f s). Qed.

Lemma wp_bind {A B} (m : M S A) (f : A → M S B) (Q : B → S → Prop) s :
  wp m (fun a => wp (f a) Q) s → wp (m ≫= f) Q s.
Proof.
  intros (a & s' & E & b & s'' & E' & HQ). exists b, s''.
  by rewrite (bind_ok _ _ _ _ _ E).
Qed.

Lemma wp_mono {A} (m : M S A) (Q Q' : A → S → Prop) s :
  wp m Q s → (∀ a s', Q a s' → Q' a s') → wp m Q' s.
Proof. intros (a & s' & E & HQ) H. exists a, s'. eauto. Qed.

Lemma wp_zoom {T A} `{Lens S T} (m : M T A) (Q : A → T → Prop) (Q' : A → S → Prop) s :
  wp m Q (view s) → (∀ a t, Q a t → Q' a (put t s)) → wp (zoom m) Q' s.
Proof.
  intros (a & t & E & HQ) HQ'. exists a, (put t s). unfold zoom. rewrite E. auto.
Qed.

(** The rule for [for x in l]: [I k s] holds when the [k] first items are done. *)
Lemma wp_for_in {A} (l : list A) (f : A → M S unit) (I : list A → S → Prop)
    (Q : unit → S → Prop) s :
  I [] s →
  (∀ done x rest s', l = done ++ x :: rest → I done s' →
    wp (f x) (fun _ s'' => I (done ++ [x]) s'') s') →
  (∀ s', I l s' → Q tt s') →
  wp (for_in l f) Q s.
Proof.
  intros HI Hstep HQ.
  cut (∀ done rest s', l = done ++ rest → I done s' → wp (for_in rest f) Q s').
  { intros H. by apply (H []). }
  intros done rest. revert done. induction rest as [|x rest IH]; intros done s' Hl Hd.
  - apply wp_ret, HQ. rewrite app_nil_r in Hl. by subst done.
  - simpl. apply wp_bind. eapply wp_mono; [by eapply Hstep|].
    intros [] s'' Hs. apply (IH (done ++ [x])); [|exact Hs].
    by rewrite <- app_assoc.
Qed.
End wp.

(** ** Invariants

    [preserves Inv m]: [m] keeps [Inv] however it ends: return, panic or fuel. *)
Definition preserves {S A} (Inv : S → Prop) (m : M S A) : Prop := ∀ s, Inv s → Inv (m s).2.

Create HintDb inv.

Section preserves.
Context {S : Type} (Inv : S → Prop).

Lemma preserves_ret {A} (a : A) : preserves Inv (mret a).
Proof. by intros s. Qed.

Lemma preserves_lift {A} (o : outcome A) : preserves Inv (lift o).
Proof. by intros s. Qed.

Lemma preserves_reads {A} (f : S → outcome A) : preserves Inv (reads f).
Proof. by intros s. Qed.

Lemma preserves_bind {A B} (m : M S A) (f : A → M S B) :
  preserves Inv m → (∀ a, preserves Inv (f a)) → preserves Inv (m ≫= f).
Proof.
  intros Hm Hf s Hs. unfold mbind, M_bind. specialize (Hm s Hs).
  destruct (m s) as [[a| |] s']; [by apply Hf|done..].
Qed.

(** What a pure step computed may be used behind it. *)
Lemma preserves_bind_lift {A B} (o : outcome A) (f : A → M S B) :
  (∀ a, o = Ok a → preserves Inv (f a)) → preserves Inv (lift o ≫= f).
Proof. intros Hf s Hs. unfold mbind, M_bind, lift. destruct o; [by apply (Hf a eq_refl)|done..]. Qed.

Lemma preserves_if {A} (b : bool) (m m' : M S A) :
  preserves Inv m → preserves Inv m' → preserves Inv (if b then m else m').
Proof. by destruct b. Qed.

(** A loop over an iterator whose own state satisfies [J]. *)
Lemma preserves_for_each {St A} (next : St → outcome (option (A * St))) (f : A → M S unit) (J : St → Prop)
    (fuel : nat) (st : St) :
  J st → (∀ st x st', J st → next st = Ok (Some (x, st')) → preserves Inv (f x) ∧ J st') →
  preserves Inv (for_each next f fuel st).
Proof.
  intros Hst Hn. revert st Hst. induction fuel as [|fuel IH]; intros st Hst; [apply preserves_lift|].
  cbn [for_each]. apply preserves_bind_lift. intros [[x st']|] E; [|apply preserves_ret].
  destruct (Hn st x st' Hst E) as [Hx Hst']. apply preserves_bind; [done|]. intros _. by apply IH.
Qed.
End preserves.

#[export] Hint Resolve preserves_ret preserves_lift preserves_reads preserves_bind preserves_if : inv.

Lemma arith_range `{BuildProfile} (w r x : Z) : 0 <= w → arith w r = Ok x → 0 <= x < 2 ^ w.
Proof.
  intros Hw. unfold arith. destruct (Z.leb_spec 0 r), (Z.ltb_spec r (2 ^ w)); cbn [andb]; destruct debug_build;
    intros; simplify_eq; try lia; apply Z.mod_pos_bound; lia.
Qed.

(** ** Ranges *)

Lemma elem_of_range_step_by (lo hi step x : Z) :
  0 < step →
  x ∈ range_step_by lo hi step ↔ lo <= x < hi ∧ (x - lo) mod step = 0.
Proof.
  intros Hs. unfold range_step_by. rewrite list_elem_of_fmap. rewrite div_ceil_spec by done.
  setoid_rewrite elem_of_seqZ. split.
  - intros (i & -> & Hi). replace (lo + i * step - lo) with (i * step) by lia.
    split; [|by apply Z.mod_mul; lia]. split; [nia|].
    assert (i + 1 <= (hi - lo + step - 1) / step) as Hle by lia.
    apply (Z.mul_le_mono_nonneg_r _ _ step) in Hle; [|lia].
    pose proof (Z.mul_div_le (hi - lo + step - 1) step). lia.
  - intros [Hx Hm]. exists ((x - lo) / step). pose proof (Z.div_mod (x - lo) step) as Hd.
    split; [lia|]. split; [by apply Z.div_pos; lia|].
    assert ((x - lo) / step + 1 <= (hi - lo + step - 1) / step); [|lia].
    apply Z.div_le_lower_bound; lia.
Qed.
