(* ===== verification/Fmt.v ===== *)
(** * [core::fmt], as far as the kernel formats with it

    Unsigned integers in decimal and lower-case hexadecimal with the width, zero
    and alternate flags the format strings of the sources use ([{}], [{:>9}],
    [{:#x}], [{:#010x}], [{:#012x}]), and the shapes of derived [Debug] output.
    [format_args!] is modelled by the text it renders to. *)

From S2P Require Import Prelude Rust.
From Stdlib Require Import Ascii.

#[local] Open Scope string_scope.
#[local] Open Scope Z_scope.

(** ** Digits *)

Definition digit_char (d : Z) : ascii :=
  ascii_of_N (Z.to_N (if d <? 10 then 48 + d else 87 + d)).

Definition char_digit (c : ascii) : option Z :=
  let n := Z.of_N (N_of_ascii c) in
  if (48 <=? n) && (n <=? 57) then Some (n - 48)
  else if (97 <=? n) && (n <=? 102) then Some (n - 87)
  else None.

(** The digit loop of [fmt::num]: least significant first, into the front of the
    buffer, until the quotient is zero.  64 digits hold any [u64]. *)
Fixpoint radix_loop (fuel : nat) (radix n : Z) (buf : string) : string :=
  match fuel with
  | O => buf
  | S fuel =>
      let buf := String (digit_char (n mod radix)) buf in
      if n / radix =? 0 then buf else radix_loop fuel radix (n / radix) buf
  end.

Definition radix_digits (radix n : Z) : string := radix_loop 64 radix n "".

Fixpoint repeat_char (n : nat) (c : ascii) : string :=
  match n with
  | O => ""
  | S n => String c (repeat_char n c)
  end.

(** [Formatter::pad_integral] for a non-negative number: zeros go between the prefix
    and the digits, other padding in front. *)
Definition pad_integral (prefix digits : string) (zero : bool) (width : nat) : string :=
  let missing := (width - String.length (prefix ++ digits))%nat in
  if zero then prefix ++ repeat_char missing "0" ++ digits
  else repeat_char missing " " ++ prefix ++ digits.

(** [{}] *)
Definition dec (n : Z) : string := pad_integral "" (radix_digits 10 n) false 0.

(** [{:>w}] *)
Definition dec_right (w : nat) (n : Z) : string := pad_integral "" (radix_digits 10 n) false w.

(** [{:#x}] *)
Definition hex (n : Z) : string := pad_integral "0x" (radix_digits 16 n) false 0.

(** [{:#0wx}] *)
Definition hex_pad (w : nat) (n : Z) : string := pad_integral "0x" (radix_digits 16 n) true w.

(** ** Debug *)

(** [#[derive(Debug)]] on a tuple struct or variant with one field. *)
Definition debug_tuple (name field : string) : string := name ++ "(" ++ field ++ ")".

(** [Formatter::debug_struct] with its fields. *)
Fixpoint debug_fields (fields : list (string * string)) (first : bool) : string :=
  match fields with
  | [] => ""
  | (name, value) :: fields =>
      (if first then "" else ", ") ++ name ++ ": " ++ value ++ debug_fields fields false
  end.

Definition debug_struct (name : string) (fields : list (string * string)) : string :=
  name ++ " { " ++ debug_fields fields true ++ " }".

(** The bytes of a text. *)
Definition bytes_of (s : string) : list Z :=
  (fun c => Z.of_N (N_of_ascii c)) <$> String.list_ascii_of_string s.

(** ** Reading digits back *)

Fixpoint parse_digits (radix : Z) (s : string) (acc : Z) : option Z :=
  match s with
  | "" => Some acc
  | String c s => d ← char_digit c; if d <? radix then parse_digits radix s (acc * radix + d) else None
  end.

Definition parse_hex (s : string) : option Z :=
  match s with
  | String "0" (String "x" s) => parse_digits 16 s 0
  | _ => None
  end.

Lemma char_digit_char (d : Z) : 0 <= d < 16 -> char_digit (digit_char d) = Some d.
Proof.
  intros Hd. assert (d ∈ seqZ 0 16) as H by (apply elem_of_seqZ; lia). revert d H Hd.
  refine (proj1 (Forall_forall _ _) _). repeat constructor.
Qed.

Lemma append_assoc (s t u : string) : (s ++ t) ++ u = s ++ t ++ u.
Proof. induction s as [|c s IH]; [done|]. by apply (f_equal (String c)). Qed.

Lemma length_append (s t : string) : String.length (s ++ t) = (String.length s + String.length t)%nat.
Proof. induction s as [|c s IH]; [done|]. by apply (f_equal S). Qed.

Lemma length_repeat_char (n : nat) (c : ascii) : String.length (repeat_char n c) = n.
Proof. induction n as [|n IH]; [done|]. by apply (f_equal S). Qed.

Lemma radix_loop_app (fuel : nat) (radix n : Z) (buf : string) :
  radix_loop fuel radix n buf = radix_loop fuel radix n "" ++ buf.
Proof.
  revert n buf. induction fuel as [|fuel IH]; intros n buf; [done|]. cbn [radix_loop].
  destruct (n / radix =? 0); [done|].
  rewrite IH, (IH _ (String _ "")). by rewrite append_assoc.
Qed.

Lemma parse_digits_app (radix acc : Z) (s t : string) :
  parse_digits radix (s ++ t) acc = a ← parse_digits radix s acc; parse_digits radix t a.
Proof.
  revert acc. induction s as [|c s IH]; intros acc; [done|].
  change (String c s ++ t) with (String c (s ++ t)). cbn.
  destruct (char_digit c) as [d|]; [|done]. cbn. destruct (d <? radix); [apply IH|done].
Qed.

Lemma parse_zeros (radix : Z) (n : nat) (s : string) :
  0 < radix -> parse_digits radix (repeat_char n "0" ++ s) 0 = parse_digits radix s 0.
Proof.
  intros Hr. induction n as [|n IH]; [done|].
  change (repeat_char (S n) "0" ++ s) with (String "0" (repeat_char n "0" ++ s)).
  cbn [parse_digits]. change (char_digit "0") with (Some 0). cbn.
  by rewrite (proj2 (Z.ltb_lt _ _) Hr).
Qed.

(** The digits of [n] read back as [n], and there are no more than needed. *)
Lemma radix_loop_parse (fuel : nat) (radix n : Z) :
  1 < radix <= 16 -> 0 <= n < radix ^ Z.of_nat fuel ->
  parse_digits radix (radix_loop fuel radix n "") 0 = Some n.
Proof.
  intros Hr. revert n. induction fuel as [|fuel IH]; intros n Hn.
  { replace n with 0 by (simpl in Hn; lia). done. }
  rewrite Nat2Z.inj_succ, Z.pow_succ_r in Hn by lia. cbn [radix_loop].
  pose proof (Z.mod_pos_bound n radix ltac:(lia)) as Hm. pose proof (Z.div_mod n radix ltac:(lia)) as Hd.
  assert (parse_digits radix (String (digit_char (n mod radix)) "") (n / radix) = Some n) as Hlast.
  { cbn. rewrite char_digit_char by lia. cbn. rewrite (proj2 (Z.ltb_lt _ _)) by lia. f_equal. lia. }
  destruct (Z.eqb_spec (n / radix) 0) as [E|E]; [by rewrite E in Hlast|].
  rewrite radix_loop_app, parse_digits_app, IH; [done|].
  split; [apply Z.div_pos; lia|]. apply Z.div_lt_upper_bound; lia.
Qed.

Lemma radix_loop_length (fuel : nat) (radix n : Z) (k : nat) :
  1 < radix -> 0 <= n < radix ^ Z.of_nat k -> (1 <= k)%nat ->
  (String.length (radix_loop fuel radix n "") <= k)%nat.
Proof.
  intros Hr. revert n k. induction fuel as [|fuel IH]; intros n k Hn Hk; [simpl; lia|]. cbn [radix_loop].
  destruct (Z.eqb_spec (n / radix) 0) as [E|E]; [simpl; lia|].
  rewrite radix_loop_app, length_append. cbn [String.length]. destruct k as [|[|k]]; [lia| |].
  - destruct E. apply Z.div_small. lia.
  - rewrite Nat2Z.inj_succ, Z.pow_succ_r in Hn by lia.
    pose proof (IH (n / radix) (S k)) as H. lapply H; [intros; lia|].
    split; [apply Z.div_pos; lia|apply Z.div_lt_upper_bound; lia].
Qed.

(** Padded hexadecimal reads back, and fills its field exactly when the number fits. *)
Lemma hex_pad_parse (w : nat) (n : Z) : u64_range n -> parse_hex (hex_pad w n) = Some n.
Proof.
  intros Hn. unfold hex_pad, pad_integral. cbv zeta iota.
  change ("0x" ++ ?s) with (String "0" (String "x" s)). cbn [parse_hex]. rewrite parse_zeros by lia.
  apply radix_loop_parse; [lia|]. cbn. lia.
Qed.

Lemma hex_pad_length (w : nat) (n : Z) :
  (3 <= w)%nat -> 0 <= n < 16 ^ Z.of_nat (w - 2) -> String.length (hex_pad w n) = w.
Proof.
  intros Hw Hn. unfold hex_pad, pad_integral. rewrite !length_append, length_repeat_char.
  pose proof (radix_loop_length 64 16 n (w - 2) ltac:(lia) Hn ltac:(lia)).
  unfold radix_digits in *. cbn [String.length]. lia.
Qed.

Example fmt_examples :
  [hex_pad 10 0xB8000; hex 0x400000; dec 0; dec_right 9 639; hex_pad 12 0x100000000] =
  ["0x000b8000"; "0x400000"; "0"; "      639"; "0x0100000000"].
Proof. done. Qed.
