(* ===== verification/Bits.v ===== *)
(** * [src/utils/bits.rs]: masks for bitmap words *)

From S2P Require Import Prelude Rust.

Definition WORD_BITS : Z := 32.

Definition u32_MAX : Z := 2 ^ 32 - 1.

Definition clipped_bit_range_mask `{BuildProfile} (start_bit len : Z) : outcome (Z * Z) :=
  debug_assert (start_bit <? WORD_BITS) "start_bit < WORD_BITS";;
  room ← usize_sub WORD_BITS start_bit;
  let take := Z.min len room in
  if take =? 0 then Ok (0, 0)
  else
    end_bit ← usize_add start_bit take;
    hi ← shl 32 u32_MAX start_bit;
    drop ← usize_sub WORD_BITS end_bit;
    lo ← shr 32 u32_MAX drop;
    Ok (Z.land hi lo, take).

(** The mask in closed form: the bits [[start, start + take)]. *)
Definition bit_range (start take : Z) : Z := Z.shiftl (Z.ones take) start.

Lemma bit_range_testbit (start take i : Z) :
  0 <= start -> 0 <= take -> 0 <= i ->
  Z.testbit (bit_range start take) i = (start <=? i) && (i <? start + take).
Proof.
  intros. unfold bit_range. destruct (Z.leb_spec start i).
  - rewrite Z.shiftl_spec by lia. rewrite testbit_ones_spec by lia. zbool.
  - rewrite Z.shiftl_spec_low by lia. done.
Qed.

Lemma bit_range_bound (start take : Z) :
  0 <= start -> 0 <= take -> start + take <= 32 -> u32_range (bit_range start take).
Proof.
  intros. assert (0 <= bit_range start take).
  { apply Z.shiftl_nonneg. rewrite Z.ones_equiv. lia. }
  split; [done|]. apply bits_bound; [lia|done|].
  intros i Hi. rewrite bit_range_testbit by lia. zbool.
Qed.

#[export] Hint Resolve bit_range_bound : zk.

(** The code computes the closed form, in both profiles. *)
Lemma clipped_bit_range_mask_eq `{BuildProfile} (start_bit len : Z) :
  0 <= start_bit < WORD_BITS -> u32_range len ->
  let take := Z.min len (WORD_BITS - start_bit) in
  clipped_bit_range_mask start_bit len = Ok (bit_range start_bit take, take).
Proof.
  intros Hs Hl take. unfold clipped_bit_range_mask, WORD_BITS in *. rust. fold take.
  destruct (Z.eqb_spec take 0) as [E|E].
  { rewrite E. unfold bit_range. by rewrite Z.shiftl_0_l. }
  unfold shl, shr, wrapping_shl. rust.
  do 2 f_equal. change u32_MAX with (Z.ones 32). apply Z.bits_inj'. intros i Hi.
  rewrite Z.land_spec, bit_range_testbit by lia. rewrite Z.shiftr_spec by lia.
  rewrite testbit_ones_spec by lia. destruct (Z.lt_ge_cases i 32).
  - rewrite Z.mod_pow2_bits_low by lia. destruct (Z.leb_spec start_bit i).
    + rewrite Z.shiftl_spec, testbit_ones_spec by lia. zbool.
    + by rewrite Z.shiftl_spec_low by lia.
  - rewrite Z.mod_pow2_bits_high by lia. zbool.
Qed.

(** C37: The mask covers exactly the [len] bits from [start_bit] on that fit the word, and
    its length is returned with it, in either build; a start outside the word panics in
    the [dev] build. *)
Theorem clipped_bit_range_mask_correct (start_bit len : Z) :
  u32_range start_bit -> u32_range len ->
  if start_bit <? WORD_BITS then
    forall P : BuildProfile, exists mask taken,
      clipped_bit_range_mask start_bit len = Ok (mask, taken) /\
      taken = Z.min len (WORD_BITS - start_bit) /\
      u32_range mask /\
      forall i, 0 <= i -> Z.testbit mask i = (start_bit <=? i) && (i <? start_bit + taken)
  else @clipped_bit_range_mask dev start_bit len = Panic (AssertionFailed "start_bit < WORD_BITS").
Proof.
  intros Hs Hl. destruct (Z.ltb_spec start_bit WORD_BITS) as [Hw|Hw].
  - intros P. eexists _, _. split; [apply clipped_bit_range_mask_eq; [lia|done]|].
    unfold WORD_BITS in *. split; [done|]. split; [apply bit_range_bound; lia|].
    intros i Hi. apply bit_range_testbit; lia.
  - unfold clipped_bit_range_mask. by rewrite (proj2 (Z.ltb_ge _ _) Hw).
Qed.

Lemma clipped_bit_range_mask_correct_witness :
  (exists mask taken,
    @clipped_bit_range_mask dev 29 8 = Ok (mask, taken) /\ taken = 3 /\
    u32_range mask /\ forall i, 0 <= i -> Z.testbit mask i = (29 <=? i) && (i <? 29 + taken)) /\
  @clipped_bit_range_mask dev 32 1 = Panic (AssertionFailed "start_bit < WORD_BITS").
Proof.
  split.
  - apply (clipped_bit_range_mask_correct 29 8 ltac:(lia) ltac:(lia) dev).
  - apply (clipped_bit_range_mask_correct 32 1); lia.
Defined.
