(* ===== verification/Memory.v ===== *)
(** * Physical memory

    Byte-addressed memory as a finite map with zero as the default byte, with the
    little-endian accesses the kernel makes through raw pointers: [u32] and [u64]
    loads and stores, byte fills, and the bytes of a slice. *)

From S2P Require Import Prelude Rust.

Abbreviation mem := (gmap Z Z).

Definition load8 (m : mem) (a : Z) : Z := default 0 (m !! a) mod 256.

Definition store8 (m : mem) (a v : Z) : mem := <[a := v mod 256]> m.

(** [n] bytes from address [a]: [core::slice::from_raw_parts]. *)
Definition load_bytes (m : mem) (a : Z) (n : Z) : list Z := load8 m <$> seqZ a n.

Fixpoint store_bytes (m : mem) (a : Z) (bs : list Z) : mem :=
  match bs with
  | [] => m
  | b :: bs => store_bytes (store8 m a b) (a + 1) bs
  end.

(** Little-endian words of [n] bytes. *)
Definition load_le (n : Z) (m : mem) (a : Z) : Z := little_endian_to_Z 8 (load_bytes m a n).

Definition store_le (n : Z) (m : mem) (a v : Z) : mem := store_bytes m a (Z_to_little_endian n 8 v).

Abbreviation load32 := (load_le 4).
Abbreviation store32 := (store_le 4).
Abbreviation store64 := (store_le 8).

(** [ptr.write_bytes(b, n)] *)
Definition fill (m : mem) (a b n : Z) : mem := store_bytes m a (replicate (Z.to_nat n) b).

Lemma load8_bound m a : 0 <= load8 m a < 256.
Proof. apply Z.mod_pos_bound. lia. Qed.

Lemma load8_store8 m a v b :
  load8 (store8 m a v) b = if decide (a = b) then v mod 256 else load8 m b.
Proof.
  unfold load8, store8. rewrite lookup_insert. case_decide; [|done].
  simpl. by rewrite Z.mod_mod by lia.
Qed.

(** The bytes in [[a, a + |bs|)] are [bs] after a store, the others are kept. *)
Lemma load8_store_bytes m a bs b :
  load8 (store_bytes m a bs) b =
    if decide (a <= b < a + Z.of_nat (length bs))
    then (bs !!! Z.to_nat (b - a)) mod 256 else load8 m b.
Proof.
  revert m a. induction bs as [|x bs IH]; intros m a; cbn [store_bytes length].
  { case_decide; [lia|done]. }
  rewrite IH, load8_store8. repeat case_decide; try lia; try done.
  - replace (Z.to_nat (b - a)) with (S (Z.to_nat (b - (a + 1)))) by lia. done.
  - subst. by rewrite Z.sub_diag.
Qed.

Lemma load8_store_bytes_ne m a bs b :
  b < a \/ a + Z.of_nat (length bs) <= b -> load8 (store_bytes m a bs) b = load8 m b.
Proof. intros. rewrite load8_store_bytes. case_decide; [lia|done]. Qed.

Lemma length_load_bytes m a n : length (load_bytes m a n) = Z.to_nat n.
Proof. unfold load_bytes. by rewrite length_fmap, length_seqZ. Qed.

Lemma load_bytes_lookup m a n i :
  (i < Z.to_nat n)%nat -> load_bytes m a n !!! i = load8 m (a + Z.of_nat i).
Proof.
  intros Hi. apply list_lookup_total_correct. unfold load_bytes.
  by rewrite list_lookup_fmap, lookup_seqZ_lt by lia.
Qed.

Lemma load_bytes_ext m m' a n :
  (forall b, a <= b < a + n -> load8 m b = load8 m' b) -> load_bytes m a n = load_bytes m' a n.
Proof.
  intros H. unfold load_bytes. apply list_fmap_ext. intros i x Hx.
  apply list_elem_of_lookup_2, elem_of_seqZ in Hx. by apply H.
Qed.

Lemma load_bytes_bytes m a n : Forall (fun b => 0 <= b < 2 ^ 8) (load_bytes m a n).
Proof. apply Forall_fmap, Forall_true. intros. apply load8_bound. Qed.

Lemma load_bytes_store_bytes m a bs n :
  n = Z.of_nat (length bs) -> Forall (fun b => 0 <= b < 2 ^ 8) bs ->
  load_bytes (store_bytes m a bs) a n = bs.
Proof.
  intros -> Hbs. apply list_eq_same_length with (length bs).
  - done.
  - rewrite length_load_bytes. lia.
  - intros i x y Hi Hx Hy. unfold load_bytes in Hx.
    rewrite list_lookup_fmap, lookup_seqZ_lt in Hx by lia. simplify_eq/=.
    rewrite load8_store_bytes. case_decide; [|lia].
    replace (Z.to_nat (a + Z.of_nat i - a)) with i by lia.
    rewrite (list_lookup_total_correct _ _ _ Hy). apply Z.mod_small.
    by apply (Forall_lookup_1 _ _ _ _ Hbs Hy).
Qed.

Lemma load_le_bound n m a : 0 <= n -> 0 <= load_le n m a < 2 ^ (8 * n).
Proof.
  intros Hn. unfold load_le.
  pose proof (little_endian_to_Z_bound 8 (load_bytes m a n) ltac:(lia) (load_bytes_bytes m a n)) as H.
  rewrite length_load_bytes in H. replace (8 * n) with (Z.of_nat (Z.to_nat n) * 8) by lia. done.
Qed.

Lemma load_le_store_le n m a v : 0 <= n -> load_le n (store_le n m a v) a = v mod 2 ^ (8 * n).
Proof.
  intros Hn. unfold load_le, store_le. rewrite load_bytes_store_bytes.
  - rewrite little_endian_to_Z_to_little_endian by lia. by rewrite Z.mul_comm.
  - rewrite length_Z_to_little_endian by lia. lia.
  - apply Z_to_little_endian_bound; lia.
Qed.

Lemma load_le_ext n m m' a :
  (forall b, a <= b < a + n -> load8 m b = load8 m' b) -> load_le n m a = load_le n m' a.
Proof. intros H. unfold load_le. f_equal. by apply load_bytes_ext. Qed.

Lemma load8_store_le_ne n m a v b :
  0 <= n -> b < a \/ a + n <= b -> load8 (store_le n m a v) b = load8 m b.
Proof.
  intros Hn H. apply load8_store_bytes_ne. rewrite length_Z_to_little_endian by lia. lia.
Qed.

Lemma load_le_store_le_ne n k m a b v :
  0 <= n -> b + k <= a \/ a + n <= b -> load_le k (store_le n m a v) b = load_le k m b.
Proof. intros Hn H. apply load_le_ext. intros c Hc. apply load8_store_le_ne; lia. Qed.

Lemma load8_fill m a b n c :
  load8 (fill m a b n) c = if decide (a <= c < a + n) then b mod 256 else load8 m c.
Proof.
  unfold fill. rewrite load8_store_bytes, length_replicate. repeat case_decide; try lia; try done.
  by rewrite lookup_total_replicate_2 by lia.
Qed.

Lemma load_le_fill_zero k m a n c : a <= c -> c + k <= a + n -> load_le k (fill m a 0 n) c = 0.
Proof.
  intros H1 H2. unfold load_le, load_bytes.
  assert (load8 (fill m a 0 n) <$> seqZ c k = (fun _ => 0) <$> seqZ c k) as ->.
  { apply list_fmap_ext. intros i x Hx. apply list_elem_of_lookup_2, elem_of_seqZ in Hx.
    rewrite load8_fill. case_decide; [done|lia]. }
  induction (seqZ c k) as [|x l IH]; csimpl; by rewrite ?IH.
Qed.

Lemma load_le_fill_ne k m a b n c :
  c + k <= a \/ a + n <= c -> load_le k (fill m a b n) c = load_le k m c.
Proof. intros H. apply load_le_ext. intros d Hd. rewrite load8_fill. case_decide; [lia|done]. Qed.

(** The definitions, for a client that accesses the bytes one by one. *)
Lemma store_bytes_cons m a b bs : store_bytes m a (b :: bs) = store_bytes (store8 m a b) (a + 1) bs.
Proof. done. Qed.

Lemma store_bytes_nil m a : store_bytes m a [] = m.
Proof. done. Qed.

Lemma load_le_bytes n m a : load_le n m a = little_endian_to_Z 8 (load8 m <$> seqZ a n).
Proof. done. Qed.

Lemma store_le_bytes n m a v : store_le n m a v = store_bytes m a (Z_to_little_endian n 8 v).
Proof. done. Qed.

#[global] Opaque load8 store8 load_bytes store_bytes load_le store_le fill.
