(* ===== verification/Address.v ===== *)
(** * [src/memory/address.rs]: typed addresses and frame/page coordinates

    Each newtype of the source is a record of one field; [const fn]s become
    functions, with an [outcome] where the arithmetic can overflow. *)

From S2P Require Import Prelude Rust Fmt.

Record PhysAddr := mkPhysAddr { phys_raw : Z }.
Record VirtAddr := mkVirtAddr { virt_raw : Z }.
Record FrameNumber := mkFrameNumber { frame_index : Z }.
Record PageNumber := mkPageNumber { page_index : Z }.

#[global] Instance PhysAddr_eq_dec : EqDecision PhysAddr.
Proof. solve_decision. Defined.
#[global] Instance VirtAddr_eq_dec : EqDecision VirtAddr.
Proof. solve_decision. Defined.
#[global] Instance FrameNumber_eq_dec : EqDecision FrameNumber.
Proof. solve_decision. Defined.
#[global] Instance PageNumber_eq_dec : EqDecision PageNumber.
Proof. solve_decision. Defined.

Module PhysAddr.

Definition new (addr : Z) : PhysAddr := mkPhysAddr addr.

Definition raw (self : PhysAddr) : Z := phys_raw self.

Definition frame_floor (self : PhysAddr) : FrameNumber := mkFrameNumber (phys_raw self / 4096).

Definition frame_ceil (self : PhysAddr) : FrameNumber :=
  mkFrameNumber (div_ceil (phys_raw self) 4096).

Definition is_frame_aligned (self : PhysAddr) : bool := is_multiple_of (phys_raw self) 4096.

Definition fmt (self : PhysAddr) : string := debug_tuple "PhysAddr" (hex_pad 10 (phys_raw self)).

End PhysAddr.

Module VirtAddr.

Definition new (addr : Z) : VirtAddr := mkVirtAddr addr.

Definition raw (self : VirtAddr) : Z := virt_raw self.

Definition as_ptr (self : VirtAddr) : Z := virt_raw self.

Definition as_mut_ptr (self : VirtAddr) : Z := virt_raw self.

Definition page_floor (self : VirtAddr) : PageNumber := mkPageNumber (virt_raw self / 4096).

Definition page_ceil (self : VirtAddr) : PageNumber :=
  mkPageNumber (div_ceil (virt_raw self) 4096).

Definition pd_index (self : VirtAddr) : Z := Z.shiftr (virt_raw self) 22.

Definition pt_index (self : VirtAddr) : Z := Z.land (Z.shiftr (virt_raw self) 12) 0x3FF.

Definition offset (self : VirtAddr) : Z := Z.land (virt_raw self) 0xFFF.

Definition from_indices (pd_index pt_index offset : Z) : VirtAddr :=
  mkVirtAddr (as_u32 (Z.lor (Z.lor (wrapping_shl 32 pd_index 22) (wrapping_shl 32 pt_index 12)) offset)).

Definition is_page_aligned (self : VirtAddr) : bool := is_multiple_of (virt_raw self) 4096.

Definition fmt (self : VirtAddr) : string := debug_tuple "VirtAddr" (hex_pad 10 (virt_raw self)).

End VirtAddr.

Module FrameNumber.

Definition new (index : Z) : FrameNumber := mkFrameNumber index.

Definition index (self : FrameNumber) : Z := frame_index self.

Definition base_addr `{BuildProfile} (self : FrameNumber) : outcome PhysAddr :=
  a ← usize_mul (frame_index self) 4096; Ok (mkPhysAddr (as_u32 a)).

(** [#[derive(Debug)]] *)
Definition fmt (self : FrameNumber) : string := debug_tuple "FrameNumber" (dec (frame_index self)).

End FrameNumber.

Module PageNumber.

Definition new (index : Z) : PageNumber := mkPageNumber index.

Definition index (self : PageNumber) : Z := page_index self.

Definition base_addr `{BuildProfile} (self : PageNumber) : outcome VirtAddr :=
  a ← usize_mul (page_index self) 4096; Ok (mkVirtAddr (as_u32 a)).

(** [#[derive(Debug)]] *)
Definition fmt (self : PageNumber) : string := debug_tuple "PageNumber" (dec (page_index self)).

End PageNumber.

(** ** Arithmetic forms of the bit-level accessors *)

Lemma pd_index_div (v : Z) : VirtAddr.pd_index (mkVirtAddr v) = v / 2 ^ 22.
Proof. unfold VirtAddr.pd_index. simpl. by rewrite Z.shiftr_div_pow2. Qed.

Lemma pt_index_mod (v : Z) : VirtAddr.pt_index (mkVirtAddr v) = (v / 2 ^ 12) mod 2 ^ 10.
Proof.
  unfold VirtAddr.pt_index. cbn [virt_raw]. change 0x3FF with (Z.ones 10).
  by rewrite Z.land_ones, Z.shiftr_div_pow2.
Qed.

Lemma offset_mod (v : Z) : VirtAddr.offset (mkVirtAddr v) = v mod 2 ^ 12.
Proof. unfold VirtAddr.offset. cbn [virt_raw]. change 0xFFF with (Z.ones 12). by rewrite Z.land_ones. Qed.

Lemma from_indices_sum (i j o : Z) :
  0 <= i < 1024 -> 0 <= j < 1024 -> 0 <= o < 4096 ->
  VirtAddr.from_indices i j o = mkVirtAddr (i * 2 ^ 22 + j * 2 ^ 12 + o).
Proof.
  intros Hi Hj Ho. unfold VirtAddr.from_indices, wrapping_shl, as_u32. f_equal.
  rewrite !Z.shiftl_mul_pow2 by lia.
  rewrite (Z.mod_small (i * 2 ^ 22)), (Z.mod_small (j * 2 ^ 12)) by lia.
  replace (i * 2 ^ 22) with ((i * 2 ^ 10) * 2 ^ 12) by lia.
  replace (Z.lor _ (j * 2 ^ 12)) with ((i * 2 ^ 10 + j) * 2 ^ 12).
  - rewrite lor_shifted by lia. rewrite Z.mod_small by lia. lia.
  - replace (i * 2 ^ 10 * 2 ^ 12) with (i * 2 ^ 22) by lia.
    rewrite lor_shifted by lia. lia.
Qed.

Lemma base_addr_ok `{BuildProfile} (f : Z) :
  0 <= f < 2 ^ 20 -> FrameNumber.base_addr (mkFrameNumber f) = Ok (mkPhysAddr (f * 4096)).
Proof.
  intros Hf. unfold FrameNumber.base_addr. cbn [frame_index]. rust.
  unfold as_u32. by rewrite Z.mod_small by lia.
Qed.

(** The 10/10/12 split of a virtual address is a bijection: every address is
    rebuilt from its directory index, table index and offset, the three lie in
    their ranges, and every triple in range is the split of the address built
    from it. *)
Lemma virt_addr_split_roundtrip (v i j o : Z) :
  u32_range v -> 0 <= i < 1024 -> 0 <= j < 1024 -> 0 <= o < 4096 ->
  let a := mkVirtAddr v in
  (VirtAddr.from_indices (VirtAddr.pd_index a) (VirtAddr.pt_index a) (VirtAddr.offset a) = a /\
   0 <= VirtAddr.pd_index a < 1024 /\ 0 <= VirtAddr.pt_index a < 1024 /\
   0 <= VirtAddr.offset a < 4096) /\
  let b := VirtAddr.from_indices i j o in
  VirtAddr.pd_index b = i /\ VirtAddr.pt_index b = j /\ VirtAddr.offset b = o /\
  u32_range (VirtAddr.raw b).
Proof.
  intros Hv Hi Hj Ho. cbv zeta. rewrite (from_indices_sum i j o) by done.
  rewrite !pd_index_div, !pt_index_mod, !offset_mod. cbn [VirtAddr.raw virt_raw].
  split_and!; try zdiv. rewrite from_indices_sum by zdiv. f_equal. zdiv.
Qed.

(** Rounding a physical address to frames: [frame_floor] is the frame that
    contains it, [frame_ceil] the first frame that starts at or after it; both
    stay inside the [2 ^ 20] frames (the ceiling as an exclusive end), and they
    agree exactly on frame-aligned addresses. *)
Lemma frame_rounding (a : Z) :
  u32_range a ->
  let p := PhysAddr.new a in
  let lo := FrameNumber.index (PhysAddr.frame_floor p) in
  let hi := FrameNumber.index (PhysAddr.frame_ceil p) in
  lo * 4096 <= a < (lo + 1) * 4096 /\ (hi - 1) * 4096 < a <= hi * 4096 /\
  0 <= lo < 2 ^ 20 /\ 0 <= hi <= 2 ^ 20 /\
  (PhysAddr.is_frame_aligned p = true <-> lo = hi).
Proof.
  intros Ha p lo hi. unfold lo, hi, p, PhysAddr.frame_floor, PhysAddr.frame_ceil,
    PhysAddr.is_frame_aligned, is_multiple_of, FrameNumber.index, PhysAddr.new.
  cbn [phys_raw frame_index]. rewrite Z.eqb_eq, div_ceil_spec by lia.
  split_and!; zdiv.
Qed.

(** The base address of a frame: exact for the [2 ^ 20] frames, where
    [frame_floor] inverts it; past them the multiplication overflows, a panic in
    the [dev] profile and a wrapped address in [release]. *)
Lemma base_addr_correct (f : Z) :
  0 <= f ->
  if f <? 2 ^ 20 then
    forall P : BuildProfile, exists p,
      FrameNumber.base_addr (FrameNumber.new f) = Ok p /\ PhysAddr.raw p = f * 4096 /\
      PhysAddr.is_frame_aligned p = true /\ PhysAddr.frame_floor p = FrameNumber.new f
  else
    @FrameNumber.base_addr dev (FrameNumber.new f) = Panic ArithmeticOverflow /\
    @FrameNumber.base_addr release (FrameNumber.new f) =
      Ok (PhysAddr.new (f * 4096 mod 2 ^ 32)).
Proof.
  intros Hf. destruct (Z.ltb_spec f (2 ^ 20)) as [H|H].
  - intros P. exists (mkPhysAddr (f * 4096)). split_and!.
    + apply base_addr_ok. lia.
    + done.
    + unfold PhysAddr.is_frame_aligned, is_multiple_of. cbn [phys_raw].
      apply Z.eqb_eq, Z.mod_mul. lia.
    + unfold PhysAddr.frame_floor. cbn [phys_raw]. by rewrite Z.div_mul by lia.
  - unfold FrameNumber.base_addr, usize_mul. cbn [FrameNumber.new frame_index]. split.
    + by rewrite arith_overflow_dev by lia.
    + rewrite arith_wrap_release by lia. rewrite ok_bind. unfold as_u32, PhysAddr.new.
      by rewrite Z.mod_mod by lia.
Qed.

(** Debug output shows an address exactly: between the type's name and the closing
    parenthesis stands a field of ten characters that reads back as the address. *)
Lemma addr_debug_roundtrip (a : Z) :
  u32_range a ->
  exists field, PhysAddr.fmt (PhysAddr.new a) = String.append "PhysAddr(" (String.append field ")") /\
    VirtAddr.fmt (VirtAddr.new a) = String.append "VirtAddr(" (String.append field ")") /\
    String.length field = 10%nat /\ parse_hex field = Some a.
Proof.
  intros Ha. exists (hex_pad 10 a). split_and!; [done|done| |].
  - apply hex_pad_length; [lia|]. cbn. lia.
  - apply hex_pad_parse. lia.
Qed.
