(* ===== verification/Layout.v ===== *)
(** * [src/memory/layout.rs], the stack symbols of [src/stack.rs], and the linker
    script that defines them

    The Rust code reads the image layout off linker symbols.  They are the fields
    of the class [KernelImage]; [ImageOk] is what the memory code relies on; and
    [link] computes the symbols the way [boot/linker.ld] and [boot/boot.asm] do,
    from the sizes of the sections, which proves [ImageOk] for every image that
    fits the bootstrap map. *)

From S2P Require Import Prelude Rust.

Definition KERNEL_VIRTUAL_BASE : Z := 0xC0000000.

Class KernelImage := {
  kernel_phys_start : Z;
  kernel_phys_end : Z;
  kernel_virt_start : Z;
  kernel_data_start : Z;
  kernel_virt_end : Z;
  stack_guard : Z;
  stack_bottom : Z;
  stack_top : Z
}.

Definition kernel_phys_start_addr `{KernelImage} : Z := kernel_phys_start.

Definition kernel_phys_end_addr `{KernelImage} : Z := kernel_phys_end.

Definition kernel_virt_start_addr `{KernelImage} : Z := kernel_virt_start.

Definition kernel_data_start_addr `{KernelImage} : Z := kernel_data_start.

Definition kernel_virt_end_addr `{KernelImage} : Z := kernel_virt_end.

Definition stack_guard_addr `{KernelImage} : Z := stack_guard.

Definition stack_bottom_addr `{KernelImage} : Z := stack_bottom.

Definition stack_top_addr `{KernelImage} : Z := stack_top.

(** What the frame allocator and the paging code assume of the symbols. *)
Class ImageOk (I : KernelImage) : Prop := {
  image_phys_start : kernel_phys_start = 0x200000;
  image_phys_end : kernel_phys_end = kernel_virt_end - KERNEL_VIRTUAL_BASE;
  image_virt_start : KERNEL_VIRTUAL_BASE + kernel_phys_start <= kernel_virt_start;
  image_data_start : kernel_virt_start <= kernel_data_start;
  image_guard : kernel_data_start <= stack_guard;
  image_stack_bottom : stack_bottom = stack_guard + 4096;
  image_stack_top : stack_top = stack_bottom + 65536;
  image_virt_end : stack_top <= kernel_virt_end;
  (** the image fits the 4 MiB the bootstrap directory maps *)
  image_fits : kernel_phys_end <= 0x400000;
  image_virt_start_aligned : kernel_virt_start mod 4096 = 0;
  image_data_start_aligned : kernel_data_start mod 4096 = 0;
  image_guard_aligned : stack_guard mod 4096 = 0;
  image_virt_end_aligned : kernel_virt_end mod 4096 = 0
}.

(** ** The linker script *)

(** Sizes of the output sections.  [stack_offset] is where the stack block of
    [boot.asm]'s page-aligned [.bss] lands inside the kernel's [.bss]. *)
Record sections := {
  boot_size : Z;
  text_size : Z;
  rodata_size : Z;
  data_size : Z;
  stack_offset : Z;
  bss_rest : Z
}.

Definition align_4K (a : Z) : Z := (a + 4095) / 4096 * 4096.

Definition KERNEL_VMA : Z := 0xC0000000.

Definition KERNEL_LMA : Z := 0x200000.

(** The location counter through [SECTIONS]. *)
Definition link (s : sections) : KernelImage :=
  let virt_start := align_4K (align_4K KERNEL_LMA + boot_size s + KERNEL_VMA) in
  let rodata := align_4K (align_4K virt_start + text_size s) in
  let data_start := align_4K (rodata + rodata_size s) in
  let bss := align_4K (align_4K data_start + data_size s) in
  let guard := bss + align_4K (stack_offset s) in
  let top := guard + 4096 + 65536 in
  let virt_end := align_4K (top + bss_rest s) in
  {| kernel_phys_start := KERNEL_LMA;
     kernel_phys_end := virt_end - KERNEL_VMA;
     kernel_virt_start := virt_start;
     kernel_data_start := data_start;
     kernel_virt_end := virt_end;
     stack_guard := guard;
     stack_bottom := guard + 4096;
     stack_top := top |}.

(** Sizes are sizes, and the image ends below 4 MiB; 24 KiB bound the padding of
    the six alignments. *)
Definition sections_fit (s : sections) : bool :=
  (0 <=? boot_size s) && (0 <=? text_size s) && (0 <=? rodata_size s) &&
  (0 <=? data_size s) && (0 <=? stack_offset s) && (0 <=? bss_rest s) &&
  (KERNEL_LMA + boot_size s + text_size s + rodata_size s + data_size s + stack_offset s +
   bss_rest s + 4096 + 65536 + 6 * 4096 <=? 0x400000).

Lemma align_4K_spec (a : Z) : a <= align_4K a < a + 4096 /\ align_4K a mod 4096 = 0.
Proof. unfold align_4K. split; [zdiv|]. apply Z.mod_mul. lia. Qed.

(** C36: Every image the linker script lays out from sections that fit 4 MiB has the
    layout the memory code assumes: the high half mirrors the load address, the
    writable tail, the guard page and the stack are in order and page-aligned. *)
Theorem link_image_ok (s : sections) : sections_fit s = true -> ImageOk (link s).
Proof.
  intros Hfit. unfold sections_fit in Hfit. bprop.
  change (align_4K KERNEL_LMA) with KERNEL_LMA in *.
  unfold link. cbv zeta.
  repeat match goal with |- context [align_4K ?x] =>
    lazymatch x with context [align_4K _] => fail | _ => idtac end;
    let y := fresh "y" in
    pose proof (align_4K_spec x); set (y := align_4K x) in *; clearbody y
  end.
  split; unfold KERNEL_VMA, KERNEL_LMA, KERNEL_VIRTUAL_BASE in *; simpl; try lia; try zdiv.
Qed.

(** A typical image: 8 KiB of boot code, 200 KB of text, and the 128 KiB frame
    bitmap in [.bss] behind the stack. *)
Definition sample_sections : sections :=
  {| boot_size := 8192; text_size := 200000; rodata_size := 40000; data_size := 4000;
     stack_offset := 0; bss_rest := 140000 |}.

Lemma link_image_ok_witness : sections_fit sample_sections = true /\ ImageOk (link sample_sections).
Proof. split; [reflexivity|]. apply (link_image_ok sample_sections). reflexivity. Defined.

#[global] Instance sample_image_ok : ImageOk (link sample_sections).
Proof. split; vm_compute; congruence. Qed.
