(* ===== verification/Multiboot.v ===== *)
(** * [src/multiboot.rs]: the Multiboot hand-off and the memory-map walk

    The information structure, the map as a reference into memory ([MapRef]) and as the
    bytes behind it ([MemoryMap]), the walk over the bytes, and the wire format a loader
    writes, for the statements about the walk. *)

From S2P Require Import Prelude Rust Fmt Memory.

Definition BOOTLOADER_MAGIC : Z := 0x2BADB002.

(** The structure GRUB leaves in memory ([repr(C)]: [flags] at 0, ten opaque words,
    [mmap_length] at 44, [mmap_addr] at 48). *)
Record MultibootInfo := mkMultibootInfo {
  info_flags : Z;
  info_reserved : list Z;
  info_mmap_length : Z;
  info_mmap_addr : Z
}.

(** [core::mem::offset_of!] for a [repr(C)] structure of the given field sizes, none of
    which needs padding. *)
Definition offset_of (sizes : list Z) (field : nat) : Z := foldr Z.add 0 (take field sizes).

Definition info_sizes : list Z := [4; 4 * 10; 4; 4].

Definition align_of_MultibootInfo : Z := 4.

(** The two compile-time assertions on the layout. *)
Definition info_offset_asserts : outcome unit :=
  assert (offset_of info_sizes 3 =? 48) "offset_of!(MultibootInfo, mmap_addr) == 48";;
  assert (offset_of info_sizes 2 =? 44) "offset_of!(MultibootInfo, mmap_length) == 44".

(** [&*info]: the structure at an address. *)
Definition read_info (m : mem) (info : Z) : MultibootInfo := {|
  info_flags := load32 m (info + offset_of info_sizes 0);
  info_reserved := (fun i => load32 m (info + offset_of info_sizes 1 + 4 * i)) <$> seqZ 0 10;
  info_mmap_length := load32 m (info + offset_of info_sizes 2);
  info_mmap_addr := load32 m (info + offset_of info_sizes 3)
|}.

(** The image compiles, and the fields are read where the specification has them. *)
Lemma read_info_offsets (m : mem) (info : Z) :
  info_offset_asserts = Ok tt /\
  read_info m info = mkMultibootInfo (load32 m info) ((fun i => load32 m (info + 4 + 4 * i)) <$> seqZ 0 10)
    (load32 m (info + 44)) (load32 m (info + 48)).
Proof.
  split; [reflexivity|]. unfold read_info. change (offset_of info_sizes 0) with 0. by rewrite Z.add_0_r.
Qed.

(** One packed entry of the map, 24 bytes. *)
Record MmapEntry := mkMmapEntry {
  entry_size : Z;
  entry_base_addr : Z;
  entry_length : Z;
  entry_kind : Z
}.

Definition size_of_MmapEntry : Z := 24.

(** [read_unaligned] of the packed entry. *)
Definition read_entry (bytes : list Z) : MmapEntry := {|
  entry_size := little_endian_to_Z 8 (take 4 bytes);
  entry_base_addr := little_endian_to_Z 8 (take 8 (drop 4 bytes));
  entry_length := little_endian_to_Z 8 (take 8 (drop 12 bytes));
  entry_kind := little_endian_to_Z 8 (take 4 (drop 20 bytes))
|}.

Inductive RegionKind :=
  | Available
  | AcpiReclaimable
  | AcpiNvs
  | Defective
  | Reserved (raw : Z).

#[global] Instance RegionKind_eq_dec : EqDecision RegionKind.
Proof. solve_decision. Defined.

Module RegionKind.

Definition from_raw (raw : Z) : RegionKind :=
  match raw with
  | 1 => Available
  | 3 => AcpiReclaimable
  | 4 => AcpiNvs
  | 5 => Defective
  | other => Reserved other
  end.

Definition is_available (self : RegionKind) : bool :=
  match self with Available => true | _ => false end.

(** [#[derive(Debug)]] *)
Definition fmt (self : RegionKind) : string :=
  match self with
  | Available => "Available"
  | AcpiReclaimable => "AcpiReclaimable"
  | AcpiNvs => "AcpiNvs"
  | Defective => "Defective"
  | Reserved raw => debug_tuple "Reserved" (dec raw)
  end.

End RegionKind.

Record MemoryRegion := mkMemoryRegion {
  region_base : Z;
  region_length : Z;
  region_kind : RegionKind
}.

Module MemoryRegion.

Definition base (self : MemoryRegion) : Z := region_base self.

Definition length (self : MemoryRegion) : Z := region_length self.

Definition kind (self : MemoryRegion) : RegionKind := region_kind self.

Definition is_available (self : MemoryRegion) : bool := RegionKind.is_available (region_kind self).

Definition LIMIT : Z := 2 ^ 32.

Definition addressable_bytes `{BuildProfile} (self : MemoryRegion) : outcome Z :=
  if LIMIT <=? region_base self then Ok 0
  else u64_sub (Z.min (saturating_add 64 (region_base self) (region_length self)) LIMIT)
         (region_base self).

End MemoryRegion.

(** The iterator over the bytes of its buffer: the bytes and the offset of the next
    entry. *)
Record MemoryMap := mkMemoryMap {
  map_buf : list Z;
  map_offset : Z
}.

(** [buf.get(i..)] and [buf.get(..n)]. *)
Definition get_from (buf : list Z) (i : Z) : option (list Z) :=
  if i <=? Z.of_nat (length buf) then Some (drop (Z.to_nat i) buf) else None.

Definition get_to (buf : list Z) (n : Z) : option (list Z) :=
  if n <=? Z.of_nat (length buf) then Some (take (Z.to_nat n) buf) else None.

Module MemoryMap.

Definition next `{BuildProfile} (self : MemoryMap) : outcome (option (MemoryRegion * MemoryMap)) :=
  match tail ← get_from (map_buf self) (map_offset self); get_to tail size_of_MmapEntry with
  | None => Ok None
  | Some bytes =>
      let entry := read_entry bytes in
      stride ← usize_add (entry_size entry) 4;
      Ok (Some
        ({| region_base := entry_base_addr entry;
            region_length := entry_length entry;
            region_kind := RegionKind.from_raw (entry_kind entry) |},
         {| map_buf := map_buf self; map_offset := saturating_add 32 (map_offset self) stride |}))
  end.

(** One call of [next] per entry and one for the end: strides are at least 4
    bytes, so this fuel is enough whenever the strides do not wrap. *)
Definition fuel (self : MemoryMap) : nat := Z.to_nat (Z.of_nat (length (map_buf self)) / 4 + 2).

(** The regions the walk yields. *)
Definition regions `{BuildProfile} (self : MemoryMap) : outcome (list MemoryRegion) :=
  collect next (fuel self) self.

End MemoryMap.

(** The iterator as the code holds it: its buffer is a reference, and the bytes are read
    from memory when [next] looks at them. *)
Record MapRef := mkMapRef {
  ref_addr : Z;
  ref_len : Z;
  ref_offset : Z
}.

Module MapRef.

(** The bytes it refers to, as they are now. *)
Definition view (m : mem) (self : MapRef) : MemoryMap :=
  {| map_buf := load_bytes m (ref_addr self) (ref_len self); map_offset := ref_offset self |}.

Definition next `{BuildProfile} (m : mem) (self : MapRef) : outcome (option (MemoryRegion * MapRef)) :=
  item ← MemoryMap.next (view m self);
  Ok ('(region, map) ← item; Some (region, {| ref_addr := ref_addr self; ref_len := ref_len self; ref_offset := map_offset map |})).

(** One call of [next] per entry and one for the end, as for the bytes. *)
Definition fuel (self : MapRef) : nat := Z.to_nat (ref_len self / 4 + 2).

End MapRef.

Module MultibootInfo.

Definition FLAG_MMAP : Z := Z.shiftl 1 6.

Definition memory_map `{BuildProfile} (self : MultibootInfo) : outcome (option MapRef) :=
  if Z.land (info_flags self) FLAG_MMAP =? 0 then Ok None
  else
    from_raw_parts_check (info_mmap_addr self) (info_mmap_length self);;
    Ok (Some {| ref_addr := info_mmap_addr self; ref_len := info_mmap_length self; ref_offset := 0 |}).

(** The reference it returns for pointers that pass the checks. *)
Definition map_ref (self : MultibootInfo) : option MapRef :=
  if Z.land (info_flags self) FLAG_MMAP =? 0 then None
  else Some {| ref_addr := info_mmap_addr self; ref_len := info_mmap_length self; ref_offset := 0 |}.

End MultibootInfo.

(** ** The on-the-wire format, for the statements about the walk *)

Definition encode_entry (e : MmapEntry) : list Z :=
  Z_to_little_endian 4 8 (entry_size e) ++ Z_to_little_endian 8 8 (entry_base_addr e) ++
  Z_to_little_endian 8 8 (entry_length e) ++ Z_to_little_endian 4 8 (entry_kind e).

(** Entries as a loader writes them: [size] counts the 20 bytes after it and the
    [padding] bytes an extended entry carries. *)
Definition entry_wf (ep : MmapEntry * list Z) : Prop :=
  let '(e, padding) := ep in
  entry_size e = 20 + Z.of_nat (length padding) /\
  u64_range (entry_base_addr e) /\ u64_range (entry_length e) /\ u32_range (entry_kind e).

Fixpoint encode_map (es : list (MmapEntry * list Z)) : list Z :=
  match es with
  | [] => []
  | (e, padding) :: es => encode_entry e ++ padding ++ encode_map es
  end.

Definition region_of (e : MmapEntry) : MemoryRegion :=
  {| region_base := entry_base_addr e; region_length := entry_length e;
     region_kind := RegionKind.from_raw (entry_kind e) |}.

(** ** Decoding one entry *)

Lemma length_le (n v : Z) : 0 <= n -> length (Z_to_little_endian n 8 v) = Z.to_nat n.
Proof. intros. pose proof (length_Z_to_little_endian n 8 v). lia. Qed.

Lemma length_encode_entry (e : MmapEntry) : length (encode_entry e) = 24%nat.
Proof. unfold encode_entry. rewrite !length_app, !length_le by lia. done. Qed.

Lemma decode_le (n v : Z) :
  0 <= n -> 0 <= v < 2 ^ (n * 8) -> little_endian_to_Z 8 (Z_to_little_endian n 8 v) = v.
Proof. intros. rewrite little_endian_to_Z_to_little_endian by lia. by apply Z.mod_small. Qed.

Lemma read_encode_entry (e : MmapEntry) :
  u32_range (entry_size e) -> u64_range (entry_base_addr e) -> u64_range (entry_length e) ->
  u32_range (entry_kind e) -> read_entry (encode_entry e) = e.
Proof.
  intros Hs Hb Hl Hk. unfold read_entry, encode_entry.
  pose proof (length_le 4 (entry_size e)) as La. pose proof (length_le 8 (entry_base_addr e)) as Lb.
  pose proof (length_le 8 (entry_length e)) as Lc. pose proof (length_le 4 (entry_kind e)) as Ld.
  pose proof (decode_le 4 (entry_size e)) as Da. pose proof (decode_le 8 (entry_base_addr e)) as Db.
  pose proof (decode_le 8 (entry_length e)) as Dc. pose proof (decode_le 4 (entry_kind e)) as Dd.
  generalize dependent (Z_to_little_endian 4 8 (entry_size e)). intros a La Da.
  generalize dependent (Z_to_little_endian 8 8 (entry_base_addr e)). intros b Lb Db.
  generalize dependent (Z_to_little_endian 8 8 (entry_length e)). intros c Lc Dc.
  generalize dependent (Z_to_little_endian 4 8 (entry_kind e)). intros d Ld Dd.
  rewrite (take_app_length' a), (drop_app_length' a), (take_app_length' b) by lia.
  rewrite (app_assoc a b), (drop_app_length' (a ++ b)), (take_app_length' c)
    by (rewrite ?length_app; lia).
  rewrite (app_assoc (a ++ b) c), (drop_app_length' ((a ++ b) ++ c)), take_ge
    by (rewrite ?length_app; lia).
  rewrite Da, Db, Dc, Dd by lia. by destruct e.
Qed.

(** ** The walk *)

(** [next] on a buffer whose cursor stands at the bytes of an entry, whatever its [size]. *)
Lemma next_entry `{BuildProfile} (pre post : list Z) (e : MmapEntry) :
  u32_range (entry_size e) -> u64_range (entry_base_addr e) -> u64_range (entry_length e) -> u32_range (entry_kind e) ->
  let b := pre ++ encode_entry e ++ post in
  MemoryMap.next {| map_buf := b; map_offset := Z.of_nat (length pre) |} =
    (stride ← usize_add (entry_size e) 4;
     Ok (Some (region_of e, {| map_buf := b; map_offset := saturating_add 32 (Z.of_nat (length pre)) stride |}))).
Proof.
  intros Hs Hb Hl Hk b. unfold MemoryMap.next, get_from, get_to. cbn [map_buf map_offset]. subst b.
  rewrite !length_app, length_encode_entry, (proj2 (Z.leb_le _ _)) by lia. cbn [mbind option_bind].
  rewrite Nat2Z.id, drop_app_length, !length_app, length_encode_entry.
  rewrite (proj2 (Z.leb_le _ _)) by (unfold size_of_MmapEntry; lia).
  rewrite (take_app_length' (encode_entry e)) by (rewrite length_encode_entry; done).
  by rewrite read_encode_entry by lia.
Qed.

(** The same for an entry as a loader writes it: the cursor moves to the next one. *)
Lemma next_at_entry `{BuildProfile} (pre post : list Z) (e : MmapEntry) (padding : list Z) :
  entry_wf (e, padding) ->
  let b := pre ++ encode_entry e ++ padding ++ post in
  Z.of_nat (length b) < 2 ^ 32 ->
  MemoryMap.next {| map_buf := b; map_offset := Z.of_nat (length pre) |} =
    Ok (Some (region_of e,
      {| map_buf := b; map_offset := Z.of_nat (length (pre ++ encode_entry e ++ padding)) |})).
Proof.
  intros (Hs & Hb & Hl & Hk) b Hlen. subst b. rewrite !length_app, length_encode_entry in *.
  rewrite next_entry by lia. rust. unfold saturating_add. do 4 f_equal. lia.
Qed.

(** A walk over entries as a loader writes them comes to what follows them. *)
Lemma taken_encoded `{BuildProfile} (es : list (MmapEntry * list Z)) (pre rest : list Z) (n : nat) :
  Forall entry_wf es -> let b := pre ++ encode_map es ++ rest in Z.of_nat (length b) < 2 ^ 32 ->
  taken MemoryMap.next (length es + n) {| map_buf := b; map_offset := Z.of_nat (length pre) |} =
    (l ← taken MemoryMap.next n {| map_buf := b; map_offset := Z.of_nat (length (pre ++ encode_map es)) |};
     Ok ((region_of <$> es.*1) ++ l)).
Proof.
  intros Hes. cbv zeta. revert pre. induction Hes as [|[e padding] es He Hes IH]; intros pre Hlen.
  - cbn [encode_map length Nat.add app fmap list_fmap]. rewrite app_nil_r. by destruct (taken _ _ _).
  - cbn [encode_map length Nat.add taken] in *. rewrite <- !app_assoc in *. rewrite next_at_entry, ok_bind by done.
    specialize (IH (pre ++ encode_entry e ++ padding)). rewrite <- !app_assoc in IH. rewrite IH by done.
    by destruct (taken _ n _).
Qed.

Lemma collect_encoded `{BuildProfile} (es : list (MmapEntry * list Z)) (pre : list Z) (n : nat) :
  Forall entry_wf es -> Z.of_nat (length (pre ++ encode_map es)) < 2 ^ 32 -> (length es < n)%nat ->
  collect MemoryMap.next n
    {| map_buf := pre ++ encode_map es; map_offset := Z.of_nat (length pre) |} =
    Ok (region_of <$> es.*1).
Proof.
  intros Hes. revert pre n. induction Hes as [|[e padding] es He Hes IH];
    intros pre n Hlen Hn; (destruct n as [|n]; [simpl in Hn; lia|]).
  - simpl. unfold MemoryMap.next, get_from, get_to, encode_map. cbn [map_buf map_offset].
    rewrite app_nil_r, Z.leb_refl. simpl. by rewrite Nat2Z.id, drop_all.
  - cbn [encode_map collect] in *. rewrite next_at_entry, ok_bind by done.
    replace (pre ++ encode_entry e ++ padding ++ encode_map es)
      with ((pre ++ encode_entry e ++ padding) ++ encode_map es) in * by (by rewrite <- !app_assoc).
    rewrite IH; [done|done|simpl in Hn; lia].
Qed.

Lemma length_encode_map (es : list (MmapEntry * list Z)) :
  (24 * length es <= length (encode_map es))%nat.
Proof.
  induction es as [|[e p] es IH]; cbn [encode_map length]; [lia|].
  rewrite !length_app, length_encode_entry. lia.
Qed.

(** [next] on any buffer: the end, or an entry and its stride. *)
Lemma next_cases `{BuildProfile} (m : MemoryMap) :
  Forall (fun b => 0 <= b < 2 ^ 8) (map_buf m) -> 0 <= map_offset m ->
  (Z.of_nat (length (map_buf m)) - 24 < map_offset m /\ MemoryMap.next m = Ok None) \/
  map_offset m <= Z.of_nat (length (map_buf m)) - 24 /\
  exists e, u32_range (entry_size e) /\ u64_range (entry_base_addr e) /\ u64_range (entry_length e) /\
    MemoryMap.next m = (stride ← usize_add (entry_size e) 4;
      Ok (Some (region_of e,
        {| map_buf := map_buf m; map_offset := saturating_add 32 (map_offset m) stride |}))).
Proof.
  intros Hbytes Hoff. unfold MemoryMap.next, get_from, get_to, size_of_MmapEntry.
  zcase; [|left; split; [lia|done]]. cbn [mbind option_bind]. rewrite length_drop.
  zcase; [right|left; split; [lia|done]].
  split; [lia|]. eexists. split_and!; [..|reflexivity]; cbn [read_entry entry_size entry_base_addr entry_length].
  all: match goal with |- context [little_endian_to_Z 8 ?l] =>
    assert (Forall (fun b => 0 <= b < 2 ^ 8) l) as Hf
      by (apply Forall_take; try apply Forall_drop; by apply Forall_take, Forall_drop);
    pose proof (little_endian_to_Z_bound 8 _ ltac:(lia) Hf) as Hb;
    rewrite length_take_le in Hb by (rewrite ?length_drop, length_take, length_drop; lia) end.
  all: lia.
Qed.

(** In the [dev] profile either the walk ends or, at the first entry whose stride
    overflows, it panics. *)
Lemma collect_ends (m : MemoryMap) (n : nat) :
  Forall (fun b => 0 <= b < 2 ^ 8) (map_buf m) ->
  Z.of_nat (length (map_buf m)) < 2 ^ 32 -> 0 <= map_offset m ->
  Z.of_nat (length (map_buf m)) - 24 < 4 * Z.of_nat n + map_offset m ->
  (exists l, collect (@MemoryMap.next dev) (S n) m = Ok l) \/
  collect (@MemoryMap.next dev) (S n) m = Panic ArithmeticOverflow.
Proof.
  revert m. induction n as [|n IH]; intros m Hbytes Hlen Hoff Hn;
    destruct (@next_cases dev m) as [[_ E]|(Hle & e & He & _ & _ & E)]; try done; try lia;
    rewrite collect_S, E; [left; by exists []|left; by exists []|].
  unfold usize_add. destruct (Z.lt_ge_cases (entry_size e + 4) (2 ^ 32)) as [Hs|Hs].
  - rewrite arith_ok, !ok_bind by lia.
    destruct (IH {| map_buf := map_buf m;
      map_offset := saturating_add 32 (map_offset m) (entry_size e + 4) |}) as [[l ->]| ->];
      cbn [map_buf map_offset]; unfold saturating_add; try lia; [done| |by right].
    left. by exists (region_of e :: l).
  - rewrite arith_overflow_dev by lia. by right.
Qed.

(** The items of a walk: fewer than the fuel, with 64-bit fields. *)
Lemma collect_regions `{BuildProfile} (m : MemoryMap) (n : nat) (l : list MemoryRegion) :
  Forall (fun b => 0 <= b < 2 ^ 8) (map_buf m) -> 0 <= map_offset m ->
  collect MemoryMap.next n m = Ok l ->
  (length l < n)%nat /\ Forall (fun r => u64_range (region_base r) /\ u64_range (region_length r)) l.
Proof.
  revert m l. induction n as [|n IH]; intros m l Hbytes Hoff Hl; [done|].
  rewrite collect_S in Hl. destruct (next_cases m Hbytes Hoff) as [[_ E]|(_ & e & He & Hb & Hlen & E)]; rewrite E in Hl.
  { rewrite ok_bind in Hl. simplify_eq. split; [simpl; lia|done]. }
  destruct (usize_add (entry_size e) 4) as [stride| |] eqn:Es; try done. rewrite ok_bind in Hl.
  assert (0 <= stride).
  { unfold usize_add, arith in Es. destruct (_ && _) eqn:Eb; [simplify_eq; lia|].
    destruct debug_build; simplify_eq. apply Z.mod_pos_bound. lia. }
  rewrite ok_bind in Hl. destruct (collect MemoryMap.next n _) as [l'| |] eqn:Ec; try done. simplify_eq/=.
  apply IH in Ec as [Hn Hall]; [|done|cbn [map_offset]; unfold saturating_add; lia].
  split; [simpl; lia|by constructor].
Qed.

(** C32: The walk reads back the map the loader wrote: over any sequence of entries,
    each as long as its own [size] field says, it yields exactly their regions, in
    order, in both profiles and within the fuel the model grants. *)
Theorem memory_map_roundtrip `{BuildProfile} (es : list (MmapEntry * list Z)) :
  Forall entry_wf es -> Z.of_nat (length (encode_map es)) < 2 ^ 32 ->
  MemoryMap.regions {| map_buf := encode_map es; map_offset := 0 |} = Ok (region_of <$> es.*1).
Proof.
  intros Hes Hlen. unfold MemoryMap.regions, MemoryMap.fuel. cbn [map_buf].
  apply (collect_encoded es []); [done|done|].
  pose proof (length_encode_map es). zdiv.
Qed.

Definition sample_map : list (MmapEntry * list Z) :=
  [(mkMmapEntry 20 0 0x9FC00 1, []); (mkMmapEntry 20 0x9FC00 0x400 2, []);
   (mkMmapEntry 24 0x100000 0x7EE0000 1, [0; 0; 0; 0]); (mkMmapEntry 20 0xFFFC0000 0x40000 2, [])].

Lemma memory_map_roundtrip_witness :
  @MemoryMap.regions dev {| map_buf := encode_map sample_map; map_offset := 0 |} =
  Ok (region_of <$> sample_map.*1).
Proof.
  apply (@memory_map_roundtrip dev sample_map); [|vm_compute; reflexivity].
  repeat constructor; simpl; lia.
Defined.

(** C34: On any buffer of bytes the [dev] build's walk ends within the model's fuel:
    it yields a list of regions, or panics on the overflow of a stride. *)
Theorem memory_map_walk_terminates (m : MemoryMap) :
  Forall (fun b => 0 <= b < 2 ^ 8) (map_buf m) ->
  Z.of_nat (length (map_buf m)) < 2 ^ 32 -> 0 <= map_offset m ->
  (exists l, @MemoryMap.regions dev m = Ok l) \/
  @MemoryMap.regions dev m = Panic ArithmeticOverflow.
Proof.
  intros Hb Hl Ho. unfold MemoryMap.regions, MemoryMap.fuel.
  set (n := Z.of_nat (length (map_buf m))) in *.
  replace (Z.to_nat (n / 4 + 2)) with (S (Z.to_nat (n / 4 + 1))) by zdiv.
  apply collect_ends; try done. fold n. zdiv.
Qed.

Lemma memory_map_walk_terminates_witness :
  (exists l, @MemoryMap.regions dev {| map_buf := replicate 24 255; map_offset := 0 |} = Ok l) \/
  @MemoryMap.regions dev {| map_buf := replicate 24 255; map_offset := 0 |} = Panic ArithmeticOverflow.
Proof.
  apply (memory_map_walk_terminates {| map_buf := replicate 24 255; map_offset := 0 |});
    simpl; [repeat constructor; lia|lia|lia].
Defined.

(** [next] at an entry whose stride [size + 4] is [2 ^ 32]. *)
Lemma next_zero_stride (pre post : list Z) (e : MmapEntry) :
  entry_size e = 0xFFFFFFFC -> u64_range (entry_base_addr e) -> u64_range (entry_length e) -> u32_range (entry_kind e) ->
  let m := {| map_buf := pre ++ encode_entry e ++ post; map_offset := Z.of_nat (length pre) |} in
  Z.of_nat (length (map_buf m)) < 2 ^ 32 ->
  @MemoryMap.next dev m = Panic ArithmeticOverflow /\ @MemoryMap.next release m = Ok (Some (region_of e, m)).
Proof.
  intros Hs Hb Hl Hk m Hlen. subst m. cbn [map_buf] in Hlen. rewrite length_app in Hlen.
  rewrite !next_entry, Hs by (rewrite ?Hs; lia). split; [done|].
  change (@usize_add release 0xFFFFFFFC 4) with (@Ok Z 0). rewrite ok_bind. unfold saturating_add.
  do 4 f_equal. lia.
Qed.

(** C39: The step is not always positive.  On any map that holds, after any number of
    entries as a loader writes them, an entry with [size = 0xFFFFFFFC], the [dev] build's
    walk panics there, while the stride of the [release] build wraps to zero: its walk
    yields the regions before and then this region again and again, any number of times,
    and never ends, whatever the fuel. *)
Theorem memory_map_zero_stride (es : list (MmapEntry * list Z)) (e : MmapEntry) (post : list Z) :
  Forall entry_wf es -> entry_size e = 0xFFFFFFFC ->
  u64_range (entry_base_addr e) -> u64_range (entry_length e) -> u32_range (entry_kind e) ->
  let m := {| map_buf := encode_map es ++ encode_entry e ++ post; map_offset := 0 |} in
  Z.of_nat (length (map_buf m)) < 2 ^ 32 ->
  @MemoryMap.regions dev m = Panic ArithmeticOverflow /\
  (forall n, taken (@MemoryMap.next release) (length es + n) m =
    Ok ((region_of <$> es.*1) ++ replicate n (region_of e))) /\
  forall fuel, collect (@MemoryMap.next release) fuel m = OutOfFuel.
Proof.
  intros Hes Hs Hb Hl Hk m Hlen.
  destruct (next_zero_stride (encode_map es) post e Hs Hb Hl Hk Hlen) as [Ed Er].
  pose proof (fun P => @taken_encoded P es [] (encode_entry e ++ post)) as Hpre. cbn [app length] in Hpre.
  change (Z.of_nat 0) with 0 in Hpre.
  assert (forall n, taken (@MemoryMap.next release) (length es + n) m =
    Ok ((region_of <$> es.*1) ++ replicate n (region_of e))) as Ht.
  { intros n. unfold m. rewrite (Hpre release n Hes Hlen). cbn [map_buf] in *.
    induction n as [|n IH]; [done|]. cbn [taken replicate]. rewrite Er, ok_bind.
    by destruct (taken _ n _); simplify_eq/=. }
  split_and!; [|done|].
  - apply (collect_panics _ (length es + 1)).
    + unfold m. rewrite (Hpre dev 1%nat Hes Hlen). cbn [taken]. by rewrite Ed.
    + unfold MemoryMap.fuel. cbn [map_buf m] in *. rewrite !length_app, length_encode_entry in *.
      pose proof (length_encode_map es). zdiv.
  - intros fuel. apply (collect_unfinished _ (length es + fuel) fuel m _ (Ht fuel)); [|lia].
    by rewrite length_app, !length_fmap, length_replicate.
Qed.

(** An available entry with a stride of [2 ^ 32], between two that are well formed. *)
Definition wrapping_entry : MmapEntry := mkMmapEntry 0xFFFFFFFC 0x100000 0x100000 1.

Lemma memory_map_zero_stride_witness :
  let es := [(mkMmapEntry 20 0 0x9FC00 1, [])] in
  let m := {| map_buf := encode_map es ++ encode_entry wrapping_entry ++ encode_map es; map_offset := 0 |} in
  @MemoryMap.regions dev m = Panic ArithmeticOverflow /\
  (forall n, taken (@MemoryMap.next release) (1 + n) m =
    Ok (mkMemoryRegion 0 0x9FC00 Available :: replicate n (mkMemoryRegion 0x100000 0x100000 Available))) /\
  forall fuel, collect (@MemoryMap.next release) fuel m = OutOfFuel.
Proof.
  apply (memory_map_zero_stride [(mkMmapEntry 20 0 0x9FC00 1, [])] wrapping_entry
    (encode_map [(mkMmapEntry 20 0 0x9FC00 1, [])])).
  - repeat constructor; simpl; lia.
  - reflexivity.
  - simpl; lia.
  - simpl; lia.
  - simpl; lia.
  - vm_compute. reflexivity.
Defined.

(** The bytes of a region below the limit. *)
Definition usable_part (r : MemoryRegion) : Z :=
  Z.max 0 (Z.min (region_base r + region_length r) MemoryRegion.LIMIT - region_base r).

Lemma addressable_bytes_ok `{BuildProfile} (r : MemoryRegion) :
  u64_range (region_base r) -> u64_range (region_length r) ->
  MemoryRegion.addressable_bytes r = Ok (usable_part r) /\ 0 <= usable_part r <= 2 ^ 32.
Proof.
  unfold usable_part, MemoryRegion.addressable_bytes, MemoryRegion.LIMIT, saturating_add, u64_sub.
  intros Hb Hl. zcase; [split; [f_equal; lia|lia]|]. rewrite arith_ok by lia. split; [f_equal; lia|lia].
Qed.

(** C35: [addressable_bytes] is the size of the part of the region below 4 GiB, for
    every 64-bit base and length, wrapping ones included: a byte below the limit
    belongs to the (saturated) region exactly when it lies in the first
    [addressable_bytes] bytes of it. *)
Theorem addressable_bytes_correct `{BuildProfile} (r : MemoryRegion) :
  u64_range (MemoryRegion.base r) -> u64_range (MemoryRegion.length r) ->
  exists n, MemoryRegion.addressable_bytes r = Ok n /\ 0 <= n <= 2 ^ 32 /\
    forall b, MemoryRegion.base r <= b < MemoryRegion.base r + n <->
      MemoryRegion.base r <= b < MemoryRegion.base r + MemoryRegion.length r /\ b < MemoryRegion.LIMIT.
Proof.
  unfold MemoryRegion.base, MemoryRegion.length. intros Hb Hl. destruct (addressable_bytes_ok r Hb Hl) as [E Hr].
  exists (usable_part r). split; [done|]. split; [done|]. intros b. unfold usable_part, MemoryRegion.LIMIT in *. lia.
Qed.

Lemma addressable_bytes_correct_witness :
  let r := mkMemoryRegion 0x100000 0x1FFFFFFFF Available in
  exists n, @MemoryRegion.addressable_bytes dev r = Ok n /\ 0 <= n <= 2 ^ 32 /\
    forall b, MemoryRegion.base r <= b < MemoryRegion.base r + n <->
      MemoryRegion.base r <= b < MemoryRegion.base r + MemoryRegion.length r /\ b < MemoryRegion.LIMIT.
Proof.
  apply (@addressable_bytes_correct dev (mkMemoryRegion 0x100000 0x1FFFFFFFF Available));
    unfold MemoryRegion.base, MemoryRegion.length; simpl; lia.
Defined.
