(* ===== verification/Frame.v ===== *)
(** * [src/memory/frame.rs]: the physical frame allocator

    The bitmap is the list of its [u32] words; every access is bounds-checked as
    Rust checks it.  [&mut self] methods are computations over the allocator,
    [&self] methods functions of it. *)

From S2P Require Import Prelude Rust Bits Address Layout Multiboot.

Definition FRAME_SIZE : Z := 4096.

Definition FRAME_COUNT : Z := 2 ^ 20.

Definition WORD_COUNT : Z := FRAME_COUNT / WORD_BITS.

(** The compile-time assertion on the constants. *)
Definition word_count_assert : outcome unit :=
  assert (is_multiple_of FRAME_COUNT WORD_BITS)
    "the bitmap must cover FRAME_COUNT exactly, with no partial trailing word".

Record FrameRun := mkFrameRun {
  run_start : FrameNumber;
  run_len : Z
}.

#[global] Instance FrameRun_eq_dec : EqDecision FrameRun.
Proof. solve_decision. Defined.

Record FrameBitmap := mkFrameBitmap {
  bitmap : list Z;
  search_hint : Z
}.

Module FrameRun.

(** Without debug assertions [room] is not computed in the source; here it is, and not
    used. *)
Definition new `{BuildProfile} (start len : Z) : outcome FrameRun :=
  debug_assert (start <? FRAME_COUNT) "start < FRAME_COUNT";;
  room ← usize_sub FRAME_COUNT start;
  debug_assert (len <=? room) "len.get() <= FRAME_COUNT - start";;
  Ok (mkFrameRun (FrameNumber.new start) len).

Definition start (self : FrameRun) : FrameNumber := run_start self.

Definition len (self : FrameRun) : Z := run_len self.

Definition end_exclusive `{BuildProfile} (self : FrameRun) : outcome Z :=
  usize_add (FrameNumber.index (run_start self)) (run_len self).

End FrameRun.

(** ** [word_masks] *)

(** The variables the closure of [word_masks] captures. *)
Record word_masks_state := mkWordMasks {
  wm_word_i : Z;
  wm_bit : Z;
  wm_remaining : Z
}.

Definition word_masks (start len : Z) : word_masks_state :=
  {| wm_word_i := start / WORD_BITS; wm_bit := start mod WORD_BITS; wm_remaining := len |}.

Definition word_masks_next `{BuildProfile} (st : word_masks_state)
    : outcome (option ((Z * Z) * word_masks_state)) :=
  if wm_remaining st =? 0 then Ok None
  else
    '(mask, taken) ← clipped_bit_range_mask (wm_bit st) (wm_remaining st);
    let item := (wm_word_i st, mask) in
    remaining ← usize_sub (wm_remaining st) taken;
    word_i ← usize_add (wm_word_i st) 1;
    Ok (Some (item, {| wm_word_i := word_i; wm_bit := 0; wm_remaining := remaining |})).

(** Enough calls of [next] for a range of [len] frames: one for the first, partial
    word, one per following word, one for the end. *)
Definition word_masks_fuel (len : Z) : nat := Z.to_nat (len / WORD_BITS + 3).

(** [iter.any(p)] *)
Fixpoint iter_any {St A} (next : St → outcome (option (A * St))) (p : A → outcome bool)
    (fuel : nat) (st : St) : outcome bool :=
  match fuel with
  | O => OutOfFuel
  | S fuel =>
      r ← next st;
      match r with
      | None => Ok false
      | Some (x, st') => b ← p x; if b : bool then Ok true else iter_any next p fuel st'
      end
  end.

Module FrameBitmap.

Definition new : FrameBitmap :=
  {| bitmap := replicate (Z.to_nat WORD_COUNT) 0; search_hint := 0 |}.

(** [self.bitmap[i]] *)
Definition word (self : FrameBitmap) (i : Z) : outcome Z :=
  match bitmap self !! Z.to_nat i with
  | Some w => Ok w
  | None => Panic IndexOutOfBounds
  end.

(** [self.bitmap[i] op= mask] *)
Definition apply_mask (op : Z → Z → Z) (item : Z * Z) : M FrameBitmap unit :=
  let '(i, mask) := item in
  w ← reads (fun self => word self i);
  modify (fun self =>
    {| bitmap := <[Z.to_nat i := op w mask]> (bitmap self); search_hint := search_hint self |}).

Definition set_free `{BuildProfile} (start : FrameNumber) (len : Z) : M FrameBitmap unit :=
  for_each word_masks_next (apply_mask Z.lor)
    (word_masks_fuel len) (word_masks (FrameNumber.index start) len).

Definition set_occupied `{BuildProfile} (start : FrameNumber) (len : Z) : M FrameBitmap unit :=
  for_each word_masks_next (apply_mask (fun w mask => Z.land w (u32_not mask)))
    (word_masks_fuel len) (word_masks (FrameNumber.index start) len).

Definition any_free_in `{BuildProfile} (self : FrameBitmap) (start len : Z) : outcome bool :=
  iter_any word_masks_next
    (fun '(word_i, mask) => w ← word self word_i; Ok (negb (Z.land w mask =? 0)))
    (word_masks_fuel len) (word_masks start len).

Definition is_free `{BuildProfile} (self : FrameBitmap) (frame : Z) : outcome bool :=
  w ← word self (frame / WORD_BITS);
  bit ← shl 32 1 (frame mod WORD_BITS);
  Ok (negb (Z.land w bit =? 0)).

(** The body of the loop of [scan_for_run] over the [n] frames from [frame] on. *)
Fixpoint scan_loop `{BuildProfile} (self : FrameBitmap) (count : Z) (n : nat)
    (frame run_start run_len : Z) : outcome (option Z) :=
  match n with
  | O => Ok None
  | S n =>
      free ← is_free self frame;
      if negb free then scan_loop self count n (frame + 1) run_start 0
      else
        let run_start := if run_len =? 0 then frame else run_start in
        run_len ← usize_add run_len 1;
        if run_len =? count then Ok (Some run_start)
        else scan_loop self count n (frame + 1) run_start run_len
  end.

Definition scan_for_run `{BuildProfile} (self : FrameBitmap) (from count : Z) : outcome (option Z) :=
  scan_loop self count (Z.to_nat (FRAME_COUNT - from)) from 0 0.

Definition find_free_run `{BuildProfile} (self : FrameBitmap) (count : Z) : outcome (option Z) :=
  from ← usize_mul (search_hint self) WORD_BITS;
  r ← scan_for_run self from count;
  match r with
  | Some start => Ok (Some start)
  | None => scan_for_run self 0 count
  end.

Definition set_hint (hint : FrameBitmap → Z) : M FrameBitmap unit :=
  modify (fun self => {| bitmap := bitmap self; search_hint := hint self |}).

(** [count] is a [NonZeroUsize]: at least 1. *)
Definition allocate `{BuildProfile} (count : Z) : M FrameBitmap (option FrameRun) :=
  if FRAME_COUNT <? count then mret None
  else
    r ← reads (fun self => find_free_run self count);
    match r with
    | None => mret None
    | Some start =>
        set_occupied (FrameNumber.new start) count;;
        next ← lift (usize_add start count);
        set_hint (fun _ => next / WORD_BITS);;
        run ← lift (FrameRun.new start count);
        mret (Some run)
    end.

Definition allocate_one `{BuildProfile} : M FrameBitmap (option FrameRun) := allocate 1.

Definition free `{BuildProfile} (run : FrameRun) : M FrameBitmap unit :=
  let start := FrameNumber.index (run_start run) in
  let len := run_len run in
  used ← reads (fun self => any_free_in self start len);
  if used : bool then lift (Panic (Message "double free of physical frames"))
  else
    set_free (FrameNumber.new start) len;;
    set_hint (fun self => Z.min (search_hint self) (start / WORD_BITS)).

Definition mark_free `{BuildProfile} (start : FrameNumber) (count : Z) : M FrameBitmap unit :=
  set_free start count;;
  set_hint (fun self => Z.min (search_hint self) (FrameNumber.index start / WORD_BITS)).

Definition reserve_bytes `{BuildProfile} (addr len : Z) : M FrameBitmap unit :=
  let start := PhysAddr.frame_floor (PhysAddr.new (as_u32 addr)) in
  stop ← lift (usize_add addr len);
  let stop := PhysAddr.frame_ceil (PhysAddr.new (as_u32 stop)) in
  count ← lift (usize_sub (FrameNumber.index stop) (FrameNumber.index start));
  set_occupied start count.

(** The body of the loop of [init] over the memory map. *)
Definition init_region `{BuildProfile} (region : MemoryRegion) : M FrameBitmap unit :=
  bytes ← lift (MemoryRegion.addressable_bytes region);
  let bytes := as_u32 bytes in
  if negb (MemoryRegion.is_available region) || (bytes =? 0) then mret tt
  else
    let base := as_u32 (MemoryRegion.base region) in
    let start := FrameNumber.new (div_ceil base FRAME_SIZE) in
    stop ← lift (usize_add base bytes);
    let stop := stop / FRAME_SIZE in
    let len := saturating_sub stop (FrameNumber.index start) in
    if len =? 0 then mret tt else mark_free start len.

Definition init `{BuildProfile} `{KernelImage} (mmap : MemoryMap) : M FrameBitmap unit :=
  for_each MemoryMap.next init_region (MemoryMap.fuel mmap) mmap;;
  reserve_bytes 0 FRAME_SIZE;;
  let kstart := kernel_phys_start_addr in
  klen ← lift (usize_sub kernel_phys_end_addr kstart);
  reserve_bytes kstart klen.

End FrameBitmap.

(** The static, as the image holds it. *)
Definition FRAME_ALLOCATOR : FrameBitmap := FrameBitmap.new.

(** ** Well-formed allocators and their free frames *)

Definition frame_free (b : FrameBitmap) (f : Z) : bool :=
  Z.testbit (default 0 (bitmap b !! Z.to_nat (f / WORD_BITS))) (f mod WORD_BITS).

Record bitmap_wf (b : FrameBitmap) : Prop := {
  wf_length : length (bitmap b) = Z.to_nat WORD_COUNT;
  wf_words : Forall (fun w => u32_range w) (bitmap b);
  wf_hint : 0 <= search_hint b <= WORD_COUNT
}.

(** A run of [count] free frames starts at [s]. *)
Definition free_run (b : FrameBitmap) (s count : Z) : Prop :=
  0 <= s /\ s + count <= FRAME_COUNT /\ forall f, s <= f < s + count -> frame_free b f = true.

(** [r] is the first run of [count] free frames at or after [from], if there is one. *)
Definition first_run (b : FrameBitmap) (from count : Z) (r : option Z) : Prop :=
  match r with
  | Some s => from <= s /\ free_run b s count /\ forall s', from <= s' < s -> ~ free_run b s' count
  | None => forall s, from <= s -> ~ free_run b s count
  end.

(** The frames [[s, s + n)], as a test. *)
Definition in_run (s n f : Z) : bool := (s <=? f) && (f <? s + n).

(** No free frame lies below the word the next search starts from, so that search
    misses none.  [FrameBitmap::new] has it, and so has every state reached by
    publishing memory and allocating single frames. *)
Definition packed (b : FrameBitmap) : Prop :=
  forall f, 0 <= f < search_hint b * WORD_BITS -> frame_free b f = false.

(** Frame [f] lies wholly inside an available region. *)
Definition region_frames (r : MemoryRegion) (f : Z) : bool :=
  MemoryRegion.is_available r && (MemoryRegion.base r <=? f * FRAME_SIZE) &&
  ((f + 1) * FRAME_SIZE <=? MemoryRegion.base r + MemoryRegion.length r).

(** The region ends below the 4 GiB limit, or lies above it, or is not available. *)
Definition region_below_limit (r : MemoryRegion) : Prop :=
  u64_range (MemoryRegion.base r) /\ u64_range (MemoryRegion.length r) /\
  (MemoryRegion.is_available r = true ->
   MemoryRegion.base r + MemoryRegion.length r < MemoryRegion.LIMIT \/
   MemoryRegion.LIMIT <= MemoryRegion.base r).

Ltac unfold_sizes := unfold FRAME_COUNT, FRAME_SIZE, WORD_BITS in *;
  try change WORD_COUNT with 32768 in *.

Section lemmas.
Context {P : BuildProfile}.

Lemma word_count_exact : word_count_assert = Ok tt /\ WORD_COUNT * WORD_BITS = FRAME_COUNT.
Proof. done. Qed.

Lemma word_ok (b : FrameBitmap) (i : Z) :
  bitmap_wf b -> 0 <= i < WORD_COUNT ->
  exists w, bitmap b !! Z.to_nat i = Some w /\ FrameBitmap.word b i = Ok w /\ u32_range w.
Proof.
  intros [Hl Hw _] Hi. destruct (lookup_lt_is_Some_2 (bitmap b) (Z.to_nat i)) as [w Ew]; [lia|].
  exists w. unfold FrameBitmap.word. rewrite Ew. split_and!; try done;
    by apply (Forall_lookup_1 _ _ _ _ Hw Ew).
Qed.

Lemma land_bit (w n : Z) : 0 <= n -> negb (Z.land w (2 ^ n) =? 0) = Z.testbit w n.
Proof.
  intros Hn. rewrite <- Z.shiftl_1_l. destruct (Z.testbit w n) eqn:E.
  - apply negb_true_iff, Z.eqb_neq. intros Hz. apply (f_equal (fun x => Z.testbit x n)) in Hz.
    by rewrite Z.land_spec, E, Z.shiftl_spec, Z.sub_diag, Z.bits_0 in Hz by lia.
  - apply negb_false_iff, Z.eqb_eq, Z.bits_inj'. intros i Hi.
    rewrite Z.land_spec, Z.bits_0. destruct (Z.eq_dec i n) as [->|Hne]; [by rewrite E|].
    rewrite Z.shiftl_1_l, Z.pow2_bits_false by done. apply andb_false_r.
Qed.

Lemma is_free_ok (b : FrameBitmap) (f : Z) :
  bitmap_wf b -> 0 <= f < FRAME_COUNT -> FrameBitmap.is_free b f = Ok (frame_free b f).
Proof.
  intros Hwf Hf. unfold_sizes.
  destruct (word_ok b (f / WORD_BITS) Hwf) as (w & Ew & E & Hw); [unfold_sizes; zdiv|].
  unfold FrameBitmap.is_free, frame_free. rewrite E, Ew, ok_bind. simpl default.
  unfold shl, wrapping_shl, WORD_BITS. assert (0 <= f mod 32 < 32) by zdiv. rust.
  rewrite Z.shiftl_1_l, Z.mod_small; [by rewrite land_bit by lia|].
  split; [lia|]. apply Z.pow_lt_mono_r; lia.
Qed.

(** One masked update of a word changes exactly the frames the mask selects. *)
Lemma apply_mask_ok (op : Z → Z → Z) (h : bool → bool → bool) (b : FrameBitmap) (i mask : Z) :
  (forall w m, u32_range w -> u32_range m -> u32_range (op w m)) ->
  (forall w m k, 0 <= k < 32 -> Z.testbit (op w m) k = h (Z.testbit w k) (Z.testbit m k)) ->
  bitmap_wf b -> 0 <= i < WORD_COUNT -> u32_range mask ->
  exists b', FrameBitmap.apply_mask op (i, mask) b = (Ok tt, b') /\ bitmap_wf b' /\
    search_hint b' = search_hint b /\
    forall f, 0 <= f -> frame_free b' f =
      if f / WORD_BITS =? i then h (frame_free b f) (Z.testbit mask (f mod WORD_BITS))
      else frame_free b f.
Proof.
  intros Hrange Hbit Hwf Hi Hm. destruct (word_ok b i Hwf Hi) as (w & Ew & E & Hw).
  pose proof Hwf as [Hl Hws Hh]. eexists. split.
  { unfold FrameBitmap.apply_mask. by rewrite (bind_reads _ _ _ w). }
  split; [|split; [done|]].
  - split; cbn [bitmap search_hint]; [by rewrite length_insert| |done].
    apply Forall_insert; auto.
  - intros f Hf. unfold frame_free. cbn [bitmap]. destruct (Z.eqb_spec (f / WORD_BITS) i) as [<-|Hne].
    + rewrite list_lookup_insert_eq by lia. rewrite Ew. cbn [default].
      apply Hbit. unfold WORD_BITS. zdiv.
    + rewrite list_lookup_insert_ne; [done|]. unfold_sizes. zdiv.
Qed.

Lemma word_masks_next_ok (st : word_masks_state) :
  0 <= wm_bit st < WORD_BITS -> 0 < wm_remaining st <= FRAME_COUNT ->
  0 <= wm_word_i st <= WORD_COUNT ->
  let take := Z.min (wm_remaining st) (WORD_BITS - wm_bit st) in
  word_masks_next st = Ok (Some ((wm_word_i st, bit_range (wm_bit st) take),
    {| wm_word_i := wm_word_i st + 1; wm_bit := 0; wm_remaining := wm_remaining st - take |})).
Proof.
  intros Hb Hr Hi take. unfold word_masks_next. rewrite (proj2 (Z.eqb_neq _ _)) by lia.
  rewrite clipped_bit_range_mask_eq by (unfold_sizes; lia). unfold_sizes. by rust.
Qed.

(** The whole masked loop, for [|=] and for [&= !]. *)
Lemma masked_loop_ok (op : Z → Z → Z) (h : bool → bool → bool) (n : nat) (st : word_masks_state)
    (b : FrameBitmap) :
  (forall w m, u32_range w -> u32_range m -> u32_range (op w m)) ->
  (forall w m k, 0 <= k < 32 -> Z.testbit (op w m) k = h (Z.testbit w k) (Z.testbit m k)) ->
  (forall x, h x false = x) ->
  let s := wm_word_i st * WORD_BITS + wm_bit st in
  bitmap_wf b -> 0 <= wm_bit st < WORD_BITS -> 0 <= wm_word_i st -> 0 <= wm_remaining st ->
  s + wm_remaining st <= FRAME_COUNT -> wm_remaining st + wm_bit st <= 32 * Z.of_nat n ->
  exists b', for_each word_masks_next (FrameBitmap.apply_mask op) (S n) st b = (Ok tt, b') /\
    bitmap_wf b' /\ search_hint b' = search_hint b /\
    forall f, 0 <= f -> frame_free b' f =
      if (s <=? f) && (f <? s + wm_remaining st) then h (frame_free b f) true else frame_free b f.
Proof.
  intros Hrange Hbit Hid. revert st b. induction n as [|n IH]; intros st b s Hwf Hb Hi Hr Hs Hn;
    subst s; destruct (Z.eq_dec (wm_remaining st) 0) as [E|E]; try (unfold_sizes; lia).
  1,2: exists b; rewrite for_each_S; unfold word_masks_next; rewrite E; split_and!; try done;
    intros f Hf; zbool.
  pose proof (word_masks_next_ok st Hb ltac:(unfold_sizes; lia) ltac:(unfold_sizes; lia)) as En.
  rewrite for_each_S, En, bind_lift. cbv zeta in En.
  set (take := Z.min (wm_remaining st) (WORD_BITS - wm_bit st)) in *.
  destruct (apply_mask_ok op h b (wm_word_i st) (bit_range (wm_bit st) take) Hrange Hbit Hwf)
    as (b1 & E1 & Hwf1 & Hh1 & Hf1); [unfold_sizes; lia|apply bit_range_bound; unfold_sizes; lia|].
  rewrite (bind_ok _ _ _ _ _ E1).
  edestruct (IH {| wm_word_i := wm_word_i st + 1; wm_bit := 0;
                   wm_remaining := wm_remaining st - take |} b1) as (b2 & E2 & Hwf2 & Hh2 & Hf2);
    cbn [wm_word_i wm_bit wm_remaining] in *; try (unfold_sizes; lia); [done|].
  exists b2. split_and!; [done|done|congruence|].
  intros f Hf. rewrite Hf2, Hf1 by done. rewrite bit_range_testbit by (unfold_sizes; zdiv).
  assert (0 <= f mod 32 < 32 /\ f = f / 32 * 32 + f mod 32) as [Hm Hd] by zdiv.
  unfold_sizes. generalize dependent (f / 32). generalize dependent (f mod 32).
  intros r Hm q Hd. zbool; rewrite ?Hid; try done; lia.
Qed.

Lemma masked_range_ok (op : Z → Z → Z) (h : bool → bool → bool) (b : FrameBitmap) (start len : Z) :
  (forall w m, u32_range w -> u32_range m -> u32_range (op w m)) ->
  (forall w m k, 0 <= k < 32 -> Z.testbit (op w m) k = h (Z.testbit w k) (Z.testbit m k)) ->
  (forall x, h x false = x) ->
  bitmap_wf b -> 0 <= start -> 0 <= len -> start + len <= FRAME_COUNT ->
  exists b', for_each word_masks_next (FrameBitmap.apply_mask op) (word_masks_fuel len)
               (word_masks start len) b = (Ok tt, b') /\
    bitmap_wf b' /\ search_hint b' = search_hint b /\
    forall f, 0 <= f -> frame_free b' f =
      if in_run start len f then h (frame_free b f) true else frame_free b f.
Proof.
  intros Hrange Hbit Hid Hwf Hs Hl Hc. unfold word_masks_fuel.
  replace (Z.to_nat (len / WORD_BITS + 3)) with (S (Z.to_nat (len / WORD_BITS + 2)))
    by (unfold_sizes; zdiv).
  assert (start / WORD_BITS * WORD_BITS + start mod WORD_BITS = start) as E by (unfold_sizes; zdiv).
  destruct (masked_loop_ok op h (Z.to_nat (len / WORD_BITS + 2)) (word_masks start len) b
    Hrange Hbit Hid) as (b' & Hb' & Hwf' & Hh & Hf); cbn [word_masks wm_word_i wm_bit wm_remaining] in *;
    try (unfold_sizes; zdiv); [done|].
  rewrite E in Hf. by exists b'.
Qed.

Lemma set_free_ok (b : FrameBitmap) (start len : Z) :
  bitmap_wf b -> 0 <= start -> 0 <= len -> start + len <= FRAME_COUNT ->
  exists b', FrameBitmap.set_free (FrameNumber.new start) len b = (Ok tt, b') /\
    bitmap_wf b' /\ search_hint b' = search_hint b /\
    forall f, 0 <= f ->
      frame_free b' f = in_run start len f || frame_free b f.
Proof.
  intros Hwf Hs Hl Hc.
  destruct (masked_range_ok Z.lor orb b start len) as (b' & E & Hwf' & Hh & Hf); try done.
  - intros. by apply lor_bound.
  - intros. apply Z.lor_spec.
  - intros []; done.
  - exists b'. split_and!; try done. intros f Hf0. rewrite Hf by done.
    by destruct (in_run start len f), (frame_free b f).
Qed.

Lemma set_occupied_ok (b : FrameBitmap) (start len : Z) :
  bitmap_wf b -> 0 <= start -> 0 <= len -> start + len <= FRAME_COUNT ->
  exists b', FrameBitmap.set_occupied (FrameNumber.new start) len b = (Ok tt, b') /\
    bitmap_wf b' /\ search_hint b' = search_hint b /\
    forall f, 0 <= f ->
      frame_free b' f = negb (in_run start len f) && frame_free b f.
Proof.
  intros Hwf Hs Hl Hc.
  destruct (masked_range_ok (fun w m => Z.land w (u32_not m)) (fun x y => x && negb y) b start len)
    as (b' & E & Hwf' & Hh & Hf); try done.
  - intros w m Hw Hm. apply land_bound; [lia|done|]. by apply u32_not_bound.
  - intros w m k Hk. rewrite Z.land_spec, u32_not_bit by lia.
    rewrite (proj2 (Z.ltb_lt k 32)) by lia. by destruct (Z.testbit m k).
  - intros []; done.
  - exists b'. split_and!; try done. intros f Hf0. rewrite Hf by done.
    by destruct (in_run start len f), (frame_free b f).
Qed.

(** A scan finds the first run. *)
Lemma scan_loop_ok (b : FrameBitmap) (from count frame rs rl : Z) (n : nat) :
  bitmap_wf b -> frame = FRAME_COUNT - Z.of_nat n -> 0 <= from <= frame - rl ->
  0 <= rl < count -> (rl <> 0 -> rs = frame - rl) ->
  (forall f, frame - rl <= f < frame -> frame_free b f = true) ->
  (forall s, from <= s < frame - rl -> ~ free_run b s count) ->
  exists r, FrameBitmap.scan_loop b count n frame rs rl = Ok r /\ first_run b from count r.
Proof.
  intros Hwf. revert frame rs rl. induction n as [|n IH]; intros frame rs rl Hn Hfrom Hrl Hrs Hrun Hno.
  - exists None. split; [done|]. intros s Hs (H1 & H2 & H3).
    destruct (Z.lt_ge_cases s (frame - rl)); [|lia]. by apply (Hno s).
  - assert (0 <= frame < FRAME_COUNT) as Hf by lia.
    cbn [FrameBitmap.scan_loop]. rewrite is_free_ok, ok_bind by done.
    destruct (frame_free b frame) eqn:Ef; cbn [negb].
    + assert (u32_range (rl + 1)) by (unfold_sizes; lia). rust.
      set (rs' := if rl =? 0 then frame else rs).
      assert (rs' = frame - rl) as Ers by (subst rs'; zcase; lia).
      assert (forall f, frame - rl <= f < frame + 1 -> frame_free b f = true) as Hrun'.
      { intros f ?. destruct (Z.eq_dec f frame); [congruence|]. apply Hrun. lia. }
      zcase.
      * exists (Some rs'). split; [done|]. simpl. rewrite Ers. split_and!; [lia| |auto].
        split_and!; [lia|lia|]. intros f ?. apply Hrun'. lia.
      * apply IH; try lia.
        -- intros f ?. apply Hrun'. lia.
        -- intros s ?. apply Hno. lia.
    + apply IH; try lia. intros s Hs (H1 & H2 & H3).
      destruct (Z.lt_ge_cases s (frame - rl)); [apply (Hno s); [lia|done]|].
      rewrite H3 in Ef; [done|lia].
Qed.

Lemma scan_for_run_ok (b : FrameBitmap) (from count : Z) :
  bitmap_wf b -> 0 <= from <= FRAME_COUNT -> 0 < count ->
  exists r, FrameBitmap.scan_for_run b from count = Ok r /\ first_run b from count r.
Proof.
  intros Hwf Hfrom Hc. unfold FrameBitmap.scan_for_run.
  apply scan_loop_ok; try done; lia.
Qed.

Lemma find_free_run_ok (b : FrameBitmap) (count : Z) :
  bitmap_wf b -> 0 < count ->
  exists r, FrameBitmap.find_free_run b count = Ok r /\
    match r with
    | Some _ => first_run b (search_hint b * WORD_BITS) count r \/
                first_run b (search_hint b * WORD_BITS) count None /\ first_run b 0 count r
    | None => first_run b 0 count None
    end.
Proof.
  intros Hwf Hc. pose proof (wf_hint b Hwf) as Hh. unfold FrameBitmap.find_free_run.
  assert (0 <= search_hint b * WORD_BITS <= FRAME_COUNT) as Hfrom by (unfold_sizes; lia).
  rewrite usize_mul_ok, ok_bind by (unfold_sizes; lia).
  destruct (scan_for_run_ok b _ count Hwf Hfrom Hc) as (r & -> & Hr). rewrite ok_bind.
  destruct r as [s|]; [by exists (Some s); eauto|].
  destruct (scan_for_run_ok b 0 count Hwf ltac:(unfold_sizes; lia) Hc) as (r & -> & Hr0).
  exists r. destruct r; eauto.
Qed.

Lemma iter_any_S {St A} (next : St → outcome (option (A * St))) (p : A → outcome bool) fuel st :
  iter_any next p (S fuel) st =
    (r ← next st;
     match r with
     | None => Ok false
     | Some (x, st') => b ← p x; if b : bool then Ok true else iter_any next p fuel st'
     end).
Proof. done. Qed.

(** A word and a mask intersect when they share a bit. *)
Lemma land_nonzero (w m : Z) :
  u32_range w -> u32_range m ->
  negb (Z.land w m =? 0) = true <-> exists i, 0 <= i < 32 /\ Z.testbit w i = true /\ Z.testbit m i = true.
Proof.
  intros Hw Hm. rewrite negb_true_iff, Z.eqb_neq. split.
  - intros Hne. destruct (decide (Exists (fun i => Z.testbit w i && Z.testbit m i = true) (seqZ 0 32)))
      as [Hex|Hnex].
    + apply Exists_exists in Hex as (i & Hi & [??]%andb_prop).
      apply elem_of_seqZ in Hi. exists i. split_and!; try done; lia.
    + destruct Hne. pose proof (land_bound 32 w m ltac:(lia) Hw ltac:(lia)).
      apply (bits_inj_small 32); [lia|done|lia|]. intros i Hi. rewrite Z.land_spec, Z.bits_0.
      apply not_true_iff_false. intros Ht. apply Hnex, Exists_exists. exists i.
      by rewrite elem_of_seqZ.
  - intros (i & Hi & H1 & H2) E. apply (f_equal (fun x => Z.testbit x i)) in E.
    by rewrite Z.land_spec, H1, H2, Z.bits_0 in E.
Qed.

(** A masked word test sees exactly the frames of the mask. *)
Lemma masked_test_ok (b : FrameBitmap) (i bit take : Z) :
  bitmap_wf b -> 0 <= i < WORD_COUNT -> 0 <= bit -> 0 <= take -> bit + take <= 32 ->
  exists r, (w ← FrameBitmap.word b i; Ok (negb (Z.land w (bit_range bit take) =? 0))) = Ok r /\
    (r = true <-> exists f, i * 32 + bit <= f < i * 32 + bit + take /\ frame_free b f = true).
Proof.
  intros Hwf Hi Hb Ht Hs. destruct (word_ok b i Hwf Hi) as (w & Ew & -> & Hw).
  rewrite ok_bind. eexists. split; [done|].
  rewrite land_nonzero by (try done; by apply bit_range_bound). unfold frame_free, WORD_BITS. split.
  - intros (k & Hk & H1 & H2). rewrite bit_range_testbit in H2 by lia. bprop.
    exists (i * 32 + k). split; [lia|].
    replace ((i * 32 + k) / 32) with i by zdiv. replace ((i * 32 + k) mod 32) with k by zdiv.
    by rewrite Ew.
  - intros (f & Hf & Hfree). exists (f mod 32).
    replace (f / 32) with i in Hfree by zdiv. rewrite Ew in Hfree. split_and!; [zdiv|zdiv|done|].
    rewrite bit_range_testbit by zdiv. assert (f mod 32 = f - i * 32) as -> by zdiv. zbool.
Qed.

Lemma any_free_loop_ok (b : FrameBitmap) (n : nat) (st : word_masks_state) :
  let s := wm_word_i st * WORD_BITS + wm_bit st in
  bitmap_wf b -> 0 <= wm_bit st < WORD_BITS -> 0 <= wm_word_i st -> 0 <= wm_remaining st ->
  s + wm_remaining st <= FRAME_COUNT -> wm_remaining st + wm_bit st <= 32 * Z.of_nat n ->
  exists r, iter_any word_masks_next
      (fun '(word_i, mask) => w ← FrameBitmap.word b word_i; Ok (negb (Z.land w mask =? 0)))
      (S n) st = Ok r /\
    (r = true <-> exists f, s <= f < s + wm_remaining st /\ frame_free b f = true).
Proof.
  revert st. induction n as [|n IH]; intros st s Hwf Hb Hi Hr Hs Hn; subst s;
    destruct (Z.eq_dec (wm_remaining st) 0) as [E|E]; try (unfold_sizes; lia).
  1,2: exists false; rewrite iter_any_S; unfold word_masks_next; rewrite E; split; [done|];
    split; [done|intros (f & ? & _); lia].
  pose proof (word_masks_next_ok st Hb ltac:(unfold_sizes; lia) ltac:(unfold_sizes; lia)) as En.
  rewrite iter_any_S, En, ok_bind. cbv zeta in En.
  set (take := Z.min (wm_remaining st) (WORD_BITS - wm_bit st)) in *.
  destruct (masked_test_ok b (wm_word_i st) (wm_bit st) take Hwf) as (r & -> & Hr1);
    try (unfold_sizes; lia).
  rewrite ok_bind. destruct r.
  { exists true. split; [done|]. split; [|done]. intros _.
    destruct (proj1 Hr1 eq_refl) as (f & Hf & Hff). exists f. split; [|done]. unfold_sizes. lia. }
  destruct (IH {| wm_word_i := wm_word_i st + 1; wm_bit := 0;
                  wm_remaining := wm_remaining st - take |}) as (r & E2 & Hr2);
    cbn [wm_word_i wm_bit wm_remaining] in *; try (unfold_sizes; lia); [done|].
  exists r. split; [done|]. rewrite Hr2. split; intros (f & Hf & Hff).
  - exists f. split; [|done]. unfold_sizes. lia.
  - exists f. split; [|done]. destruct (Z.lt_ge_cases f (wm_word_i st * 32 + wm_bit st + take)).
    + assert (false = true); [|done]. apply Hr1. exists f. split; [unfold_sizes; lia|done].
    + unfold_sizes. lia.
Qed.

Lemma any_free_in_ok (b : FrameBitmap) (start len : Z) :
  bitmap_wf b -> 0 <= start -> 0 <= len -> start + len <= FRAME_COUNT ->
  exists r, FrameBitmap.any_free_in b start len = Ok r /\
    (r = true <-> exists f, start <= f < start + len /\ frame_free b f = true).
Proof.
  intros Hwf Hs Hl Hc. unfold FrameBitmap.any_free_in, word_masks_fuel.
  replace (Z.to_nat (len / WORD_BITS + 3)) with (S (Z.to_nat (len / WORD_BITS + 2)))
    by (unfold_sizes; zdiv).
  assert (start / WORD_BITS * WORD_BITS + start mod WORD_BITS = start) as E by (unfold_sizes; zdiv).
  destruct (any_free_loop_ok b (Z.to_nat (len / WORD_BITS + 2)) (word_masks start len))
    as (r & Hr & Hiff); cbn [word_masks wm_word_i wm_bit wm_remaining] in *;
    try (unfold_sizes; zdiv); [done|].
  rewrite E in Hiff. by exists r.
Qed.

Lemma set_hint_ok (hint : FrameBitmap → Z) (b : FrameBitmap) :
  bitmap_wf b -> 0 <= hint b <= WORD_COUNT ->
  exists b', FrameBitmap.set_hint hint b = (Ok tt, b') /\ bitmap_wf b' /\
    search_hint b' = hint b /\ forall f, frame_free b' f = frame_free b f.
Proof. intros [] Hh. eexists. by split_and!. Qed.

Lemma FrameRun_new_ok (start len : Z) :
  0 <= start < FRAME_COUNT -> 0 <= len <= FRAME_COUNT - start ->
  FrameRun.new start len = Ok (mkFrameRun (FrameNumber.new start) len).
Proof.
  intros Hs Hl. unfold FrameRun.new. unfold_sizes.
  by rust.
Qed.

(** [allocate], on every branch: it returns (no panic), and hands out a run exactly
    when one exists. *)
Lemma allocate_ok (b : FrameBitmap) (count : Z) :
  bitmap_wf b -> 0 < count ->
  exists r b', FrameBitmap.allocate count b = (Ok r, b') /\ bitmap_wf b' /\
    match r with
    | None => b' = b /\ forall s, ~ free_run b s count
    | Some run =>
        let s := frame_index (run_start run) in
        run_len run = count /\ free_run b s count /\
        search_hint b' = (s + count) / WORD_BITS /\
        (first_run b (search_hint b * WORD_BITS) count (Some s) \/
         first_run b (search_hint b * WORD_BITS) count None /\ first_run b 0 count (Some s)) /\
        forall f, 0 <= f -> frame_free b' f = negb (in_run s count f) && frame_free b f
    end.
Proof.
  intros Hwf Hc. unfold FrameBitmap.allocate. destruct (Z.ltb_spec FRAME_COUNT count).
  { exists None, b. split_and!; try done. intros s (? & ? & _). lia. }
  destruct (find_free_run_ok b count Hwf Hc) as (r & E & Hr).
  rewrite (bind_reads (fun self => FrameBitmap.find_free_run self count) _ b _ E). destruct r as [s|].
  2: { exists None, b. split_and!; try done. intros s Hs. apply (Hr s); [by destruct Hs|done]. }
  assert (free_run b s count) as Hrun by (by destruct Hr as [(_ & ? & _)|(_ & _ & ? & _)]).
  pose proof Hrun as (Hs0 & Hs1 & _).
  destruct (set_occupied_ok b s count Hwf) as (b1 & E1 & Hwf1 & _ & Hf1); try lia.
  rewrite (bind_ok _ _ _ _ _ E1). rewrite usize_add_ok by (unfold_sizes; lia).
  rewrite bind_lift.
  destruct (set_hint_ok (fun _ => (s + count) / WORD_BITS) b1 Hwf1) as (b2 & E2 & Hwf2 & Hh2 & Hf2).
  { unfold_sizes. zdiv. }
  rewrite (bind_ok _ _ _ _ _ E2), FrameRun_new_ok, bind_lift by lia.
  exists (Some (mkFrameRun (FrameNumber.new s) count)), b2. split_and!; try done.
  intros f Hf. by rewrite Hf2, Hf1.
Qed.

(** [free], on every branch: a run with a free frame is refused before any bit
    changes; otherwise its frames are free again. *)
Lemma free_ok (b : FrameBitmap) (run : FrameRun) :
  let s := frame_index (run_start run) in
  bitmap_wf b -> 0 <= s -> 0 <= run_len run -> s + run_len run <= FRAME_COUNT ->
  ((exists f, s <= f < s + run_len run /\ frame_free b f = true) /\
   FrameBitmap.free run b = (Panic (Message "double free of physical frames"), b)) \/
  ((forall f, s <= f < s + run_len run -> frame_free b f = false) /\
   exists b', FrameBitmap.free run b = (Ok tt, b') /\ bitmap_wf b' /\
     search_hint b' = Z.min (search_hint b) (s / WORD_BITS) /\
     forall f, 0 <= f -> frame_free b' f = in_run s (run_len run) f || frame_free b f).
Proof.
  intros s Hwf Hs Hl Hc. unfold FrameBitmap.free. cbv zeta. fold s.
  change (FrameNumber.index (run_start run)) with s.
  destruct (any_free_in_ok b s (run_len run) Hwf Hs Hl Hc) as (r & E & Hr).
  rewrite (bind_reads (fun self => FrameBitmap.any_free_in self s (run_len run)) _ b _ E). destruct r; [left; split; [by apply Hr|done]|right].
  split. { intros f Hf. apply not_true_iff_false. intros Hff. discriminate (proj2 Hr). by exists f. }
  destruct (set_free_ok b s (run_len run) Hwf Hs Hl Hc) as (b1 & E1 & Hwf1 & Hh1 & Hf1).
  rewrite (bind_ok _ _ _ _ _ E1). pose proof (wf_hint b Hwf).
  destruct (set_hint_ok (fun b => Z.min (search_hint b) (s / WORD_BITS)) b1 Hwf1)
    as (b2 & E2 & Hwf2 & Hh2 & Hf2); [unfold_sizes; zdiv|].
  exists b2. split_and!; try done; [by rewrite <- Hh1|]. intros f Hf. by rewrite Hf2, Hf1.
Qed.

Lemma mark_free_ok (b : FrameBitmap) (start len : Z) :
  bitmap_wf b -> 0 <= start -> 0 <= len -> start + len <= FRAME_COUNT ->
  exists b', FrameBitmap.mark_free (FrameNumber.new start) len b = (Ok tt, b') /\ bitmap_wf b' /\
    search_hint b' = Z.min (search_hint b) (start / WORD_BITS) /\
    forall f, 0 <= f -> frame_free b' f = in_run start len f || frame_free b f.
Proof.
  intros Hwf Hs Hl Hc. unfold FrameBitmap.mark_free.
  destruct (set_free_ok b start len Hwf Hs Hl Hc) as (b1 & E1 & Hwf1 & Hh1 & Hf1).
  rewrite (bind_ok _ _ _ _ _ E1). pose proof (wf_hint b Hwf). cbn [FrameNumber.index FrameNumber.new frame_index].
  destruct (set_hint_ok (fun b => Z.min (search_hint b) (start / WORD_BITS)) b1 Hwf1)
    as (b2 & E2 & Hwf2 & Hh2 & Hf2); [unfold_sizes; zdiv|].
  exists b2. split_and!; try done; [by rewrite <- Hh1|]. intros f Hf. by rewrite Hf2, Hf1.
Qed.

Lemma reserve_bytes_ok (b : FrameBitmap) (addr len : Z) :
  bitmap_wf b -> 0 <= addr -> 0 <= len -> addr + len < 2 ^ 32 ->
  exists b', FrameBitmap.reserve_bytes addr len b = (Ok tt, b') /\ bitmap_wf b' /\
    search_hint b' = search_hint b /\
    forall f, 0 <= f -> frame_free b' f =
      negb ((addr <? (f + 1) * FRAME_SIZE) && (f * FRAME_SIZE <? addr + len)) && frame_free b f.
Proof.
  intros Hwf Ha Hl Hal. unfold FrameBitmap.reserve_bytes.
  rewrite usize_add_ok, bind_lift by lia.
  unfold PhysAddr.frame_floor, PhysAddr.frame_ceil, as_u32. cbn [PhysAddr.new phys_raw FrameNumber.index frame_index].
  rewrite !Z.mod_small, div_ceil_spec by lia.
  assert (addr / 4096 <= (addr + len + 4096 - 1) / 4096) by (apply Z.div_le_mono; lia).
  rewrite usize_sub_ok, bind_lift by zdiv.
  destruct (set_occupied_ok b (addr / 4096) ((addr + len + 4096 - 1) / 4096 - addr / 4096) Hwf)
    as (b' & E & Hwf' & Hh & Hf); try (unfold_sizes; zdiv).
  exists b'. split_and!; try done. intros f Hf0. rewrite Hf by done. unfold in_run. unfold_sizes.
  f_equal. f_equal. apply eq_true_iff_eq. rewrite !andb_true_iff, !Z.leb_le, !Z.ltb_lt. zdiv.
Qed.

Lemma init_region_ok (b : FrameBitmap) (r : MemoryRegion) :
  bitmap_wf b -> region_below_limit r ->
  exists b', FrameBitmap.init_region r b = (Ok tt, b') /\ bitmap_wf b' /\
    search_hint b' <= search_hint b /\
    forall f, 0 <= f < FRAME_COUNT -> frame_free b' f = region_frames r f || frame_free b f.
Proof.
  intros Hwf (Hb & Hl & Hlim). unfold FrameBitmap.init_region, region_frames.
  unfold MemoryRegion.addressable_bytes, MemoryRegion.LIMIT, MemoryRegion.base, MemoryRegion.length,
    saturating_add in *.
  set (base := region_base r) in *. set (len := region_length r) in *.
  destruct (MemoryRegion.is_available r) eqn:Ea; cycle 1.
  { exists b. split_and!; try done. by destruct (_ <=? base) eqn:?;
      [|unfold u64_sub; rewrite arith_ok by lia]. }
  destruct (Hlim eq_refl) as [Hlt|Hge]; cycle 1.
  { exists b. rewrite (proj2 (Z.leb_le _ _)) by lia. split_and!; try done.
    intros f Hf. unfold_sizes. zbool. }
  rewrite (proj2 (Z.leb_gt _ _)) by lia. unfold u64_sub. rewrite arith_ok, bind_lift by lia.
  replace (as_u32 _) with len by (unfold as_u32; rewrite Z.mod_small; lia).
  replace (as_u32 base) with base by (unfold as_u32; rewrite Z.mod_small; lia).
  cbn [negb orb FrameNumber.new FrameNumber.index frame_index]. unfold_sizes. rewrite div_ceil_spec by lia.
  destruct (Z.eqb_spec len 0).
  { exists b. split_and!; try done. intros f Hf. zbool. }
  rewrite usize_add_ok, bind_lift by lia. unfold saturating_sub.
  destruct (Z.eqb_spec (Z.max ((base + len) / 4096 - (base + 4096 - 1) / 4096) 0) 0).
  { exists b. split_and!; try done. intros f Hf. zbool; zdiv. }
  edestruct (mark_free_ok b) as (b' & E & Hwf' & Hh & Hf); [done| | | |exists b'; split; [exact E|]];
    try (unfold_sizes; zdiv).
  split_and!; [done|lia|]. intros f Hf0. rewrite Hf by lia. f_equal. unfold in_run.
  apply eq_true_iff_eq. rewrite !andb_true_iff, !Z.leb_le, !Z.ltb_lt. zdiv.
Qed.

Lemma init_regions_ok (rs : list MemoryRegion) (b : FrameBitmap) :
  bitmap_wf b -> Forall region_below_limit rs ->
  exists b', for_in rs FrameBitmap.init_region b = (Ok tt, b') /\ bitmap_wf b' /\
    search_hint b' <= search_hint b /\
    forall f, 0 <= f < FRAME_COUNT ->
      frame_free b' f = existsb (fun r => region_frames r f) rs || frame_free b f.
Proof.
  intros Hwf Hrs. revert b Hwf. induction Hrs as [|r rs Hr Hrs IH]; intros b Hwf.
  { exists b. split_and!; done. }
  destruct (init_region_ok b r Hwf Hr) as (b1 & E1 & Hwf1 & Hh1 & Hf1).
  destruct (IH b1 Hwf1) as (b2 & E2 & Hwf2 & Hh2 & Hf2).
  exists b2. cbn [for_in existsb]. rewrite (bind_ok _ _ _ _ _ E1). split_and!; [done|done|lia|].
  intros f Hf. rewrite Hf2, Hf1 by done. by destruct (region_frames r f), (existsb _ rs).
Qed.

Lemma new_wf : bitmap_wf FrameBitmap.new.
Proof.
  split; cbn [FrameBitmap.new bitmap search_hint].
  - apply length_replicate.
  - apply Forall_replicate. lia.
  - unfold_sizes. lia.
Qed.

Lemma new_occupied (f : Z) : frame_free FrameBitmap.new f = false.
Proof.
  unfold frame_free, FrameBitmap.new. cbn [bitmap].
  destruct (replicate _ _ !! _) as [w|] eqn:E; [|apply Z.bits_0].
  apply lookup_replicate in E as [-> _]. apply Z.bits_0.
Qed.

(** What [init] does after its loop over the regions: frame 0 and the frames of the
    kernel image are occupied again. *)
Lemma init_reserves {I : KernelImage} (mmap : MemoryMap) (rs : list MemoryRegion) (b b1 : FrameBitmap) :
  MemoryMap.regions mmap = Ok rs -> for_in rs FrameBitmap.init_region b = (Ok tt, b1) -> bitmap_wf b1 ->
  0 <= kernel_phys_start <= kernel_phys_end -> kernel_phys_end < 2 ^ 32 ->
  exists b', FrameBitmap.init mmap b = (Ok tt, b') /\ bitmap_wf b' /\ search_hint b' = search_hint b1 /\
    forall f, 0 <= f < FRAME_COUNT -> frame_free b' f =
      negb ((kernel_phys_start <? (f + 1) * FRAME_SIZE) && (f * FRAME_SIZE <? kernel_phys_end)) &&
      negb (f =? 0) && frame_free b1 f.
Proof.
  intros Hrs E1 Hwf1 Hk Hk'. unfold FrameBitmap.init, kernel_phys_end_addr, kernel_phys_start_addr.
  rewrite <- (for_each_collect MemoryMap.next FrameBitmap.init_region _ _ _ _ Hrs) in E1.
  rewrite (bind_ok _ _ _ _ _ E1).
  destruct (reserve_bytes_ok b1 0 FRAME_SIZE Hwf1) as (b2 & E2 & Hwf2 & Hh2 & Hf2); try (unfold_sizes; lia).
  rewrite (bind_ok _ _ _ _ _ E2). rewrite usize_sub_ok, bind_lift by lia.
  destruct (reserve_bytes_ok b2 kernel_phys_start (kernel_phys_end - kernel_phys_start) Hwf2)
    as (b3 & E3 & Hwf3 & Hh3 & Hf3); try lia.
  exists b3. split_and!; [done|done|lia|]. intros f Hf. rewrite Hf3, Hf2 by lia.
  replace (kernel_phys_start + (kernel_phys_end - kernel_phys_start)) with kernel_phys_end by lia.
  rewrite <- andb_assoc. f_equal. f_equal. f_equal. unfold_sizes. zbool.
Qed.

(** [init]: the frames wholly inside available regions become free, except frame 0
    and the frames of the kernel image. *)
Lemma init_ok {I : KernelImage} (mmap : MemoryMap) (rs : list MemoryRegion) (b : FrameBitmap) :
  bitmap_wf b -> MemoryMap.regions mmap = Ok rs -> Forall region_below_limit rs ->
  0 <= kernel_phys_start <= kernel_phys_end -> kernel_phys_end < 2 ^ 32 ->
  exists b', FrameBitmap.init mmap b = (Ok tt, b') /\ bitmap_wf b' /\
    search_hint b' <= search_hint b /\
    forall f, 0 <= f < FRAME_COUNT -> frame_free b' f =
      negb ((kernel_phys_start <? (f + 1) * FRAME_SIZE) && (f * FRAME_SIZE <? kernel_phys_end)) &&
      negb (f =? 0) && (existsb (fun r => region_frames r f) rs || frame_free b f).
Proof.
  intros Hwf Hrs Hlim Hk Hk'. destruct (init_regions_ok rs b Hwf Hlim) as (b1 & E1 & Hwf1 & Hh1 & Hf1).
  destruct (init_reserves mmap rs b b1 Hrs E1 Hwf1 Hk Hk') as (b2 & E2 & Hwf2 & Hh2 & Hf2).
  exists b2. split_and!; [done|done|lia|]. intros f Hf. by rewrite Hf2, Hf1.
Qed.

(** From a packed state single-frame allocation takes the lowest free frame and
    leaves the state packed. *)
Lemma allocate_one_ok (b : FrameBitmap) :
  bitmap_wf b -> packed b ->
  (exists f b', FrameBitmap.allocate_one b = (Ok (Some (mkFrameRun (FrameNumber.new f) 1)), b') /\
    bitmap_wf b' /\ packed b' /\ 0 <= f < FRAME_COUNT /\ frame_free b f = true /\
    (forall g, 0 <= g < f -> frame_free b g = false) /\
    forall g, 0 <= g -> frame_free b' g = frame_free b g && negb (g =? f)) \/
  (FrameBitmap.allocate_one b = (Ok None, b) /\
   forall g, 0 <= g < FRAME_COUNT -> frame_free b g = false).
Proof.
  intros Hwf Hp. unfold FrameBitmap.allocate_one.
  assert (forall g, free_run b g 1 <-> 0 <= g < FRAME_COUNT /\ frame_free b g = true) as H1.
  { intros g. unfold free_run. split.
    - intros (? & ? & Hg). split; [lia|apply Hg; lia].
    - intros [? ?]. split_and!; [lia|lia|]. intros f ?. by replace f with g by lia. }
  destruct (allocate_ok b 1 Hwf ltac:(lia)) as (r & b' & E & Hwf' & Hr). destruct r as [run|].
  - left. destruct Hr as (Hl & Hrun & Hh & Hfirst & Hf).
    set (s := frame_index (run_start run)) in *.
    assert (forall g, 0 <= g < s -> frame_free b g = false) as Hlow.
    { intros g Hg. apply not_true_iff_false. intros Hfree. pose proof (proj1 (H1 s) Hrun) as [Hs _].
      assert (free_run b g 1) as Hg1 by (apply H1; split; [lia|done]).
      destruct Hfirst as [(_ & _ & Hmin)|(_ & _ & _ & Hmin)]; [|by apply (Hmin g)].
      destruct (Z.lt_ge_cases g (search_hint b * WORD_BITS)).
      - rewrite Hp in Hfree; [done|lia].
      - apply (Hmin g); [lia|done]. }
    assert (forall g, 0 <= g -> frame_free b' g = frame_free b g && negb (g =? s)) as Hf'.
    { intros g Hg. rewrite Hf, andb_comm by done. do 2 f_equal. unfold in_run. zbool. }
    exists s, b'. destruct (proj1 (H1 s) Hrun) as [Hs Hsf].
    split_and!; try done; try lia.
    + rewrite E. destruct run as [[i] len]. by simplify_eq/=.
    + intros g Hg. rewrite Hh in Hg. rewrite Hf' by lia.
      destruct (Z.eqb_spec g s); [apply andb_false_r|]. rewrite Hlow; [done|]. unfold_sizes. zdiv.
  - right. destruct Hr as [-> Hno]. split; [done|]. intros g Hg.
    apply not_true_iff_false. intros Hfree. apply (Hno g), H1. done.
Qed.

End lemmas.

(** ** Maps of any content *)

(** A region that reaches the limit: its end does not fit a [usize]. *)
Lemma init_region_at_limit (r : MemoryRegion) (b : FrameBitmap) :
  0 <= MemoryRegion.base r < 2 ^ 32 -> u64_range (MemoryRegion.length r) ->
  2 ^ 32 <= MemoryRegion.base r + MemoryRegion.length r -> MemoryRegion.is_available r = true ->
  @FrameBitmap.init_region release r b = (Ok tt, b) /\
  @FrameBitmap.init_region dev r b =
    ((if MemoryRegion.base r =? 0 then Ok tt else Panic ArithmeticOverflow), b).
Proof.
  intros Hb Hl Hlim Ha. unfold MemoryRegion.base, MemoryRegion.length in *.
  unfold FrameBitmap.init_region, MemoryRegion.addressable_bytes, MemoryRegion.LIMIT,
    MemoryRegion.base, saturating_add, u64_sub. rewrite Ha, (proj2 (Z.leb_gt _ _)) by lia.
  rewrite !arith_ok, !bind_lift by lia. cbn [negb orb].
  replace (Z.min _ (2 ^ 32) - region_base r) with (2 ^ 32 - region_base r) by lia.
  unfold as_u32, usize_add. rewrite (Z.mod_small (region_base r)) by lia.
  destruct (Z.eqb_spec (region_base r) 0) as [->|Hne]; [done|].
  rewrite Z.mod_small, (proj2 (Z.eqb_neq _ _)) by lia.
  replace (region_base r + (2 ^ 32 - region_base r)) with (2 ^ 32) by lia.
  split; [|done]. change (@arith release 32 (2 ^ 32)) with (@Ok Z 0). rewrite bind_lift.
  cbn [FrameNumber.index FrameNumber.new frame_index]. unfold saturating_sub, FRAME_SIZE.
  rewrite div_ceil_spec by lia.
  by rewrite (proj2 (Z.eqb_eq (Z.max (0 / 4096 - (region_base r + 4096 - 1) / 4096) 0) 0)) by zdiv.
Qed.

(** A loop is not changed by an element on which the body does nothing. *)
Lemma for_in_skip {S A} (l k : list A) (x : A) (f : A → M S unit) :
  (forall s, f x s = (Ok tt, s)) -> forall s, for_in (l ++ x :: k) f s = for_in (l ++ k) f s.
Proof.
  intros Hx. induction l as [|y l IH]; intros s; cbn [app for_in].
  - by rewrite (bind_ok _ _ _ _ _ (Hx s)).
  - unfold mbind, M_bind. destruct (f y s) as [[] s1]; done || apply IH.
Qed.

(** [init] on a map one of whose regions reaches the limit. *)
Lemma init_at_limit {I : KernelImage} (mmap : MemoryMap) (rs1 rs2 : list MemoryRegion) (r : MemoryRegion) (b : FrameBitmap) :
  bitmap_wf b -> (forall P, @MemoryMap.regions P mmap = Ok (rs1 ++ r :: rs2)) -> Forall region_below_limit (rs1 ++ rs2) ->
  0 < MemoryRegion.base r < 2 ^ 32 -> u64_range (MemoryRegion.length r) ->
  2 ^ 32 <= MemoryRegion.base r + MemoryRegion.length r -> MemoryRegion.is_available r = true ->
  0 <= kernel_phys_start <= kernel_phys_end -> kernel_phys_end < 2 ^ 32 ->
  (exists b', @FrameBitmap.init dev I mmap b = (Panic ArithmeticOverflow, b')) /\
  exists b', @FrameBitmap.init release I mmap b = (Ok tt, b') /\ bitmap_wf b' /\
    forall f, 0 <= f < FRAME_COUNT -> frame_free b' f =
      negb ((kernel_phys_start <? (f + 1) * FRAME_SIZE) && (f * FRAME_SIZE <? kernel_phys_end)) &&
      negb (f =? 0) && (existsb (fun r => region_frames r f) (rs1 ++ rs2) || frame_free b f).
Proof.
  intros Hwf Hrs Hlim Hb Hl Hend Ha Hk Hk'.
  assert (forall b, @FrameBitmap.init_region release r b = (Ok tt, b) /\
    @FrameBitmap.init_region dev r b = (Panic ArithmeticOverflow, b)) as Hr.
  { intros b1. destruct (init_region_at_limit r b1) as [Er Ed]; [lia|done..|]. split; [done|].
    by rewrite (proj2 (Z.eqb_neq _ _)) in Ed by lia. }
  split.
  - apply Forall_app in Hlim as [Hlim _]. destruct (@init_regions_ok dev rs1 b Hwf Hlim) as (b1 & E1 & _).
    exists b1. unfold FrameBitmap.init. apply bind_panic.
    rewrite (for_each_collect MemoryMap.next FrameBitmap.init_region _ _ _ _ (Hrs dev)), for_in_app.
    rewrite (bind_ok _ _ _ _ _ E1). cbn [for_in]. apply bind_panic, Hr.
  - destruct (@init_regions_ok release (rs1 ++ rs2) b Hwf Hlim) as (b1 & E1 & Hwf1 & _ & Hf1).
    rewrite <- (for_in_skip rs1 rs2 r) in E1 by apply Hr.
    destruct (@init_reserves release I mmap _ b b1 (Hrs release) E1 Hwf1 Hk Hk') as (b2 & E2 & Hwf2 & _ & Hf2).
    exists b2. split_and!; [done|done|]. intros f Hf. by rewrite Hf2, Hf1.
Qed.

(** In the [dev] profile every region is published, skipped, or ends in the overflow
    panic. *)
Lemma init_region_dev (r : MemoryRegion) (b : FrameBitmap) :
  bitmap_wf b -> u64_range (region_base r) /\ u64_range (region_length r) ->
  exists o b', @FrameBitmap.init_region dev r b = (o, b') /\ bitmap_wf b' /\ search_hint b' <= search_hint b /\
    (o = Ok tt \/ o = Panic ArithmeticOverflow) /\
    forall f, 0 <= f < FRAME_COUNT -> frame_free b' f = true -> region_frames r f || frame_free b f = true.
Proof.
  intros Hwf [Hb Hl]. destruct (MemoryRegion.is_available r) eqn:Ea; cycle 1.
  { destruct (@init_region_ok dev b r Hwf) as (b' & E & Hwf' & Hh & Hf); [split; [done|]; split; [done|]; by rewrite Ea|].
    exists (Ok tt), b'. split_and!; [done..|by left|]. intros f Hr. by rewrite Hf. }
  destruct (decide (2 ^ 32 <= region_base r + region_length r /\ region_base r < 2 ^ 32)) as [[H1 H2]|H].
  - destruct (init_region_at_limit r b) as [_ E]; unfold MemoryRegion.base, MemoryRegion.length; [lia..|done|].
    exists (if MemoryRegion.base r =? 0 then Ok tt else Panic ArithmeticOverflow), b. split_and!; [done|done|lia| |].
    + destruct (_ =? 0); auto.
    + intros f _ ->. apply orb_true_r.
  - destruct (@init_region_ok dev b r Hwf) as (b' & E & Hwf' & Hh & Hf).
    + split_and!; unfold MemoryRegion.base, MemoryRegion.length, MemoryRegion.LIMIT in *; lia.
    + exists (Ok tt), b'. split_and!; [done..|by left|]. intros f Hr. by rewrite Hf.
Qed.

Lemma init_walk_dev (m : MemoryMap) (n : nat) (b : FrameBitmap) :
  Forall (fun x => 0 <= x < 2 ^ 8) (map_buf m) -> 0 <= map_offset m -> bitmap_wf b ->
  (exists l, collect (@MemoryMap.next dev) n m = Ok l) \/ collect (@MemoryMap.next dev) n m = Panic ArithmeticOverflow ->
  exists o b', for_each (@MemoryMap.next dev) (@FrameBitmap.init_region dev) n m b = (o, b') /\
    bitmap_wf b' /\ search_hint b' <= search_hint b /\ (o = Ok tt \/ o = Panic ArithmeticOverflow) /\
    forall l f, collect (@MemoryMap.next dev) n m = Ok l -> 0 <= f < FRAME_COUNT -> frame_free b' f = true ->
      existsb (fun r => region_frames r f) l || frame_free b f = true.
Proof.
  revert m b. induction n as [|n IH]; intros m b Hbytes Hoff Hwf Hends; [by destruct Hends as [[? ?]|?]|].
  rewrite collect_S in Hends. rewrite for_each_S.
  destruct (@next_cases dev m Hbytes Hoff) as [[_ E]|(_ & e & He & Hb & Hl & E)]; rewrite E in Hends |- *.
  { rewrite bind_lift. exists (Ok tt), b. split_and!; [done|done|lia|by left|]. intros l f _ _ ->. apply orb_true_r. }
  unfold usize_add in *. destruct (Z.lt_ge_cases (entry_size e + 4) (2 ^ 32)) as [Hs|Hs]; cycle 1.
  { rewrite collect_S, E, arith_overflow_dev by lia. exists (Panic ArithmeticOverflow), b. by split_and!; [..|lia|right|]. }
  rewrite collect_S, E. rewrite arith_ok in * by lia. rewrite !ok_bind in *. rewrite bind_lift.
  destruct (init_region_dev (region_of e) b Hwf (conj Hb Hl)) as (o & b1 & E1 & Hwf1 & Hh1 & [-> | ->] & Hf1); cycle 1.
  { exists (Panic ArithmeticOverflow), b1. rewrite (bind_panic _ _ _ _ _ E1). split_and!; [done|done|lia|by right|].
    intros l f Hc Hr Hf. destruct (collect _ n _) as [l'| |]; simplify_eq/=.
    specialize (Hf1 f Hr Hf). rewrite <- orb_assoc, (orb_comm (existsb _ _)), orb_assoc, Hf1. done. }
  rewrite (bind_ok _ _ _ _ _ E1).
  match goal with |- context [for_each _ _ n ?m1 b1] => edestruct (IH m1 b1) as (o & b2 & E2 & Hwf2 & Hh2 & Ho & Hf2) end;
    [done|cbn [map_offset]; unfold saturating_add; lia|done| |].
  - destruct (collect _ n _) as [l| |]; [left; by exists l|right|]; destruct Hends as [[l' H]|H]; by simplify_eq/=.
  - exists o, b2. split_and!; [done|done|lia|done|]. intros l f Hc Hr Hf.
    destruct (collect _ n _) as [l'| |]; simplify_eq/=. specialize (Hf2 l' f eq_refl Hr Hf).
    destruct (existsb _ l'); [by rewrite orb_true_r|]. cbn [orb] in *. rewrite orb_false_r. by apply Hf1.
Qed.

(** [init] on a fresh allocator, in the [dev] profile and for any bytes: it ends, and
    if it returns no frame of the kernel image is free and none that no region offers. *)
Lemma init_dev {I : KernelImage} {HI : ImageOk I} (m : MemoryMap) :
  Forall (fun x => 0 <= x < 2 ^ 8) (map_buf m) -> map_offset m = 0 ->
  Z.of_nat (length (map_buf m)) < 2 ^ 32 ->
  exists o b', @FrameBitmap.init dev I m FrameBitmap.new = (o, b') /\
    (o = Panic ArithmeticOverflow \/
     o = Ok tt /\ bitmap_wf b' /\ packed b' /\ frame_free b' 0 = false /\
     (forall f, kernel_phys_start <= f * FRAME_SIZE < kernel_phys_end -> frame_free b' f = false) /\
     forall rs f, @MemoryMap.regions dev m = Ok rs -> 0 <= f < FRAME_COUNT -> frame_free b' f = true ->
       existsb (fun r => region_frames r f) rs = true).
Proof.
  intros Hbytes Hoff Hlen. destruct HI. unfold KERNEL_VIRTUAL_BASE in *.
  destruct (init_walk_dev m (MemoryMap.fuel m) FrameBitmap.new Hbytes ltac:(lia) new_wf)
    as (o & b1 & E1 & Hwf1 & Hh1 & Ho & Hf1).
  { unfold MemoryMap.fuel. set (n := Z.of_nat (length (map_buf m))) in *.
    replace (Z.to_nat (n / 4 + 2)) with (S (Z.to_nat (n / 4 + 1))) by zdiv.
    apply collect_ends; try done; [lia|fold n; rewrite Hoff; zdiv]. }
  unfold FrameBitmap.init, kernel_phys_end_addr, kernel_phys_start_addr. destruct Ho as [-> | ->]; cycle 1.
  { exists (Panic ArithmeticOverflow), b1. by rewrite (bind_panic _ _ _ _ _ E1); auto. }
  rewrite (bind_ok _ _ _ _ _ E1).
  destruct (@reserve_bytes_ok dev b1 0 FRAME_SIZE Hwf1) as (b2 & E2 & Hwf2 & Hh2 & Hf2); try (unfold_sizes; lia).
  rewrite (bind_ok _ _ _ _ _ E2). rewrite usize_sub_ok, bind_lift by lia.
  destruct (@reserve_bytes_ok dev b2 kernel_phys_start (kernel_phys_end - kernel_phys_start) Hwf2)
    as (b3 & E3 & Hwf3 & Hh3 & Hf3); try lia.
  exists (Ok tt), b3. split; [exact E3|]. right. split_and!; [done|done| | | |].
  - intros f Hf. cbn [FrameBitmap.new search_hint] in Hh1. unfold_sizes. lia.
  - rewrite Hf3, Hf2 by (unfold_sizes; lia). cbn [andb negb]. unfold_sizes. by rewrite andb_false_r.
  - intros f Hf. rewrite Hf3 by (unfold_sizes; lia).
    rewrite !(proj2 (Z.ltb_lt _ _)) by (unfold_sizes; lia). done.
  - intros rs f Hrs Hr Hf. rewrite Hf3, Hf2 in Hf by lia. apply andb_prop in Hf as [_ [_ Hf]%andb_prop].
    specialize (Hf1 rs f Hrs Hr Hf). by rewrite new_occupied, orb_false_r in Hf1.
Qed.
