(* ===== verification/FrameSpec.v ===== *)
(** * The contract of the frame allocator

    The allocator as an abstract machine: a set of free frames and the runs its
    clients hold.  The bitmap implements it step by step (a forward simulation
    along any sequence of calls), and the ownership discipline is proved of the
    abstract machine by induction on its steps. *)

From S2P Require Import Prelude Rust Bits Address Layout Multiboot Frame.

(** ** The abstract machine *)

Definition frames (s n : Z) : gset Z := list_to_set (seqZ s n).

Definition run_frames (r : FrameRun) : gset Z := frames (frame_index (run_start r)) (run_len r).

(** What a client of the allocator does: a [FrameRun] has no public constructor and
    is consumed by [free], so only runs it holds are freed. *)
Inductive event :=
  | Allocate (count : Z) (result : option FrameRun)
  | Free (run : FrameRun).

Inductive spec_step : gset Z * list FrameRun → event → gset Z * list FrameRun → Prop :=
  | spec_allocate F live count run :
      0 < count → run_len run = count → run_frames run ⊆ F →
      spec_step (F, live) (Allocate count (Some run)) (F ∖ run_frames run, run :: live)
  | spec_exhausted F live count :
      0 < count → (∀ s, ¬ frames s count ⊆ F) →
      spec_step (F, live) (Allocate count None) (F, live)
  | spec_free F live1 run live2 :
      spec_step (F, live1 ++ run :: live2) (Free run) (F ∪ run_frames run, live1 ++ live2).

(** ** The concrete machine: calls of the model's methods *)

Inductive step `{BuildProfile} : FrameBitmap * list FrameRun → event → FrameBitmap * list FrameRun → Prop :=
  | step_allocate b b' live count run :
      0 < count → FrameBitmap.allocate count b = (Ok (Some run), b') →
      step (b, live) (Allocate count (Some run)) (b', run :: live)
  | step_exhausted b b' live count :
      0 < count → FrameBitmap.allocate count b = (Ok None, b') →
      step (b, live) (Allocate count None) (b', live)
  | step_free b b' live1 run live2 :
      FrameBitmap.free run b = (Ok tt, b') →
      step (b, live1 ++ run :: live2) (Free run) (b', live1 ++ live2).

(** Sequences of labelled steps. *)
Inductive steps {S E} (R : S → E → S → Prop) : S → list E → S → Prop :=
  | steps_nil s : steps R s [] s
  | steps_cons s e s' es s'' : R s e s' → steps R s' es s'' → steps R s (e :: es) s''.

(** The free set a bitmap represents. *)
Definition free_set (b : FrameBitmap) : gset Z :=
  list_to_set (filter (fun f => frame_free b f = true) (seqZ 0 FRAME_COUNT)).

Fixpoint disjoint_runs (live : list FrameRun) : Prop :=
  match live with
  | [] => True
  | r :: live => (∀ r', r' ∈ live → run_frames r ## run_frames r') ∧ disjoint_runs live
  end.

(** Held runs are disjoint from each other and from the free set, and together
    they make up the frames [F0] the machine started with. *)
Record owned (F0 : gset Z) (st : gset Z * list FrameRun) : Prop := {
  owned_disjoint : disjoint_runs st.2;
  owned_free : ∀ r, r ∈ st.2 → run_frames r ## st.1;
  owned_all : ∀ f, f ∈ F0 ↔ f ∈ st.1 ∨ ∃ r, r ∈ st.2 ∧ f ∈ run_frames r;
  owned_pos : ∀ r, r ∈ st.2 → 0 < run_len r
}.

Lemma elem_of_frames (s n f : Z) : f ∈ frames s n ↔ s <= f < s + n.
Proof. unfold frames. by rewrite elem_of_list_to_set, elem_of_seqZ. Qed.

Lemma elem_of_free_set (b : FrameBitmap) (f : Z) :
  f ∈ free_set b ↔ 0 <= f < FRAME_COUNT ∧ frame_free b f = true.
Proof.
  unfold free_set. rewrite elem_of_list_to_set, list_elem_of_filter, elem_of_seqZ.
  split; [naive_solver lia|]. intros [? ?]. split; [done|lia].
Qed.

Lemma in_run_frames (s n f : Z) : in_run s n f = true ↔ f ∈ frames s n.
Proof. rewrite elem_of_frames. unfold in_run. rewrite andb_true_iff, Z.leb_le, Z.ltb_lt. lia. Qed.

Lemma free_run_frames (b : FrameBitmap) (s n : Z) :
  0 < n → frames s n ⊆ free_set b ↔ free_run b s n.
Proof.
  intros Hn. split.
  - intros Hsub. assert (∀ f, s <= f < s + n → 0 <= f < FRAME_COUNT ∧ frame_free b f = true) as Hf.
    { intros f ?. by apply elem_of_free_set, Hsub, elem_of_frames. }
    split_and!; [apply Hf; lia| |].
    + destruct (Hf (s + n - 1)); lia.
    + intros f ?. by apply Hf.
  - intros (H1 & H2 & H3) f Hf. apply elem_of_frames in Hf. apply elem_of_free_set.
    split; [lia|auto].
Qed.

(** ** Ownership, by induction on the abstract steps *)

#[global] Instance disjoint_runs_perm : Proper ((≡ₚ) ==> iff) disjoint_runs.
Proof.
  intros l l' Hp. induction Hp as [|r l l' Hp IH|r r' l|l l' l'' _ IH1 _ IH2]; simpl.
  - done.
  - rewrite IH. by setoid_rewrite Hp.
  - setoid_rewrite elem_of_cons. split; intros (H1 & H2 & H3); split_and!; auto.
    all: intros q [->|Hq]; auto; symmetry; auto.
  - by rewrite IH1.
Qed.

#[global] Instance owned_perm F0 F : Proper ((≡ₚ) ==> iff) (λ live, owned F0 (F, live)).
Proof.
  assert (∀ l l', l ≡ₚ l' → owned F0 (F, l) → owned F0 (F, l')) as Himp.
  { intros l l' Hp [H1 H2 H3 H4]. simpl in *. split; simpl.
    - by rewrite <- Hp.
    - intros r. rewrite <- Hp. auto.
    - setoid_rewrite <- Hp. done.
    - intros r. rewrite <- Hp. auto. }
  intros l l' Hp. split; apply Himp; by rewrite ?Hp.
Qed.

Lemma owned_init (F0 : gset Z) : owned F0 (F0, []).
Proof. split; simpl; set_solver. Qed.

Lemma spec_step_owned F0 st e st' : owned F0 st → spec_step st e st' → owned F0 st'.
Proof.
  intros Hst Hstep. destruct Hstep as [F live count run Hc Hl Hsub|F live count _ _|F live1 run live2].
  - destruct Hst as [H1 H2 H3 H4]. split; simpl in *.
    + split; [|done]. intros r Hr. specialize (H2 r Hr). set_solver.
    + intros r [->|Hr]%elem_of_cons; [set_solver|]. specialize (H2 r Hr). set_solver.
    + intros f. rewrite H3, elem_of_difference. setoid_rewrite elem_of_cons.
      destruct (decide (f ∈ run_frames run)); set_solver.
    + intros r [->|Hr]%elem_of_cons; [lia|auto].
  - done.
  - apply (owned_perm F0 F _ _ (Permutation_middle live1 live2 run)) in Hst.
    destruct Hst as [[H1 H1'] H2 H3 H4]. simpl in *. split; simpl.
    + done.
    + intros r Hr. specialize (H1 r Hr). specialize (H2 r). set_solver.
    + intros f. rewrite H3. setoid_rewrite elem_of_cons. set_solver.
    + intros r Hr. apply H4. set_solver.
Qed.

Lemma spec_steps_owned F0 st es st' : owned F0 st → steps spec_step st es st' → owned F0 st'.
Proof. intros Hst Hs. induction Hs; eauto using spec_step_owned. Qed.

(** ** The bitmap simulates the abstract machine *)

Section simulation.
Context {P : BuildProfile}.

Lemma free_set_allocate (b b' : FrameBitmap) (run : FrameRun) :
  (∀ f, 0 <= f → frame_free b' f =
     negb (in_run (frame_index (run_start run)) (run_len run) f) && frame_free b f) →
  free_set b' = free_set b ∖ run_frames run.
Proof.
  intros H. apply set_eq. intros f. unfold run_frames.
  rewrite elem_of_difference, !elem_of_free_set, <- in_run_frames.
  split; intros Hf; rewrite H, andb_true_iff, negb_true_iff in * by lia;
    rewrite <- ?not_true_iff_false in *; naive_solver.
Qed.

Lemma free_set_free (b b' : FrameBitmap) (run : FrameRun) :
  let s := frame_index (run_start run) in
  0 <= s → s + run_len run <= FRAME_COUNT →
  (∀ f, 0 <= f → frame_free b' f = in_run s (run_len run) f || frame_free b f) →
  free_set b' = free_set b ∪ run_frames run.
Proof.
  intros s Hs Hl H. apply set_eq. intros f. unfold run_frames. fold s.
  rewrite elem_of_union, !elem_of_free_set. split.
  - intros [Hf Hff]. rewrite H, orb_true_iff, in_run_frames in Hff by lia. naive_solver.
  - intros Hf. assert (0 <= f < FRAME_COUNT) as Hr
      by (destruct Hf as [[? _]|Hf]; [done|apply elem_of_frames in Hf; lia]).
    split; [done|]. rewrite H, orb_true_iff, in_run_frames by lia. naive_solver.
Qed.

(** A held run lies inside the bitmap. *)
Lemma owned_in_range (b0 : FrameBitmap) F live run :
  owned (free_set b0) (F, live) → run ∈ live →
  0 < run_len run ∧ 0 <= frame_index (run_start run) ∧
  frame_index (run_start run) + run_len run <= FRAME_COUNT.
Proof.
  intros [_ _ Hall Hpos] Hr. specialize (Hpos run Hr). simpl in *.
  assert (∀ f, f ∈ run_frames run → 0 <= f < FRAME_COUNT) as Hf.
  { intros f Hf. apply (elem_of_free_set b0 f), Hall. eauto. }
  unfold run_frames in Hf. setoid_rewrite elem_of_frames in Hf.
  pose proof (Hf (frame_index (run_start run))).
  pose proof (Hf (frame_index (run_start run) + run_len run - 1)). lia.
Qed.

(** A held run is occupied. *)
Lemma owned_occupied (b0 b : FrameBitmap) live run f :
  owned (free_set b0) (free_set b, live) → run ∈ live →
  frame_index (run_start run) <= f < frame_index (run_start run) + run_len run →
  frame_free b f = false.
Proof.
  intros Hown Hr Hf. destruct (owned_in_range _ _ _ _ Hown Hr) as (? & ? & ?).
  apply not_true_iff_false. intros Hff.
  apply (owned_free _ _ Hown run Hr f); simpl.
  - by apply elem_of_frames.
  - apply elem_of_free_set. split; [lia|done].
Qed.

Lemma step_sim (b0 b b' : FrameBitmap) live e live' :
  bitmap_wf b → owned (free_set b0) (free_set b, live) → step (b, live) e (b', live') →
  bitmap_wf b' ∧ spec_step (free_set b, live) e (free_set b', live').
Proof.
  intros Hwf Hown Hstep. inversion Hstep as [? ? ? count run Hc E|? ? ? count Hc E|? ? l1 run l2 E]; subst.
  - destruct (allocate_ok b count Hwf Hc) as (r & b1 & E1 & Hwf1 & Hr).
    rewrite E1 in E. simplify_eq. destruct Hr as (Hl & Hrun & _ & _ & Hf). split; [done|].
    rewrite (free_set_allocate b b' run) by (by rewrite Hl).
    constructor; [done|done|]. unfold run_frames. rewrite Hl. by apply free_run_frames.
  - destruct (allocate_ok b count Hwf Hc) as (r & b1 & E1 & Hwf1 & Hr).
    rewrite E1 in E. simplify_eq. destruct Hr as [-> Hno]. split; [done|].
    constructor; [done|]. intros s Hs. apply (Hno s). by apply free_run_frames.
  - destruct (owned_in_range _ _ _ run Hown) as (Hl & Hs & Hc); [set_solver|].
    destruct (free_ok b run Hwf Hs) as [[_ E1]|(_ & b1 & E1 & Hwf1 & _ & Hf)]; try lia;
      rewrite E1 in E; simplify_eq.
    split; [done|]. rewrite (free_set_free b b' run) by done. constructor.
Qed.

Lemma steps_sim (b0 : FrameBitmap) st es st' :
  steps step st es st' → bitmap_wf st.1 → owned (free_set b0) (free_set st.1, st.2) →
  bitmap_wf st'.1 ∧ owned (free_set b0) (free_set st'.1, st'.2) ∧
  steps spec_step (free_set st.1, st.2) es (free_set st'.1, st'.2).
Proof.
  induction 1 as [st|[b live] e [b' live'] es st'' Hstep Hsteps IH]; intros Hwf Hown; simpl in *.
  { split_and!; [done|done|constructor]. }
  destruct (step_sim b0 b b' live e live' Hwf Hown Hstep) as [Hwf' Hspec].
  destruct IH as (? & ? & ?); [done|by eapply spec_step_owned|].
  split_and!; [done|done|by econstructor].
Qed.

End simulation.

(** ** What the allocator guarantees *)

(** A small machine: frames 4 to 31 free. *)
Definition sample_bitmap : FrameBitmap :=
  {| bitmap := 0xFFFFFFF0 :: replicate (Z.to_nat 32767) 0; search_hint := 0 |}.

Lemma sample_bitmap_wf : bitmap_wf sample_bitmap.
Proof.
  split; cbn [sample_bitmap bitmap search_hint].
  - cbn [length]. rewrite length_replicate. unfold_sizes. lia.
  - constructor; [lia|]. apply Forall_replicate. lia.
  - unfold_sizes. lia.
Qed.

Definition sample_run : FrameRun := mkFrameRun (FrameNumber.new 4) 3.

Lemma sample_steps :
  steps (@step dev) (sample_bitmap, [])
    [Allocate 3 (Some sample_run)]
    ((@FrameBitmap.allocate dev 3 sample_bitmap).2, [sample_run]).
Proof.
  econstructor; [|constructor]. apply (@step_allocate dev); [lia|].
  apply pair_fst_eq. vm_compute. reflexivity.
Qed.

(** C3: Refinement: along any sequence of [allocate] and [free] calls, the bitmap's
    free set and the runs handed out move exactly as the abstract allocator's,
    which takes some free run of the requested length when one exists, reports
    exhaustion only when none does, and returns freed runs to the set. *)
Theorem allocator_refines_spec `{BuildProfile} (b0 b : FrameBitmap) (es : list event)
    (live : list FrameRun) :
  bitmap_wf b0 → steps step (b0, []) es (b, live) →
  bitmap_wf b ∧ steps spec_step (free_set b0, []) es (free_set b, live).
Proof.
  intros Hwf Hs. destruct (steps_sim b0 _ _ _ Hs Hwf (owned_init _)) as (? & _ & ?). done.
Qed.

Lemma allocator_refines_spec_witness :
  let b := (@FrameBitmap.allocate dev 3 sample_bitmap).2 in
  bitmap_wf b ∧
  steps spec_step (free_set sample_bitmap, []) [Allocate 3 (Some sample_run)] (free_set b, [sample_run]).
Proof.
  exact (@allocator_refines_spec dev sample_bitmap _ _ _ sample_bitmap_wf sample_steps).
Defined.

(** C4: Ownership: in every state reached from a fresh allocator, the runs held by
    clients are pairwise disjoint, none of their frames is free, and held and free
    frames together are exactly the frames that were free at the start: no frame
    is handed out twice, leaked by the allocator, or handed out unpublished. *)
Theorem allocator_ownership `{BuildProfile} (b0 b : FrameBitmap) (es : list event)
    (live : list FrameRun) :
  bitmap_wf b0 → steps step (b0, []) es (b, live) → owned (free_set b0) (free_set b, live).
Proof.
  intros Hwf Hs. by destruct (steps_sim b0 _ _ _ Hs Hwf (owned_init _)) as (_ & ? & _).
Qed.

Lemma allocator_ownership_witness :
  owned (free_set sample_bitmap)
    (free_set (@FrameBitmap.allocate dev 3 sample_bitmap).2, [sample_run]).
Proof.
  exact (@allocator_ownership dev sample_bitmap _ _ _ sample_bitmap_wf sample_steps).
Defined.

(** A held run is occupied, so freeing it does not trip the double-free check. *)
Lemma held_run_freed `{BuildProfile} (b0 b : FrameBitmap) (live : list FrameRun) (run : FrameRun) :
  bitmap_wf b → owned (free_set b0) (free_set b, live) → run ∈ live → ∃ b', FrameBitmap.free run b = (Ok tt, b').
Proof.
  intros Hwf Hown Hr. destruct (owned_in_range _ _ _ run Hown Hr) as (Hl & H0 & Hc).
  destruct (free_ok b run Hwf H0) as [[(f & Hf & Hff) _]|(_ & b' & E & _)]; [lia|done| |eauto].
  by rewrite (owned_occupied b0 b live run f Hown Hr Hf) in Hff.
Qed.

(** C19: Progress: in every reachable state an allocation of any size returns, with a
    run or [None] and never a panic, and every held run can be freed without
    tripping the double-free check. *)
Theorem allocator_progress `{BuildProfile} (b0 b : FrameBitmap) (es : list event)
    (live : list FrameRun) :
  bitmap_wf b0 → steps step (b0, []) es (b, live) →
  (∀ count, 0 < count → ∃ r b', FrameBitmap.allocate count b = (Ok r, b')) ∧
  (∀ run, run ∈ live → ∃ b', FrameBitmap.free run b = (Ok tt, b')).
Proof.
  intros Hwf0 Hs. destruct (steps_sim b0 _ _ _ Hs Hwf0 (owned_init _)) as (Hwf & Hown & _).
  simpl in *. split.
  - intros count Hc. destruct (allocate_ok b count Hwf Hc) as (r & b' & E & _). eauto.
  - intros run Hr. by apply (held_run_freed b0 b live).
Qed.

Lemma allocator_progress_witness :
  let b := (@FrameBitmap.allocate dev 3 sample_bitmap).2 in
  (∀ count, 0 < count → ∃ r b', @FrameBitmap.allocate dev count b = (Ok r, b')) ∧
  (∀ run, run ∈ [sample_run] → ∃ b', @FrameBitmap.free dev run b = (Ok tt, b')).
Proof.
  exact (@allocator_progress dev sample_bitmap _ _ _ sample_bitmap_wf sample_steps).
Defined.

(** C20: [allocate] on every branch: [None], with the allocator untouched, exactly when
    no run of [count] free frames exists; otherwise a run of exactly [count] frames,
    all free before and occupied after, the other frames untouched, and the hint is past
    it.  The run is the first that starts at the word of the search hint or after it; when
    none starts there, it is the first of all. *)
Theorem allocate_spec `{BuildProfile} (b : FrameBitmap) (count : Z) :
  bitmap_wf b → 0 < count →
  ∃ r b', FrameBitmap.allocate count b = (Ok r, b') ∧ bitmap_wf b' ∧
    match r with
    | None => b' = b ∧ ∀ s, ¬ free_run b s count
    | Some run =>
        let s := frame_index (run_start run) in
        run_len run = count ∧ free_run b s count ∧
        search_hint b' = (s + count) / WORD_BITS ∧
        (∀ f, 0 <= f → frame_free b' f = negb (in_run s count f) && frame_free b f) ∧
        let hint := search_hint b * WORD_BITS in
        (hint <= s ∧ (∀ s', free_run b s' count → hint <= s' → s <= s') ∨
         (∀ s', free_run b s' count → s' < hint ∧ s <= s'))
    end.
Proof.
  intros Hwf Hc. destruct (allocate_ok b count Hwf Hc) as (r & b' & E & Hwf' & Hr).
  exists r, b'. split_and!; [done|done|]. destruct r as [run|]; [|done].
  destruct Hr as (Hl & Hrun & Hh & Hfirst & Hf). split_and!; try done.
  destruct Hfirst as [(Hle & _ & Hmin)|(Hnone & _ & _ & Hmin)]; [left|right].
  - split; [done|]. intros s' Hs' Hge. apply Z.nlt_ge. intros Hlt. by apply (Hmin s').
  - intros s' Hs'. split.
    + apply Z.nle_gt. intros Hge. by apply (Hnone s').
    + apply Z.nlt_ge. intros Hlt. apply (Hmin s'); [|done]. destruct Hs' as [? _]. lia.
Qed.

Lemma allocate_spec_witness :
  ∃ r b', @FrameBitmap.allocate dev 3 sample_bitmap = (Ok r, b') ∧ bitmap_wf b' ∧
    match r with
    | None => b' = sample_bitmap ∧ ∀ s, ¬ free_run sample_bitmap s 3
    | Some run =>
        let s := frame_index (run_start run) in
        run_len run = 3 ∧ free_run sample_bitmap s 3 ∧
        search_hint b' = (s + 3) / WORD_BITS ∧
        (∀ f, 0 <= f → frame_free b' f = negb (in_run s 3 f) && frame_free sample_bitmap f) ∧
        let hint := search_hint sample_bitmap * WORD_BITS in
        (hint <= s ∧ (∀ s', free_run sample_bitmap s' 3 → hint <= s' → s <= s') ∨
         (∀ s', free_run sample_bitmap s' 3 → s' < hint ∧ s <= s'))
    end.
Proof. apply (@allocate_spec dev sample_bitmap 3 sample_bitmap_wf). lia. Defined.

(** C21: Double free: freeing a run any frame of which is free panics with the
    allocator exactly as it was, before a single bit is flipped. *)
Theorem double_free_refused `{BuildProfile} (b : FrameBitmap) (run : FrameRun) (f : Z) :
  bitmap_wf b → 0 <= frame_index (run_start run) →
  frame_index (run_start run) + run_len run <= FRAME_COUNT →
  frame_index (run_start run) <= f < frame_index (run_start run) + run_len run →
  frame_free b f = true →
  FrameBitmap.free run b = (Panic (Message "double free of physical frames"), b).
Proof.
  intros Hwf Hs Hc Hf Hff. destruct (free_ok b run Hwf Hs) as [[_ E]|[Hno _]]; [lia|done|done|].
  by rewrite Hno in Hff.
Qed.

Lemma double_free_refused_witness :
  @FrameBitmap.free dev sample_run sample_bitmap =
  (Panic (Message "double free of physical frames"), sample_bitmap).
Proof.
  apply (@double_free_refused dev sample_bitmap sample_run 5 sample_bitmap_wf);
    unfold FRAME_COUNT; simpl; try lia. vm_compute. reflexivity.
Defined.

(** C24: Freeing what was allocated restores the free set frame by frame, and the
    search hint never rises above the freed run. *)
Theorem allocate_free_roundtrip `{BuildProfile} (b b1 : FrameBitmap) (count : Z) (run : FrameRun) :
  bitmap_wf b → 0 < count → FrameBitmap.allocate count b = (Ok (Some run), b1) →
  ∃ b2, FrameBitmap.free run b1 = (Ok tt, b2) ∧ bitmap_wf b2 ∧
    (∀ f, 0 <= f → frame_free b2 f = frame_free b f) ∧
    search_hint b2 * WORD_BITS <= frame_index (run_start run).
Proof.
  intros Hwf Hc E. destruct (allocate_ok b count Hwf Hc) as (r & b' & E' & Hwf1 & Hr).
  rewrite E in E'. simplify_eq. destruct Hr as (Hl & (Hs & Hle & Hrun) & _ & _ & Hf).
  destruct (free_ok b' run Hwf1) as [[(f & Hfr & Hff) _]|(_ & b2 & E2 & Hwf2 & Hh & Hf2)]; try lia.
  - rewrite Hf in Hff by lia. unfold in_run in Hff. exfalso. revert Hff. rewrite <- Hl. zbool.
  - exists b2. split_and!; [done|done| |rewrite Hh; unfold_sizes; zdiv].
    intros f Hf0. rewrite Hf2, Hf, <- Hl by done.
    destruct (in_run _ _ f) eqn:Ei; [|done]. symmetry. apply Hrun. unfold in_run in Ei. bprop. lia.
Qed.

Lemma allocate_free_roundtrip_witness :
  let b1 := (@FrameBitmap.allocate dev 3 sample_bitmap).2 in
  ∃ b2, @FrameBitmap.free dev sample_run b1 = (Ok tt, b2) ∧ bitmap_wf b2 ∧
    (∀ f, 0 <= f → frame_free b2 f = frame_free sample_bitmap f) ∧
    search_hint b2 * WORD_BITS <= frame_index (run_start sample_run).
Proof.
  apply (@allocate_free_roundtrip dev sample_bitmap _ 3 sample_run sample_bitmap_wf ltac:(lia)).
  apply pair_fst_eq. vm_compute. reflexivity.
Defined.

(** ** The interface to the paging code

    What [paging::init] relies on: single frames are handed out lowest first, and never
    frame 0, whose address is the null pointer. *)
Class FrameSource (A : Type) := {
  fs_allocate_one : BuildProfile → M A (option FrameRun);
  fs_free : A → Z → bool;
  fs_ok : A → Prop;
  fs_not_null : ∀ a, fs_ok a → fs_free a 0 = false;
  fs_allocate_one_ok : ∀ (P : BuildProfile) (a : A), fs_ok a →
    (∃ f a', fs_allocate_one P a = (Ok (Some (mkFrameRun (FrameNumber.new f) 1)), a') ∧
      fs_ok a' ∧ 0 <= f < FRAME_COUNT ∧ fs_free a f = true ∧
      (∀ g, 0 <= g < f → fs_free a g = false) ∧
      ∀ g, 0 <= g → fs_free a' g = fs_free a g && negb (g =? f)) ∨
    (fs_allocate_one P a = (Ok None, a) ∧ ∀ g, 0 <= g < FRAME_COUNT → fs_free a g = false)
}.

#[global] Instance FrameBitmap_source : FrameSource FrameBitmap.
Proof.
  refine {|
    fs_allocate_one P := FrameBitmap.allocate_one;
    fs_free := frame_free;
    fs_ok b := bitmap_wf b ∧ packed b ∧ frame_free b 0 = false
  |}.
  { by intros b (_ & _ & H0). }
  intros P b (Hwf & Hp & H0).
  destruct (allocate_one_ok b Hwf Hp) as [(f & b' & E & ? & ? & ? & ? & ? & Hnew)|[E ?]]; [left|by right].
  exists f, b'. split; [done|]. split; [|done]. split_and!; [done|done|]. rewrite Hnew by lia. by rewrite H0.
Defined.

(** Single-frame allocation packs memory: from a state with no free frame below
    the search word, [allocate_one] returns the lowest free frame of all, clears
    only its bit and keeps the state packed; it fails only when no frame is free. *)
Lemma allocate_one_lowest `{BuildProfile} (b : FrameBitmap) :
  bitmap_wf b → packed b →
  ∃ r b', FrameBitmap.allocate_one b = (Ok r, b') ∧ bitmap_wf b' ∧ packed b' ∧
    match r with
    | Some run =>
        let f := frame_index (run_start run) in
        run_len run = 1 ∧ f ∈ free_set b ∧ (∀ g, g ∈ free_set b → f <= g) ∧
        free_set b' = free_set b ∖ {[f]}
    | None => b' = b ∧ free_set b = ∅
    end.
Proof.
  intros Hwf Hp. destruct (allocate_one_ok b Hwf Hp)
    as [(f & b' & E & Hwf' & Hp' & Hf & Hfree & Hlow & Hnew)|[E Hno]].
  - eexists _, b'. split_and!; [done|done|done|]. simpl. split_and!; [done|by apply elem_of_free_set| |].
    + intros g [Hg Hgf]%elem_of_free_set. apply Z.nlt_ge. intros ?. rewrite Hlow in Hgf; [done|lia].
    + apply set_eq. intros g. rewrite elem_of_difference, elem_of_singleton, !elem_of_free_set.
      split; intros Hg; rewrite Hnew, andb_true_iff, negb_true_iff, Z.eqb_neq in * by lia; naive_solver.
  - exists None, b. split_and!; try done. apply set_eq. intros g.
    rewrite elem_of_free_set. split; [|set_solver]. intros [Hg Hgf]. by rewrite Hno in Hgf.
Qed.

(** ** Building the picture of usable memory *)

(** The frames [init] publishes on a fresh allocator, from its equation. *)
Lemma published_frames {I : KernelImage} (rs : list MemoryRegion) (b : FrameBitmap) :
  (∀ f, 0 <= f < FRAME_COUNT → frame_free b f =
    negb ((kernel_phys_start <? (f + 1) * FRAME_SIZE) && (f * FRAME_SIZE <? kernel_phys_end)) &&
    negb (f =? 0) && (existsb (fun r => region_frames r f) rs || frame_free FrameBitmap.new f)) →
  ∀ f, f ∈ free_set b ↔
    0 < f < FRAME_COUNT ∧
    (∃ r, r ∈ rs ∧ MemoryRegion.is_available r = true ∧
      MemoryRegion.base r <= f * FRAME_SIZE ∧
      (f + 1) * FRAME_SIZE <= MemoryRegion.base r + MemoryRegion.length r) ∧
    ((f + 1) * FRAME_SIZE <= kernel_phys_start ∨ kernel_phys_end <= f * FRAME_SIZE).
Proof.
  intros Hf f. rewrite elem_of_free_set. split.
  - intros [Hr Hff]. rewrite Hf, new_occupied, orb_false_r, !andb_true_iff, !negb_true_iff,
      Z.eqb_neq, andb_false_iff, !Z.ltb_ge, existsb_exists in Hff by done.
    destruct Hff as [[Hk H0] (r & Hin & Hreg)]. unfold region_frames in Hreg. bprop.
    split_and!; [lia|lia| |unfold_sizes; lia]. exists r. by rewrite list_elem_of_In.
  - intros (Hr & (r & Hin & Ha & Hb & He) & Hk). split; [lia|].
    rewrite Hf, new_occupied, orb_false_r, !andb_true_iff, !negb_true_iff,
      Z.eqb_neq, andb_false_iff, !Z.ltb_ge, existsb_exists by lia.
    split_and!; [unfold_sizes; lia|lia|]. exists r. rewrite <- list_elem_of_In. split; [done|].
    unfold region_frames. rewrite Ha. unfold_sizes. zbool.
Qed.

(** C15: [init] on a fresh allocator: it returns, and a frame is free exactly when some
    available region contains it wholly and it is neither frame 0 nor a frame the
    kernel image touches.  The resulting state is well-formed and packed. *)
Theorem init_publishes_usable_memory `{BuildProfile} {I : KernelImage} (mmap : MemoryMap)
    (rs : list MemoryRegion) :
  ImageOk I → MemoryMap.regions mmap = Ok rs → Forall region_below_limit rs →
  ∃ b, FrameBitmap.init mmap FrameBitmap.new = (Ok tt, b) ∧ bitmap_wf b ∧ packed b ∧
    ∀ f, f ∈ free_set b ↔
      0 < f < FRAME_COUNT ∧
      (∃ r, r ∈ rs ∧ MemoryRegion.is_available r = true ∧
        MemoryRegion.base r <= f * FRAME_SIZE ∧
        (f + 1) * FRAME_SIZE <= MemoryRegion.base r + MemoryRegion.length r) ∧
      ((f + 1) * FRAME_SIZE <= kernel_phys_start ∨ kernel_phys_end <= f * FRAME_SIZE).
Proof.
  intros HI Hrs Hlim. destruct HI.
  destruct (init_ok mmap rs FrameBitmap.new new_wf Hrs Hlim) as (b & E & Hwf & Hh & Hf);
    [unfold KERNEL_VIRTUAL_BASE in *; lia|lia|].
  exists b. split_and!; [done|done| |by apply published_frames].
  intros f Hf0. cbn [FrameBitmap.new search_hint] in Hh. unfold_sizes. lia.
Qed.

Definition sample_mmap : MemoryMap := {| map_buf := encode_map sample_map; map_offset := 0 |}.

Lemma init_publishes_usable_memory_witness :
  let I := link sample_sections in
  ∃ b, @FrameBitmap.init dev I sample_mmap FrameBitmap.new = (Ok tt, b) ∧ bitmap_wf b ∧ packed b ∧
    ∀ f, f ∈ free_set b ↔
      0 < f < FRAME_COUNT ∧
      (∃ r, r ∈ region_of <$> sample_map.*1 ∧ MemoryRegion.is_available r = true ∧
        MemoryRegion.base r <= f * FRAME_SIZE ∧
        (f + 1) * FRAME_SIZE <= MemoryRegion.base r + MemoryRegion.length r) ∧
      ((f + 1) * FRAME_SIZE <= kernel_phys_start ∨ kernel_phys_end <= f * FRAME_SIZE).
Proof.
  apply (@init_publishes_usable_memory dev (link sample_sections) sample_mmap
    (region_of <$> sample_map.*1) sample_image_ok).
  - vm_compute. reflexivity.
  - cbn. repeat (apply Forall_cons_2); try apply Forall_nil_2;
      (split_and!; unfold MemoryRegion.LIMIT; cbn; intros; first [lia|discriminate]).
Defined.

(** A map as some machines report it: RAM from 1 MiB on, up to the 4 GiB limit. *)
Definition limit_map : list (MmapEntry * list Z) :=
  [({| entry_size := 20; entry_base_addr := 0; entry_length := 0x9FC00; entry_kind := 1 |}, []);
   ({| entry_size := 20; entry_base_addr := 0x100000; entry_length := 0xFFF00000; entry_kind := 1 |}, [])].

Definition limit_mmap : MemoryMap := {| map_buf := encode_map limit_map; map_offset := 0 |}.

(** C38: [init] loses an available region that starts above 0 and reaches the 4 GiB limit,
    although [addressable_bytes] clamps it there: its end [base + bytes] is [2 ^ 32], which
    does not fit a [usize].  So the [dev] build of [init] panics, and the [release] build
    returns with exactly the frames that the other regions offer: no frame is free for
    being in this region. *)
Theorem init_drops_region_at_limit {I : KernelImage} (mmap : MemoryMap) (rs1 rs2 : list MemoryRegion)
    (r : MemoryRegion) :
  ImageOk I → (∀ P, @MemoryMap.regions P mmap = Ok (rs1 ++ r :: rs2)) → Forall region_below_limit (rs1 ++ rs2) →
  0 < MemoryRegion.base r < 2 ^ 32 → u64_range (MemoryRegion.length r) →
  2 ^ 32 <= MemoryRegion.base r + MemoryRegion.length r → MemoryRegion.is_available r = true →
  (∃ b, @FrameBitmap.init dev I mmap FrameBitmap.new = (Panic ArithmeticOverflow, b)) ∧
  ∃ b, @FrameBitmap.init release I mmap FrameBitmap.new = (Ok tt, b) ∧
    ∀ f, f ∈ free_set b ↔
      0 < f < FRAME_COUNT ∧
      (∃ q, q ∈ rs1 ++ rs2 ∧ MemoryRegion.is_available q = true ∧
        MemoryRegion.base q <= f * FRAME_SIZE ∧
        (f + 1) * FRAME_SIZE <= MemoryRegion.base q + MemoryRegion.length q) ∧
      ((f + 1) * FRAME_SIZE <= kernel_phys_start ∨ kernel_phys_end <= f * FRAME_SIZE).
Proof.
  intros HI Hrs Hlim Hb Hl Hend Ha. destruct HI.
  destruct (init_at_limit mmap rs1 rs2 r FrameBitmap.new new_wf Hrs Hlim Hb Hl Hend Ha) as [Hd (b & E & _ & Hf)];
    [unfold KERNEL_VIRTUAL_BASE in *; lia|lia|].
  split; [done|]. exists b. split; [done|by apply published_frames].
Qed.

Lemma init_drops_region_at_limit_witness :
  let I := link sample_sections in
  (∃ b, @FrameBitmap.init dev I limit_mmap FrameBitmap.new = (Panic ArithmeticOverflow, b)) ∧
  ∃ b, @FrameBitmap.init release I limit_mmap FrameBitmap.new = (Ok tt, b) ∧
    ∀ f, f ∈ free_set b ↔
      0 < f < FRAME_COUNT ∧
      (∃ q, q ∈ [mkMemoryRegion 0 0x9FC00 Available] ∧ MemoryRegion.is_available q = true ∧
        MemoryRegion.base q <= f * FRAME_SIZE ∧
        (f + 1) * FRAME_SIZE <= MemoryRegion.base q + MemoryRegion.length q) ∧
      ((f + 1) * FRAME_SIZE <= kernel_phys_start ∨ kernel_phys_end <= f * FRAME_SIZE).
Proof.
  apply (@init_drops_region_at_limit (link sample_sections) limit_mmap [mkMemoryRegion 0 0x9FC00 Available] []
    (mkMemoryRegion 0x100000 0xFFF00000 Available) sample_image_ok).
  - intros [[]]; vm_compute; reflexivity.
  - repeat (apply Forall_cons_2); try apply Forall_nil_2;
      (split_and!; unfold MemoryRegion.LIMIT; cbn; intros; first [lia|discriminate]).
  - cbn. lia.
  - cbn. lia.
  - cbn. lia.
  - reflexivity.
Defined.
