(* ===== verification/FrameInv.v ===== *)
(** * The type invariant of the frame allocator

    The field invariant [src/memory/frame.rs] documents ([search_hint] is at most
    [WORD_COUNT]) with what the types promise (the length of the array, 32-bit words),
    kept by every method in both profiles however the method ends: on corrupt memory
    maps, on runs no allocation made, and through a panic half-way. *)

From S2P Require Import Prelude Rust Bits Address Layout Multiboot Frame FrameSpec.

Section invariant.
Context {P : BuildProfile}.

(** The iterator's state: the bit is in the word and the rest is a [usize]. *)
Definition masks_ok (st : word_masks_state) : Prop :=
  0 <= wm_bit st < WORD_BITS /\ u32_range (wm_remaining st).

Lemma word_masks_ok (start len : Z) : u32_range len -> masks_ok (word_masks start len).
Proof. intros Hl. split; [apply Z.mod_pos_bound; done|done]. Qed.

Lemma masks_next_ok (st st' : word_masks_state) (i mask : Z) :
  masks_ok st -> word_masks_next st = Ok (Some ((i, mask), st')) -> u32_range mask /\ masks_ok st'.
Proof.
  intros [Hb Hr]. unfold word_masks_next. destruct (wm_remaining st =? 0); [done|].
  rewrite clipped_bit_range_mask_eq, ok_bind by done. set (take := Z.min _ _). intros E.
  destruct (usize_sub (wm_remaining st) take) as [rest| |] eqn:Er; [|done|done]. rewrite ok_bind in E.
  destruct (usize_add (wm_word_i st) 1) as [next| |]; [|done|done]. rewrite ok_bind in E. simplify_eq.
  split; [apply bit_range_bound; unfold WORD_BITS in *; lia|]. split; [by cbn|]. by apply arith_range in Er.
Qed.

Lemma apply_mask_preserves (op : Z → Z → Z) (i mask : Z) :
  (forall w, u32_range w -> u32_range (op w mask)) -> preserves bitmap_wf (FrameBitmap.apply_mask op (i, mask)).
Proof.
  intros Hop b [Hl Hw Hh]. unfold FrameBitmap.apply_mask, mbind, M_bind, reads, FrameBitmap.word, modify.
  destruct (bitmap b !! Z.to_nat i) as [w|] eqn:E; [|done].
  split; cbn [bitmap search_hint snd]; [by rewrite length_insert| |done].
  apply Forall_insert; [done|]. apply Hop. by apply (Forall_lookup_1 _ _ _ _ Hw E).
Qed.

Lemma masked_loop_preserves (op : Z → Z → Z) (start len : Z) (fuel : nat) :
  (forall mask w, u32_range mask -> u32_range w -> u32_range (op w mask)) -> u32_range len ->
  preserves bitmap_wf (for_each word_masks_next (FrameBitmap.apply_mask op) fuel (word_masks start len)).
Proof.
  intros Hop Hl. apply (preserves_for_each _ _ _ masks_ok); [by apply word_masks_ok|].
  intros st [i mask] st' Hst E. destruct (masks_next_ok st st' i mask Hst E) as [Hm Hst'].
  split; [apply apply_mask_preserves; intros; by apply Hop|done].
Qed.

Lemma set_free_preserves (start : FrameNumber) (len : Z) :
  u32_range len -> preserves bitmap_wf (FrameBitmap.set_free start len).
Proof. intros. apply masked_loop_preserves; [|done]. intros. apply lor_bound; lia. Qed.

Lemma set_occupied_preserves (start : FrameNumber) (len : Z) :
  u32_range len -> preserves bitmap_wf (FrameBitmap.set_occupied start len).
Proof.
  intros. apply masked_loop_preserves; [|done]. intros mask w Hm Hw. apply land_bound; [lia|done|].
  by apply u32_not_bound.
Qed.

Lemma lower_hint_preserves (word : Z) :
  0 <= word -> preserves bitmap_wf (FrameBitmap.set_hint (fun self => Z.min (search_hint self) word)).
Proof. intros Hw b [Hl Hws Hh]. split; cbn; [done|done|lia]. Qed.

#[local] Hint Resolve set_free_preserves set_occupied_preserves lower_hint_preserves : inv.

Lemma free_preserves (run : FrameRun) :
  0 <= frame_index (run_start run) -> u32_range (run_len run) -> preserves bitmap_wf (FrameBitmap.free run).
Proof.
  intros Hs Hl. unfold FrameBitmap.free. cbv zeta. apply preserves_bind; [auto with inv|]. intros [|]; [auto with inv|].
  apply preserves_bind; [auto with inv|]. intros _. apply lower_hint_preserves, Z.div_pos; done.
Qed.

Lemma mark_free_preserves (start : FrameNumber) (count : Z) :
  0 <= frame_index start -> u32_range count -> preserves bitmap_wf (FrameBitmap.mark_free start count).
Proof.
  intros Hs Hc. apply preserves_bind; [auto with inv|]. intros _. apply lower_hint_preserves, Z.div_pos; done.
Qed.

Lemma reserve_bytes_preserves (addr len : Z) : preserves bitmap_wf (FrameBitmap.reserve_bytes addr len).
Proof.
  unfold FrameBitmap.reserve_bytes. apply preserves_bind_lift. intros stop _. cbv zeta.
  apply preserves_bind_lift. intros count Hc. apply set_occupied_preserves. by apply arith_range in Hc.
Qed.

Lemma init_region_preserves (region : MemoryRegion) : preserves bitmap_wf (FrameBitmap.init_region region).
Proof.
  unfold FrameBitmap.init_region. apply preserves_bind; [auto with inv|]. intros bytes. cbv zeta.
  apply preserves_if; [auto with inv|]. apply preserves_bind_lift. intros stop Hs. apply arith_range in Hs; [|lia].
  set (start := div_ceil _ _). assert (0 <= start) as Hst.
  { subst start. unfold div_ceil, as_u32, FRAME_SIZE. pose proof (Z.mod_pos_bound (MemoryRegion.base region) (2 ^ 32)).
    destruct (_ =? 0); zdiv. }
  apply preserves_if; [auto with inv|]. apply mark_free_preserves; [done|].
  unfold saturating_sub. cbn [FrameNumber.index FrameNumber.new frame_index]. unfold FRAME_SIZE. zdiv.
Qed.

Lemma init_preserves {I : KernelImage} (mmap : MemoryMap) : preserves bitmap_wf (FrameBitmap.init mmap).
Proof.
  unfold FrameBitmap.init. apply preserves_bind.
  { apply (preserves_for_each _ _ _ (fun _ => True)); [done|]. intros st x st' _ _. split; [apply init_region_preserves|done]. }
  intros _. apply preserves_bind; [apply reserve_bytes_preserves|]. intros _. cbv zeta.
  apply preserves_bind; [auto with inv|]. intros klen. apply reserve_bytes_preserves.
Qed.

Lemma allocate_preserves (count : Z) : 0 < count -> preserves bitmap_wf (FrameBitmap.allocate count).
Proof. intros Hc b Hb. destruct (allocate_ok b count Hb Hc) as (r & b' & -> & Hb' & _). exact Hb'. Qed.

End invariant.

(** C16: The allocator's type invariant: 32768 words of 32 bits and a search hint of at
    most the word count.  [new] establishes it, and every method keeps it in both
    profiles, whether it returns or panics and whatever it is given: any non-zero
    count, any run of machine-word fields (also one that no allocation made, also a
    double free), and [init] on any memory map, with any bytes in it. *)
Theorem frame_bitmap_type_invariant `{BuildProfile} {I : KernelImage} (b : FrameBitmap) :
  bitmap_wf FrameBitmap.new ∧
  (bitmap_wf b →
    (∀ count, 0 < count → bitmap_wf (FrameBitmap.allocate count b).2) ∧
    bitmap_wf (FrameBitmap.allocate_one b).2 ∧
    (∀ run, u32_range (frame_index (run_start run)) → u32_range (run_len run) →
      bitmap_wf (FrameBitmap.free run b).2) ∧
    (∀ mmap, bitmap_wf (FrameBitmap.init mmap b).2)).
Proof.
  split; [apply new_wf|]. intros Hb. split_and!.
  - intros count Hc. exact (allocate_preserves count Hc b Hb).
  - exact (allocate_preserves 1 ltac:(lia) b Hb).
  - intros run [Hs _] Hl. exact (free_preserves run Hs Hl b Hb).
  - intros mmap. exact (init_preserves mmap b Hb).
Qed.

(** The forged run of 2 ^ 20 frames from frame 5 drives [free] out of the bitmap, and
    the map's truncated entry is read all the same. *)
Lemma frame_bitmap_type_invariant_witness :
  bitmap_wf (@FrameBitmap.free dev (mkFrameRun (FrameNumber.new 5) 0x100000) FrameBitmap.new).2 ∧
  bitmap_wf (@FrameBitmap.init dev (link sample_sections) {| map_buf := [1; 2; 3]; map_offset := 0 |} FrameBitmap.new).2.
Proof.
  destruct (@frame_bitmap_type_invariant dev (link sample_sections) FrameBitmap.new) as [Hn Hm].
  destruct (Hm Hn) as (_ & _ & Hf & Hi). split; [apply Hf; cbn; lia|apply Hi].
Defined.
