(* ===== verification/Paging.v ===== *)
(** * [src/memory/paging.rs]: page flags, entries, the bootstrap directory and the
    construction of the kernel's page directory

    Directories and tables live in physical memory as 1024 little-endian words;
    [&mut PageDirectory] is the address of one.  The code that builds the real
    directory runs over the frame allocator, the memory and the control
    registers; the allocator is any [FrameSource].  The MMU's walk is a function of
    memory and [CR3], stated by the hardware's format alone, and a pointer the builder follows is translated by the directory
    in use ([deref]). *)

From S2P Require Import Prelude Rust Fmt Memory Address Layout Frame FrameSpec.

Definition PAGE_SIZE : Z := 4096.

Definition ENTRY_COUNT : Z := 1024.

Definition PAGE_TABLE_SPAN : Z := PAGE_SIZE * ENTRY_COUNT.

Definition FLAGS_MASK : Z := PAGE_SIZE - 1.

Definition ADDRESS_MASK : Z := u32_not FLAGS_MASK.

Record PageFlags := mkPageFlags { flag_bits : Z }.

#[global] Instance PageFlags_eq_dec : EqDecision PageFlags.
Proof. solve_decision. Defined.

Module PageFlags.

Definition PRESENT : PageFlags := mkPageFlags 1.

Definition WRITABLE : PageFlags := mkPageFlags (Z.shiftl 1 1).

Definition USER : PageFlags := mkPageFlags (Z.shiftl 1 2).

Definition WRITE_THROUGH : PageFlags := mkPageFlags (Z.shiftl 1 3).

Definition CACHE_DISABLE : PageFlags := mkPageFlags (Z.shiftl 1 4).

Definition ACCESSED : PageFlags := mkPageFlags (Z.shiftl 1 5).

Definition DIRTY : PageFlags := mkPageFlags (Z.shiftl 1 6).

Definition GLOBAL : PageFlags := mkPageFlags (Z.shiftl 1 8).

Definition union (self other : PageFlags) : PageFlags :=
  mkPageFlags (Z.lor (flag_bits self) (flag_bits other)).

Definition KERNEL_RO : PageFlags := PRESENT.

Definition KERNEL_RW : PageFlags := union PRESENT WRITABLE.

Definition USER_RO : PageFlags := union PRESENT USER.

Definition USER_RW : PageFlags := union (union PRESENT WRITABLE) USER.

Definition empty : PageFlags := mkPageFlags 0.

Definition bits (self : PageFlags) : Z := flag_bits self.

Definition from_bits (bits : Z) : PageFlags := mkPageFlags (Z.land bits FLAGS_MASK).

Definition contains (self other : PageFlags) : bool :=
  Z.land (flag_bits self) (flag_bits other) =? flag_bits other.

Definition bitor (self rhs : PageFlags) : PageFlags := union self rhs.

Definition NAMED : list (PageFlags * string) :=
  [ (PRESENT, "PRESENT"); (WRITABLE, "WRITABLE"); (USER, "USER"); (WRITE_THROUGH, "WRITE_THROUGH");
    (CACHE_DISABLE, "CACHE_DISABLE"); (ACCESSED, "ACCESSED"); (DIRTY, "DIRTY"); (GLOBAL, "GLOBAL") ].

(** The loop over [NAMED], with [first]; it ends with the ["empty"] case. *)
Fixpoint fmt_loop (self : PageFlags) (named : list (PageFlags * string)) (first : bool) : string :=
  match named with
  | [] => if first then "empty" else ""
  | (flag, name) :: named =>
      if contains self flag then
        String.append (if first then "" else " | ") (String.append name (fmt_loop self named false))
      else fmt_loop self named first
  end.

Definition fmt (self : PageFlags) : string :=
  String.append "PageFlags(" (String.append (fmt_loop self NAMED true) ")").

End PageFlags.

Record PageTableEntry := mkPTE { pte_raw : Z }.

Record PageDirectoryEntry := mkPDE { pde_raw : Z }.

Module PageTableEntry.

Definition EMPTY : PageTableEntry := mkPTE 0.

Definition new `{BuildProfile} (frame : FrameNumber) (flags : PageFlags) : outcome PageTableEntry :=
  base ← FrameNumber.base_addr frame;
  Ok (mkPTE (Z.lor (PhysAddr.raw base) (PageFlags.bits flags))).

Definition flags (self : PageTableEntry) : PageFlags := PageFlags.from_bits (pte_raw self).

Definition frame (self : PageTableEntry) : FrameNumber :=
  PhysAddr.frame_floor (PhysAddr.new (Z.land (pte_raw self) ADDRESS_MASK)).

Definition is_present (self : PageTableEntry) : bool :=
  PageFlags.contains (flags self) PageFlags.PRESENT.

Definition fmt (self : PageTableEntry) : string :=
  debug_struct "PageTableEntry"
    [("frame", FrameNumber.fmt (frame self)); ("flags", PageFlags.fmt (flags self))].

End PageTableEntry.

Module PageDirectoryEntry.

Definition PAGE_SIZE_BIT : Z := Z.shiftl 1 7.

Definition EMPTY : PageDirectoryEntry := mkPDE 0.

Definition for_table `{BuildProfile} (frame : FrameNumber) (flags : PageFlags)
    : outcome PageDirectoryEntry :=
  base ← FrameNumber.base_addr frame;
  Ok (mkPDE (Z.lor (PhysAddr.raw base) (PageFlags.bits flags))).

Definition for_huge_page `{BuildProfile} (base : PhysAddr) (flags : PageFlags)
    : outcome PageDirectoryEntry :=
  debug_assert (is_multiple_of (PhysAddr.raw base) PAGE_TABLE_SPAN)
    "a 4 MiB page must be aligned to a 4 MiB boundary";;
  Ok (mkPDE (Z.lor (Z.lor (PhysAddr.raw base) PAGE_SIZE_BIT) (PageFlags.bits flags))).

Definition flags (self : PageDirectoryEntry) : PageFlags := PageFlags.from_bits (pde_raw self).

Definition is_huge (self : PageDirectoryEntry) : bool :=
  negb (Z.land (pde_raw self) PAGE_SIZE_BIT =? 0).

Definition is_present (self : PageDirectoryEntry) : bool :=
  PageFlags.contains (flags self) PageFlags.PRESENT.

Definition table_frame (self : PageDirectoryEntry) : FrameNumber :=
  PhysAddr.frame_floor (PhysAddr.new (Z.land (pde_raw self) ADDRESS_MASK)).

Definition fmt (self : PageDirectoryEntry) : string :=
  if is_huge self then
    String.append "PageDirectoryEntry(huge 4 MiB, " (String.append (PageFlags.fmt (flags self)) ")")
  else
    debug_struct "PageDirectoryEntry"
      [("table_frame", FrameNumber.fmt (table_frame self)); ("flags", PageFlags.fmt (flags self))].

End PageDirectoryEntry.

(** [array[i] = x], with Rust's bounds check. *)
Definition array_set {A} (l : list A) (i : Z) (x : A) : outcome (list A) :=
  if (0 <=? i) && (i <? Z.of_nat (length l)) then Ok (<[Z.to_nat i := x]> l)
  else Panic IndexOutOfBounds.

Module PageDirectory.

Definition bootstrap `{BuildProfile} : outcome (list PageDirectoryEntry) :=
  let entries := replicate (Z.to_nat ENTRY_COUNT) PageDirectoryEntry.EMPTY in
  low ← PageDirectoryEntry.for_huge_page (PhysAddr.new 0) PageFlags.KERNEL_RW;
  entries ← array_set entries 0 low;
  high ← PageDirectoryEntry.for_huge_page (PhysAddr.new 0) PageFlags.KERNEL_RW;
  array_set entries (KERNEL_VIRTUAL_BASE / PAGE_TABLE_SPAN) high.

End PageDirectory.

(** The static in [.boot.data], evaluated at compile time. *)
Definition BOOT_PAGE_DIRECTORY `{BuildProfile} : outcome (list PageDirectoryEntry) := PageDirectory.bootstrap.

Definition RECURSIVE_INDEX : Z := ENTRY_COUNT - 1.

Definition BOOTSTRAP_IDENTITY_LIMIT : Z := PAGE_TABLE_SPAN.

Definition CR0_WP : Z := Z.shiftl 1 16.

(** ** The walk

    What the MMU makes of a directory: the two-level translation as a function of physical
    memory and [CR3], by the processor's manual and without the constants of the sources.
    Bits 22 to 31 of an address select the directory entry, bits 12 to 21 the table entry;
    in an entry bit 0 is present, bit 1 writable, bit 2 user, and in a directory entry
    bit 7 a 4 MiB page ([CR4.PSE] is set before paging is turned on); an access right
    needs the bit at both levels. *)

Record translation := mkTranslation {
  tr_phys : Z;
  tr_writable : bool;
  tr_user : bool
}.

Definition walk (m : mem) (cr3 va : Z) : option translation :=
  let pde := load32 m (Z.land cr3 0xFFFFF000 + 4 * (va / 2 ^ 22)) in
  if negb (Z.testbit pde 0) then None
  else if Z.testbit pde 7 then
    Some {| tr_phys := Z.land pde 0xFFC00000 + va mod 2 ^ 22;
            tr_writable := Z.testbit pde 1; tr_user := Z.testbit pde 2 |}
  else
    let pte := load32 m (Z.land pde 0xFFFFF000 + 4 * ((va / 2 ^ 12) mod 2 ^ 10)) in
    if negb (Z.testbit pte 0) then None
    else
      Some {| tr_phys := Z.land pte 0xFFFFF000 + va mod 2 ^ 12;
              tr_writable := Z.testbit pde 1 && Z.testbit pte 1;
              tr_user := Z.testbit pde 2 && Z.testbit pte 2 |}.

(** A pointer that holds a physical address, dereferenced through the directory in use:
    the page must be mapped to itself, and writable for a write under [CR0.WP], or the
    access faults. *)
Definition identity_page (m : mem) (cr3 cr0 : Z) (write : bool) (addr : Z) : bool :=
  match walk m cr3 addr with
  | Some t => (tr_phys t =? addr) && (negb write || tr_writable t || (Z.land cr0 CR0_WP =? 0))
  | None => false
  end.

(** ** Building the directory *)

Record paging_state (A : Type) := mkPagingState {
  ps_alloc : A;
  ps_mem : mem;
  ps_cr3 : Z;
  ps_cr0 : Z
}.
Arguments mkPagingState {A}.
Arguments ps_alloc {A}.
Arguments ps_mem {A}.
Arguments ps_cr3 {A}.
Arguments ps_cr0 {A}.

#[global] Instance ps_alloc_lens {A} : Lens (paging_state A) A.
Proof.
  refine {| view := ps_alloc;
            put a s := mkPagingState a (ps_mem s) (ps_cr3 s) (ps_cr0 s) |}; by intros; destruct s.
Defined.

Section init.
Context `{BuildProfile} `{FrameSource A} `{KernelImage}.

Abbreviation PS := (paging_state A).

Definition set_mem (f : mem → mem) : M PS unit :=
  modify (fun s => mkPagingState (ps_alloc s) (f (ps_mem s)) (ps_cr3 s) (ps_cr0 s)).

Definition alloc_frame : M PS FrameNumber :=
  run ← zoom (fs_allocate_one _);
  run ← lift (expect "out of physical frames while building the page directory" run);
  mret (FrameRun.start run).

(** One access through a pointer to a page below the identity limit. *)
Definition deref (write : bool) (ptr : Z) : M PS unit :=
  reads (fun s => if identity_page (ps_mem s) (ps_cr3 s) (ps_cr0 s) write ptr then Ok tt
                  else Panic (CpuException 14)).

(** The message of its assertion. *)
Definition above_identity_map (phys : Z) : string :=
  String.append "paging frame at " (String.append (hex phys) " lies above the bootstrap identity map").

Definition bootstrap_frame_ptr (frame : FrameNumber) : outcome Z :=
  base ← FrameNumber.base_addr frame;
  let phys := PhysAddr.raw base in
  assert (phys <? BOOTSTRAP_IDENTITY_LIMIT) (above_identity_map phys);;
  Ok phys.

Definition zero_frame (frame : FrameNumber) : M PS unit :=
  ptr ← lift (bootstrap_frame_ptr frame);
  lift (deref_check 1 ptr);;
  deref true ptr;;
  set_mem (fun m => fill m ptr 0 PAGE_SIZE).

(** [table.0[i]] and [table.0[i] = word] for the table at address [table]. *)
Definition read_slot (table i : Z) : M PS Z :=
  if (0 <=? i) && (i <? ENTRY_COUNT) then
    deref false (table + 4 * i);;
    reads (fun s => Ok (load32 (ps_mem s) (table + 4 * i)))
  else lift (Panic IndexOutOfBounds).

Definition write_slot (table i word : Z) : M PS unit :=
  if (0 <=? i) && (i <? ENTRY_COUNT) then
    deref true (table + 4 * i);;
    set_mem (fun m => store32 m (table + 4 * i) word)
  else lift (Panic IndexOutOfBounds).

Definition map_bootstrap (pd : Z) (virt : VirtAddr) (phys : PhysAddr) (flags : PageFlags) : M PS unit :=
  let index := VirtAddr.pd_index virt in
  slot ← read_slot pd index;
  table_frame ←
    (if PageDirectoryEntry.is_present (mkPDE slot) then
       mret (PageDirectoryEntry.table_frame (mkPDE slot))
     else
       frame ← alloc_frame;
       zero_frame frame;;
       entry ← lift (PageDirectoryEntry.for_table frame PageFlags.KERNEL_RW);
       write_slot pd index (pde_raw entry);;
       mret frame);
  table ← lift (bootstrap_frame_ptr table_frame);
  entry ← lift (PageTableEntry.new (PhysAddr.frame_floor phys) flags);
  lift (deref_check PAGE_SIZE table);;
  write_slot table (VirtAddr.pt_index virt) (pte_raw entry).

(** The two loop bodies of [init]. *)
Definition map_kernel_page (pd virt : Z) : M PS unit :=
  if virt =? stack_guard_addr then mret tt
  else
    let flags := if virt <? kernel_data_start_addr then PageFlags.KERNEL_RO else PageFlags.KERNEL_RW in
    phys ← lift (usize_sub virt KERNEL_VIRTUAL_BASE);
    map_bootstrap pd (VirtAddr.new (as_u32 virt)) (PhysAddr.new (as_u32 phys)) flags.

Definition map_low_page (pd phys : Z) : M PS unit :=
  map_bootstrap pd (VirtAddr.new (as_u32 phys)) (PhysAddr.new (as_u32 phys)) PageFlags.KERNEL_RW.

(** [mov cr3, reg], [mov reg, cr0] and [mov cr0, reg]. *)
Definition mov_to_cr3 (v : Z) : M PS unit :=
  modify (fun s => mkPagingState (ps_alloc s) (ps_mem s) v (ps_cr0 s)).

Definition mov_from_cr0 : M PS Z := reads (fun s => Ok (ps_cr0 s)).

Definition mov_to_cr0 (v : Z) : M PS unit :=
  modify (fun s => mkPagingState (ps_alloc s) (ps_mem s) (ps_cr3 s) v).

(** The instructions of the closing [asm!] block, in order. *)
Definition switch_to (pd : Z) : M PS unit :=
  mov_to_cr3 pd;;
  tmp ← mov_from_cr0;
  mov_to_cr0 (Z.lor tmp CR0_WP).

Definition init : M PS unit :=
  pd_frame ← alloc_frame;
  zero_frame pd_frame;;
  pd ← lift (bootstrap_frame_ptr pd_frame);
  lift (deref_check PAGE_SIZE pd);;
  entry ← lift (PageDirectoryEntry.for_table pd_frame PageFlags.KERNEL_RW);
  write_slot pd RECURSIVE_INDEX (pde_raw entry);;
  for_in (range_step_by kernel_virt_start_addr kernel_virt_end_addr PAGE_SIZE) (map_kernel_page pd);;
  for_in (range_step_by 0 kernel_phys_start_addr PAGE_SIZE) (map_low_page pd);;
  base ← lift (FrameNumber.base_addr pd_frame);
  switch_to (PhysAddr.raw base).

End init.

(** ** Entries as arithmetic *)

Lemma flags_mask_mod (x : Z) : Z.land x FLAGS_MASK = x mod 4096.
Proof. change FLAGS_MASK with (Z.ones 12). by rewrite Z.land_ones. Qed.

Lemma address_mask_div (x : Z) : u32_range x -> Z.land x ADDRESS_MASK = x / 4096 * 4096.
Proof.
  intros Hx. change 4096 with (2 ^ 12). rewrite <- Z.shiftr_div_pow2, <- Z.shiftl_mul_pow2 by lia.
  apply Z.bits_inj'. intros i Hi. unfold ADDRESS_MASK.
  rewrite Z.land_spec, u32_not_bit by done. change FLAGS_MASK with (Z.ones 12).
  rewrite testbit_ones_spec by lia. destruct (Z.lt_ge_cases i 12).
  - rewrite Z.shiftl_spec_low, (proj2 (Z.ltb_lt i 12)), (proj2 (Z.ltb_lt i 32)) by lia. apply andb_false_r.
  - rewrite Z.shiftl_spec, Z.shiftr_spec by lia. replace (i - 12 + 12) with i by lia.
    destruct (Z.lt_ge_cases i 32).
    + rewrite (proj2 (Z.ltb_ge i 12)), (proj2 (Z.ltb_lt i 32)) by lia. apply andb_true_r.
    + by rewrite (testbit_small x 32 i) by lia.
Qed.

Lemma entry_word (f bits : Z) : 0 <= bits < 4096 -> Z.lor (f * 4096) bits = f * 4096 + bits.
Proof. intros. by apply (lor_shifted 12). Qed.

Lemma present_odd (x : Z) : PageFlags.contains (PageFlags.from_bits x) PageFlags.PRESENT = Z.odd x.
Proof.
  unfold PageFlags.contains, PageFlags.from_bits. cbn [flag_bits PageFlags.PRESENT].
  rewrite flags_mask_mod. rewrite (Z.land_ones _ 1) by lia. change (2 ^ 1) with 2.
  rewrite Zmod_odd.
  assert (Z.odd (x mod 4096) = Z.odd x) as ->; [|by destruct (Z.odd x)].
  rewrite <- !Z.bit0_odd. change 4096 with (2 ^ 12). by rewrite Z.mod_pow2_bits_low.
Qed.

Lemma flags_bit (w i : Z) :
  0 <= i < 12 -> PageFlags.contains (PageFlags.from_bits w) (mkPageFlags (2 ^ i)) = Z.testbit w i.
Proof.
  intros Hi. unfold PageFlags.contains, PageFlags.from_bits. cbn [flag_bits].
  rewrite flags_mask_mod. change 4096 with (2 ^ 12).
  rewrite <- (Z.mod_pow2_bits_low w 12 i), <- land_bit by lia.
  set (x := Z.land _ _). destruct (Z.eqb_spec x (2 ^ i)) as [->|Hne].
  - symmetry. apply negb_true_iff, Z.eqb_neq. apply Z.pow_nonzero; lia.
  - symmetry. apply negb_false_iff, Z.eqb_eq, Z.bits_inj'. intros k Hk. subst x.
    rewrite Z.bits_0, Z.land_spec. destruct (Z.eq_dec k i) as [->|]; cycle 1.
    { rewrite Z.pow2_bits_false by done. apply andb_false_r. }
    destruct (Z.testbit (w mod 2 ^ 12) i) eqn:E; [|done]. destruct Hne. apply Z.bits_inj'.
    intros l Hl. rewrite Z.land_spec. destruct (Z.eq_dec l i) as [->|]; [by rewrite E|].
    rewrite Z.pow2_bits_false by done. apply andb_false_r.
Qed.

(** The walk in the terms of the sources: their accessors, constants and index functions
    are the format of the MMU. *)
Definition accessor_walk (m : mem) (cr3 va : Z) : option translation :=
  let virt := VirtAddr.new va in
  let pde := mkPDE (load32 m (Z.land cr3 ADDRESS_MASK + 4 * VirtAddr.pd_index virt)) in
  if negb (PageDirectoryEntry.is_present pde) then None
  else if PageDirectoryEntry.is_huge pde then
    Some {| tr_phys := Z.land (pde_raw pde) 0xFFC00000 + va mod PAGE_TABLE_SPAN;
            tr_writable := PageFlags.contains (PageDirectoryEntry.flags pde) PageFlags.WRITABLE;
            tr_user := PageFlags.contains (PageDirectoryEntry.flags pde) PageFlags.USER |}
  else
    let pte := mkPTE (load32 m (Z.land (pde_raw pde) ADDRESS_MASK + 4 * VirtAddr.pt_index virt)) in
    if negb (PageTableEntry.is_present pte) then None
    else
      Some {| tr_phys := Z.land (pte_raw pte) ADDRESS_MASK + VirtAddr.offset virt;
              tr_writable := PageFlags.contains (PageDirectoryEntry.flags pde) PageFlags.WRITABLE &&
                             PageFlags.contains (PageTableEntry.flags pte) PageFlags.WRITABLE;
              tr_user := PageFlags.contains (PageDirectoryEntry.flags pde) PageFlags.USER &&
                         PageFlags.contains (PageTableEntry.flags pte) PageFlags.USER |}.

Lemma walk_accessors (m : mem) (cr3 va : Z) : walk m cr3 va = accessor_walk m cr3 va.
Proof.
  unfold walk, accessor_walk, VirtAddr.new. cbv zeta. rewrite pd_index_div, pt_index_mod, offset_mod.
  change ADDRESS_MASK with 0xFFFFF000. change PAGE_TABLE_SPAN with (2 ^ 22).
  unfold PageDirectoryEntry.is_present, PageTableEntry.is_present, PageDirectoryEntry.is_huge,
    PageDirectoryEntry.flags, PageTableEntry.flags, PageDirectoryEntry.PAGE_SIZE_BIT. cbn [pde_raw pte_raw].
  change PageFlags.PRESENT with (mkPageFlags (2 ^ 0)). change PageFlags.WRITABLE with (mkPageFlags (2 ^ 1)).
  change PageFlags.USER with (mkPageFlags (2 ^ 2)). by rewrite Z.shiftl_1_l, land_bit, !flags_bit by lia.
Qed.

Section entries.
Context {P : BuildProfile}.

Lemma for_table_ok (f bits : Z) :
  0 <= f < 2 ^ 20 -> 0 <= bits < 4096 ->
  PageDirectoryEntry.for_table (mkFrameNumber f) (mkPageFlags bits) = Ok (mkPDE (f * 4096 + bits)).
Proof.
  intros. unfold PageDirectoryEntry.for_table. rewrite base_addr_ok, ok_bind by done.
  unfold PageFlags.bits. cbn [PhysAddr.raw phys_raw flag_bits]. by rewrite entry_word.
Qed.

Lemma pte_new_ok (f bits : Z) :
  0 <= f < 2 ^ 20 -> 0 <= bits < 4096 ->
  PageTableEntry.new (mkFrameNumber f) (mkPageFlags bits) = Ok (mkPTE (f * 4096 + bits)).
Proof.
  intros. unfold PageTableEntry.new. rewrite base_addr_ok, ok_bind by done.
  unfold PageFlags.bits. cbn [PhysAddr.raw phys_raw flag_bits]. by rewrite entry_word.
Qed.

Lemma bootstrap_frame_ptr_ok (f : Z) :
  0 <= f < 1024 -> bootstrap_frame_ptr (mkFrameNumber f) = Ok (f * 4096).
Proof.
  intros. unfold bootstrap_frame_ptr. rewrite base_addr_ok, ok_bind by lia.
  cbn [PhysAddr.raw phys_raw]. unfold BOOTSTRAP_IDENTITY_LIMIT, PAGE_TABLE_SPAN, PAGE_SIZE, ENTRY_COUNT.
  by rewrite (proj2 (Z.ltb_lt _ _)) by lia.
Qed.

End entries.

Lemma table_frame_div (x : Z) :
  u32_range x -> PageDirectoryEntry.table_frame (mkPDE x) = mkFrameNumber (x / 4096).
Proof.
  intros. unfold PageDirectoryEntry.table_frame, PhysAddr.frame_floor.
  cbn [PhysAddr.new phys_raw pde_raw]. rewrite address_mask_div by done.
  by rewrite Z.div_mul by lia.
Qed.

(** An entry gives back what it was built from: for each of the [2 ^ 20] frames and
    every 12-bit flag set, both constructors succeed, the stored word fits 32 bits,
    and frame, flags and presence are recovered from it; a directory entry for a
    table is taken for a huge page only if the caller's flags carry bit 7. *)
Lemma page_entry_roundtrip `{BuildProfile} (f bits : Z) :
  0 <= f < 2 ^ 20 -> 0 <= bits < 4096 ->
  let frame := FrameNumber.new f in
  let flags := mkPageFlags bits in
  (exists e, PageTableEntry.new frame flags = Ok e /\ u32_range (pte_raw e) /\
    PageTableEntry.frame e = frame /\ PageTableEntry.flags e = flags /\
    PageTableEntry.is_present e = PageFlags.contains flags PageFlags.PRESENT) /\
  (exists e, PageDirectoryEntry.for_table frame flags = Ok e /\ u32_range (pde_raw e) /\
    PageDirectoryEntry.table_frame e = frame /\ PageDirectoryEntry.flags e = flags /\
    PageDirectoryEntry.is_present e = PageFlags.contains flags PageFlags.PRESENT /\
    PageDirectoryEntry.is_huge e = Z.testbit bits 7).
Proof.
  intros Hf Hb frame flags. unfold frame, flags, FrameNumber.new.
  assert ((f * 4096 + bits) mod 4096 = bits /\ (f * 4096 + bits) / 4096 = f) as [Hm Hd] by zdiv.
  assert (PageFlags.from_bits (f * 4096 + bits) = mkPageFlags bits) as Hfl.
  { unfold PageFlags.from_bits. by rewrite flags_mask_mod, Hm. }
  split; eexists; (split; [by first [apply pte_new_ok|apply for_table_ok]|]); cbn [pte_raw pde_raw].
  - split_and!; [lia|lia| |done|].
    + unfold PageTableEntry.frame, PhysAddr.frame_floor. cbn [PhysAddr.new phys_raw pte_raw].
      rewrite address_mask_div, Z.div_mul, Hd by lia. done.
    + unfold PageTableEntry.is_present, PageTableEntry.flags. cbn [pte_raw]. by rewrite Hfl.
  - split_and!; [lia|lia| |done| |].
    + by rewrite table_frame_div, Hd by lia.
    + unfold PageDirectoryEntry.is_present, PageDirectoryEntry.flags. cbn [pde_raw]. by rewrite Hfl.
    + unfold PageDirectoryEntry.is_huge, PageDirectoryEntry.PAGE_SIZE_BIT. cbn [pde_raw].
      rewrite Z.shiftl_1_l, land_bit by lia. rewrite <- Hm at 2. change 4096 with (2 ^ 12).
      by rewrite Z.mod_pow2_bits_low by lia.
Qed.

(** Flag sets form a lattice under [contains]: it is inclusion of bits, [union] (and
    [|]) is the least set containing both arguments, and [from_bits] keeps exactly
    the low 12 bits of an entry. *)
Lemma page_flags_lattice (a b c : PageFlags) (w : Z) :
  0 <= flag_bits a -> 0 <= flag_bits b -> 0 <= flag_bits c ->
  (PageFlags.contains a b = true <->
    forall i, 0 <= i -> Z.testbit (flag_bits b) i = true -> Z.testbit (flag_bits a) i = true) /\
  (PageFlags.contains c (PageFlags.bitor a b) = true <->
    PageFlags.contains c a = true /\ PageFlags.contains c b = true) /\
  PageFlags.contains (PageFlags.from_bits w) a =
    (flag_bits a <? 4096) && PageFlags.contains (mkPageFlags w) a.
Proof.
  intros Ha Hb Hc.
  assert (forall x y, PageFlags.contains x y = true <->
    forall i, 0 <= i -> Z.testbit (flag_bits y) i = true -> Z.testbit (flag_bits x) i = true) as Hcon.
  { intros x y. unfold PageFlags.contains. rewrite Z.eqb_eq. split.
    - intros E i Hi Hy. rewrite <- E, Z.land_spec, andb_true_iff in Hy. tauto.
    - intros Hxy. apply Z.bits_inj'. intros i Hi. rewrite Z.land_spec.
      specialize (Hxy i Hi). by destruct (Z.testbit (flag_bits y) i), (Z.testbit (flag_bits x) i); auto. }
  split; [apply Hcon|]. split.
  - rewrite !Hcon. unfold PageFlags.bitor, PageFlags.union. cbn [flag_bits].
    setoid_rewrite Z.lor_spec. setoid_rewrite orb_true_iff. firstorder.
  - apply eq_true_iff_eq. rewrite andb_true_iff, !Hcon, Z.ltb_lt.
    unfold PageFlags.from_bits. cbn [flag_bits]. rewrite flags_mask_mod. change 4096 with (2 ^ 12). split.
    + intros Hw. split.
      * apply bits_bound; [lia|done|]. intros i Hi. apply not_true_iff_false. intros Ht.
        specialize (Hw i ltac:(lia) Ht). by rewrite Z.mod_pow2_bits_high in Hw by lia.
      * intros i Hi Ht. specialize (Hw i Hi Ht). destruct (Z.lt_ge_cases i 12).
        -- by rewrite Z.mod_pow2_bits_low in Hw.
        -- by rewrite Z.mod_pow2_bits_high in Hw by lia.
    + intros [Hlt Hw] i Hi Ht. destruct (Z.lt_ge_cases i 12).
      * rewrite Z.mod_pow2_bits_low by lia. by apply Hw.
      * by rewrite (testbit_small _ 12 i) in Ht by lia.
Qed.

(** The flag bits with a name: all but 7 (which a table entry reads as PAT, a
    directory entry as the page size) and the three left to software. *)
Definition NAMED_BITS : Z := 0x17F.

(** Debug output of a flag set names exactly the flags it contains: two 12-bit sets
    print alike when, and only when, they agree on the eight named bits. *)
Lemma page_flags_debug_faithful (a b : Z) :
  0 <= a < 4096 -> 0 <= b < 4096 ->
  PageFlags.fmt (mkPageFlags a) = PageFlags.fmt (mkPageFlags b) <->
  Z.land a NAMED_BITS = Z.land b NAMED_BITS.
Proof.
  assert (Forall (fun a => PageFlags.fmt (mkPageFlags a) = PageFlags.fmt (mkPageFlags (Z.land a NAMED_BITS)))
    (seqZ 0 4096)) as Hmask by (apply (bool_decide_unpack _); vm_compute; reflexivity).
  set (named := filter (fun a => Z.land a NAMED_BITS = a) (seqZ 0 512)).
  assert (Forall (fun a => Forall (fun b => PageFlags.fmt (mkPageFlags a) = PageFlags.fmt (mkPageFlags b) → a = b) named)
    named) as Hinj by (apply (bool_decide_unpack _); vm_compute; reflexivity).
  rewrite !Forall_forall in *. setoid_rewrite Forall_forall in Hinj.
  assert (forall x, 0 <= x < 4096 -> Z.land x NAMED_BITS ∈ named) as Hin.
  { intros x Hx. apply list_elem_of_filter. split; [by rewrite <- Z.land_assoc|].
    apply elem_of_seqZ. pose proof (land_bound 9 NAMED_BITS x ltac:(lia) ltac:(done) ltac:(lia)) as H.
    rewrite Z.land_comm. lia. }
  intros Ha Hb. rewrite (Hmask a), (Hmask b) by (apply elem_of_seqZ; lia). split; [|by intros ->].
  intros E. by apply Hinj; [apply Hin..|].
Qed.
