(* ===== verification/Mmu.v ===== *)
(** * What the page directory means to the MMU

    The address space the bootstrap directory gives, the one the kernel means to have,
    and the proof that [paging::init], running on the first, builds the directory of
    the second: each of its accesses goes through the directory in use, which it never
    writes to. *)

From S2P Require Import Prelude Rust Memory Address Layout Frame FrameSpec Paging.

(** A directory image in memory. *)
Definition directory_at (m : mem) (addr : Z) (entries : list PageDirectoryEntry) : Prop :=
  forall i e, entries !! i = Some e -> load32 m (addr + 4 * Z.of_nat i) = pde_raw e.

(** ** The address space of the running kernel *)

(** The page-table word of page [p] in the directory [init] builds. *)
Definition page_word `{KernelImage} (p : Z) : Z :=
  let va := p * PAGE_SIZE in
  if (kernel_virt_start <=? va) && (va <? kernel_virt_end) && negb (va =? stack_guard) then
    va - KERNEL_VIRTUAL_BASE + (if va <? kernel_data_start then 1 else 3)
  else if (0 <=? va) && (va <? kernel_phys_start) then va + 3
  else 0.

(** The translation the kernel means to have, below the recursive window. *)
Definition kernel_space `{KernelImage} (va : Z) : option translation :=
  if (kernel_virt_start <=? va) && (va <? kernel_virt_end) then
    if (stack_guard <=? va) && (va <? stack_bottom) then None
    else Some {| tr_phys := va - KERNEL_VIRTUAL_BASE;
                 tr_writable := kernel_data_start <=? va; tr_user := false |}
  else if (0 <=? va) && (va <? kernel_phys_start) then
    Some {| tr_phys := va; tr_writable := true; tr_user := false |}
  else None.

(** ** A directory under construction

    [tabs] gives the frame of the table in each directory slot, [pages] the word
    of each page; slot 1023 points back at the directory, frame [pd]. *)
Record pd_repr (m : mem) (pd : Z) (tabs : Z → option Z) (pages : Z → Z) : Prop := {
  repr_pd : 0 <= pd < 1024;
  repr_dir : forall i, 0 <= i < 1024 ->
    load32 m (pd * 4096 + 4 * i) =
      if i =? 1023 then pd * 4096 + 3
      else match tabs i with Some t => t * 4096 + 3 | None => 0 end;
  repr_range : forall i t, tabs i = Some t -> 0 <= i < 1023 /\ 0 <= t < 1024 /\ t <> pd;
  repr_tab : forall i t j, tabs i = Some t -> 0 <= j < 1024 ->
    load32 m (t * 4096 + 4 * j) = pages (i * 1024 + j);
  repr_inj : forall i j t, tabs i = Some t -> tabs j = Some t -> i = j;
  repr_none : forall p, 0 <= p -> tabs (p / 1024) = None -> pages p = 0
}.

Lemma pd_repr_ext (m : mem) (pd : Z) (tabs tabs' : Z → option Z) (pages pages' : Z → Z) :
  (forall k, tabs k = tabs' k) -> (forall p, pages p = pages' p) ->
  pd_repr m pd tabs pages -> pd_repr m pd tabs' pages'.
Proof.
  intros Ht Hp [H1 H2 H3 H4 H5 H6]. split; try done.
  all: intros *; rewrite <- ?Ht, <- ?Hp; eauto.
Qed.

(** Only the frames of the directory and its tables matter. *)
(** Writing a page word into a table that exists. *)
Lemma pd_repr_write (m : mem) (pd : Z) (tabs : Z → option Z) (pages : Z → Z) (i t j w : Z) :
  pd_repr m pd tabs pages -> tabs i = Some t -> 0 <= j < 1024 -> u32_range w ->
  pd_repr (store32 m (t * 4096 + 4 * j) w) pd tabs (fun p => if p =? i * 1024 + j then w else pages p).
Proof.
  intros R Ht Hj Hw. destruct (repr_range _ _ _ _ R _ _ Ht) as (Hi & Htr & Htpd). pose proof (repr_pd _ _ _ _ R).
  split; try apply R; try done.
  - intros k Hk. rewrite load_le_store_le_ne by lia. by apply (repr_dir _ _ _ _ R).
  - intros k t' l Ht' Hl. destruct (decide (k = i)) as [->|Hki].
    + assert (t' = t) as -> by congruence. destruct (decide (l = j)) as [->|Hlj].
      * rewrite load_le_store_le, Z.eqb_refl by lia. apply Z.mod_small. lia.
      * rewrite load_le_store_le_ne, (proj2 (Z.eqb_neq _ _)) by lia. by apply (repr_tab _ _ _ _ R).
    + assert (t' <> t) by (intros ->; apply Hki; by apply (repr_inj _ _ _ _ R k i t)).
      rewrite load_le_store_le_ne, (proj2 (Z.eqb_neq _ _)) by lia. by apply (repr_tab _ _ _ _ R).
  - intros p Hp Hnone. rewrite (proj2 (Z.eqb_neq _ _)); [by apply (repr_none _ _ _ _ R)|].
    intros ->. replace ((i * 1024 + j) / 1024) with i in Hnone by zdiv. congruence.
Qed.

Lemma pd_repr_mem (m m' : mem) (pd : Z) (tabs : Z → option Z) (pages : Z → Z) :
  (forall a, a / 4096 = pd \/ (exists i, tabs i = Some (a / 4096)) -> load8 m' a = load8 m a) ->
  pd_repr m pd tabs pages -> pd_repr m' pd tabs pages.
Proof.
  intros Hm [H1 H2 H3 H4 H5 H6]. split; try done.
  - intros i Hi. rewrite <- H2 by done. apply load_le_ext. intros b Hb. apply Hm. left. zdiv.
  - intros i t j Ht Hj. rewrite <- (H4 i t j) by done. apply load_le_ext. intros b Hb. apply Hm. right.
    exists i. rewrite Ht. f_equal. zdiv.
Qed.

Lemma load32_range (m : mem) (a : Z) : u32_range (load32 m a).
Proof. apply (load_le_bound 4 m a). lia. Qed.

(** A word [f * 4096 + bits] seen through the accessors of an entry. *)
Lemma testbit_entry (f bits i : Z) : 0 <= bits < 4096 -> 0 <= i < 12 ->
  Z.testbit (f * 4096 + bits) i = Z.testbit bits i.
Proof.
  intros Hb Hi. rewrite <- entry_word by done. rewrite Z.lor_spec. change 4096 with (2 ^ 12).
  by rewrite Z.mul_pow2_bits_low by lia.
Qed.

Lemma odd_entry (f bits : Z) : Z.odd (f * 4096 + bits) = Z.odd bits.
Proof. rewrite Z.odd_add, Z.odd_mul, andb_false_r. by destruct (Z.odd bits). Qed.

Section walk_repr.
Context (m : mem) (pd : Z) (tabs : Z → option Z) (pages : Z → Z) (R : pd_repr m pd tabs pages).

Lemma walk_pde (va : Z) : u32_range va ->
  load32 m (Z.land (pd * 4096) ADDRESS_MASK + 4 * VirtAddr.pd_index (VirtAddr.new va)) =
    if va / 2 ^ 22 =? 1023 then pd * 4096 + 3
    else match tabs (va / 2 ^ 22) with Some t => t * 4096 + 3 | None => 0 end.
Proof.
  intros Hva. pose proof (repr_pd _ _ _ _ R). rewrite address_mask_div, Z.div_mul by lia.
  unfold VirtAddr.new. rewrite pd_index_div. apply (repr_dir _ _ _ _ R). zdiv.
Qed.

(** Through a table: the word of the page decides. *)
Lemma walk_table (va t : Z) :
  u32_range va -> va / 2 ^ 22 <> 1023 -> tabs (va / 2 ^ 22) = Some t ->
  walk m (pd * 4096) va =
    let w := pages (va / 4096) in
    if Z.odd w then
      Some {| tr_phys := w / 4096 * 4096 + va mod 4096; tr_writable := Z.testbit w 1; tr_user := false |}
    else None.
Proof.
  intros Hva Hne Ht. rewrite walk_accessors. unfold accessor_walk. rewrite walk_pde, (proj2 (Z.eqb_neq _ _)), Ht by done.
  destruct (repr_range _ _ _ _ R _ _ Ht) as (_ & Htr & _).
  unfold PageDirectoryEntry.is_present, PageDirectoryEntry.flags, PageDirectoryEntry.is_huge. cbn [pde_raw].
  rewrite present_odd, odd_entry. change (negb (Z.odd 3)) with false. cbv iota.
  unfold PageDirectoryEntry.PAGE_SIZE_BIT. rewrite Z.shiftl_1_l, land_bit, testbit_entry by lia.
  change (Z.testbit 3 7) with false. cbv iota.
  change PageFlags.WRITABLE with (mkPageFlags (2 ^ 1)). change PageFlags.USER with (mkPageFlags (2 ^ 2)).
  rewrite address_mask_div by lia. replace ((t * 4096 + 3) / 4096) with t by zdiv.
  unfold VirtAddr.new. rewrite pt_index_mod, offset_mod.
  rewrite (repr_tab _ _ _ _ R _ _ _ Ht) by zdiv.
  replace (va / 2 ^ 22 * 1024 + (va / 2 ^ 12) mod 2 ^ 10) with (va / 4096) by zdiv.
  assert (u32_range (pages (va / 4096))) as Hw.
  { replace (va / 4096) with (va / 2 ^ 22 * 1024 + (va / 4096) mod 1024) by zdiv.
    rewrite <- (repr_tab _ _ _ _ R _ _ _ Ht) by zdiv. apply load32_range. }
  unfold PageTableEntry.is_present, PageTableEntry.flags. cbn [pte_raw].
  rewrite present_odd, !flags_bit, !testbit_entry, address_mask_div by lia.
  cbv zeta. by destruct (Z.odd (pages (va / 4096))).
Qed.

Lemma walk_absent (va : Z) :
  u32_range va -> va / 2 ^ 22 <> 1023 -> tabs (va / 2 ^ 22) = None -> walk m (pd * 4096) va = None.
Proof.
  intros Hva Hne Ht. rewrite walk_accessors. unfold accessor_walk. rewrite walk_pde, (proj2 (Z.eqb_neq _ _)), Ht by done. done.
Qed.

(** Outside the recursive window, the walk is the decoding of [pages]. *)
Lemma walk_pages (va : Z) :
  u32_range va -> va / 2 ^ 22 <> 1023 ->
  walk m (pd * 4096) va =
    let w := pages (va / 4096) in
    if Z.odd w then
      Some {| tr_phys := w / 4096 * 4096 + va mod 4096; tr_writable := Z.testbit w 1; tr_user := false |}
    else None.
Proof.
  intros Hva Hne. destruct (tabs (va / 2 ^ 22)) as [t|] eqn:Ht; [by apply (walk_table va t)|].
  rewrite walk_absent, (repr_none _ _ _ _ R) by (try done; try zdiv;
    by replace (va / 4096 / 1024) with (va / 2 ^ 22) by zdiv). done.
Qed.

(** The recursive window: page [j] of it is the table in slot [j], its last page the
    directory itself. *)
Lemma walk_recursive (va : Z) :
  u32_range va -> va / 2 ^ 22 = 1023 ->
  walk m (pd * 4096) va =
    let j := va / 4096 - 1023 * 1024 in
    if j =? 1023 then Some {| tr_phys := pd * 4096 + va mod 4096; tr_writable := true; tr_user := false |}
    else match tabs j with
         | Some t => Some {| tr_phys := t * 4096 + va mod 4096; tr_writable := true; tr_user := false |}
         | None => None
         end.
Proof.
  intros Hva E. rewrite walk_accessors. unfold accessor_walk. rewrite walk_pde, (proj2 (Z.eqb_eq _ _)) by done.
  pose proof (repr_pd _ _ _ _ R).
  unfold PageDirectoryEntry.is_present, PageDirectoryEntry.flags, PageDirectoryEntry.is_huge. cbn [pde_raw].
  rewrite present_odd, odd_entry. change (negb (Z.odd 3)) with false. cbv iota.
  unfold PageDirectoryEntry.PAGE_SIZE_BIT. rewrite Z.shiftl_1_l, land_bit, testbit_entry by lia.
  change (Z.testbit 3 7) with false. cbv iota.
  change PageFlags.WRITABLE with (mkPageFlags (2 ^ 1)). change PageFlags.USER with (mkPageFlags (2 ^ 2)).
  rewrite address_mask_div by lia. replace ((pd * 4096 + 3) / 4096) with pd by zdiv.
  unfold VirtAddr.new. rewrite pt_index_mod, offset_mod.
  rewrite (repr_dir _ _ _ _ R) by zdiv.
  replace (va / 4096 - 1023 * 1024) with ((va / 2 ^ 12) mod 2 ^ 10) by zdiv.
  set (j := (va / 2 ^ 12) mod 2 ^ 10). cbv zeta.
  unfold PageTableEntry.is_present, PageTableEntry.flags. cbn [pte_raw].
  destruct (j =? 1023); [|destruct (tabs j) as [t|] eqn:Ht; [|done]].
  2: destruct (repr_range _ _ _ _ R _ _ Ht) as (_ & Htr & _).
  all: rewrite present_odd, odd_entry, !flags_bit, !testbit_entry, address_mask_div by lia.
  all: change (negb (Z.odd 3)) with false; cbv iota; f_equal.
  all: cbn [Z.testbit Pos.testbit andb Pos.pred_N]; f_equal; zdiv.
Qed.

End walk_repr.

(** ** The bootstrap directory *)

(** The entries [PageDirectory::bootstrap] computes. *)
Definition boot_entries : list PageDirectoryEntry :=
  <[768%nat := mkPDE 0x83]> (<[0%nat := mkPDE 0x83]> (replicate 1024 (mkPDE 0))).

Lemma bootstrap_ok `{BuildProfile} : PageDirectory.bootstrap = Ok boot_entries.
Proof.
  assert (PageDirectoryEntry.for_huge_page (PhysAddr.new 0) PageFlags.KERNEL_RW = Ok (mkPDE 0x83)) as E.
  { unfold PageDirectoryEntry.for_huge_page. rewrite debug_assert_ok by done. done. }
  unfold PageDirectory.bootstrap. cbv zeta. by rewrite E.
Qed.

Lemma boot_entries_lookup (i : Z) :
  0 <= i < 1024 ->
  boot_entries !! Z.to_nat i = Some (mkPDE (if (i =? 0) || (i =? 768) then 0x83 else 0)).
Proof.
  intros Hi. unfold boot_entries. rewrite !list_lookup_insert, !length_insert, length_replicate.
  rewrite lookup_replicate_2 by lia. repeat case_decide; zbool.
Qed.

(** The walk through the bootstrap directory. *)
Definition bootstrap_space (va : Z) : option translation :=
  if (va <? 0x400000) || ((KERNEL_VIRTUAL_BASE <=? va) && (va <? KERNEL_VIRTUAL_BASE + 0x400000)) then
    Some {| tr_phys := va mod 0x400000; tr_writable := true; tr_user := false |}
  else None.

Lemma bootstrap_walk (m : mem) (cr3 va : Z) :
  u32_range cr3 -> cr3 mod 4096 = 0 -> directory_at m cr3 boot_entries -> u32_range va ->
  walk m cr3 va = bootstrap_space va.
Proof.
  intros Hcr Hal Hdir Hva. rewrite walk_accessors. unfold accessor_walk, VirtAddr.new. cbv zeta. rewrite pd_index_div.
  rewrite address_mask_div by done. replace (cr3 / 4096 * 4096) with cr3 by zdiv.
  set (i := va / 2 ^ 22). assert (0 <= i < 1024) as Hi by (subst i; zdiv).
  assert (load32 m (cr3 + 4 * i) = if (i =? 0) || (i =? 768) then 0x83 else 0) as ->.
  { specialize (Hdir (Z.to_nat i) _ (boot_entries_lookup i Hi)). rewrite Z2Nat.id in Hdir by lia. done. }
  unfold bootstrap_space, KERNEL_VIRTUAL_BASE.
  assert ((va <? 4194304) = (i =? 0)) as -> by (subst i; zbool; zdiv).
  assert ((3221225472 <=? va) && (va <? 3221225472 + 4194304) = (i =? 768)) as -> by (subst i; zbool; zdiv).
  by destruct ((i =? 0) || (i =? 768)).
Qed.

(** ** Building it *)

Section build.
Context {P : BuildProfile} {A : Type} {FS : FrameSource A}.

Implicit Types s : paging_state A.

(** The free frames the bootstrap identity map reaches. *)
Definition low_frames (a : A) : gset Z :=
  list_to_set (filter (fun f => fs_free a f = true) (seqZ 0 1024)).

Lemma elem_of_low_frames (a : A) (f : Z) : f ∈ low_frames a ↔ 0 <= f < 1024 /\ fs_free a f = true.
Proof.
  unfold low_frames. rewrite elem_of_list_to_set, list_elem_of_filter, elem_of_seqZ.
  split; [intros [? ?]; split; [lia|done]|intros [? ?]; split; [done|lia]].
Qed.

(** With a low frame free, [alloc_frame] returns one. *)
Lemma alloc_frame_ok s :
  fs_ok (ps_alloc s) -> (1 <= size (low_frames (ps_alloc s)))%nat ->
  exists f a', alloc_frame s =
      (Ok (mkFrameNumber f), mkPagingState a' (ps_mem s) (ps_cr3 s) (ps_cr0 s)) /\
    fs_ok a' /\ 0 <= f < 1024 /\ fs_free (ps_alloc s) f = true /\
    (forall g, 0 <= g -> fs_free a' g = fs_free (ps_alloc s) g && negb (g =? f)) /\
    (size (low_frames (ps_alloc s)) = S (size (low_frames a')))%nat.
Proof.
  intros Hok Hlow. destruct (size_pos_elem_of (low_frames (ps_alloc s)) ltac:(lia)) as [g Hg].
  apply elem_of_low_frames in Hg as [Hg Hgf].
  destruct (fs_allocate_one_ok P (ps_alloc s) Hok) as
    [(f & a' & E & Hok' & Hf & Hff & Hmin & Hnew)|[_ Hno]]; cycle 1.
  { rewrite Hno in Hgf; [done|unfold FRAME_COUNT; lia]. }
  assert (f <= g) as Hle by (apply Z.nlt_ge; intros ?; rewrite Hmin in Hgf; [done|lia]).
  exists f, a'. split_and!; try done; try lia.
  - unfold alloc_frame, zoom. cbn [view ps_alloc_lens]. unfold mbind, M_bind. rewrite E. done.
  - assert (low_frames a' = low_frames (ps_alloc s) ∖ {[f]}) as ->.
    { apply set_eq. intros x. rewrite elem_of_difference, elem_of_singleton, !elem_of_low_frames.
      split; intros Hx; rewrite Hnew, andb_true_iff, negb_true_iff, Z.eqb_neq in * by lia; naive_solver. }
    assert (f ∈ low_frames (ps_alloc s)) by (apply elem_of_low_frames; split; [lia|done]).
    rewrite size_difference by set_solver. rewrite size_singleton. lia.
Qed.

(** [init] runs on the bootstrap directory, whose frame the allocator does not own. *)
Record on_bootstrap s : Prop := {
  ob_dir : directory_at (ps_mem s) (ps_cr3 s) boot_entries;
  ob_range : u32_range (ps_cr3 s);
  ob_aligned : ps_cr3 s mod 4096 = 0;
  ob_used : fs_free (ps_alloc s) (ps_cr3 s / 4096) = false
}.

(** What a step of [init], also a failed one, leaves: registers and every byte of a
    frame in use. *)
Definition untouched s0 s : Prop :=
  ps_cr3 s = ps_cr3 s0 /\ ps_cr0 s = ps_cr0 s0 /\
  forall b, fs_free (ps_alloc s0) (b / 4096) = false -> load8 (ps_mem s) b = load8 (ps_mem s0) b.

(** So the low 4 MiB stay mapped to themselves while [init] works. *)
Lemma deref_ok s0 s write ptr :
  on_bootstrap s0 -> untouched s0 s -> 0 <= ptr < 0x400000 -> deref write ptr s = (Ok tt, s).
Proof.
  intros [Hd Hr Hal Hu] (E3 & _ & Hm) Hp. unfold deref, reads, identity_page. rewrite E3.
  assert (directory_at (ps_mem s) (ps_cr3 s0) boot_entries) as Hd'.
  { intros i e Hi. rewrite <- (Hd i e Hi). apply load_le_ext. intros b Hb. apply Hm.
    apply lookup_lt_Some in Hi. unfold boot_entries in Hi. rewrite !length_insert, length_replicate in Hi.
    by replace (b / 4096) with (ps_cr3 s0 / 4096) by zdiv. }
  rewrite (bootstrap_walk _ _ ptr Hr Hal Hd') by lia. unfold bootstrap_space.
  rewrite (proj2 (Z.ltb_lt _ _)) by lia. cbn [orb tr_phys tr_writable].
  rewrite Z.mod_small, Z.eqb_refl by lia. by destruct write.
Qed.

(** The directory under construction, with its allocator and memory: [s0] is the
    state before [init]; only frames free in it are used, and no other byte of
    memory is touched. *)
Record building s0 (pd : Z) (tabs : Z → option Z) (pages : Z → Z) s : Prop := {
  bl_repr : pd_repr (ps_mem s) pd tabs pages;
  bl_ok : fs_ok (ps_alloc s);
  bl_used : fs_free (ps_alloc s) pd = false /\ forall i t, tabs i = Some t -> fs_free (ps_alloc s) t = false;
  bl_from : fs_free (ps_alloc s0) pd = true /\ forall i t, tabs i = Some t -> fs_free (ps_alloc s0) t = true;
  bl_mono : forall f, 0 <= f -> fs_free (ps_alloc s) f = true -> fs_free (ps_alloc s0) f = true;
  bl_frame : forall b, fs_free (ps_alloc s0) (b / 4096) = false -> load8 (ps_mem s) b = load8 (ps_mem s0) b;
  bl_regs : ps_cr3 s = ps_cr3 s0 /\ ps_cr0 s = ps_cr0 s0;
  bl_boot : on_bootstrap s0;
  bl_null : fs_free (ps_alloc s0) 0 = false
}.

Lemma set_mem_run (f : mem → mem) s :
  set_mem f s = (Ok tt, mkPagingState (ps_alloc s) (f (ps_mem s)) (ps_cr3 s) (ps_cr0 s)).
Proof. done. Qed.

Lemma switch_to_run (v : Z) s :
  switch_to v s = (Ok tt, mkPagingState (ps_alloc s) (ps_mem s) v (Z.lor (ps_cr0 s) CR0_WP)).
Proof. done. Qed.

Lemma building_write_pte s0 pd tabs pages s i t j w :
  building s0 pd tabs pages s -> tabs i = Some t -> 0 <= j < 1024 -> u32_range w ->
  building s0 pd tabs (fun p => if p =? i * 1024 + j then w else pages p)
    (mkPagingState (ps_alloc s) (store32 (ps_mem s) (t * 4096 + 4 * j) w) (ps_cr3 s) (ps_cr0 s)).
Proof.
  intros [R Hok Hused Hfrom Hmono Hframe Hregs Hboot Hnull] Ht Hj Hw.
  destruct (repr_range _ _ _ _ R _ _ Ht) as (Hi & Htr & Htpd). pose proof (repr_pd _ _ _ _ R).
  split; cbn [ps_alloc ps_mem ps_cr3 ps_cr0]; try done.
  - by apply pd_repr_write.
  - intros b Hb. rewrite load8_store_le_ne, Hframe; [done|done|lia|].
    destruct (decide (t * 4096 + 4 * j <= b < t * 4096 + 4 * j + 4)); [|lia].
    replace (b / 4096) with t in Hb by zdiv. destruct Hfrom as [_ Hfrom]. rewrite (Hfrom i t Ht) in Hb. done.
Qed.

(** Installing a zeroed table in an empty slot. *)
Lemma building_add_table s0 pd tabs pages s i t a' :
  building s0 pd tabs pages s -> tabs i = None -> 0 <= i < 1023 -> 0 <= t < 1024 ->
  fs_ok a' -> fs_free (ps_alloc s) t = true ->
  (forall g, 0 <= g -> fs_free a' g = fs_free (ps_alloc s) g && negb (g =? t)) ->
  building s0 pd (fun k => if k =? i then Some t else tabs k) pages
    (mkPagingState a' (store32 (fill (ps_mem s) (t * 4096) 0 4096) (pd * 4096 + 4 * i) (t * 4096 + 3))
       (ps_cr3 s) (ps_cr0 s)).
Proof.
  intros [R Hok Hused Hfrom Hmono Hframe Hregs Hboot Hnull] Hti Hi Ht Hok' Hfree Hnew.
  pose proof (repr_pd _ _ _ _ R). destruct Hused as [Hupd Hutabs].
  assert (t <> pd) as Htpd by congruence.
  assert (forall k t', tabs k = Some t' -> t' <> t) as Hfresh
    by (intros k t' Hk ->; specialize (Hutabs _ _ Hk); congruence).
  split; cbn [ps_alloc ps_mem ps_cr3 ps_cr0]; try done.
  - split; try done.
    + intros k Hk. destruct (decide (k = i)) as [->|Hki].
      * rewrite load_le_store_le, Z.eqb_refl, (proj2 (Z.eqb_neq i 1023)) by lia. apply Z.mod_small. lia.
      * rewrite load_le_store_le_ne, load_le_fill_ne, (proj2 (Z.eqb_neq k i)) by lia.
        by apply (repr_dir _ _ _ _ R).
    + intros k t'. destruct (Z.eqb_spec k i) as [->|Hki]; [intros; simplify_eq; lia|].
      apply (repr_range _ _ _ _ R).
    + intros k t' j Hk Hj. destruct (Z.eqb_spec k i) as [->|Hki]; simplify_eq.
      * rewrite load_le_store_le_ne, load_le_fill_zero by lia.
        symmetry. apply (repr_none _ _ _ _ R); [lia|]. by replace ((i * 1024 + j) / 1024) with i by zdiv.
      * destruct (repr_range _ _ _ _ R _ _ Hk) as (_ & Htr' & Htpd'). specialize (Hfresh _ _ Hk).
        rewrite load_le_store_le_ne, load_le_fill_ne by lia. by apply (repr_tab _ _ _ _ R).
    + intros k l t' Hk Hl. destruct (Z.eqb_spec k i) as [->|], (Z.eqb_spec l i) as [->|]; simplify_eq; try done.
      * by destruct (Hfresh _ _ Hl).
      * by destruct (Hfresh _ _ Hk).
      * by apply (repr_inj _ _ _ _ R k l t').
    + intros p Hp. destruct (Z.eqb_spec (p / 1024) i); [done|]. by apply (repr_none _ _ _ _ R).
  - split.
    + rewrite Hnew, Hupd by lia. done.
    + intros k t'. destruct (Z.eqb_spec k i) as [->|]; intros Hk; simplify_eq.
      * rewrite Hnew, Z.eqb_refl by lia. apply andb_false_r.
      * destruct (repr_range _ _ _ _ R _ _ Hk) as (_ & ? & _). by rewrite Hnew, (Hutabs _ _ Hk) by lia.
  - split; [apply Hfrom|]. intros k t'. destruct (Z.eqb_spec k i) as [->|]; intros Hk; simplify_eq.
    + by apply Hmono; [lia|].
    + by apply (proj2 Hfrom k).
  - intros f Hf Hff. apply Hmono; [done|]. rewrite Hnew, andb_true_iff in Hff by done. tauto.
  - intros b Hb. assert (b / 4096 <> t) by (intros <-; rewrite Hmono in Hb; [done|lia|done]).
    assert (b / 4096 <> pd) by (intros <-; destruct Hfrom as [Hfrom _]; congruence).
    rewrite load8_store_le_ne, load8_fill by zdiv. case_decide; [zdiv|by apply Hframe].
Qed.

Lemma building_ext s0 pd tabs tabs' pages pages' s :
  (forall k, tabs k = tabs' k) -> (forall p, pages p = pages' p) ->
  building s0 pd tabs pages s -> building s0 pd tabs' pages' s.
Proof.
  intros Ht Hp [R Hok [Hu Hu'] [Hf Hf'] Hmono Hframe Hregs Hboot Hnull]. split; try done.
  - by apply (pd_repr_ext _ _ tabs _ pages).
  - split; [done|]. intros i t. rewrite <- Ht. apply Hu'.
  - split; [done|]. intros i t. rewrite <- Ht. apply Hf'.
Qed.

Lemma building_untouched s0 pd tabs pages s : building s0 pd tabs pages s -> untouched s0 s.
Proof. intros HB. destruct (bl_regs _ _ _ _ _ HB). split_and!; [done|done|apply (bl_frame _ _ _ _ _ HB)]. Qed.

Lemma read_slot_ok s0 s table i :
  on_bootstrap s0 -> untouched s0 s -> 0 <= i < 1024 -> 0 <= table -> table + 4096 <= 0x400000 ->
  read_slot table i s = (Ok (load32 (ps_mem s) (table + 4 * i)), s).
Proof.
  intros Hb Hu Hi H0 H1. unfold read_slot, ENTRY_COUNT.
  rewrite (proj2 (Z.leb_le _ _)), (proj2 (Z.ltb_lt _ _)) by lia. cbn [andb].
  by rewrite (bind_ok _ _ _ _ _ (deref_ok s0 s false (table + 4 * i) Hb Hu ltac:(lia))).
Qed.

Lemma write_slot_ok s0 s table i w :
  on_bootstrap s0 -> untouched s0 s -> 0 <= i < 1024 -> 0 <= table -> table + 4096 <= 0x400000 ->
  write_slot table i w s =
    (Ok tt, mkPagingState (ps_alloc s) (store32 (ps_mem s) (table + 4 * i) w) (ps_cr3 s) (ps_cr0 s)).
Proof.
  intros Hb Hu Hi H0 H1. unfold write_slot, ENTRY_COUNT.
  rewrite (proj2 (Z.leb_le _ _)), (proj2 (Z.ltb_lt _ _)) by lia. cbn [andb].
  by rewrite (bind_ok _ _ _ _ _ (deref_ok s0 s true (table + 4 * i) Hb Hu ltac:(lia))).
Qed.

Lemma zero_frame_ok s0 s f :
  on_bootstrap s0 -> untouched s0 s -> 0 <= f < 1024 -> f <> 0 -> zero_frame (mkFrameNumber f) s =
    (Ok tt, mkPagingState (ps_alloc s) (fill (ps_mem s) (f * 4096) 0 4096) (ps_cr3 s) (ps_cr0 s)).
Proof.
  intros Hb Hu Hf Hn. unfold zero_frame. rewrite bootstrap_frame_ptr_ok, bind_lift by done.
  rewrite deref_check_ok, bind_lift by (lia || apply Z.mod_1_r).
  by rewrite (bind_ok _ _ _ _ _ (deref_ok s0 s true (f * 4096) Hb Hu ltac:(lia))).
Qed.

(** Clearing a frame that was free, with any change of the allocator, touches nothing
    in use. *)
Lemma untouched_fill s0 s a' f :
  untouched s0 s -> 0 <= f -> fs_free (ps_alloc s0) f = true ->
  untouched s0 (mkPagingState a' (fill (ps_mem s) (f * 4096) 0 4096) (ps_cr3 s) (ps_cr0 s)).
Proof.
  intros (E3 & E0 & Hm) Hf Hff. split_and!; [done|done|]. cbn [ps_mem]. intros b Hb.
  rewrite load8_fill by lia. case_decide; [|by apply Hm].
  replace (b / 4096) with f in Hb by zdiv. congruence.
Qed.

(** [map_bootstrap] adds one page, and a table when the slot had none. *)
Lemma map_bootstrap_ok s0 pd tabs pages s va phys bits :
  building s0 pd tabs pages s -> u32_range va -> u32_range phys -> 0 <= bits < 4096 ->
  let i := va / 2 ^ 22 in
  i <> 1023 -> (tabs i = None -> (1 <= size (low_frames (ps_alloc s)))%nat) ->
  exists t s', map_bootstrap (pd * 4096) (mkVirtAddr va) (mkPhysAddr phys) (mkPageFlags bits) s = (Ok tt, s') /\
    building s0 pd (fun k => if k =? i then Some t else tabs k)
      (fun p => if p =? va / 4096 then phys / 4096 * 4096 + bits else pages p) s' /\
    match tabs i with
    | Some _ => ps_alloc s' = ps_alloc s
    | None => (size (low_frames (ps_alloc s)) = S (size (low_frames (ps_alloc s'))))%nat
    end.
Proof.
  intros HB Hva Hphys Hbits i Hi Hlow. pose proof (bl_repr _ _ _ _ _ HB) as R.
  pose proof (repr_pd _ _ _ _ R) as Hpd. assert (0 <= i < 1023) as Hir by (subst i; zdiv).
  unfold map_bootstrap. rewrite pd_index_div, pt_index_mod. fold i.
  pose proof (building_untouched _ _ _ _ _ HB) as Hun. pose proof (bl_boot _ _ _ _ _ HB) as Hboot.
  rewrite (bind_ok _ _ _ _ _ (read_slot_ok s0 s (pd * 4096) i Hboot Hun ltac:(lia) ltac:(lia) ltac:(lia))).
  rewrite (repr_dir _ _ _ _ R), (proj2 (Z.eqb_neq i 1023)) by lia.
  assert (va / 4096 = i * 1024 + (va / 2 ^ 12) mod 2 ^ 10) as Hp by (subst i; zdiv).
  assert (forall t s1, 0 <= t < 1024 -> t <> 0 -> building s0 pd (fun k => if k =? i then Some t else tabs k) pages s1 ->
    exists s', (table ← lift (bootstrap_frame_ptr (mkFrameNumber t));
      entry ← lift (PageTableEntry.new (PhysAddr.frame_floor (mkPhysAddr phys)) (mkPageFlags bits));
      lift (deref_check PAGE_SIZE table);;
      write_slot table ((va / 2 ^ 12) mod 2 ^ 10) (pte_raw entry)) s1 = (Ok tt, s') /\
    building s0 pd (fun k => if k =? i then Some t else tabs k)
      (fun p => if p =? va / 4096 then phys / 4096 * 4096 + bits else pages p) s' /\
    ps_alloc s' = ps_alloc s1) as Hwrite.
  { intros t s1 Ht Hn HB1. rewrite bootstrap_frame_ptr_ok, bind_lift by done.
    unfold PhysAddr.frame_floor. cbn [phys_raw]. rewrite pte_new_ok, bind_lift by zdiv. cbn [pte_raw].
    rewrite deref_check_ok, bind_lift by (lia || apply Z.mod_mul; done).
    rewrite (write_slot_ok s0) by (apply HB1 || exact (building_untouched _ _ _ _ _ HB1) || zdiv).
    eexists. split; [done|]. split; [|done]. rewrite Hp.
    apply building_write_pte; [done|by rewrite Z.eqb_refl|zdiv|zdiv]. }
  destruct (tabs i) as [t|] eqn:Et.
  - destruct (repr_range _ _ _ _ R _ _ Et) as (_ & Ht & _).
    unfold PageDirectoryEntry.is_present, PageDirectoryEntry.flags. cbn [pde_raw].
    rewrite present_odd, odd_entry. change (Z.odd 3) with true. cbv iota.
    rewrite table_frame_div by lia. replace ((t * 4096 + 3) / 4096) with t by zdiv.
    destruct (Hwrite t s Ht) as (s' & E & HB' & Ea); [|  |by exists t, s'].
    { intros ->. destruct (bl_from _ _ _ _ _ HB) as [_ Hfr]. pose proof (bl_null _ _ _ _ _ HB). apply Hfr in Et. congruence. }
    apply (building_ext _ _ tabs _ pages); [|done|done]. intros k. by destruct (Z.eqb_spec k i) as [->|].
  - destruct (alloc_frame_ok s (bl_ok _ _ _ _ _ HB) (Hlow eq_refl))
      as (t & a' & E & Hok' & Ht & Hfree & Hnew & Hsize).
    pose proof (building_add_table s0 pd tabs pages s i t a' HB Et Hir Ht Hok' Hfree Hnew) as HB1.
    assert (t <> 0) as Hn by (intros ->; pose proof (fs_not_null _ (bl_ok _ _ _ _ _ HB)); congruence).
    destruct (Hwrite t _ Ht Hn HB1) as (s' & E' & HB' & Ea).
    exists t, s'. split; [|split; [done|by rewrite Ea]].
    change (PageDirectoryEntry.is_present (mkPDE 0)) with false. cbv iota.
    unfold mbind at 1, M_bind at 1.
    assert (untouched s0 (mkPagingState a' (ps_mem s) (ps_cr3 s) (ps_cr0 s))) as Hun' by exact Hun.
    assert (fs_free (ps_alloc s0) t = true) as Ht0 by (apply (bl_mono _ _ _ _ _ HB); [lia|done]).
    rewrite (bind_ok _ _ _ _ _ E), (bind_ok _ _ _ _ _ (zero_frame_ok s0 _ t Hboot Hun' Ht Hn)).
    change PageFlags.KERNEL_RW with (mkPageFlags 3). rewrite for_table_ok, bind_lift by lia. cbn [pde_raw].
    by rewrite (bind_ok _ _ _ _ _ (write_slot_ok s0 _ (pd * 4096) i _ Hboot (untouched_fill s0 _ a' t Hun' ltac:(lia) Ht0)
      ltac:(lia) ltac:(lia) ltac:(lia))).
Qed.

(** The table frames of a directory slot. *)
Definition slots (T : option Z) : nat := match T with Some _ => 1 | None => 0 end.

(** A loop that maps some pages of one directory slot. *)
Lemma map_loop_ok s0 pd tabs pages (l : list Z) (body : Z → M (paging_state A) unit)
    (skip : Z → bool) (phys bits : Z → Z) (i : Z) s :
  (forall va s', va ∈ l -> body va s' =
    (if skip va then mret tt
     else map_bootstrap (pd * 4096) (mkVirtAddr va) (mkPhysAddr (phys va)) (mkPageFlags (bits va))) s') ->
  (forall va, va ∈ l -> u32_range va /\ va / 2 ^ 22 = i /\ va mod 4096 = 0 /\
    u32_range (phys va) /\ 0 <= bits va < 4096) ->
  i <> 1023 -> tabs i = None -> (1 <= size (low_frames (ps_alloc s)))%nat ->
  building s0 pd tabs pages s ->
  exists T s', for_in l body s = (Ok tt, s') /\
    building s0 pd (fun k => if k =? i then T else tabs k)
      (fun p => if bool_decide (p * 4096 ∈ l) && negb (skip (p * 4096))
                then phys (p * 4096) / 4096 * 4096 + bits (p * 4096) else pages p) s' /\
    (size (low_frames (ps_alloc s)) = size (low_frames (ps_alloc s')) + slots T)%nat.
Proof.
  intros Hbody Hl Hi Hnone Hlow HB.
  set (Inv := fun (done : list Z) s' => exists T,
    building s0 pd (fun k => if k =? i then T else tabs k)
      (fun p => if bool_decide (p * 4096 ∈ done) && negb (skip (p * 4096))
                then phys (p * 4096) / 4096 * 4096 + bits (p * 4096) else pages p) s' /\
    (size (low_frames (ps_alloc s)) = size (low_frames (ps_alloc s')) + slots T)%nat).
  cut (wp (for_in l body) (fun _ s' => Inv l s') s).
  { intros ([] & s' & E & T & HB' & Hn). by exists T, s'. }
  apply (wp_for_in l body Inv); [| |done].
  { exists None. split; [|simpl; lia]. apply (building_ext _ _ tabs _ pages); [|done|done].
    intros k. by destruct (Z.eqb_spec k i) as [->|]. }
  intros done va rest s' -> (T & HB' & Hn).
  assert (va ∈ done ++ va :: rest) as Hin by set_solver.
  destruct (Hl va Hin) as (Hva & Hvi & Hal & Hph & Hbi). unfold wp. rewrite (Hbody va s' Hin).
  destruct (skip va) eqn:Es.
  - exists tt, s'. split; [done|]. exists T. split; [|done].
    eapply building_ext; [..|exact HB']; [done|]. intros p. cbv beta.
    destruct (decide (p * 4096 = va)) as [->|]; [by rewrite Es, !andb_false_r|].
    by rewrite (bool_decide_ext (p * 4096 ∈ done) (p * 4096 ∈ done ++ [va])) by set_solver.
  - destruct (map_bootstrap_ok s0 pd _ _ s' va (phys va) (bits va) HB' Hva Hph Hbi)
      as (t & s'' & E & HB'' & Hsz); rewrite Hvi in *; [done| |].
    { rewrite Z.eqb_refl. intros ->. simpl in Hn. lia. }
    exists tt, s''. split; [done|]. exists (Some t). split.
    + eapply building_ext; [..|exact HB'']; [intros k; cbv beta; destruct (k =? i); reflexivity|].
      intros p. cbv beta. destruct (Z.eqb_spec p (va / 4096)) as [->|Hp].
      * replace (va / 4096 * 4096) with va by zdiv.
        rewrite bool_decide_eq_true_2 by set_solver. by rewrite Es.
      * assert (p * 4096 <> va) by (intros <-; apply Hp; by rewrite Z.div_mul).
        by rewrite (bool_decide_ext (p * 4096 ∈ done) (p * 4096 ∈ done ++ [va])) by set_solver.
    + rewrite Z.eqb_refl in Hsz. destruct T; [by rewrite Hsz|]. simpl in *. lia.
Qed.

(** The empty directory: zeroed, with the recursive slot. *)
Lemma building_start s0 pd a' :
  on_bootstrap s0 -> fs_free (ps_alloc s0) 0 = false -> 0 <= pd < 1024 -> fs_ok a' -> fs_free (ps_alloc s0) pd = true ->
  (forall g, 0 <= g -> fs_free a' g = fs_free (ps_alloc s0) g && negb (g =? pd)) ->
  building s0 pd (fun _ => None) (fun _ => 0)
    (mkPagingState a' (store32 (fill (ps_mem s0) (pd * 4096) 0 4096) (pd * 4096 + 4 * 1023) (pd * 4096 + 3))
       (ps_cr3 s0) (ps_cr0 s0)).
Proof.
  intros Hboot Hnull Hpd Hok Hfree Hnew. split; cbn [ps_alloc ps_mem ps_cr3 ps_cr0]; try done.
  - split; try done. intros i Hi. zcase.
    + subst i. rewrite load_le_store_le by lia. apply Z.mod_small. lia.
    + by rewrite load_le_store_le_ne, load_le_fill_zero by lia.
  - split; [|done]. rewrite Hnew, Z.eqb_refl by lia. apply andb_false_r.
  - intros f Hf Hff. rewrite Hnew, andb_true_iff in Hff by done. tauto.
  - intros b Hb. assert (b / 4096 <> pd) by congruence.
    rewrite load8_store_le_ne, load8_fill by zdiv. case_decide; [zdiv|done].
Qed.

Context {I : KernelImage} {HI : ImageOk I}.

Lemma kernel_pages_range va :
  va ∈ range_step_by kernel_virt_start_addr kernel_virt_end_addr PAGE_SIZE <->
  kernel_virt_start <= va < kernel_virt_end /\ va mod 4096 = 0.
Proof.
  unfold kernel_virt_start_addr, kernel_virt_end_addr, PAGE_SIZE. rewrite elem_of_range_step_by by lia.
  destruct HI. zdiv.
Qed.

Lemma low_pages_range va :
  va ∈ range_step_by 0 kernel_phys_start_addr PAGE_SIZE <->
  0 <= va < kernel_phys_start /\ va mod 4096 = 0.
Proof.
  unfold kernel_phys_start_addr, PAGE_SIZE. rewrite elem_of_range_step_by by lia. zdiv.
Qed.

(** The word the kernel loop stores for page [p], zero where it stores none. *)
Definition kernel_word (p : Z) : Z :=
  let va := p * 4096 in
  if (kernel_virt_start <=? va) && (va <? kernel_virt_end) && negb (va =? stack_guard) then
    va - KERNEL_VIRTUAL_BASE + (if va <? kernel_data_start then 1 else 3)
  else 0.

Definition kernel_pages : list Z := range_step_by kernel_virt_start_addr kernel_virt_end_addr PAGE_SIZE.

Definition low_pages : list Z := range_step_by 0 kernel_phys_start_addr PAGE_SIZE.

(** What is left of [init] once the recursive slot is set. *)
Definition map_and_switch (pd : Z) : M (paging_state A) unit :=
  for_in kernel_pages (map_kernel_page (pd * 4096));;
  for_in low_pages (map_low_page (pd * 4096));;
  base ← lift (FrameNumber.base_addr (mkFrameNumber pd));
  switch_to (PhysAddr.raw base).

Lemma init_start s :
  on_bootstrap s -> fs_ok (ps_alloc s) -> (1 <= size (low_frames (ps_alloc s)))%nat ->
  exists pd s1, init s = map_and_switch pd s1 /\ building s pd (fun _ => None) (fun _ => 0) s1 /\
    (size (low_frames (ps_alloc s)) = S (size (low_frames (ps_alloc s1))))%nat.
Proof.
  intros Hboot Hok Hlow.
  destruct (alloc_frame_ok s Hok ltac:(lia)) as (pd & a' & E & Hok' & Hpd & Hfree & Hnew & Hsz).
  exists pd. eexists. split; [|split; [exact (building_start s pd a' Hboot (fs_not_null _ Hok) Hpd Hok' Hfree Hnew)|done]].
  assert (untouched s (mkPagingState a' (ps_mem s) (ps_cr3 s) (ps_cr0 s))) as Hun by done.
  assert (pd <> 0) as Hn by (intros ->; pose proof (fs_not_null _ Hok); congruence).
  unfold init. rewrite (bind_ok _ _ _ _ _ E), (bind_ok _ _ _ _ _ (zero_frame_ok s _ pd Hboot Hun Hpd Hn)).
  rewrite bootstrap_frame_ptr_ok, bind_lift by done. rewrite deref_check_ok, bind_lift by (lia || apply Z.mod_mul; done).
  change PageFlags.KERNEL_RW with (mkPageFlags 3). rewrite for_table_ok, bind_lift by lia. cbn [pde_raw].
  change RECURSIVE_INDEX with 1023.
  by rewrite (bind_ok _ _ _ _ _ (write_slot_ok s _ (pd * 4096) 1023 _ Hboot (untouched_fill s _ a' pd Hun ltac:(lia) Hfree)
    ltac:(lia) ltac:(lia) ltac:(lia))).
Qed.

(** The two loops map the pages they are given. *)
Lemma map_kernel_page_ok pd va s :
  va ∈ kernel_pages -> map_kernel_page (pd * 4096) va s =
    (if va =? stack_guard then mret tt
     else map_bootstrap (pd * 4096) (mkVirtAddr va) (mkPhysAddr (va - KERNEL_VIRTUAL_BASE))
            (mkPageFlags (if va <? kernel_data_start then 1 else 3))) s.
Proof.
  intros Hva. apply kernel_pages_range in Hva as [Hva _]. destruct HI. unfold map_kernel_page, stack_guard_addr,
    kernel_data_start_addr, KERNEL_VIRTUAL_BASE in *. destruct (va =? stack_guard); [done|].
  rewrite usize_sub_ok, bind_lift by lia. unfold VirtAddr.new, PhysAddr.new, as_u32.
  rewrite !Z.mod_small by lia. by destruct (va <? kernel_data_start).
Qed.

Lemma map_low_page_ok pd va s :
  va ∈ low_pages -> map_low_page (pd * 4096) va s =
    map_bootstrap (pd * 4096) (mkVirtAddr va) (mkPhysAddr va) (mkPageFlags 3) s.
Proof.
  intros Hva. apply low_pages_range in Hva as [Hva _]. destruct HI.
  unfold map_low_page, VirtAddr.new, PhysAddr.new, as_u32. by rewrite !Z.mod_small by lia.
Qed.

(** The kernel loop fills slot 768. *)
Lemma kernel_loop_ok s0 pd s :
  building s0 pd (fun _ => None) (fun _ => 0) s -> (1 <= size (low_frames (ps_alloc s)))%nat ->
  exists t s', for_in kernel_pages (map_kernel_page (pd * 4096)) s = (Ok tt, s') /\
    building s0 pd (fun k => if k =? 768 then Some t else None) kernel_word s' /\
    (size (low_frames (ps_alloc s)) = S (size (low_frames (ps_alloc s'))))%nat.
Proof.
  intros HB Hlow. destruct HI as [Hps Hpe Hvs Hds Hg Hsb Hst Hve Hfit Avs Ads Ag Ave].
  unfold KERNEL_VIRTUAL_BASE in *.
  destruct (map_loop_ok s0 pd (fun _ => None) (fun _ => 0) kernel_pages
    (map_kernel_page (pd * 4096)) (fun va => va =? stack_guard) (fun va => va - KERNEL_VIRTUAL_BASE)
    (fun va => if va <? kernel_data_start then 1 else 3) 768 s) as (T & s' & E & HB' & Hsz);
    [intros; by apply map_kernel_page_ok| |done|done|done|exact HB|].
  { intros va Hva. apply kernel_pages_range in Hva as [Hva Hal]. unfold KERNEL_VIRTUAL_BASE.
    split_and!; try lia; [zdiv|zcase; lia|zcase; lia]. }
  assert (building s0 pd (fun k => if k =? 768 then T else None) kernel_word s') as HB2.
  { eapply building_ext; [..|exact HB']; [done|]. intros p. cbv beta. unfold kernel_word, kernel_pages.
    rewrite (bool_decide_ext _ _ (kernel_pages_range _)). unfold KERNEL_VIRTUAL_BASE.
    assert ((p * 4096 - 3221225472) / 4096 * 4096 = p * 4096 - 3221225472
      /\ (p * 4096) mod 4096 = 0) as (-> & Hm) by zdiv.
    case_bool_decide; zbool. }
  destruct T as [t|].
  - exists t, s'. split_and!; [done|done|]. simpl in Hsz. lia.
  - exfalso. pose proof (repr_none _ _ _ _ (bl_repr _ _ _ _ _ HB2) (stack_bottom / 4096)) as H0.
    cbv beta in H0. replace (stack_bottom / 4096 / 1024 =? 768) with true in H0 by (symmetry; apply Z.eqb_eq; zdiv).
    specialize (H0 ltac:(zdiv) eq_refl). revert H0. unfold kernel_word, KERNEL_VIRTUAL_BASE.
    replace (stack_bottom / 4096 * 4096) with stack_bottom by zdiv. zbool.
Qed.

(** The second loop completes the directory. *)
Lemma low_loop_ok s0 pd t s :
  building s0 pd (fun k => if k =? 768 then Some t else None) kernel_word s ->
  (1 <= size (low_frames (ps_alloc s)))%nat ->
  exists tabs s', for_in low_pages (map_low_page (pd * 4096)) s = (Ok tt, s') /\
    building s0 pd tabs page_word s' /\ forall k, k <> 0 -> k <> 768 -> tabs k = None.
Proof.
  intros HB Hlow. destruct HI as [Hps Hpe Hvs Hds Hg Hsb Hst Hve Hfit Avs Ads Ag Ave].
  unfold KERNEL_VIRTUAL_BASE in *.
  destruct (map_loop_ok s0 pd (fun k => if k =? 768 then Some t else None) kernel_word low_pages
    (map_low_page (pd * 4096)) (fun _ => false) (fun va => va) (fun _ => 3) 0 s) as (T & s' & E & HB' & _);
    [intros; by apply map_low_page_ok| |done|done|done|exact HB|].
  { intros va Hva. apply low_pages_range in Hva as [Hva Hal]. split_and!; try lia; zdiv. }
  exists (fun k => if k =? 0 then T else if k =? 768 then Some t else None), s'. split_and!; [done| |].
  - eapply building_ext; [..|exact HB']; [done|]. intros p. cbv beta. unfold page_word, kernel_word, low_pages, PAGE_SIZE.
    rewrite (bool_decide_ext _ _ (low_pages_range _)). unfold KERNEL_VIRTUAL_BASE.
    assert (p * 4096 / 4096 * 4096 = p * 4096 /\ (p * 4096) mod 4096 = 0) as (-> & Hm) by zdiv.
    case_bool_decide; zbool.
  - intros k H0 H768. by rewrite (proj2 (Z.eqb_neq _ _) H0), (proj2 (Z.eqb_neq _ _) H768).
Qed.

(** [init] builds the directory of [page_word] from low frames and switches to it. *)
Lemma init_build s :
  on_bootstrap s -> fs_ok (ps_alloc s) -> (3 <= size (low_frames (ps_alloc s)))%nat ->
  exists pd tabs s1, building s pd tabs page_word s1 /\
    (forall k, k <> 0 -> k <> 768 -> tabs k = None) /\
    init s = (Ok tt, mkPagingState (ps_alloc s1) (ps_mem s1) (pd * 4096) (Z.lor (ps_cr0 s) CR0_WP)).
Proof.
  intros Hboot Hok Hlow. destruct (init_start s Hboot Hok ltac:(lia)) as (pd & s1 & E1 & HB1 & Hz1).
  destruct (kernel_loop_ok s pd s1 HB1 ltac:(lia)) as (t & s2 & E2 & HB2 & Hz2).
  destruct (low_loop_ok s pd t s2 HB2 ltac:(lia)) as (tabs & s3 & E3 & HB3 & Hnone).
  exists pd, tabs, s3. split_and!; [done|done|]. pose proof (repr_pd _ _ _ _ (bl_repr _ _ _ _ _ HB3)).
  rewrite E1. unfold map_and_switch. rewrite (bind_ok _ _ _ _ _ E2), (bind_ok _ _ _ _ _ E3).
  rewrite base_addr_ok, bind_lift by lia. rewrite switch_to_run.
  destruct (bl_regs _ _ _ _ _ HB3) as [_ ->]. done.
Qed.

(** ** Failure *)

(** The two ways [init] dies: no frame at all, or none the bootstrap map reaches. *)
Definition init_failure (p : panic_info) : Prop :=
  p = Message "out of physical frames while building the page directory" \/
  exists phys, PAGE_TABLE_SPAN <= phys /\ p = AssertionFailed (above_identity_map phys).

(** Without a low frame, taking and clearing one fails. *)
Lemma alloc_zero_fail s :
  fs_ok (ps_alloc s) -> size (low_frames (ps_alloc s)) = 0%nat ->
  exists p s', (forall B (k : FrameNumber → M (paging_state A) B),
      (f ← alloc_frame; zero_frame f;; k f) s = (Panic p, s')) /\ init_failure p /\
    ps_mem s' = ps_mem s /\ ps_cr3 s' = ps_cr3 s /\ ps_cr0 s' = ps_cr0 s.
Proof.
  intros Hok Hlow. destruct (fs_allocate_one_ok P (ps_alloc s) Hok) as
    [(f & a' & E & _ & Hf & Hff & _)|[E _]]; eexists _, _.
  - assert (1024 <= f).
    { apply Z.nlt_ge. intros ?. apply size_empty_inv in Hlow.
      apply (not_elem_of_empty (C := gset Z) f), Hlow, elem_of_low_frames. split; [lia|done]. }
    assert (bootstrap_frame_ptr (mkFrameNumber f) =
      Panic (AssertionFailed (above_identity_map (f * 4096)))) as Ep.
    { unfold bootstrap_frame_ptr. rewrite base_addr_ok, ok_bind by (unfold FRAME_COUNT in *; lia).
      cbn [PhysAddr.raw phys_raw]. unfold BOOTSTRAP_IDENTITY_LIMIT, PAGE_TABLE_SPAN, PAGE_SIZE, ENTRY_COUNT.
      by rewrite (proj2 (Z.ltb_ge _ _)) by lia. }
    split; [|split; [right; exists (f * 4096); split; [unfold PAGE_TABLE_SPAN, PAGE_SIZE, ENTRY_COUNT; lia|done]|]].
    { intros B k. unfold alloc_frame, zero_frame, zoom. cbn [view ps_alloc_lens]. unfold mbind, M_bind. rewrite E.
      cbn [expect lift FrameRun.start run_start mret M_ret]. unfold FrameNumber.new. rewrite Ep. done. }
    done.
  - split; [|split; [by left|]].
    { intros B k. unfold alloc_frame, zoom. cbn [view ps_alloc_lens]. unfold mbind, M_bind. rewrite E. done. }
    done.
Qed.

(** Mapping a page of a slot without a table then fails too. *)
Lemma map_bootstrap_fail s0 pd tabs pages s va phys flags :
  building s0 pd tabs pages s -> u32_range va -> va / 2 ^ 22 <> 1023 -> tabs (va / 2 ^ 22) = None ->
  size (low_frames (ps_alloc s)) = 0%nat ->
  exists p s', map_bootstrap (pd * 4096) (mkVirtAddr va) phys flags s = (Panic p, s') /\
    init_failure p /\ untouched s0 s'.
Proof.
  intros HB Hva Hi Hnone Hlow. pose proof (bl_repr _ _ _ _ _ HB) as R.
  unfold map_bootstrap. rewrite pd_index_div.
  pose proof (repr_pd _ _ _ _ R).
  rewrite (bind_ok _ _ _ _ _ (read_slot_ok s0 s (pd * 4096) (va / 2 ^ 22) (bl_boot _ _ _ _ _ HB)
    (building_untouched _ _ _ _ _ HB) ltac:(zdiv) ltac:(lia) ltac:(lia))).
  rewrite (repr_dir _ _ _ _ R), (proj2 (Z.eqb_neq _ _) Hi), Hnone by zdiv.
  change (PageDirectoryEntry.is_present (mkPDE 0)) with false. cbv iota.
  destruct (alloc_zero_fail s (bl_ok _ _ _ _ _ HB) Hlow) as (p & s' & E & Hp & Em & E3 & E0).
  exists p, s'. split; [|split; [done|]].
  - by rewrite (bind_panic _ _ _ _ _ (E _ _)).
  - destruct (building_untouched _ _ _ _ _ HB) as (? & ? & ?). unfold untouched. by rewrite Em, E3, E0.
Qed.

(** So does a loop with a page of such a slot in it. *)
Lemma map_loop_fail s0 pd tabs pages (l : list Z) (body : Z → M (paging_state A) unit)
    (skip : Z → bool) (phys bits : Z → Z) (i : Z) s :
  (forall va s', va ∈ l -> body va s' =
    (if skip va then mret tt
     else map_bootstrap (pd * 4096) (mkVirtAddr va) (mkPhysAddr (phys va)) (mkPageFlags (bits va))) s') ->
  (forall va, va ∈ l -> u32_range va /\ va / 2 ^ 22 = i) ->
  i <> 1023 -> tabs i = None -> size (low_frames (ps_alloc s)) = 0%nat ->
  building s0 pd tabs pages s -> (exists va, va ∈ l /\ skip va = false) ->
  exists p s', for_in l body s = (Panic p, s') /\ init_failure p /\ untouched s0 s'.
Proof.
  intros Hbody Hl Hi Hnone Hlow HB. induction l as [|va l IH]; intros (v & Hv & Hs); [set_solver|].
  destruct (Hl va ltac:(set_solver)) as [Hva Hvi]. cbn [for_in].
  destruct (skip va) eqn:Es.
  - assert (v ∈ l) by (apply list_elem_of_In in Hv as [->|?%list_elem_of_In]; [congruence|done]).
    destruct IH as (p & s' & E & ?); [set_solver..| |]; [by exists v|].
    exists p, s'. split; [|done]. erewrite bind_ok; [exact E|]. rewrite Hbody, Es by set_solver. done.
  - destruct (map_bootstrap_fail s0 pd tabs pages s va (mkPhysAddr (phys va)) (mkPageFlags (bits va)) HB Hva)
      as (p & s' & E & ?); [by rewrite Hvi..|done|].
    exists p, s'. split; [|done]. apply bind_panic. rewrite Hbody, Es by set_solver. done.
Qed.

(** With fewer than three low frames [init] fails before the switch. *)
Lemma init_fail s :
  on_bootstrap s -> fs_ok (ps_alloc s) -> (size (low_frames (ps_alloc s)) < 3)%nat ->
  exists p s', init s = (Panic p, s') /\ init_failure p /\ untouched s s'.
Proof.
  intros Hboot Hok Hlow. pose proof HI as HI'. destruct HI' as [Hps Hpe Hvs Hds Hg Hsb Hst Hve Hfit Avs Ads Ag Ave].
  unfold KERNEL_VIRTUAL_BASE in *.
  destruct (decide (size (low_frames (ps_alloc s)) = 0%nat)) as [Hz|].
  { destruct (alloc_zero_fail s Hok Hz) as (p & s' & E & Hp & Em & E3 & E0).
    exists p, s'. split; [apply E|]. unfold untouched. by rewrite Em, E3, E0. }
  destruct (init_start s Hboot Hok ltac:(lia)) as (pd & s1 & -> & HB1 & Hz1). unfold map_and_switch.
  destruct (decide (size (low_frames (ps_alloc s1)) = 0%nat)) as [Hz|].
  { destruct (map_loop_fail s pd (fun _ => None) (fun _ => 0) kernel_pages (map_kernel_page (pd * 4096))
      (fun va => va =? stack_guard) (fun va => va - KERNEL_VIRTUAL_BASE)
      (fun va => if va <? kernel_data_start then 1 else 3) 768 s1) as (p & s' & E & ?);
      [intros; by apply map_kernel_page_ok| |done|done|done|done| |].
    - intros va Hva. apply kernel_pages_range in Hva as [Hva Hal]. split; [lia|zdiv].
    - exists stack_bottom. split; [apply kernel_pages_range; split; [lia|zdiv]|zbool].
    - exists p, s'. by rewrite (bind_panic _ _ _ _ _ E). }
  destruct (kernel_loop_ok s pd s1 HB1 ltac:(lia)) as (t & s2 & E2 & HB2 & Hz2).
  rewrite (bind_ok _ _ _ _ _ E2).
  destruct (map_loop_fail s pd (fun k => if k =? 768 then Some t else None) kernel_word low_pages
    (map_low_page (pd * 4096)) (fun _ => false) (fun va => va) (fun _ => 3) 0 s2) as (p & s' & E & ?);
    [intros; by apply map_low_page_ok| |done|done|lia|done| |].
  - intros va Hva. apply low_pages_range in Hva as [Hva Hal]. split; [lia|zdiv].
  - exists 0. split; [apply low_pages_range; split; [lia|done]|done].
  - exists p, s'. by rewrite (bind_panic _ _ _ _ _ E).
Qed.

End build.
