(* ===== verification/AddressSpace.v ===== *)
(** * The kernel's address space

    The theorems about [paging::init]: what every virtual address translates to
    once the new directory is loaded, what memory the construction touches, how the
    switch from the bootstrap directory is survived, and how it fails. *)

From S2P Require Import Prelude Rust Bits Memory Address Layout Multiboot Frame FrameSpec Paging Mmu.

(** The window the recursive slot opens: the top 4 MiB. *)
Definition RECURSIVE_WINDOW : Z := 0xFFC00000.

Lemma decode_word (q b off : Z) :
  0 <= b < 4096 ->
  (let w := q * 4096 + b in
   if Z.odd w then
     Some {| tr_phys := w / 4096 * 4096 + off; tr_writable := Z.testbit w 1; tr_user := false |}
   else None) =
  if Z.odd b then Some {| tr_phys := q * 4096 + off; tr_writable := Z.testbit b 1; tr_user := false |}
  else None.
Proof.
  intros Hb. cbv zeta. rewrite odd_entry, testbit_entry by lia.
  by replace ((q * 4096 + b) / 4096) with q by zdiv.
Qed.

Section space.
Context {P : BuildProfile} {A : Type} {FS : FrameSource A} {I : KernelImage} {HI : ImageOk I}.

(** Decoding the built page words gives the kernel's address space. *)
Lemma page_word_space (va : Z) :
  u32_range va ->
  (let w := page_word (va / 4096) in
   if Z.odd w then
     Some {| tr_phys := w / 4096 * 4096 + va mod 4096; tr_writable := Z.testbit w 1; tr_user := false |}
   else None) = kernel_space va.
Proof.
  intros Hva. destruct HI as [Hps Hpe Hvs Hds Hg Hsb Hst Hve Hfit Avs Ads Ag Ave].
  unfold page_word, kernel_space, PAGE_SIZE, KERNEL_VIRTUAL_BASE in *.
  assert (forall b, b mod 4096 = 0 -> (b <=? va / 4096 * 4096) = (b <=? va)) as Hle by (intros; zbool; zdiv).
  assert (forall b, b mod 4096 = 0 -> (va / 4096 * 4096 <? b) = (va <? b)) as Hlt by (intros; zbool; zdiv).
  rewrite !Hle, !Hlt by (done || (rewrite Hps; done)).
  assert ((va / 4096 * 4096 =? stack_guard) = (stack_guard <=? va) && (va <? stack_bottom)) as -> by (zbool; zdiv).
  assert (forall b, va / 4096 * 4096 - 3221225472 + b = (va / 4096 - 786432) * 4096 + b) as Hhigh by lia.
  assert ((va / 4096 - 786432) * 4096 + va mod 4096 = va - 3221225472) as Hoff by zdiv.
  assert (va / 4096 * 4096 + va mod 4096 = va) as Hlow by zdiv.
  destruct ((kernel_virt_start <=? va) && (va <? kernel_virt_end)) eqn:E1; cbn [andb].
  - destruct ((stack_guard <=? va) && (va <? stack_bottom)); cbn [negb].
    + bprop. by rewrite (proj2 (Z.ltb_ge va kernel_phys_start)), andb_false_r by lia.
    + rewrite Hhigh, decode_word, Hoff by (zcase; lia).
      rewrite (Z.leb_antisym va kernel_data_start). by destruct (va <? kernel_data_start).
  - destruct ((0 <=? va) && (va <? kernel_phys_start)); [|done].
    by rewrite decode_word, Hlow by lia.
Qed.

(** The walk through a finished directory. *)
Lemma repr_walk (m : mem) (pd : Z) (tabs : Z → option Z) (va : Z) :
  pd_repr m pd tabs page_word -> u32_range va ->
  walk m (pd * 4096) va =
    if va <? RECURSIVE_WINDOW then kernel_space va
    else
      let j := va / 4096 - 1023 * 1024 in
      if j =? 1023 then Some {| tr_phys := pd * 4096 + va mod 4096; tr_writable := true; tr_user := false |}
      else match tabs j with
           | Some t => Some {| tr_phys := t * 4096 + va mod 4096; tr_writable := true; tr_user := false |}
           | None => None
           end.
Proof.
  intros R Hva. unfold RECURSIVE_WINDOW.
  destruct (Z.ltb_spec va 0xFFC00000).
  - rewrite (walk_pages _ _ _ _ R) by zdiv. by apply page_word_space.
  - rewrite (walk_recursive _ _ _ _ R) by zdiv. done.
Qed.

Lemma init_walk (s s1 : paging_state A) (pd : Z) (tabs : Z → option Z) (va : Z) :
  building s pd tabs page_word s1 -> u32_range va ->
  walk (ps_mem s1) (pd * 4096) va =
    if va <? RECURSIVE_WINDOW then kernel_space va
    else
      let j := va / 4096 - 1023 * 1024 in
      if j =? 1023 then Some {| tr_phys := pd * 4096 + va mod 4096; tr_writable := true; tr_user := false |}
      else match tabs j with
           | Some t => Some {| tr_phys := t * 4096 + va mod 4096; tr_writable := true; tr_user := false |}
           | None => None
           end.
Proof. intros HB. apply repr_walk, (bl_repr _ _ _ _ _ HB). Qed.

(** The two tables exist: their slots hold pages. *)
Lemma repr_tables (m : mem) (pd : Z) (tabs : Z → option Z) :
  pd_repr m pd tabs page_word -> is_Some (tabs 0) /\ is_Some (tabs 768).
Proof.
  intros R.
  destruct HI as [Hps Hpe Hvs Hds Hg Hsb Hst Hve Hfit Avs Ads Ag Ave].
  unfold KERNEL_VIRTUAL_BASE in *.
  assert (forall i p, 0 <= p -> p / 1024 = i -> page_word p <> 0 -> is_Some (tabs i)) as H.
  { intros i p Hp <- Hne. destruct (tabs (p / 1024)) eqn:E; [done|].
    by rewrite (repr_none _ _ _ _ R p Hp E) in Hne. }
  split.
  - apply (H 0 0); [done|done|]. unfold page_word, PAGE_SIZE. zbool.
  - apply (H 768 (stack_bottom / 4096)); [zdiv|zdiv|]. unfold page_word, PAGE_SIZE, KERNEL_VIRTUAL_BASE.
    replace (stack_bottom / 4096 * 4096) with stack_bottom by zdiv. zbool.
Qed.

End space.

(** C5: The address space [paging::init] installs: on the bootstrap directory, through
    which all its accesses go, and given the linker's layout and three free frames in
    the low 4 MiB, it returns with the new directory in [CR3] and write protection on,
    and below the recursive window every virtual address
    translates as promised: the kernel image to its load address, read-only below
    the data boundary and writable above; the stack guard page to nothing; the
    memory below the image to itself, writable; everything else faults, and nothing
    is open to user mode. *)
Theorem paging_init_address_space `{BuildProfile} `{FrameSource A} {I : KernelImage}
    (s : paging_state A) :
  ImageOk I → on_bootstrap s → fs_ok (ps_alloc s) → (3 <= size (low_frames (ps_alloc s)))%nat →
  ∃ s', init s = (Ok tt, s') ∧ ps_cr0 s' = Z.lor (ps_cr0 s) CR0_WP ∧
    ∀ va, 0 <= va < RECURSIVE_WINDOW → walk (ps_mem s') (ps_cr3 s') va = kernel_space va.
Proof.
  intros HI Hboot Hok Hlow. destruct (init_build s Hboot Hok Hlow) as (pd & tabs & s1 & HB & _ & E).
  eexists. split; [exact E|]. split; [done|]. intros va Hva. cbn [ps_mem ps_cr3].
  rewrite (init_walk s s1 pd tabs) by (unfold RECURSIVE_WINDOW in *; done || lia).
  by rewrite (proj2 (Z.ltb_lt _ _)) by lia.
Qed.

(** The words of a static, as the loader places them in memory. *)
Fixpoint store_words (m : mem) (addr : Z) (ws : list Z) : mem :=
  match ws with
  | [] => m
  | w :: ws => store_words (store32 m addr w) (addr + 4) ws
  end.

Lemma load32_store_words_before (m : mem) (addr a : Z) (ws : list Z) :
  a + 4 <= addr -> load32 (store_words m addr ws) a = load32 m a.
Proof.
  revert m addr. induction ws as [|w ws IH]; intros m addr Ha; [done|]. cbn [store_words].
  rewrite IH by lia. apply load_le_store_le_ne; lia.
Qed.

Lemma store_words_directory (m : mem) (addr : Z) (entries : list PageDirectoryEntry) :
  Forall (fun e => u32_range (pde_raw e)) entries ->
  directory_at (store_words m addr (pde_raw <$> entries)) addr entries.
Proof.
  intros Hall. revert m addr. induction Hall as [|e entries He Hall IH]; intros m addr [|i] e'; try done; csimpl.
  - intros ?. simplify_eq. rewrite Z.mul_0_r, Z.add_0_r, load32_store_words_before by lia.
    rewrite load_le_store_le by lia. by apply Z.mod_small.
  - intros Hi. rewrite <- (IH (store32 m addr (pde_raw e)) (addr + 4) i e' Hi). f_equal. lia.
Qed.

(** The machine as GRUB and the boot stub leave it: the bootstrap directory at the
    start of the loaded image and in [CR3]; frames 4 to 31 are free. *)
Definition booted_mem : mem := store_words ∅ 0x201000 (pde_raw <$> boot_entries).

Definition booted_state : paging_state FrameBitmap :=
  mkPagingState sample_bitmap booted_mem 0x201000 0x80000011.

Lemma booted_directory : directory_at booted_mem 0x201000 boot_entries.
Proof.
  apply store_words_directory. unfold boot_entries.
  do 2 (apply Forall_insert; [|simpl; lia]). apply Forall_replicate. simpl. lia.
Qed.

Lemma booted_state_ok : fs_ok (ps_alloc booted_state).
Proof. split_and!; [apply sample_bitmap_wf| |reflexivity]. intros f Hf. simpl in Hf. lia. Qed.

Lemma booted_state_high (f : Z) : 32 <= f → fs_free (ps_alloc booted_state) f = false.
Proof.
  intros Hf. change (frame_free sample_bitmap f = false). unfold frame_free, sample_bitmap. cbn [bitmap].
  destruct (Z.to_nat (f / WORD_BITS)) as [|n] eqn:E; [exfalso; unfold WORD_BITS in E; zdiv|].
  cbn [lookup list_lookup]. destruct (replicate _ _ !! n) eqn:Hw; [|apply Z.bits_0].
  apply lookup_replicate in Hw as [-> _]. apply Z.bits_0.
Qed.

Lemma booted_state_boot : on_bootstrap booted_state.
Proof.
  split; cbn [booted_state ps_mem ps_cr3]; [exact booted_directory|lia|reflexivity|].
  apply booted_state_high. zdiv.
Qed.

Lemma booted_state_low : (3 <= size (low_frames (ps_alloc booted_state)))%nat.
Proof. apply Nat.leb_le. vm_compute. reflexivity. Qed.

Lemma paging_init_address_space_witness :
  ∃ s', @init dev _ _ (link sample_sections) booted_state = (Ok tt, s') ∧
    ps_cr0 s' = Z.lor (ps_cr0 booted_state) CR0_WP ∧
    ∀ va, 0 <= va < RECURSIVE_WINDOW →
      walk (ps_mem s') (ps_cr3 s') va = @kernel_space (link sample_sections) va.
Proof.
  exact (@paging_init_address_space dev _ _ (link sample_sections) booted_state
    sample_image_ok booted_state_boot booted_state_ok booted_state_low).
Defined.

(** C23: The recursive window: through the top 4 MiB, page [j] shows the table of
    directory slot [j] and the last page the directory itself, writable; the
    directory and its two tables sit in three different frames below 4 MiB that
    were free before, and no other page of the window is mapped. *)
Theorem paging_init_recursive_window `{BuildProfile} `{FrameSource A} {I : KernelImage}
    (s : paging_state A) :
  ImageOk I → on_bootstrap s → fs_ok (ps_alloc s) → (3 <= size (low_frames (ps_alloc s)))%nat →
  ∃ s' pd low high, init s = (Ok tt, s') ∧ ps_cr3 s' = pd * 4096 ∧
    pd ≠ low ∧ pd ≠ high ∧ low ≠ high ∧
    (∀ f, f = pd ∨ f = low ∨ f = high → f ∈ low_frames (ps_alloc s) ∧ fs_free (ps_alloc s') f = false) ∧
    ∀ j off, 0 <= j < 1024 → 0 <= off < 4096 →
      walk (ps_mem s') (ps_cr3 s') (RECURSIVE_WINDOW + j * 4096 + off) =
        (fun f => mkTranslation (f * 4096 + off) true false) <$>
          (if j =? 1023 then Some pd else if j =? 768 then Some high else if j =? 0 then Some low else None).
Proof.
  intros HI Hboot Hok Hlow. destruct (init_build s Hboot Hok Hlow) as (pd & tabs & s1 & HB & Hnone & E).
  destruct (repr_tables _ _ _ (bl_repr _ _ _ _ _ HB)) as [[low Elow] [high Ehigh]].
  pose proof (bl_repr _ _ _ _ _ HB) as R. destruct (bl_used _ _ _ _ _ HB) as [Hu1 Hu2].
  destruct (bl_from _ _ _ _ _ HB) as [Hf1 Hf2]. pose proof (repr_pd _ _ _ _ R).
  destruct (repr_range _ _ _ _ R _ _ Elow) as (_ & Hl & Hlpd).
  destruct (repr_range _ _ _ _ R _ _ Ehigh) as (_ & Hh & Hhpd).
  eexists _, pd, low, high. split; [exact E|]. split_and!; try done.
  - intros ->. by pose proof (repr_inj _ _ _ _ R _ _ _ Elow Ehigh).
  - intros f Hf. rewrite elem_of_low_frames. destruct Hf as [-> | [-> | ->]]; split_and!; eauto; lia.
  - intros j off Hj Hoff. cbn [ps_mem ps_cr3].
    rewrite (init_walk s s1 pd tabs) by (unfold RECURSIVE_WINDOW; done || lia).
    rewrite (proj2 (Z.ltb_ge _ _)) by (unfold RECURSIVE_WINDOW; lia). cbv zeta. unfold RECURSIVE_WINDOW.
    replace ((4290772992 + j * 4096 + off) / 4096 - 1023 * 1024) with j by zdiv.
    replace ((4290772992 + j * 4096 + off) mod 4096) with off by zdiv.
    destruct (Z.eqb_spec j 1023); [done|]. destruct (Z.eqb_spec j 768) as [->|]; [by rewrite Ehigh|].
    destruct (Z.eqb_spec j 0) as [->|]; [by rewrite Elow|]. by rewrite Hnone.
Qed.

Lemma paging_init_recursive_window_witness :
  ∃ s' pd low high, @init dev _ _ (link sample_sections) booted_state = (Ok tt, s') ∧
    ps_cr3 s' = pd * 4096 ∧ pd ≠ low ∧ pd ≠ high ∧ low ≠ high ∧
    (∀ f, f = pd ∨ f = low ∨ f = high →
      f ∈ low_frames (ps_alloc booted_state) ∧ fs_free (ps_alloc s') f = false) ∧
    ∀ j off, 0 <= j < 1024 → 0 <= off < 4096 →
      walk (ps_mem s') (ps_cr3 s') (RECURSIVE_WINDOW + j * 4096 + off) =
        (fun f => mkTranslation (f * 4096 + off) true false) <$>
          (if j =? 1023 then Some pd else if j =? 768 then Some high else if j =? 0 then Some low else None).
Proof.
  exact (@paging_init_recursive_window dev _ _ (link sample_sections) booted_state
    sample_image_ok booted_state_boot booted_state_ok booted_state_low).
Defined.

(** C18: Isolation: building the directory writes only to frames that were free. Every
    byte of a frame in use (the kernel image, its stack and the frame bitmap, the
    GDT, device memory) keeps its value, and the allocator is left with the frames
    it had less the three tables. *)
Theorem paging_init_isolation `{BuildProfile} `{FrameSource A} {I : KernelImage} (s : paging_state A) :
  ImageOk I → on_bootstrap s → fs_ok (ps_alloc s) → (3 <= size (low_frames (ps_alloc s)))%nat →
  ∃ s', init s = (Ok tt, s') ∧ fs_ok (ps_alloc s') ∧
    (∀ a, fs_free (ps_alloc s) (a / 4096) = false → load8 (ps_mem s') a = load8 (ps_mem s) a) ∧
    (∀ f, 0 <= f → fs_free (ps_alloc s') f = true → fs_free (ps_alloc s) f = true).
Proof.
  intros HI Hboot Hok Hlow. destruct (init_build s Hboot Hok Hlow) as (pd & tabs & s1 & HB & _ & E).
  eexists. split; [exact E|]. split_and!; cbn [ps_alloc ps_mem]; apply HB.
Qed.

Lemma paging_init_isolation_witness :
  ∃ s', @init dev _ _ (link sample_sections) booted_state = (Ok tt, s') ∧ fs_ok (ps_alloc s') ∧
    (∀ a, fs_free (ps_alloc booted_state) (a / 4096) = false →
      load8 (ps_mem s') a = load8 (ps_mem booted_state) a) ∧
    (∀ f, 0 <= f → fs_free (ps_alloc s') f = true → fs_free (ps_alloc booted_state) f = true).
Proof.
  exact (@paging_init_isolation dev _ _ (link sample_sections) booted_state
    sample_image_ok booted_state_boot booted_state_ok booted_state_low).
Defined.

(** C6: The kernel cannot scribble over its own code: when the allocator keeps the
    image's frames in use, no virtual address at all (the recursive window and the
    low identity map included) gives write access to the physical bytes of
    [.text] and [.rodata], and write protection is on for ring 0. *)
Theorem paging_init_code_read_only `{BuildProfile} `{FrameSource A} {I : KernelImage}
    (s : paging_state A) :
  ImageOk I → on_bootstrap s → fs_ok (ps_alloc s) → (3 <= size (low_frames (ps_alloc s)))%nat →
  (∀ a, kernel_phys_start <= a < kernel_phys_end → fs_free (ps_alloc s) (a / 4096) = false) →
  ∃ s', init s = (Ok tt, s') ∧ Z.testbit (ps_cr0 s') 16 = true ∧
    ∀ va t, u32_range va → walk (ps_mem s') (ps_cr3 s') va = Some t → tr_writable t = true →
      ¬ (kernel_virt_start <= tr_phys t + KERNEL_VIRTUAL_BASE < kernel_data_start).
Proof.
  intros HI Hboot Hok Hlow Himg. destruct (init_build s Hboot Hok Hlow) as (pd & tabs & s1 & HB & _ & E).
  eexists. split; [exact E|]. cbn [ps_mem ps_cr3 ps_cr0]. split.
  { rewrite Z.lor_spec. apply orb_true_r. }
  intros va t Hva. rewrite (init_walk s s1 pd tabs va HB Hva). destruct (bl_from _ _ _ _ _ HB) as [Hpd Htabs].
  destruct HI as [Hps Hpe Hvs Hds Hg Hsb Hst Hve Hfit Avs Ads Ag Ave].
  assert (∀ f, fs_free (ps_alloc s) f = true →
    ¬ (kernel_virt_start <= f * 4096 + va mod 4096 + KERNEL_VIRTUAL_BASE < kernel_data_start)) as Hfree.
  { intros f Hf Hin. specialize (Himg (f * 4096 + va mod 4096)).
    replace ((f * 4096 + va mod 4096) / 4096) with f in Himg by zdiv.
    rewrite Himg in Hf; [done|]. unfold KERNEL_VIRTUAL_BASE in *. lia. }
  destruct (Z.ltb_spec va RECURSIVE_WINDOW).
  - unfold kernel_space, KERNEL_VIRTUAL_BASE in *. intros Ht Hw. revert Ht.
    repeat zcase; cbn [andb]; intros; simplify_eq/=; bprop; lia.
  - cbv zeta. zcase; [intros; simplify_eq/=; by apply Hfree|].
    destruct (tabs _) eqn:Et; [|done]. intros; simplify_eq/=. by eapply Hfree, Htabs.
Qed.

Lemma paging_init_code_read_only_witness :
  ∃ s', @init dev _ _ (link sample_sections) booted_state = (Ok tt, s') ∧
    Z.testbit (ps_cr0 s') 16 = true ∧
    ∀ va t, u32_range va → walk (ps_mem s') (ps_cr3 s') va = Some t → tr_writable t = true →
      ¬ (@kernel_virt_start (link sample_sections) <= tr_phys t + KERNEL_VIRTUAL_BASE
         < @kernel_data_start (link sample_sections)).
Proof.
  apply (@paging_init_code_read_only dev _ _ (link sample_sections) booted_state
    sample_image_ok booted_state_boot booted_state_ok booted_state_low).
  intros a [Ha _]. change (@kernel_phys_start (link sample_sections)) with 0x200000 in Ha.
  apply booted_state_high. zdiv.
Defined.

(** ** The bootstrap directory *)

(** The bootstrap directory evaluates at compile time in both profiles, to 1024
    entries, and a CPU walking it in memory sees the first 4 MiB of physical memory
    twice, at zero and at the kernel's virtual base, writable and supervisor-only;
    any other access faults. *)
Lemma bootstrap_directory_maps_low_memory `{BuildProfile} (m : mem) (cr3 : Z) :
  u32_range cr3 → cr3 mod 4096 = 0 →
  ∃ entries, PageDirectory.bootstrap = Ok entries ∧ length entries = 1024%nat ∧
    (directory_at m cr3 entries → ∀ va, u32_range va → walk m cr3 va = bootstrap_space va).
Proof.
  intros Hcr Hal. exists boot_entries. split; [apply bootstrap_ok|]. split.
  - unfold boot_entries. by rewrite !length_insert, length_replicate.
  - intros Hdir va Hva. by apply bootstrap_walk.
Qed.

(** C7: The switch is survived: when [init] runs on the bootstrap directory, every
    address the new directory maps (outside the recursive window) was mapped to the
    same physical byte before, and the running code, its data, the whole stack, the
    GDT and the VGA buffer are all among them, with the stack and the low memory
    still writable. *)
Theorem paging_init_handover `{BuildProfile} `{FrameSource A} {I : KernelImage}
    (s : paging_state A) :
  ImageOk I → on_bootstrap s → fs_ok (ps_alloc s) → (3 <= size (low_frames (ps_alloc s)))%nat →
  ∃ s', init s = (Ok tt, s') ∧
    (∀ va t', 0 <= va < RECURSIVE_WINDOW → walk (ps_mem s') (ps_cr3 s') va = Some t' →
      walk (ps_mem s) (ps_cr3 s) va = Some (mkTranslation (tr_phys t') true false)) ∧
    (∀ va, kernel_virt_start <= va < stack_guard ∨ stack_bottom <= va < kernel_virt_end →
      is_Some (walk (ps_mem s') (ps_cr3 s') va)) ∧
    (∀ va, stack_bottom <= va < stack_top ∨ 0 <= va < 0x200000 →
      ∃ t', walk (ps_mem s') (ps_cr3 s') va = Some t' ∧ tr_writable t' = true).
Proof.
  intros HI Hboot Hok Hlow. pose proof Hboot as [Hdir Hcr Hal _].
  destruct (init_build s Hboot Hok Hlow) as (pd & tabs & s1 & HB & _ & E).
  assert (∀ va, 0 <= va < RECURSIVE_WINDOW → walk (ps_mem s1) (pd * 4096) va = kernel_space va) as Hw.
  { intros va Hva. rewrite (init_walk s s1 pd tabs) by (unfold RECURSIVE_WINDOW in *; done || lia).
    by rewrite (proj2 (Z.ltb_lt _ _)) by lia. }
  pose proof HI as [Hps Hpe Hvs Hds Hg Hsb Hst Hve Hfit Avs Ads Ag Ave].
  unfold RECURSIVE_WINDOW, KERNEL_VIRTUAL_BASE in *.
  eexists. split; [exact E|]. cbn [ps_mem ps_cr3]. split_and!.
  - intros va t' Hva. rewrite Hw, (bootstrap_walk _ _ va Hcr Hal Hdir) by lia.
    unfold kernel_space, bootstrap_space, KERNEL_VIRTUAL_BASE. intros Ht. revert Ht.
    repeat zcase; cbn [andb orb]; intros; simplify_eq/=; try lia; do 2 f_equal; zdiv.
  - intros va Hva. rewrite Hw by lia. unfold kernel_space, KERNEL_VIRTUAL_BASE. repeat zcase; cbn [andb]; done || lia.
  - intros va Hva. rewrite Hw by lia. unfold kernel_space, KERNEL_VIRTUAL_BASE.
    repeat zcase; cbn [andb]; first [by eexists|lia].
Qed.

Lemma paging_init_handover_witness :
  ∃ s', @init dev _ _ (link sample_sections) booted_state = (Ok tt, s') ∧
    (∀ va t', 0 <= va < RECURSIVE_WINDOW → walk (ps_mem s') (ps_cr3 s') va = Some t' →
      walk (ps_mem booted_state) (ps_cr3 booted_state) va = Some (mkTranslation (tr_phys t') true false)) ∧
    (∀ va, @kernel_virt_start (link sample_sections) <= va < @stack_guard (link sample_sections) ∨
        @stack_bottom (link sample_sections) <= va < @kernel_virt_end (link sample_sections) →
      is_Some (walk (ps_mem s') (ps_cr3 s') va)) ∧
    (∀ va, @stack_bottom (link sample_sections) <= va < @stack_top (link sample_sections) ∨ 0 <= va < 0x200000 →
      ∃ t', walk (ps_mem s') (ps_cr3 s') va = Some t' ∧ tr_writable t' = true).
Proof.
  exact (@paging_init_handover dev _ _ (link sample_sections) booted_state
    sample_image_ok booted_state_boot booted_state_ok booted_state_low).
Defined.

(** C22: Failure is clean: with fewer than three free frames below 4 MiB, [init],
    on the bootstrap directory, panics with one of its two messages before the switch, with [CR3] and [CR0] as they
    were and every byte of a frame in use intact; so the bootstrap map still
    carries the panic handler. *)
Theorem paging_init_out_of_frames `{BuildProfile} `{FrameSource A} {I : KernelImage}
    (s : paging_state A) :
  ImageOk I → on_bootstrap s → fs_ok (ps_alloc s) → (size (low_frames (ps_alloc s)) < 3)%nat →
  ∃ p s', init s = (Panic p, s') ∧ init_failure p ∧ ps_cr3 s' = ps_cr3 s ∧ ps_cr0 s' = ps_cr0 s ∧
    ∀ a, fs_free (ps_alloc s) (a / 4096) = false → load8 (ps_mem s') a = load8 (ps_mem s) a.
Proof.
  intros HI Hboot Hok Hlow. destruct (init_fail s Hboot Hok Hlow) as (p & s' & E & Hp & E3 & E0 & Hm).
  by exists p, s'.
Qed.

(** A machine with no memory published. *)
Definition empty_state : paging_state FrameBitmap := mkPagingState FrameBitmap.new booted_mem 0x201000 0x80000011.

Lemma paging_init_out_of_frames_witness :
  ∃ p s', @init dev _ _ (link sample_sections) empty_state = (Panic p, s') ∧ init_failure p ∧
    ps_cr3 s' = ps_cr3 empty_state ∧ ps_cr0 s' = ps_cr0 empty_state ∧
    ∀ a, fs_free (ps_alloc empty_state) (a / 4096) = false →
      load8 (ps_mem s') a = load8 (ps_mem empty_state) a.
Proof.
  apply (@paging_init_out_of_frames dev _ _ (link sample_sections) empty_state sample_image_ok).
  - split; cbn [empty_state ps_mem ps_cr3]; [exact booted_directory|lia|reflexivity|].
    apply new_occupied.
  - split_and!; [apply new_wf| |apply new_occupied]. intros f Hf. simpl in Hf. lia.
  - apply Nat.ltb_lt. vm_compute. reflexivity.
Defined.
