(* ===== verification/Volatile.v ===== *)
(** * [src/volatile.rs]: the volatile copy

    A pointer is its address; an element [T] is [size] bytes.  Each element is read
    whole before it is written, one access at a time and in the order of the loop,
    so overlapping regions behave as the code makes them behave. *)

From S2P Require Import Prelude Rust Memory.

Module Volatile.

(** One iteration: [dst.add(i).write_volatile(src.add(i).read_volatile())]. *)
Definition copy_element (size src dst i : Z) : M mem unit :=
  tmp ← reads (fun m => Ok (load_bytes m (src + i * size) size));
  modify (fun m => store_bytes m (dst + i * size) tmp).

Definition copy `{BuildProfile} (size src dst count : Z) : M mem unit :=
  byte_count ← lift (usize_mul count size);
  backwards ← lift (if src <? dst then stop ← usize_add src byte_count; Ok (dst <? stop) else Ok false);
  for_in (if backwards : bool then reverse (range 0 count) else range 0 count) (copy_element size src dst).

End Volatile.

(** The bytes of [[dst, dst + n)] after a move of [n] bytes from [src]. *)
Definition moved (m : mem) (src dst n : Z) (m' : mem) : Prop :=
  forall a, load8 m' a = if (dst <=? a) && (a <? dst + n) then load8 m (src + (a - dst)) else load8 m a.

Lemma load8_store_load (m m0 : mem) (dst src n a : Z) :
  load8 (store_bytes m dst (load_bytes m0 src n)) a =
    if (dst <=? a) && (a <? dst + n) then load8 m0 (src + (a - dst)) else load8 m a.
Proof.
  rewrite load8_store_bytes, length_load_bytes. case_decide as Hin.
  - rewrite (proj2 (Z.leb_le _ _)), (proj2 (Z.ltb_lt _ _)) by lia. cbn [andb].
    rewrite load_bytes_lookup by lia. replace (src + Z.of_nat (Z.to_nat (a - dst))) with (src + (a - dst)) by lia.
    apply Z.mod_small, load8_bound.
  - zbool.
Qed.

(** A loop that copies the elements of [l] with no element written over before it
    is read. *)
Lemma copy_loop_ok (size src dst : Z) (l : list Z) (m : mem) :
  0 < size -> NoDup l ->
  (forall done i rest j, l = done ++ i :: rest -> j ∈ done ->
     dst + (j + 1) * size <= src + i * size \/ src + (i + 1) * size <= dst + j * size) ->
  exists m', for_in l (Volatile.copy_element size src dst) m = (Ok tt, m') /\
    (forall a i, i ∈ l -> dst + i * size <= a < dst + (i + 1) * size ->
      load8 m' a = load8 m (src + (a - dst))) /\
    (forall a, (forall i, i ∈ l -> ~ (dst + i * size <= a < dst + (i + 1) * size)) -> load8 m' a = load8 m a).
Proof.
  intros Hsize Hnd Hsafe.
  cut (wp (for_in l (Volatile.copy_element size src dst)) (fun _ m' =>
    (forall a i, i ∈ l -> dst + i * size <= a < dst + (i + 1) * size ->
      load8 m' a = load8 m (src + (a - dst))) /\
    (forall a, (forall i, i ∈ l -> ~ (dst + i * size <= a < dst + (i + 1) * size)) -> load8 m' a = load8 m a)) m).
  { intros ([] & m' & E & H). by exists m'. }
  apply (wp_for_in l _ (fun done m' =>
    (forall a i, i ∈ done -> dst + i * size <= a < dst + (i + 1) * size ->
      load8 m' a = load8 m (src + (a - dst))) /\
    (forall a, (forall i, i ∈ done -> ~ (dst + i * size <= a < dst + (i + 1) * size)) -> load8 m' a = load8 m a)));
    [split; [set_solver|done]| |done].
  intros done i rest m' -> [Hin Hout]. eexists tt, _. split; [done|]. split.
  - intros a j Hj Ha. rewrite load8_store_load.
    destruct (decide (j = i)) as [->|Hji].
    + rewrite (proj2 (Z.leb_le _ _)), (proj2 (Z.ltb_lt _ _)) by lia. cbn [andb].
      replace (src + i * size + (a - (dst + i * size))) with (src + (a - dst)) by lia.
      apply Hout. intros k Hk Hc. destruct (Hsafe done i rest k eq_refl Hk); lia.
    + assert (j ∈ done) by set_solver. destruct (Z.leb_spec (dst + i * size) a), (Z.ltb_spec a (dst + i * size + size));
        cbn [andb]; try (by apply (Hin a j)).
      exfalso. apply Hji. nia.
  - intros a Ha. rewrite load8_store_load. pose proof (Ha i ltac:(set_solver)) as Hi.
    destruct (Z.leb_spec (dst + i * size) a), (Z.ltb_spec a (dst + i * size + size)); cbn [andb]; try lia;
      apply Hout; set_solver.
Qed.

Lemma seqZ_split (n i : Z) (l1 l2 : list Z) :
  seqZ 0 n = l1 ++ i :: l2 ->
  i = Z.of_nat (length l1) /\ 0 <= i < n /\ (forall j, j ∈ l1 -> 0 <= j < i) /\ (forall j, j ∈ l2 -> i < j < n).
Proof.
  intros E.
  assert (forall k j, (l1 ++ i :: l2) !! k = Some j -> j = Z.of_nat k /\ 0 <= j < n) as H.
  { intros k j. rewrite <- E. intros [-> ?]%lookup_seqZ. lia. }
  destruct (H (length l1) i) as [-> Hi]; [by apply list_lookup_middle|]. split_and!; [done|lia|lia| |].
  - intros j [k Hk]%list_elem_of_lookup_1. pose proof (lookup_lt_Some _ _ _ Hk).
    destruct (H k j) as [-> ?]; [by rewrite lookup_app_l|lia].
  - intros j [k Hk]%list_elem_of_lookup_1.
    destruct (H (length l1 + S k)%nat j) as [-> ?]; [|lia].
    rewrite lookup_app_r by lia. by replace (length l1 + S k - length l1)%nat with (S k) by lia.
Qed.

Lemma copy_ok `{BuildProfile} (size src dst count : Z) (m : mem) :
  0 < size -> 0 <= count -> 0 <= src -> 0 <= dst ->
  src + count * size <= 2 ^ 32 -> dst + count * size <= 2 ^ 32 -> count * size < 2 ^ 32 ->
  exists m', Volatile.copy size src dst count m = (Ok tt, m') /\ moved m src dst (count * size) m'.
Proof.
  intros Hsize Hcount Hsrc Hdst Hs Hd Hn. unfold Volatile.copy. rewrite usize_mul_ok, bind_lift by nia.
  set (back := (src <? dst) && (dst <? src + count * size)).
  assert ((if src <? dst then stop ← usize_add src (count * size); Ok (dst <? stop) else Ok false) = Ok back) as ->.
  { subst back. destruct (Z.ltb_spec src dst); [|done]. by rewrite usize_add_ok by nia. }
  rewrite bind_lift. set (l := if back then reverse (range 0 count) else range 0 count).
  assert (forall i, i ∈ l <-> 0 <= i < count) as Hl.
  { intros i. subst l. destruct back; rewrite ?elem_of_reverse; unfold range; rewrite elem_of_seqZ; lia. }
  destruct (copy_loop_ok size src dst l m Hsize) as (m' & E & Hin & Hout).
  - subst l. destruct back; rewrite ?reverse_Permutation; apply NoDup_seqZ.
  - intros done i rest j El Hj. subst l. unfold range in El. rewrite Z.sub_0_r in El.
    destruct back eqn:Eb; subst back.
    + apply (f_equal reverse) in El. rewrite reverse_involutive, reverse_app, reverse_cons, <- app_assoc in El.
      apply seqZ_split in El as (_ & Hi & _ & Hgt). specialize (Hgt j ltac:(by apply elem_of_reverse)). bprop. nia.
    + apply seqZ_split in El as (_ & Hi & Hlt & _). specialize (Hlt j Hj).
      destruct (Z.ltb_spec src dst), (Z.ltb_spec dst (src + count * size)); try done; nia.
  - exists m'. split; [exact E|]. intros a.
    destruct (Z.leb_spec dst a), (Z.ltb_spec a (dst + count * size)); cbn [andb].
    + pose proof (Z.div_mod (a - dst) size ltac:(lia)). pose proof (Z.mod_pos_bound (a - dst) size Hsize).
      apply (Hin a ((a - dst) / size)); [apply Hl|nia].
      split; [apply Z.div_pos; lia|apply Z.div_lt_upper_bound; lia].
    + apply Hout. intros i Hi%Hl. nia.
    + apply Hout. intros i Hi%Hl. nia.
    + apply Hout. intros i Hi%Hl. nia.
Qed.

(** C27: [volatile::copy] is [memmove], for elements of any size and any overlap, even
    one that splits an element: given regions that lie in the address space it
    returns without overflow, the destination holds what the source held before the
    call, and no other byte changes. *)
Theorem volatile_copy_is_memmove `{BuildProfile} (size src dst count : Z) (m : mem) :
  0 < size -> 0 <= count -> 0 <= src -> 0 <= dst ->
  src + count * size <= 2 ^ 32 -> dst + count * size <= 2 ^ 32 -> count * size < 2 ^ 32 ->
  exists m', Volatile.copy size src dst count m = (Ok tt, m') /\ moved m src dst (count * size) m'.
Proof. apply copy_ok. Qed.

(** Four words moved up by two bytes. *)
Lemma volatile_copy_is_memmove_witness :
  exists m', @Volatile.copy dev 4 0x1000 0x1002 4 (fill ∅ 0x1000 7 16) = (Ok tt, m') /\
    moved (fill ∅ 0x1000 7 16) 0x1000 0x1002 (4 * 4) m'.
Proof. apply (@volatile_copy_is_memmove dev 4 0x1000 0x1002 4); lia. Defined.
