(* ===== verification/Vga.v ===== *)
(** * [src/vga.rs]: the text console

    The writer (cursor and colour) over physical memory, where the 80 x 25 text
    buffer sits at 0xB8000; the printing functions behind [printk!] and
    [printk_color!].  The specification is a terminal: a grid of cells with a
    cursor, and, one level up, the text it shows. *)

From S2P Require Import Prelude Rust Fmt Memory Volatile.

Definition VGA_BUFFER : Z := 0xb8000.

Definition VGA_WIDTH : Z := 80.

Definition VGA_HEIGHT : Z := 25.

Inductive Color :=
  | Black | Blue | Green | Cyan | Red | Magenta | Brown | LightGray
  | DarkGray | LightBlue | LightGreen | LightCyan | LightRed | Pink | Yellow | White.

#[global] Instance Color_eq_dec : EqDecision Color.
Proof. solve_decision. Defined.

Module Color.

(** [self as u8]: the discriminant. *)
Definition as_u8 (self : Color) : Z :=
  match self with
  | Black => 0x0 | Blue => 0x1 | Green => 0x2 | Cyan => 0x3
  | Red => 0x4 | Magenta => 0x5 | Brown => 0x6 | LightGray => 0x7
  | DarkGray => 0x8 | LightBlue => 0x9 | LightGreen => 0xa | LightCyan => 0xb
  | LightRed => 0xc | Pink => 0xd | Yellow => 0xe | White => 0xf
  end.

Definition on (self bg : Color) : Z := Z.lor (wrapping_shl 8 (as_u8 bg) 4) (as_u8 self).

End Color.

Record VgaWriter := mkVgaWriter {
  col : Z;
  row : Z;
  color : Z
}.

(** The writer and the memory its buffer is part of. *)
Record console := mkConsole {
  writer : VgaWriter;
  con_mem : mem
}.

#[global] Instance con_mem_lens : Lens console mem.
Proof.
  refine {| view := con_mem; put m c := mkConsole (writer c) m |}; by intros; destruct s.
Defined.

Module VgaWriter.

Definition new : VgaWriter := {| col := 0; row := 0; color := 0x0F |}.

Definition self : M console VgaWriter := reads (fun c => Ok (writer c)).

Definition update (f : VgaWriter → VgaWriter) : M console unit :=
  modify (fun c => mkConsole (f (writer c)) (con_mem c)).

Definition set_col (x : Z) : M console unit := update (fun w => mkVgaWriter x (row w) (color w)).

Definition set_row (y : Z) : M console unit := update (fun w => mkVgaWriter (col w) y (color w)).

Definition set_color (k : Z) : M console unit := update (fun w => mkVgaWriter (col w) (row w) k).

(** [ptr.write_volatile(byte)] *)
Definition write_volatile (addr byte : Z) : M console unit :=
  modify (fun c => mkConsole (writer c) (store8 (con_mem c) addr byte)).

Section writer.
Context `{BuildProfile}.

(** The two writes of one cell: [buf.add(i * 2)] and [buf.add(i * 2 + 1)]. *)
Definition clear_cell (buf i : Z) : M console unit :=
  w ← self;
  offset ← lift (usize_mul i 2);
  write_volatile (buf + offset) 32;;
  offset ← lift (i2 ← usize_mul i 2; usize_add i2 1);
  write_volatile (buf + offset) (color w).

Definition clear_row (row : Z) : M console unit :=
  offset ← lift (cells ← usize_mul row VGA_WIDTH; usize_mul cells 2);
  for_in (range 0 VGA_WIDTH) (clear_cell (VGA_BUFFER + offset)).

Definition clear : M console unit :=
  for_in (range 0 (VGA_WIDTH * VGA_HEIGHT)) (clear_cell VGA_BUFFER).

Definition scroll : M console unit :=
  let dst := VGA_BUFFER in
  let src := VGA_BUFFER + VGA_WIDTH * 2 in
  let count := (VGA_HEIGHT - 1) * VGA_WIDTH * 2 in
  zoom (Volatile.copy 1 src dst count);;
  set_row (VGA_HEIGHT - 1);;
  w ← self;
  clear_row (row w).

Definition newline : M console unit :=
  set_col 0;;
  w ← self;
  next ← lift (usize_add (row w) 1);
  set_row next;;
  if VGA_HEIGHT <=? next then scroll else mret tt.

Definition reset : M console unit :=
  set_col 0;;
  set_row 0;;
  clear.

Definition write_byte (byte : Z) : M console unit :=
  if byte =? 10 then newline
  else
    w ← self;
    (if VGA_WIDTH <=? col w then newline else mret tt);;
    w ← self;
    offset ← lift (cells ← usize_mul (row w) VGA_WIDTH; cell ← usize_add cells (col w); usize_mul cell 2);
    write_volatile (VGA_BUFFER + offset) byte;;
    offset' ← lift (usize_add offset 1);
    write_volatile (VGA_BUFFER + offset') (color w);;
    next ← lift (usize_add (col w) 1);
    set_col next.

Definition write (bytes : list Z) : M console unit := for_in bytes write_byte.

(** [fmt::Write]: the pieces of a format are written one after the other. *)
Definition write_str (s : string) : M console unit := write (bytes_of s).

Definition write_fmt (pieces : list string) : M console unit := for_in pieces write_str.

End writer.

End VgaWriter.

(** The static, as the image holds it. *)
Definition VGA_WRITER : VgaWriter := VgaWriter.new.

(** [printk!] and [printk_color!] on their rendered arguments. *)
Definition print `{BuildProfile} (args : string) : M console unit := VgaWriter.write_str args.

Definition print_color `{BuildProfile} (k : Z) (args : string) : M console unit :=
  w ← VgaWriter.self;
  let prev_color := color w in
  VgaWriter.set_color k;;
  VgaWriter.write_str args;;
  VgaWriter.set_color prev_color.

(** ** The terminal *)

Abbreviation cell := (Z * Z)%type.

Definition cell_at (m : mem) (r c : Z) : cell :=
  (load8 m (VGA_BUFFER + (r * 80 + c) * 2), load8 m (VGA_BUFFER + (r * 80 + c) * 2 + 1)).

(** A grid of 25 rows of 80 cells. *)
Definition grid (f : Z → Z → cell) : list (list cell) :=
  (fun r => f r <$> seqZ 0 80) <$> seqZ 0 25.

Definition screen (m : mem) : list (list cell) := grid (cell_at m).

Record terminal := mkTerminal {
  t_screen : list (list cell);
  t_row : nat;
  t_col : nat;
  t_color : Z
}.

Definition blank_row (k : Z) : list cell := replicate 80 (32, k).

Definition term_newline (t : terminal) : terminal :=
  if (S (t_row t) <? 25)%nat then mkTerminal (t_screen t) (S (t_row t)) 0 (t_color t)
  else mkTerminal (drop 1 (t_screen t) ++ [blank_row (t_color t)]) 24 0 (t_color t).

Definition term_cell (b : Z) (t : terminal) : terminal :=
  mkTerminal (alter (fun l => <[t_col t := (b, t_color t)]> l) (t_row t) (t_screen t))
    (t_row t) (S (t_col t)) (t_color t).

Definition term_put (t : terminal) (b : Z) : terminal :=
  if b =? 10 then term_newline t
  else term_cell b (if (80 <=? t_col t)%nat then term_newline t else t).

Definition term_of (c : console) : terminal :=
  mkTerminal (screen (con_mem c)) (Z.to_nat (row (writer c))) (Z.to_nat (col (writer c))) (color (writer c)).

(** The writer's invariant: the cursor is on the screen, or just past a row's end. *)
Record writer_ok (w : VgaWriter) : Prop := {
  ok_row : 0 <= row w < 25;
  ok_col : 0 <= col w <= 80;
  ok_color : 0 <= color w < 256
}.

(** Nothing outside the 4000-byte buffer differs. *)
Definition confined (m m' : mem) : Prop :=
  forall a, a < VGA_BUFFER \/ VGA_BUFFER + 4000 <= a -> load8 m' a = load8 m a.

#[global] Instance confined_preorder : PreOrder confined.
Proof. split; [by intros m a|]. intros m1 m2 m3 H1 H2 a Ha. by rewrite H2, H1. Qed.

Lemma grid_ext (f g : Z → Z → cell) :
  (forall r c, 0 <= r < 25 -> 0 <= c < 80 -> f r c = g r c) -> grid f = grid g.
Proof.
  intros H. unfold grid. apply list_fmap_ext. intros i r Hr. apply lookup_seqZ in Hr as [-> ?].
  apply list_fmap_ext. intros j c Hc. apply lookup_seqZ in Hc as [-> ?]. apply H; lia.
Qed.

Lemma grid_lookup (f : Z → Z → cell) (i : nat) :
  (i < 25)%nat -> grid f !! i = Some (f (Z.of_nat i) <$> seqZ 0 80).
Proof. intros Hi. unfold grid. by rewrite list_lookup_fmap, lookup_seqZ_lt by lia. Qed.

Lemma grid_row_lookup (f : Z → cell) (j : nat) :
  (j < 80)%nat -> (f <$> seqZ 0 80) !! j = Some (f (Z.of_nat j)).
Proof. intros Hj. by rewrite list_lookup_fmap, lookup_seqZ_lt by lia. Qed.

Lemma length_grid (f : Z → Z → cell) : length (grid f) = 25%nat.
Proof. unfold grid. by rewrite length_fmap, length_seqZ. Qed.

(** Storing one cell, and scrolling, as grids. *)
Lemma grid_set (f : Z → Z → cell) (r c : Z) (v : cell) :
  0 <= r < 25 -> 0 <= c < 80 ->
  alter (fun l => <[Z.to_nat c := v]> l) (Z.to_nat r) (grid f) =
  grid (fun r' c' => if (r' =? r) && (c' =? c) then v else f r' c').
Proof.
  intros Hr Hc. apply list_eq. intros i.
  destruct (decide (i < 25)%nat); [|rewrite !lookup_ge_None_2; rewrite ?length_alter, ?length_grid; (done || lia)].
  rewrite grid_lookup by done. destruct (decide (i = Z.to_nat r)) as [->|].
  - rewrite list_lookup_alter_eq, grid_lookup by lia. cbn [fmap option_fmap option_map]. f_equal.
    apply list_eq. intros j.
    destruct (decide (j < 80)%nat); [|rewrite !lookup_ge_None_2; rewrite ?length_insert, ?length_fmap, ?length_seqZ; (done || lia)].
    rewrite grid_row_lookup by done. destruct (decide (j = Z.to_nat c)) as [->|].
    + rewrite list_lookup_insert_eq by (rewrite length_fmap, length_seqZ; lia).
      rewrite !Z2Nat.id, !Z.eqb_refl by lia. done.
    + rewrite list_lookup_insert_ne, grid_row_lookup by done.
      by rewrite (proj2 (Z.eqb_neq (Z.of_nat j) c)), andb_false_r by lia.
  - rewrite list_lookup_alter_ne, grid_lookup by done. f_equal. apply list_fmap_ext. intros j x _.
    by rewrite (proj2 (Z.eqb_neq (Z.of_nat i) r)) by lia.
Qed.

Lemma grid_scroll (f : Z → Z → cell) (k : Z) :
  drop 1 (grid f) ++ [blank_row k] = grid (fun r c => if r =? 24 then (32, k) else f (r + 1) c).
Proof. reflexivity. Qed.

Lemma grid_blank (k : Z) : replicate 25 (blank_row k) = grid (fun _ _ => (32, k)).
Proof. reflexivity. Qed.

(** The move by one row and the cleared last row, on the grid. *)
Lemma scroll_screen (m m1 m' : mem) (k : Z) :
  moved m 753824 753664 (3840 * 1) m1 ->
  (forall a, load8 m' a =
    if (753664 + 24 * 80 * 2 <=? a) && (a <? 753664 + 24 * 80 * 2 + 2 * 80)
    then (if (a - (753664 + 24 * 80 * 2)) mod 2 =? 0 then 32 else k) else load8 m1 a) ->
  screen m' = drop 1 (screen m) ++ [blank_row k] /\ confined m m'.
Proof.
  intros H1 Ha.
  assert (forall a, a < 757504 \/ 757664 <= a -> load8 m' a = load8 m1 a) as Hkept.
  { intros a Hout. rewrite Ha. destruct (Z.leb_spec (753664 + 24 * 80 * 2) a), (Z.ltb_spec a (753664 + 24 * 80 * 2 + 2 * 80));
      cbn [andb]; done || lia. }
  assert (forall i, 0 <= i < 80 -> load8 m' (757504 + i * 2) = 32 /\ load8 m' (757504 + i * 2 + 1) = k) as Hlast.
  { intros i Hi. rewrite !Ha, !(proj2 (Z.leb_le _ _)), !(proj2 (Z.ltb_lt _ _)) by lia. cbn [andb].
    split; [rewrite (proj2 (Z.eqb_eq _ _))|rewrite (proj2 (Z.eqb_neq _ _))]; done || zdiv. }
  assert (forall a, 753664 <= a < 757504 -> load8 m1 a = load8 m (a + 160)) as Hmoved.
  { intros a Hin. rewrite H1, (proj2 (Z.leb_le _ _)), (proj2 (Z.ltb_lt _ _)) by lia. cbn [andb]. f_equal. lia. }
  split.
  - unfold screen. rewrite grid_scroll. apply grid_ext. intros r x Hr Hx. unfold cell_at, VGA_BUFFER.
    destruct (Z.eqb_spec r 24) as [->|].
    + destruct (Hlast x Hx) as [<- <-]. do 2 f_equal; lia.
    + rewrite !Hkept, !Hmoved by lia. do 2 f_equal; lia.
  - intros a Hout. unfold VGA_BUFFER in Hout. rewrite Hkept, H1 by lia.
    destruct (Z.leb_spec 753664 a), (Z.ltb_spec a (753664 + 3840 * 1)); cbn [andb]; done || lia.
Qed.

Lemma clear_screen (m m' : mem) (k : Z) :
  (forall a, load8 m' a =
    if (VGA_BUFFER <=? a) && (a <? VGA_BUFFER + 2 * 2000)
    then (if (a - VGA_BUFFER) mod 2 =? 0 then 32 else k) else load8 m a) ->
  screen m' = replicate 25 (blank_row k) /\ confined m m'.
Proof.
  intros Ha. unfold VGA_BUFFER in Ha. split.
  - rewrite grid_blank. unfold screen. apply grid_ext. intros r x Hr Hx. unfold cell_at, VGA_BUFFER.
    rewrite !Ha, !(proj2 (Z.leb_le _ _)), !(proj2 (Z.ltb_lt _ _)) by lia. cbn [andb].
    f_equal; [rewrite (proj2 (Z.eqb_eq _ _))|rewrite (proj2 (Z.eqb_neq _ _))]; done || zdiv.
  - intros a Hout. unfold VGA_BUFFER in Hout. rewrite Ha.
    destruct (Z.leb_spec 753664 a), (Z.ltb_spec a (753664 + 2 * 2000)); cbn [andb]; done || lia.
Qed.

(** Storing a character and its colour, on the grid. *)
Lemma store_cell_screen (m : mem) (r x b k : Z) :
  0 <= r < 25 -> 0 <= x < 80 -> 0 <= b < 256 -> 0 <= k < 256 ->
  let m' := store8 (store8 m (VGA_BUFFER + (r * 80 + x) * 2) b) (VGA_BUFFER + ((r * 80 + x) * 2 + 1)) k in
  screen m' = alter (fun l => <[Z.to_nat x := (b, k)]> l) (Z.to_nat r) (screen m) /\ confined m m'.
Proof.
  intros Hr Hx Hb Hk m'. split.
  - unfold screen. rewrite grid_set by done. apply grid_ext. intros r' x' Hr' Hx'. subst m'. unfold cell_at.
    rewrite !load8_store8. destruct (Z.eqb_spec r' r) as [->|], (Z.eqb_spec x' x) as [->|]; cbn [andb].
    all: repeat case_decide; try lia; rewrite ?Z.mod_small by lia; done.
  - intros a Ha. subst m'. rewrite !load8_store8. repeat case_decide; lia || done.
Qed.

(** The screen is the 4000 bytes of the buffer. *)
Lemma screen_ext (m m' : mem) :
  (forall a, VGA_BUFFER <= a < VGA_BUFFER + 4000 -> load8 m' a = load8 m a) -> screen m' = screen m.
Proof. intros H. apply grid_ext. intros r x Hr Hx. unfold cell_at. rewrite !H by lia. done. Qed.

#[global] Opaque grid screen.

(** ** The operations on the grid *)

Section operations.
Context {P : BuildProfile}.

Lemma self_ok c : VgaWriter.self c = (Ok (writer c), c).
Proof. done. Qed.

Lemma clear_cell_ok buf i c :
  0 <= i < 2 ^ 30 ->
  VgaWriter.clear_cell buf i c =
    (Ok tt, mkConsole (writer c) (store8 (store8 (con_mem c) (buf + i * 2) 32) (buf + (i * 2 + 1)) (color (writer c)))).
Proof.
  intros Hi. unfold VgaWriter.clear_cell. rewrite (bind_ok _ _ _ _ _ (self_ok c)).
  by rewrite usize_mul_ok, ok_bind, usize_add_ok by lia.
Qed.

(** Clearing [n] cells from [buf] on. *)
Lemma clear_cells_ok buf n c :
  0 <= n < 2 ^ 30 -> 0 <= color (writer c) < 256 ->
  exists m', for_in (range 0 n) (VgaWriter.clear_cell buf) c = (Ok tt, mkConsole (writer c) m') /\
    forall a, load8 m' a =
      if (buf <=? a) && (a <? buf + 2 * n)
      then (if (a - buf) mod 2 =? 0 then 32 else color (writer c)) else load8 (con_mem c) a.
Proof.
  intros Hn Hk. set (Inv := fun (k : Z) (c' : console) => writer c' = writer c /\
    forall a, load8 (con_mem c') a =
      if (buf <=? a) && (a <? buf + 2 * k)
      then (if (a - buf) mod 2 =? 0 then 32 else color (writer c)) else load8 (con_mem c) a).
  cut (wp (for_in (range 0 n) (VgaWriter.clear_cell buf)) (fun _ c' => Inv n c') c).
  { intros ([] & [w m'] & E & Ew & Ha). cbn [writer] in Ew. subst w. by exists m'. }
  apply (wp_for_in _ _ (fun done c' => Inv (Z.of_nat (length done)) c')).
  - split; [done|]. intros a. cbn [length]. zbool.
  - intros done i rest c' E [Ew Ha]. unfold range in E. rewrite Z.sub_0_r in E.
    apply seqZ_split in E as (-> & Hi & _ & _). set (i := Z.of_nat (length done)) in *.
    eexists tt, _. split; [apply clear_cell_ok; lia|].
    rewrite length_app, Nat2Z.inj_add. fold i. split; [done|].
    intros a. cbn [con_mem length]. rewrite !load8_store8, Ha, Ew.
    repeat case_decide; subst; zbool; try zdiv.
  - intros c'. unfold range. rewrite length_seqZ, Z.sub_0_r, Z2Nat.id by lia. done.
Qed.

Lemma clear_ok c :
  0 <= color (writer c) < 256 ->
  exists m', VgaWriter.clear c = (Ok tt, mkConsole (writer c) m') /\
    screen m' = replicate 25 (blank_row (color (writer c))) /\ confined (con_mem c) m'.
Proof.
  intros Hk. unfold VgaWriter.clear. change (VGA_WIDTH * VGA_HEIGHT) with 2000.
  destruct (clear_cells_ok VGA_BUFFER 2000 c ltac:(lia) Hk) as (m' & E & Ha).
  exists m'. split; [exact E|]. exact (clear_screen _ _ _ Ha).
Qed.

Lemma scroll_ok c :
  0 <= color (writer c) < 256 ->
  exists m', VgaWriter.scroll c = (Ok tt, mkConsole (mkVgaWriter (col (writer c)) 24 (color (writer c))) m') /\
    screen m' = drop 1 (screen (con_mem c)) ++ [blank_row (color (writer c))] /\ confined (con_mem c) m'.
Proof.
  intros Hk. set (w := writer c) in *. unfold VgaWriter.scroll. cbv zeta.
  change (VGA_BUFFER + VGA_WIDTH * 2) with 753824. change ((VGA_HEIGHT - 1) * VGA_WIDTH * 2) with 3840.
  change VGA_BUFFER with 753664.
  destruct (copy_ok 1 753824 753664 3840 (con_mem c)) as (m1 & E1 & H1); [lia..|].
  assert (zoom (Volatile.copy 1 753824 753664 3840) c = (Ok tt, mkConsole w m1)) as Ez.
  { unfold zoom. cbn [view con_mem_lens]. by rewrite E1. }
  rewrite (bind_ok _ _ _ _ _ Ez).
  set (c2 := mkConsole (mkVgaWriter (col w) 24 (color w)) m1).
  rewrite (bind_ok _ _ _ tt c2), (bind_ok _ _ _ _ _ (self_ok c2)) by done.
  unfold VgaWriter.clear_row. cbn [c2 writer row].
  change VGA_WIDTH with 80. rewrite usize_mul_ok, ok_bind, usize_mul_ok, bind_lift by lia.
  destruct (clear_cells_ok (VGA_BUFFER + 24 * 80 * 2) 80 c2 ltac:(lia) Hk) as (m' & E & Ha).
  exists m'. split; [exact E|]. exact (scroll_screen _ _ _ _ H1 Ha).
Qed.

#[local] Opaque VgaWriter.scroll.

Lemma newline_ok c :
  writer_ok (writer c) ->
  exists c', VgaWriter.newline c = (Ok tt, c') /\ writer_ok (writer c') /\
    term_of c' = term_newline (term_of c) /\ confined (con_mem c) (con_mem c').
Proof.
  destruct c as [[x y k] m]. intros [Hr Hc Hk]. cbn [row col color writer] in *.
  unfold VgaWriter.newline. set (c1 := mkConsole (mkVgaWriter 0 y k) m).
  rewrite (bind_ok _ _ _ tt c1), (bind_ok _ _ _ _ _ (self_ok c1)) by done. cbn [c1 writer row].
  rewrite usize_add_ok, bind_lift by lia. set (c2 := mkConsole (mkVgaWriter 0 (y + 1) k) m).
  rewrite (bind_ok _ _ _ tt c2) by done. unfold term_newline. cbn [term_of t_row t_screen t_color writer row color con_mem].
  change VGA_HEIGHT with 25. destruct (Z.leb_spec 25 (y + 1)).
  - destruct (scroll_ok c2 Hk) as (m' & E & Hs & Hconf). exists (mkConsole (mkVgaWriter 0 24 k) m').
    split; [exact E|]. split; [split; cbn [row col color writer]; lia|]. split; [|exact Hconf].
    rewrite (proj2 (Nat.ltb_ge _ _)) by lia. unfold term_of. cbn [writer row col color con_mem]. rewrite Hs. reflexivity.
  - exists c2. split_and!; [done|split; simpl; lia| |done].
    rewrite (proj2 (Nat.ltb_lt _ _)) by lia. unfold term_of. cbn [c2 writer row col color con_mem].
    by replace (Z.to_nat (y + 1)) with (S (Z.to_nat y)) by lia.
Qed.

#[local] Opaque VgaWriter.newline.

Lemma write_byte_ok b c :
  writer_ok (writer c) -> 0 <= b < 256 ->
  exists c', VgaWriter.write_byte b c = (Ok tt, c') /\ writer_ok (writer c') /\
    term_of c' = term_put (term_of c) b /\ confined (con_mem c) (con_mem c').
Proof.
  intros Hok Hb. unfold VgaWriter.write_byte, term_put.
  destruct (b =? 10); [by apply newline_ok|].
  rewrite (bind_ok _ _ _ _ _ (self_ok c)). change VGA_WIDTH with 80.
  assert (exists c1, (if 80 <=? col (writer c) then VgaWriter.newline else mret tt) c = (Ok tt, c1) /\
    writer_ok (writer c1) /\ col (writer c1) < 80 /\ confined (con_mem c) (con_mem c1) /\
    term_of c1 = if (80 <=? t_col (term_of c))%nat then term_newline (term_of c) else term_of c)
    as (c1 & E1 & [Hr Hc Hk] & Hlt & Hconf & <-).
  { destruct Hok as [Hr Hc Hk]. cbn [term_of t_col]. destruct (Z.leb_spec 80 (col (writer c))).
    - destruct (newline_ok c) as (c1 & E & Hok & Ht & Hconf); [by split|]. exists c1.
      rewrite (proj2 (Nat.leb_le _ _)) by lia. split_and!; [exact E|exact Hok| |exact Hconf|exact Ht].
      apply (f_equal t_col) in Ht. destruct Hok as [_ Hc1 _]. unfold term_newline in Ht. cbn [term_of t_col] in Ht.
      destruct (_ <? 25)%nat; cbn [t_col] in Ht; lia.
    - exists c. rewrite (proj2 (Nat.leb_gt _ _)) by lia. by split_and!. }
  rewrite (bind_ok _ _ _ _ _ E1), (bind_ok _ _ _ _ _ (self_ok c1)). clear E1.
  destruct c1 as [[x y k] m]. cbn [writer row col color con_mem] in *.
  rewrite usize_mul_ok, ok_bind, (usize_add_ok (y * 80) x), ok_bind, usize_mul_ok, bind_lift by lia.
  unfold VgaWriter.write_volatile, VgaWriter.set_col, VgaWriter.update, modify, mbind, M_bind, lift.
  rewrite usize_add_ok by lia. rewrite usize_add_ok by lia.
  eexists. split; [reflexivity|]. cbn [writer row col color con_mem].
  destruct (store_cell_screen m y x b k) as [Hs Hconf']; [lia..|].
  split_and!; [split; simpl; lia| |by transitivity m].
  unfold term_of, term_cell. cbn [writer row col color con_mem t_screen t_row t_col t_color]. rewrite Hs.
  by replace (Z.to_nat (x + 1)) with (S (Z.to_nat x)) by lia.
Qed.

#[local] Opaque VgaWriter.write_byte.

Lemma write_ok bytes c :
  writer_ok (writer c) -> Forall (fun b => 0 <= b < 256) bytes ->
  exists c', VgaWriter.write bytes c = (Ok tt, c') /\ writer_ok (writer c') /\
    term_of c' = foldl term_put (term_of c) bytes /\ confined (con_mem c) (con_mem c').
Proof.
  intros Hok Hall. revert c Hok. induction Hall as [|b bytes Hb Hall IH]; intros c Hok.
  - by exists c.
  - destruct (write_byte_ok b c Hok Hb) as (c1 & E1 & Hok1 & Ht1 & Hc1).
    destruct (IH c1 Hok1) as (c2 & E2 & Hok2 & Ht2 & Hc2). exists c2. split_and!.
    + unfold VgaWriter.write. cbn [for_in]. by rewrite (bind_ok _ _ _ _ _ E1).
    + exact Hok2.
    + cbn [foldl]. by rewrite Ht2, Ht1.
    + by transitivity (con_mem c1).
Qed.

End operations.

Lemma bytes_of_bytes (s : string) : Forall (fun b => 0 <= b < 256) (bytes_of s).
Proof.
  unfold bytes_of. apply Forall_fmap, Forall_true. intros a. cbn.
  pose proof (Ascii.N_ascii_bounded a). lia.
Qed.

Lemma bytes_of_app (s t : string) : bytes_of (String.append s t) = bytes_of s ++ bytes_of t.
Proof.
  induction s as [|a s IH]; [done|].
  change (String.append (String a s) t) with (String a (String.append s t)).
  unfold bytes_of in *. csimpl. by rewrite IH.
Qed.

(** ** The text on the screen *)

(** A text cut into rows: at each newline, and where a row is full. *)
Fixpoint wrap (cur : list Z) (bytes : list Z) : list (list Z) :=
  match bytes with
  | [] => [cur]
  | b :: bytes =>
      if b =? 10 then cur :: wrap [] bytes
      else if (80 <=? length cur)%nat then cur :: wrap [b] bytes
      else wrap (cur ++ [b]) bytes
  end.

(** One row of characters in colour [k], filled with blanks. *)
Definition render (k : Z) (line : list Z) : list cell :=
  ((fun b => (b, k)) <$> line) ++ replicate (80 - length line) (32, k).

(** The terminal that shows the last 25 of the rows [pre ++ [cur]], with the cursor
    behind [cur]. *)
Definition showing (k : Z) (pre : list (list Z)) (cur : list Z) : terminal :=
  let rows := drop (length pre + 1 - 25) (pre ++ [cur]) in
  mkTerminal ((render k <$> rows) ++ replicate (25 - length rows) (blank_row k))
    (length rows - 1) (length cur) k.

Lemma showing_newline (k : Z) (pre : list (list Z)) (cur : list Z) :
  term_newline (showing k pre cur) = showing k (pre ++ [cur]) [].
Proof.
  unfold showing, term_newline. cbv zeta. cbn [t_row t_screen t_color].
  rewrite !length_drop, !length_app. cbn [length].
  destruct (Nat.ltb_spec (S (length pre + 1 - (length pre + 1 - 25) - 1)) 25).
  - replace (length pre + 1 - 25)%nat with 0%nat by lia. replace (length pre + 1 + 1 - 25)%nat with 0%nat by lia.
    rewrite !drop_0. f_equal; [|lia].
    rewrite !fmap_app, <- !app_assoc. do 2 f_equal.
    replace (25 - (length pre + 1 - 0))%nat with (S (25 - (length pre + 1 + 1 - 0))) by lia. done.
  - f_equal; [|lia].
    replace (25 - (length pre + 1 - (length pre + 1 - 25)))%nat with 0%nat by lia.
    replace (25 - (length pre + 1 + 1 - (length pre + 1 + 1 - 25)))%nat with 0%nat by lia.
    cbn [replicate]. rewrite !app_nil_r. replace (length pre + 1 + 1 - 25)%nat with (length pre + 1 - 25 + 1)%nat by lia.
    rewrite (drop_app_le (pre ++ [cur])) by (rewrite length_app; simpl; lia).
    rewrite fmap_app, <- drop_drop, !fmap_drop. done.
Qed.

Lemma showing_cell (k b : Z) (pre : list (list Z)) (cur : list Z) :
  (length cur < 80)%nat -> term_cell b (showing k pre cur) = showing k pre (cur ++ [b]).
Proof.
  intros Hcur. unfold showing, term_cell. cbv zeta. cbn [t_row t_col t_screen t_color].
  rewrite !length_drop, !length_app. cbn [length]. f_equal; [|lia].
  set (n := (length pre + 1 - 25)%nat).
  rewrite !(drop_app_le pre) by (subst n; lia). rewrite !fmap_app, <- !app_assoc.
  replace (length pre + 1 - n - 1)%nat with (length (render k <$> drop n pre) + 0)%nat
    by (rewrite length_fmap, length_drop; lia).
  rewrite alter_app_r. f_equal. cbn. f_equal. unfold render. rewrite length_app, fmap_app, <- app_assoc. cbn [length].
  replace (length cur) with (length ((fun b => (b, k)) <$> cur) + 0)%nat at 1 by (rewrite length_fmap; lia).
  rewrite insert_app_r. f_equal.
  replace (80 - length cur)%nat with (S (80 - (length cur + 1))) by lia. done.
Qed.

Lemma term_put_showing (k b : Z) (pre : list (list Z)) (cur : list Z) :
  term_put (showing k pre cur) b =
    if b =? 10 then showing k (pre ++ [cur]) []
    else if (80 <=? length cur)%nat then showing k (pre ++ [cur]) [b]
    else showing k pre (cur ++ [b]).
Proof.
  unfold term_put. destruct (b =? 10); [apply showing_newline|].
  change (t_col (showing k pre cur)) with (length cur). destruct (Nat.leb_spec 80 (length cur)).
  - rewrite showing_newline, showing_cell by (simpl; lia). done.
  - by apply showing_cell.
Qed.

Lemma term_put_wrap (k : Z) (pre : list (list Z)) (cur : list Z) (bytes : list Z) :
  exists pre' cur', foldl term_put (showing k pre cur) bytes = showing k pre' cur' /\
    pre' ++ [cur'] = pre ++ wrap cur bytes.
Proof.
  revert pre cur. induction bytes as [|b bytes IH]; intros pre cur; [by exists pre, cur|].
  cbn [foldl wrap]. rewrite term_put_showing.
  destruct (b =? 10); [|destruct (80 <=? length cur)%nat]; [..|apply IH].
  all: match goal with |- context [foldl term_put (showing _ ?p ?c)] =>
         destruct (IH p c) as (pre' & cur' & E & Hw) end.
  all: exists pre', cur'; split; [exact E|]; by rewrite Hw, <- app_assoc.
Qed.

(** Wrapping keeps the text: rows hold at most 80 bytes, and joined they are the
    text without its newlines. *)
Lemma wrap_rows (cur bytes : list Z) :
  (length cur <= 80)%nat -> Forall (fun l => (length l <= 80)%nat) (wrap cur bytes).
Proof.
  revert cur. induction bytes as [|b bytes IH]; intros cur Hcur; [by constructor|]. cbn [wrap].
  destruct (b =? 10); [constructor; [done|apply IH; simpl; lia]|].
  destruct (Nat.leb_spec 80 (length cur)); [constructor; [done|apply IH; simpl; lia]|].
  apply IH. rewrite length_app. simpl. lia.
Qed.

Lemma wrap_concat (cur bytes : list Z) :
  concat (wrap cur bytes) = cur ++ filter (fun b => b <> 10) bytes.
Proof.
  revert cur. induction bytes as [|b bytes IH]; intros cur; [done|]. cbn [wrap].
  destruct (Z.eqb_spec b 10) as [->|Hb].
  - cbn [concat]. by rewrite IH, filter_cons_False by naive_solver.
  - rewrite filter_cons_True by done. destruct (80 <=? length cur)%nat; cbn [concat]; rewrite IH; [done|].
    by rewrite <- app_assoc.
Qed.

(** ** What the console guarantees *)

Section claims.
Context {P : BuildProfile}.

Lemma reset_ok c :
  0 <= color (writer c) < 256 ->
  exists m', VgaWriter.reset c = (Ok tt, mkConsole (mkVgaWriter 0 0 (color (writer c))) m') /\
    screen m' = replicate 25 (blank_row (color (writer c))) /\ confined (con_mem c) m'.
Proof.
  intros Hk. unfold VgaWriter.reset. set (c0 := mkConsole (mkVgaWriter 0 0 (color (writer c))) (con_mem c)).
  rewrite (bind_ok _ _ _ tt (mkConsole (mkVgaWriter 0 (row (writer c)) (color (writer c))) (con_mem c))) by reflexivity.
  rewrite (bind_ok _ _ _ tt c0) by reflexivity.
  destruct (clear_ok c0 Hk) as (m' & E & H). exists m'. split; [exact E|exact H].
Qed.

(** The text of a format is its pieces in order. *)
Lemma write_fmt_concat pieces c :
  VgaWriter.write_fmt pieces c = VgaWriter.write_str (String.concat "" pieces) c.
Proof.
  revert c. induction pieces as [|s pieces IH]; intros c; [done|].
  transitivity (VgaWriter.write (bytes_of s ++ bytes_of (String.concat "" pieces)) c).
  - unfold VgaWriter.write. rewrite for_in_app. unfold VgaWriter.write_fmt. cbn [for_in].
    unfold mbind, M_bind. unfold VgaWriter.write_str at 1, VgaWriter.write.
    destruct (for_in (bytes_of s) VgaWriter.write_byte c) as [[] c1]; [apply IH|done|done].
  - unfold VgaWriter.write_str. rewrite <- bytes_of_app. destruct pieces; [|done].
    cbn [String.concat]. by rewrite bytes_of_app, app_nil_r.
Qed.

End claims.

(** C25: The console is a terminal: writing any bytes from a cursor on the screen returns
    without a panic, leaves the cursor on the screen, changes the 25 rows, the cursor
    and nothing else exactly as a terminal does that starts a new row on a newline or
    behind a full row and scrolls at the bottom, and writes no byte outside the
    4000-byte text buffer. *)
Theorem vga_write_refines_terminal `{BuildProfile} (c : console) (bytes : list Z) :
  writer_ok (writer c) → Forall (fun b => 0 <= b < 256) bytes →
  ∃ c', VgaWriter.write bytes c = (Ok tt, c') ∧ writer_ok (writer c') ∧
    term_of c' = foldl term_put (term_of c) bytes ∧ confined (con_mem c) (con_mem c').
Proof. apply write_ok. Qed.

Definition fresh_console : console := mkConsole VgaWriter.new ∅.

Lemma fresh_console_ok : writer_ok (writer fresh_console).
Proof. split; simpl; lia. Qed.

Lemma vga_write_refines_terminal_witness :
  ∃ c', @VgaWriter.write dev (bytes_of "zkrnl32 booting") fresh_console = (Ok tt, c') ∧ writer_ok (writer c') ∧
    term_of c' = foldl term_put (term_of fresh_console) (bytes_of "zkrnl32 booting") ∧
    confined (con_mem fresh_console) (con_mem c').
Proof.
  apply (@vga_write_refines_terminal dev fresh_console (bytes_of "zkrnl32 booting") fresh_console_ok).
  apply bytes_of_bytes.
Defined.

(** C26: The screen shows the text: after [reset], writing a text leaves on the screen the
    last 25 rows of it, cut at newlines and every 80 characters, in the writer's
    colour and filled with blanks, with the cursor behind the last character; the
    rows hold the text's bytes in order. *)
Theorem vga_shows_last_rows `{BuildProfile} (c : console) (bytes : list Z) :
  0 <= color (writer c) < 256 → Forall (fun b => 0 <= b < 256) bytes →
  ∃ c' pre cur, (VgaWriter.reset;; VgaWriter.write bytes) c = (Ok tt, c') ∧
    term_of c' = showing (color (writer c)) pre cur ∧
    pre ++ [cur] = wrap [] bytes ∧ Forall (fun l => (length l <= 80)%nat) (pre ++ [cur]) ∧
    concat (pre ++ [cur]) = filter (fun b => b <> 10) bytes.
Proof.
  intros Hk Hb. destruct (reset_ok c Hk) as (m & E & Hs & _).
  set (c1 := mkConsole (mkVgaWriter 0 0 (color (writer c))) m) in *.
  destruct (write_ok bytes c1) as (c' & E' & _ & Ht & _); [split; simpl; lia|done|].
  assert (term_of c1 = showing (color (writer c)) [] []) as H1.
  { unfold term_of. cbn [c1 writer row col color con_mem]. rewrite Hs. reflexivity. }
  destruct (term_put_wrap (color (writer c)) [] [] bytes) as (pre & cur & Ew & Hw).
  exists c', pre, cur. rewrite Hw. cbn [app].
  rewrite (bind_ok _ _ _ _ _ E). split; [exact E'|]. split; [by rewrite Ht, H1|].
  split; [done|]. split; [apply wrap_rows; simpl; lia|apply wrap_concat].
Qed.

Lemma vga_shows_last_rows_witness :
  ∃ c' pre cur, (@VgaWriter.reset dev;; @VgaWriter.write dev (bytes_of "memory: paging active")) fresh_console = (Ok tt, c') ∧
    term_of c' = showing (color (writer fresh_console)) pre cur ∧
    pre ++ [cur] = wrap [] (bytes_of "memory: paging active") ∧
    Forall (fun l => (length l <= 80)%nat) (pre ++ [cur]) ∧
    concat (pre ++ [cur]) = filter (fun b => b <> 10) (bytes_of "memory: paging active").
Proof.
  apply (@vga_shows_last_rows dev fresh_console (bytes_of "memory: paging active")); [simpl; lia|apply bytes_of_bytes].
Defined.

Lemma set_color_ok k c :
  VgaWriter.set_color k c = (Ok tt, mkConsole (mkVgaWriter (col (writer c)) (row (writer c)) k) (con_mem c)).
Proof. done. Qed.

Lemma print_color_ok `{BuildProfile} k args c :
  writer_ok (writer c) → 0 <= k < 256 →
  ∃ c', print_color k args c = (Ok tt, c') ∧ writer_ok (writer c') ∧ color (writer c') = color (writer c) ∧
    (let t := foldl term_put (mkTerminal (screen (con_mem c)) (Z.to_nat (row (writer c))) (Z.to_nat (col (writer c))) k)
                (bytes_of args) in
     screen (con_mem c') = t_screen t ∧ row (writer c') = Z.of_nat (t_row t) ∧ col (writer c') = Z.of_nat (t_col t)) ∧
    confined (con_mem c) (con_mem c').
Proof.
  intros [Hr Hc Hk'] Hk. unfold print_color. rewrite (bind_ok _ _ _ _ _ (self_ok c)). cbv zeta.
  rewrite (bind_ok _ _ _ _ _ (set_color_ok k c)).
  set (c1 := mkConsole (mkVgaWriter (col (writer c)) (row (writer c)) k) (con_mem c)).
  destruct (write_ok (bytes_of args) c1) as (c2 & E & [Hr2 Hc2 _] & Ht & Hconf); [by split|apply bytes_of_bytes|].
  assert (VgaWriter.write_str args c1 = (Ok tt, c2)) as E' by exact E.
  rewrite (bind_ok _ _ _ _ _ E'). eexists. split; [apply set_color_ok|]. cbn [writer row col color con_mem].
  split; [by split|]. split; [done|]. split; [|exact Hconf].
  change (mkTerminal (screen (con_mem c)) _ _ k) with (term_of c1). rewrite <- Ht.
  cbv zeta. cbn [term_of t_screen t_row t_col]. split_and!; [done|lia|lia].
Qed.

(** Colour is temporary: printing in a colour writes the text with that attribute and
    hands the console back with its own colour, for each of the 256 attributes; a
    foreground on a background packs into the byte the hardware reads back. *)
Lemma print_color_restores `{BuildProfile} (c : console) (fg bg : Color) (args : string) :
  writer_ok (writer c) →
  let k := Color.on fg bg in
  k / 16 = Color.as_u8 bg ∧ k mod 16 = Color.as_u8 fg ∧
  ∃ c', print_color k args c = (Ok tt, c') ∧ writer_ok (writer c') ∧ color (writer c') = color (writer c) ∧
    (let t := foldl term_put (mkTerminal (screen (con_mem c)) (Z.to_nat (row (writer c))) (Z.to_nat (col (writer c))) k)
                (bytes_of args) in
     screen (con_mem c') = t_screen t ∧ row (writer c') = Z.of_nat (t_row t) ∧ col (writer c') = Z.of_nat (t_col t)) ∧
    confined (con_mem c) (con_mem c').
Proof.
  intros Hok k. split; [by destruct fg, bg|]. split; [by destruct fg, bg|].
  apply print_color_ok; [done|]. subst k. destruct fg, bg; vm_compute; split; congruence.
Qed.
