(* ===== verification/Machine.v ===== *)
(** * The machine the kernel runs on

    The kernel's statics ([VGA_WRITER], [FRAME_ALLOCATOR], [PANICKING]), physical
    memory and the control registers, with the views of it that the console and the
    paging code work on, and volatile reads through the page directory in use.
    The text buffer is written through its physical address: an access faults unless
    the directory in use maps that page to itself. *)

From S2P Require Import Prelude Rust Fmt Memory Address Layout Frame FrameSpec Paging Mmu Volatile Vga.

Record machine := mkMachine {
  mc_writer : VgaWriter;
  mc_alloc : FrameBitmap;
  mc_panicking : bool;
  mc_mem : mem;
  mc_cr3 : Z;
  mc_cr0 : Z
}.

#[global] Instance machine_console : Lens machine console.
Proof.
  refine {| view s := mkConsole (mc_writer s) (mc_mem s);
            put c s := mkMachine (writer c) (mc_alloc s) (mc_panicking s) (con_mem c) (mc_cr3 s) (mc_cr0 s) |};
    [by intros []|by intros []|done].
Defined.

#[global] Instance machine_paging : Lens machine (paging_state FrameBitmap).
Proof.
  refine {| view s := mkPagingState (mc_alloc s) (mc_mem s) (mc_cr3 s) (mc_cr0 s);
            put p s := mkMachine (mc_writer s) (ps_alloc p) (mc_panicking s) (ps_mem p) (ps_cr3 p) (ps_cr0 p) |};
    [by intros []|by intros []|done].
Defined.

(** [(addr as *const u32).read_volatile()], translated; [addr] is a multiple of 4, so
    the word lies in one page. *)
Definition read_volatile (addr : Z) : M machine Z :=
  reads (fun s =>
    match walk (mc_mem s) (mc_cr3 s) addr with
    | Some t => Ok (load32 (mc_mem s) (tr_phys t))
    | None => Panic (CpuException 14)
    end).

(** The frames a walk reads: the directory's and, unless the page is a 4 MiB page, the
    table's. *)
Definition walk_frames (m : mem) (cr3 va : Z) : list Z :=
  let pde := mkPDE (load32 m (Z.land cr3 ADDRESS_MASK + 4 * VirtAddr.pd_index (VirtAddr.new va))) in
  FrameNumber.index (PageDirectoryEntry.table_frame (mkPDE cr3)) ::
  (if PageDirectoryEntry.is_present pde && negb (PageDirectoryEntry.is_huge pde) then
     [FrameNumber.index (PageDirectoryEntry.table_frame pde)]
   else []).

(** The 4000 bytes of the text buffer lie in one page.  It must be mapped to itself and
    writable, and not by a table inside the buffer, which printing would overwrite:
    that counts as a fault here. *)
Definition text_buffer_mapped (s : machine) : bool :=
  identity_page (mc_mem s) (mc_cr3 s) (mc_cr0 s) true VGA_BUFFER &&
  forallb (fun f => negb (f =? VGA_BUFFER / 4096)) (walk_frames (mc_mem s) (mc_cr3 s) VGA_BUFFER).

(** A method of [VGA_WRITER]. *)
Definition on_screen {A} (m : M console A) : M machine A :=
  mapped ← reads (fun s => Ok (text_buffer_mapped s));
  if mapped : bool then zoom m else lift (Panic (CpuException 14)).

(** A line feed, and the two printing macros on the machine. *)
Definition nl : string := String (Ascii.ascii_of_nat 10) EmptyString.

Definition printk `{BuildProfile} (args : string) : M machine unit := on_screen (print args).

Definition printk_color `{BuildProfile} (k : Z) (args : string) : M machine unit :=
  on_screen (print_color k args).

(** Only the console differs: cursor, and bytes of the text buffer. *)
Record console_step (s s' : machine) : Prop := {
  cstep_writer : writer_ok (mc_writer s) -> writer_ok (mc_writer s');
  cstep_color : color (mc_writer s') = color (mc_writer s);
  cstep_alloc : mc_alloc s' = mc_alloc s;
  cstep_panicking : mc_panicking s' = mc_panicking s;
  cstep_cr3 : mc_cr3 s' = mc_cr3 s;
  cstep_cr0 : mc_cr0 s' = mc_cr0 s;
  cstep_mem : confined (mc_mem s) (mc_mem s')
}.

#[global] Instance console_step_preorder : PreOrder console_step.
Proof.
  split; [by intros s; split|]. intros s1 s2 s3 [] []. split; try congruence; [by auto|].
  by transitivity (mc_mem s2).
Qed.

(** The cursor is on the screen, and the screen is mapped. *)
Definition screen_ok (s : machine) : Prop := writer_ok (mc_writer s) /\ text_buffer_mapped s = true.

Lemma on_screen_ok {A} (m : M console A) (s : machine) : text_buffer_mapped s = true -> on_screen m s = zoom m s.
Proof. intros H. unfold on_screen. erewrite bind_reads by (by rewrite H). done. Qed.

(** A word at an entry of a table outside the buffer's frame is not in the buffer. *)
Lemma confined_entry (m m' : mem) (w i : Z) :
  confined m m' -> FrameNumber.index (PageDirectoryEntry.table_frame (mkPDE w)) <> VGA_BUFFER / 4096 -> 0 <= i < 1024 ->
  load32 m' (Z.land w ADDRESS_MASK + 4 * i) = load32 m (Z.land w ADDRESS_MASK + 4 * i).
Proof.
  intros Hc Hw Hi. apply load_le_ext. intros b Hb. apply Hc. revert Hw.
  unfold PageDirectoryEntry.table_frame, PhysAddr.frame_floor, PhysAddr.new, FrameNumber.index. cbn [phys_raw pde_raw frame_index].
  assert (Z.land w ADDRESS_MASK mod 4096 = 0) as Hal.
  { change 4096 with (2 ^ 12). rewrite <- Z.land_ones, <- Z.land_assoc by lia. apply Z.land_0_r. }
  set (a := Z.land w ADDRESS_MASK) in *. clearbody a. unfold VGA_BUFFER. intros Hw. zdiv.
Qed.

Lemma text_buffer_mapped_step (s s' : machine) :
  console_step s s' -> text_buffer_mapped s = true -> text_buffer_mapped s' = true.
Proof.
  intros Hs H. rewrite <- H. apply andb_prop in H as [_ H]. cbn [walk_frames forallb] in H. apply andb_prop in H as [Hd Ht].
  apply negb_true_iff, Z.eqb_neq in Hd.
  pose proof (confined_entry _ _ (mc_cr3 s) (VirtAddr.pd_index (VirtAddr.new VGA_BUFFER)) (cstep_mem _ _ Hs) Hd ltac:(done)) as Ed.
  unfold text_buffer_mapped, walk_frames, identity_page. rewrite !walk_accessors. unfold accessor_walk. rewrite (cstep_cr3 _ _ Hs), (cstep_cr0 _ _ Hs), Ed. cbv zeta in *.
  set (pde := load32 (mc_mem s) _) in *. destruct (PageDirectoryEntry.is_present (mkPDE pde)); [|done].
  destruct (PageDirectoryEntry.is_huge (mkPDE pde)); [done|]. cbn [negb andb forallb] in Ht |- *.
  rewrite andb_true_r in Ht. apply negb_true_iff, Z.eqb_neq in Ht. cbn [pde_raw].
  by rewrite (confined_entry _ _ pde (VirtAddr.pt_index (VirtAddr.new VGA_BUFFER)) (cstep_mem _ _ Hs) Ht ltac:(done)).
Qed.

Lemma screen_ok_step (s s' : machine) : console_step s s' -> screen_ok s -> screen_ok s'.
Proof. intros Hs [Hw Hm]. split; [by apply (cstep_writer _ _ Hs)|by apply (text_buffer_mapped_step s)]. Qed.

(** ** What is printed

    A printed character is a cell: a byte and the colour it is printed in. *)

Definition machine_term (s : machine) : terminal := term_of (mkConsole (mc_writer s) (mc_mem s)).

(** The text in one colour. *)
Definition styled (k : Z) (args : string) : list cell := (fun b => (b, k)) <$> bytes_of args.

(** A terminal that prints a character in a colour and goes back to its own. *)
Definition with_color (k : Z) (t : terminal) : terminal := mkTerminal (t_screen t) (t_row t) (t_col t) k.

Definition term_emit (t : terminal) (x : cell) : terminal :=
  with_color (t_color t) (term_put (with_color x.2 t) x.1).

(** From [s] to [s'] the console prints [out], and nothing else happens. *)
Record printed (out : list cell) (s s' : machine) : Prop := {
  pr_step : console_step s s';
  pr_term : machine_term s' = foldl term_emit (machine_term s) out
}.

Lemma printed_nil (s : machine) : printed [] s s.
Proof. by split. Qed.

Lemma printed_app (o1 o2 : list cell) (s s1 s2 : machine) :
  printed o1 s s1 -> printed o2 s1 s2 -> printed (o1 ++ o2) s s2.
Proof.
  intros [H1 T1] [H2 T2]. split; [by transitivity s1|]. by rewrite foldl_app, <- T1.
Qed.

Lemma styled_app (k : Z) (s t : string) : styled k (String.append s t) = styled k s ++ styled k t.
Proof. unfold styled. by rewrite bytes_of_app, fmap_app. Qed.

Section printing.
Context {P : BuildProfile}.

Lemma term_put_color t b : t_color (term_put t b) = t_color t.
Proof.
  unfold term_put. assert (forall u, t_color (term_newline u) = t_color u) as Hn.
  { intros u. unfold term_newline. by destruct (_ <? 25)%nat. }
  destruct (b =? 10); [apply Hn|]. cbn [term_cell t_color]. destruct (80 <=? t_col t)%nat; [apply Hn|done].
Qed.

Lemma with_color_id t : with_color (t_color t) t = t.
Proof. by destruct t. Qed.

(** A text in one colour is written with that colour set. *)
Lemma emit_styled (k : Z) (t : terminal) (bytes : list Z) :
  foldl term_emit t ((fun b => (b, k)) <$> bytes) =
  with_color (t_color t) (foldl term_put (with_color k t) bytes).
Proof.
  revert t. induction bytes as [|b bytes IH]; intros t; csimpl; [by destruct t|].
  rewrite IH. unfold term_emit at 1. cbn [with_color t_color fst snd]. f_equal.
  unfold term_emit. cbn [fst snd]. f_equal.
  rewrite <- (with_color_id (term_put (with_color k t) b)) at 2.
  by rewrite term_put_color.
Qed.

Lemma term_puts_color (t : terminal) (bytes : list Z) : t_color (foldl term_put t bytes) = t_color t.
Proof. revert t. induction bytes as [|b bytes IH]; intros t; [done|]. cbn [foldl]. by rewrite IH, term_put_color. Qed.

Lemma emit_own (t : terminal) (bytes : list Z) :
  foldl term_emit t ((fun b => (b, t_color t)) <$> bytes) = foldl term_put t bytes.
Proof.
  rewrite emit_styled, with_color_id. rewrite <- (term_puts_color t bytes) at 1. apply with_color_id.
Qed.

(** Printing never fails, prints its text and only moves the console. *)
Lemma printk_ok args s :
  screen_ok s ->
  exists s', printk args s = (Ok tt, s') /\ printed (styled (color (mc_writer s)) args) s s'.
Proof.
  intros [Hok Hmap]. destruct (write_ok (bytes_of args) (mkConsole (mc_writer s) (mc_mem s)) Hok (bytes_of_bytes args)) as (c' & E & Hok' & Ht & Hc).
  exists (put (Lens := machine_console) c' s). split.
  { unfold printk. rewrite on_screen_ok by done. unfold zoom, print, VgaWriter.write_str. cbn [view machine_console]. by rewrite E. }
  split; [split|]; cbn [put machine_console mc_writer mc_alloc mc_panicking mc_mem mc_cr3 mc_cr0]; try done.
  - apply (f_equal t_color) in Ht. by rewrite term_puts_color in Ht.
  - rewrite <- emit_own in Ht. by destruct c'.
Qed.

Lemma printk_color_ok k args s :
  screen_ok s -> 0 <= k < 256 ->
  exists s', printk_color k args s = (Ok tt, s') /\ printed (styled k args) s s'.
Proof.
  intros [Hok Hmap] Hk. destruct (print_color_ok k args (mkConsole (mc_writer s) (mc_mem s)) Hok Hk)
    as (c' & E & Hok' & Hcol & (Hs & Hr & Hl) & Hc).
  exists (put (Lens := machine_console) c' s). split.
  { unfold printk_color. rewrite on_screen_ok by done. unfold zoom. cbn [view machine_console]. by rewrite E. }
  split; [by split; cbn [put machine_console mc_writer mc_alloc mc_panicking mc_mem mc_cr3 mc_cr0]|].
  unfold styled. rewrite emit_styled. unfold machine_term, term_of, with_color in *.
  cbn [put machine_console mc_writer mc_mem writer con_mem t_color] in *.
  rewrite Hs, Hr, Hl, Hcol, !Nat2Z.id. done.
Qed.

End printing.

(** ** Sequences of prints *)

(** The console can print, and prints in colour [k]. *)
Definition console_ok (k : Z) (s : machine) : Prop := screen_ok s /\ color (mc_writer s) = k.

Lemma console_ok_step (k : Z) (s s' : machine) : console_step s s' -> console_ok k s -> console_ok k s'.
Proof.
  intros Hs [Hw Hk]. split; [by apply (screen_ok_step s)|]. by rewrite (cstep_color _ _ Hs).
Qed.

Lemma printk_at `{BuildProfile} (k : Z) (args : string) (s : machine) :
  console_ok k s -> exists s', printk args s = (Ok tt, s') /\ printed (styled k args) s s'.
Proof. intros [Hw <-]. by apply printk_ok. Qed.

Lemma printed_seq (o1 o2 : list cell) (m1 m2 : M machine unit) (s : machine) :
  (exists s1, m1 s = (Ok tt, s1) /\ printed o1 s s1) ->
  (forall s1, printed o1 s s1 -> exists s2, m2 s1 = (Ok tt, s2) /\ printed o2 s1 s2) ->
  exists s2, (m1;; m2) s = (Ok tt, s2) /\ printed (o1 ++ o2) s s2.
Proof.
  intros (s1 & E1 & H1) H2. destruct (H2 s1 H1) as (s2 & E2 & H12). exists s2.
  rewrite (bind_ok _ _ _ _ _ E1). split; [exact E2|by apply (printed_app _ _ _ s1)].
Qed.

(** The text of several prints. *)
Definition lines (l : list string) : string := foldr String.append EmptyString l.

Lemma styled_lines {A} (k : Z) (f : A → string) (l : list A) :
  styled k (lines (f <$> l)) = l ≫= (fun x => styled k (f x)).
Proof. induction l as [|x l IH]; [done|]. csimpl. cbn [lines foldr]. rewrite styled_app. by rewrite <- IH. Qed.

(** A loop whose iterations each print. *)
Lemma printed_for_in {A} (l : list A) (f : A → M machine unit) (out : A → list cell) (s : machine) :
  (forall x s', x ∈ l -> console_step s s' -> exists s'', f x s' = (Ok tt, s'') /\ printed (out x) s' s'') ->
  exists s', for_in l f s = (Ok tt, s') /\ printed (l ≫= out) s s'.
Proof.
  revert s. induction l as [|x l IH]; intros s Hf; [exists s; split; [done|apply printed_nil]|].
  csimpl. apply printed_seq; [apply Hf; [left|reflexivity]|]. intros s1 [H1 _].
  apply IH. intros y s' Hy Hs. apply Hf; [by right|by transitivity s1].
Qed.
