(* ===== verification/Cpu.v ===== *)
(** * The processor the boot stub runs on

    The part of an IA-32 processor that [boot/boot.asm] and the naked routine of
    [src/gdt.rs] use, around the machine of [Machine]: general registers, segment
    registers with the descriptor the processor caches behind each selector, the
    descriptor-table register, [CR4] and the interrupt flag.  Every access goes
    through segmentation and then paging: an address is checked against the cached
    segment, and each byte is translated when [CR0.PG] is set.  Instructions are
    fetched the same way, from a map of what lies at each physical address: an
    assembly instruction, or the entry of a Rust function.

    Not covered: 16-bit segments, PAE tables, privilege levels other than 0 in the
    page-level checks, and the arithmetic flags, which no modelled instruction
    reads. *)

From S2P Require Import Prelude Rust Memory Address Layout Frame Paging Mmu Vga Machine.

(** ** Segments *)

Record segment := mkSegment {
  seg_base : Z;
  seg_last : Z;
  seg_present : bool;
  seg_dpl : Z;
  seg_code : bool;
  seg_rw : bool;
  seg_conforming : bool;
  seg_32bit : bool
}.

Definition bits (x lo n : Z) : Z := Z.shiftr x lo mod 2 ^ n.

(** The fields of the architecture's 8-byte descriptor; the limit counts 4 KiB units
    when the granularity bit is set. *)
Definition decode (d : Z) : segment :=
  let limit := bits d 0 16 + bits d 48 4 * 2 ^ 16 in
  {| seg_base := bits d 16 24 + bits d 56 8 * 2 ^ 24;
     seg_last := if Z.testbit d 55 then limit * 4096 + 4095 else limit;
     seg_present := Z.testbit d 47 && Z.testbit d 44;
     seg_dpl := bits d 45 2;
     seg_code := Z.testbit d 43;
     seg_rw := Z.testbit d 41;
     seg_conforming := Z.testbit d 42;
     seg_32bit := Z.testbit d 54 && negb (Z.testbit d 53) |}.

(** The bit the processor sets in a descriptor when it loads it. *)
Definition ACCESSED : Z := 2 ^ 40.

(** A present 32-bit segment over all 4 GiB. *)
Definition flat_segment (code : bool) (dpl : Z) : segment :=
  mkSegment 0 (2 ^ 32 - 1) true dpl code true false true.

Record segment_reg := mkSegmentReg {
  selector : Z;
  hidden : segment
}.

(** [GDTR] *)
Record table_register := mkTableRegister {
  table_limit : Z;
  table_base : Z
}.

(** ** The processor *)

Inductive reg32 := EAX | EBX | ECX | ESI | ESP.

Inductive segment_register := DS | ES | FS | GS | SS.

Inductive control_register := CR0 | CR3 | CR4.

Record cpu := mkCpu {
  eax : Z;
  ebx : Z;
  ecx : Z;
  esi : Z;
  esp : Z;
  eip : Z;
  cs : segment_reg;
  ds : segment_reg;
  es : segment_reg;
  fs : segment_reg;
  gs : segment_reg;
  ss : segment_reg;
  gdtr : table_register;
  cr4 : Z;
  iflag : bool;
  mach : machine
}.

Definition set_reg (r : reg32) (x : Z) (c : cpu) : cpu :=
  let '(mkCpu a b e i p ip s1 s2 s3 s4 s5 s6 g r4 f m) := c in
  match r with
  | EAX => mkCpu x b e i p ip s1 s2 s3 s4 s5 s6 g r4 f m
  | EBX => mkCpu a x e i p ip s1 s2 s3 s4 s5 s6 g r4 f m
  | ECX => mkCpu a b x i p ip s1 s2 s3 s4 s5 s6 g r4 f m
  | ESI => mkCpu a b e x p ip s1 s2 s3 s4 s5 s6 g r4 f m
  | ESP => mkCpu a b e i x ip s1 s2 s3 s4 s5 s6 g r4 f m
  end.

Definition get_reg (r : reg32) (c : cpu) : Z :=
  match r with EAX => eax c | EBX => ebx c | ECX => ecx c | ESI => esi c | ESP => esp c end.

Definition set_eip (x : Z) (c : cpu) : cpu :=
  let '(mkCpu a b e i p _ s1 s2 s3 s4 s5 s6 g r4 f m) := c in
  mkCpu a b e i p x s1 s2 s3 s4 s5 s6 g r4 f m.

Definition set_cs (s : segment_reg) (c : cpu) : cpu :=
  let '(mkCpu a b e i p ip _ s2 s3 s4 s5 s6 g r4 f m) := c in
  mkCpu a b e i p ip s s2 s3 s4 s5 s6 g r4 f m.

Definition set_segment (r : segment_register) (s : segment_reg) (c : cpu) : cpu :=
  let '(mkCpu a b e i p ip s1 s2 s3 s4 s5 s6 g r4 f m) := c in
  match r with
  | DS => mkCpu a b e i p ip s1 s s3 s4 s5 s6 g r4 f m
  | ES => mkCpu a b e i p ip s1 s2 s s4 s5 s6 g r4 f m
  | FS => mkCpu a b e i p ip s1 s2 s3 s s5 s6 g r4 f m
  | GS => mkCpu a b e i p ip s1 s2 s3 s4 s s6 g r4 f m
  | SS => mkCpu a b e i p ip s1 s2 s3 s4 s5 s g r4 f m
  end.

Definition set_gdtr (g : table_register) (c : cpu) : cpu :=
  let '(mkCpu a b e i p ip s1 s2 s3 s4 s5 s6 _ r4 f m) := c in
  mkCpu a b e i p ip s1 s2 s3 s4 s5 s6 g r4 f m.

Definition set_iflag (f : bool) (c : cpu) : cpu :=
  let '(mkCpu a b e i p ip s1 s2 s3 s4 s5 s6 g r4 _ m) := c in
  mkCpu a b e i p ip s1 s2 s3 s4 s5 s6 g r4 f m.

Definition set_mach (m : machine) (c : cpu) : cpu :=
  let '(mkCpu a b e i p ip s1 s2 s3 s4 s5 s6 g r4 f _) := c in
  mkCpu a b e i p ip s1 s2 s3 s4 s5 s6 g r4 f m.

#[global] Instance cpu_machine : Lens cpu machine.
Proof. refine {| view := mach; put := set_mach |}; by intros; destruct s. Defined.

Abbreviation cpu_mem c := (mc_mem (mach c)).

Definition set_mem (m : mem) (c : cpu) : cpu :=
  let '(mkMachine w a p _ r3 r0) := mach c in set_mach (mkMachine w a p m r3 r0) c.

Definition get_control (r : control_register) (c : cpu) : Z :=
  match r with CR0 => mc_cr0 (mach c) | CR3 => mc_cr3 (mach c) | CR4 => cr4 c end.

Definition set_control (r : control_register) (x : Z) (c : cpu) : cpu :=
  let '(mkCpu a b e i p ip s1 s2 s3 s4 s5 s6 g r4 f (mkMachine w al pk m r3 r0)) := c in
  match r with
  | CR0 => mkCpu a b e i p ip s1 s2 s3 s4 s5 s6 g r4 f (mkMachine w al pk m r3 x)
  | CR3 => mkCpu a b e i p ip s1 s2 s3 s4 s5 s6 g r4 f (mkMachine w al pk m x r0)
  | CR4 => mkCpu a b e i p ip s1 s2 s3 s4 s5 s6 g x f (mkMachine w al pk m r3 r0)
  end.

(** ** Memory accesses *)

Inductive access := Read | Write | Execute.

#[global] Instance access_eq_dec : EqDecision access.
Proof. solve_decision. Defined.

Definition seg_allows (k : access) (s : segment) : bool :=
  match k with
  | Read => negb (seg_code s) || seg_rw s
  | Write => negb (seg_code s) && seg_rw s
  | Execute => seg_code s
  end.

(** The linear address of [n] bytes at an offset in a segment. *)
Definition linear (k : access) (s : segment) (off n : Z) : outcome Z :=
  if seg_present s && seg_32bit s && seg_allows k s && (off + n - 1 <=? seg_last s)
  then Ok ((seg_base s + off) mod 2 ^ 32) else Panic (CpuException 13).

(** The bits of [CR0] and [CR4] that the code depends on. *)
Definition CR0_PE_BIT : Z := 0.
Definition CR0_WP_BIT : Z := 16.
Definition CR0_PG_BIT : Z := 31.
Definition CR4_PSE_BIT : Z := 4.
Definition CR4_PAE_BIT : Z := 5.

(** The walk with [CR4.PSE] clear, where every present directory entry names a table. *)
Definition walk_tables (m : mem) (cr3 va : Z) : option translation :=
  let pde := load32 m (Z.land cr3 0xFFFFF000 + 4 * (va / 2 ^ 22)) in
  let pte := load32 m (Z.land pde 0xFFFFF000 + 4 * ((va / 2 ^ 12) mod 2 ^ 10)) in
  if Z.testbit pde 0 && Z.testbit pte 0 then
    Some {| tr_phys := Z.land pte 0xFFFFF000 + va mod 2 ^ 12;
            tr_writable := Z.testbit pde 1 && Z.testbit pte 1;
            tr_user := Z.testbit pde 2 && Z.testbit pte 2 |}
  else None.

(** The translation of a linear address under the control registers. *)
Definition mmu (cr0 cr3 cr4 : Z) (m : mem) (la : Z) : option translation :=
  if negb (Z.testbit cr0 CR0_PG_BIT) then Some {| tr_phys := la; tr_writable := true; tr_user := true |}
  else if Z.testbit cr4 CR4_PAE_BIT then None
  else if Z.testbit cr4 CR4_PSE_BIT then walk m cr3 la else walk_tables m cr3 la.

Definition page_access (cr0 cr3 cr4 : Z) (m : mem) (k : access) (la : Z) : outcome Z :=
  match mmu cr0 cr3 cr4 m la with
  | None => Panic (CpuException 14)
  | Some t =>
      match k with
      | Write => if Z.testbit cr0 CR0_WP_BIT && negb (tr_writable t) then Panic (CpuException 14) else Ok (tr_phys t)
      | _ => Ok (tr_phys t)
      end
  end.

Definition translate (k : access) (la : Z) (c : cpu) : outcome Z :=
  page_access (mc_cr0 (mach c)) (mc_cr3 (mach c)) (cr4 c) (cpu_mem c) k la.

(** The physical addresses of [n] bytes, all translated before any is accessed. *)
Fixpoint span (k : access) (n : nat) (la : Z) (c : cpu) : outcome (list Z) :=
  match n with
  | O => Ok []
  | S n =>
      pa ← translate k (la mod 2 ^ 32) c;
      pas ← span k n (la + 1) c;
      Ok (pa :: pas)
  end.

Fixpoint store_at (m : mem) (pas bs : list Z) : mem :=
  match pas, bs with
  | pa :: pas, b :: bs => store_at (store8 m pa b) pas bs
  | _, _ => m
  end.

Definition load_linear (n la : Z) (c : cpu) : outcome Z :=
  pas ← span Read (Z.to_nat n) la c;
  Ok (little_endian_to_Z 8 (load8 (cpu_mem c) <$> pas)).

Definition store_linear (n la x : Z) : M cpu unit :=
  pas ← reads (span Write (Z.to_nat n) la);
  modify (fun c => set_mem (store_at (cpu_mem c) pas (Z_to_little_endian n 8 x)) c).

(** Through a segment. *)
Definition vload (n : Z) (s : segment_reg) (off : Z) : M cpu Z :=
  la ← lift (linear Read (hidden s) off n);
  reads (load_linear n la).

Definition vstore (n : Z) (s : segment_reg) (off x : Z) : M cpu unit :=
  la ← lift (linear Write (hidden s) off n);
  store_linear n la x.

(** ** The stack *)

Definition push (x : Z) : M cpu unit :=
  c ← reads Ok;
  let sp := (esp c - 4) mod 2 ^ 32 in
  vstore 4 (ss c) sp x;;
  modify (set_reg ESP sp).

Definition pop : M cpu Z :=
  c ← reads Ok;
  x ← vload 4 (ss c) (esp c);
  modify (set_reg ESP ((esp c + 4) mod 2 ^ 32));;
  mret x.

(** The [i]-th argument of a C function that has just been entered. *)
Definition argument (i : Z) : M cpu Z :=
  c ← reads Ok;
  vload 4 (ss c) (esp c + 4 + 4 * i).

(** ** Segment loads *)

(** The current privilege level. *)
Definition cpl (c : cpu) : Z := selector (cs c) mod 4.

(** The descriptor a selector names, by its address; a null, local or out-of-table
    selector faults. *)
Definition descriptor_address (sel : Z) (g : table_register) : outcome Z :=
  if Z.testbit sel 2 || (sel / 8 =? 0) || (table_limit g <? sel / 8 * 8 + 7)
  then Panic (CpuException 13) else Ok (table_base g + sel / 8 * 8).

(** Reads a descriptor, checks it and marks it accessed. *)
Definition load_descriptor (sel : Z) (allowed : segment → bool) : M cpu segment_reg :=
  c ← reads Ok;
  la ← lift (descriptor_address sel (gdtr c));
  d ← reads (load_linear 8 la);
  if allowed (decode d) then
    (if Z.testbit d 40 then mret tt else store_linear 8 la (Z.lor d ACCESSED));;
    mret (mkSegmentReg sel (decode d))
  else lift (Panic (CpuException 13)).

(** The checks of a load into a data register, into [ss], and into [cs] by a far
    return to the same privilege level. *)
Definition segment_allowed (r : segment_register) (sel cpl : Z) (s : segment) : bool :=
  match r with
  | SS => seg_present s && negb (seg_code s) && seg_rw s && (sel mod 4 =? cpl) && (seg_dpl s =? cpl)
  | _ => seg_present s && (negb (seg_code s) || seg_rw s) && (Z.max cpl (sel mod 4) <=? seg_dpl s)
  end.

Definition code_allowed (sel cpl : Z) (s : segment) : bool :=
  seg_present s && seg_code s && (sel mod 4 =? cpl) && (seg_dpl s =? cpl).

(** ** Instructions *)

Inductive instr :=
  | MovRR (dst src : reg32)
  | MovRI (dst : reg32) (imm : Z)
  | MovRC (dst : reg32) (src : control_register)
  | MovCR (dst : control_register) (src : reg32)
  | OrRI (dst : reg32) (imm : Z)
  | AddRI (dst : reg32) (imm : Z)
  | SubRI (dst : reg32) (imm : Z)
  | MovAxI (imm : Z)
  | MovSegAx (dst : segment_register)
  | LeaR (dst : reg32) (addr : Z)
  | PushR (src : reg32)
  | PushI (imm : Z)
  | LgdtEsp
  | Call (target : Z)
  | JmpR (src : reg32)
  | Jmp (target : Z)
  | Ret
  | Retf
  | Cli
  | Hlt.

(** [eip] already points behind the instruction.  [hlt] is left when an interrupt
    wakes the processor, which goes on behind it. *)
Definition exec (i : instr) : M cpu unit :=
  match i with
  | MovRR d s => modify (fun c => set_reg d (get_reg s c) c)
  | MovRI d n => modify (set_reg d n)
  | MovRC d s => modify (fun c => set_reg d (get_control s c) c)
  | MovCR d s =>
      c ← reads Ok;
      let x := get_reg s c in
      match d with
      | CR0 =>
          if Z.testbit x CR0_PG_BIT && negb (Z.testbit x CR0_PE_BIT) then lift (Panic (CpuException 13))
          else modify (set_control CR0 x)
      | _ => modify (set_control d x)
      end
  | OrRI d n => modify (fun c => set_reg d (Z.lor (get_reg d c) n) c)
  | AddRI d n => modify (fun c => set_reg d ((get_reg d c + n) mod 2 ^ 32) c)
  | SubRI d n => modify (fun c => set_reg d ((get_reg d c - n) mod 2 ^ 32) c)
  | MovAxI n => modify (fun c => set_reg EAX (eax c / 2 ^ 16 * 2 ^ 16 + n) c)
  | MovSegAx r =>
      c ← reads Ok;
      let sel := eax c mod 2 ^ 16 in
      s ← load_descriptor sel (segment_allowed r sel (cpl c));
      modify (set_segment r s)
  | LeaR d a => modify (set_reg d a)
  | PushR s => c ← reads Ok; push (get_reg s c)
  | PushI n => push n
  | LgdtEsp =>
      c ← reads Ok;
      limit ← vload 2 (ss c) (esp c);
      base ← vload 4 (ss c) (esp c + 2);
      modify (set_gdtr (mkTableRegister limit base))
  | Call t => c ← reads Ok; push (eip c);; modify (set_eip t)
  | JmpR s => modify (fun c => set_eip (get_reg s c) c)
  | Jmp t => modify (set_eip t)
  | Ret => ip ← pop; modify (set_eip ip)
  | Retf =>
      ip ← pop;
      sel ← pop;
      c ← reads Ok;
      let sel := sel mod 2 ^ 16 in
      s ← load_descriptor sel (code_allowed sel (cpl c));
      modify (set_cs s);;
      modify (set_eip ip)
  | Cli => modify (set_iflag false)
  | Hlt => mret tt
  end.

(** ** Fetching and running *)

(** The encoded length of each instruction, chosen by the assembler. *)
Class Encoding := {
  isize : instr → Z;
  isize_bounds : forall i, 1 <= isize i <= 15
}.

(** A running program goes on, or idles for good. *)
Inductive status := Running | Idle.

(** What starts at a physical address: an instruction, or a Rust function with the C
    calling convention. *)
Inductive item :=
  | Instr (i : instr)
  | Native (f : M cpu status).

Section run.
Context {E : Encoding} (code : Z → option item).

(** The item at [eip]; all the bytes of an instruction must come from one place. *)
Definition fetch (c : cpu) : outcome item :=
  la ← linear Execute (hidden (cs c)) (eip c) 1;
  pa ← translate Execute la c;
  match code pa with
  | None => Panic (CpuException 6)
  | Some (Native f) => Ok (Native f)
  | Some (Instr i) =>
      la ← linear Execute (hidden (cs c)) (eip c) (isize i);
      pas ← span Execute (Z.to_nat (isize i)) la c;
      if bool_decide (pas = seqZ pa (isize i)) then Ok (Instr i) else Panic (CpuException 6)
  end.

Definition step : M cpu status :=
  it ← reads fetch;
  match it with
  | Instr i =>
      modify (fun c => set_eip ((eip c + isize i) mod 2 ^ 32) c);;
      exec i;;
      mret Running
  | Native f => f
  end.

(** Runs until the program idles; one unit of fuel per item. *)
Fixpoint run (fuel : nat) : M cpu unit :=
  match fuel with
  | O => lift OutOfFuel
  | S fuel =>
      st ← step;
      match st with Running => run fuel | Idle => mret tt end
  end.

(** [c] runs to [c'] in [n] steps. *)
Inductive reaches : cpu → nat → cpu → Prop :=
  | reaches_refl c : reaches c 0 c
  | reaches_step c c1 n c' : step c = (Ok Running, c1) → reaches c1 n c' → reaches c (S n) c'.

(** A block of assembly: its length, and its items one after the other. *)
Fixpoint offset (prog : list instr) (k : nat) : Z :=
  match k, prog with
  | S k, i :: prog => isize i + offset prog k
  | _, _ => 0
  end.

Fixpoint placed (pa : Z) (prog : list instr) : Prop :=
  match prog with
  | [] => True
  | i :: prog => code pa = Some (Instr i) ∧ placed (pa + isize i) prog
  end.

Definition text_length (prog : list instr) : Z := offset prog (length prog).

(** A code map given by its items. *)
Fixpoint layout (pa : Z) (prog : list instr) : list (Z * item) :=
  match prog with
  | [] => []
  | i :: prog => (pa, Instr i) :: layout (pa + isize i) prog
  end.

Fixpoint code_map (l : list (Z * item)) (pa : Z) : option item :=
  match l with
  | [] => None
  | (a, it) :: l => if a =? pa then Some it else code_map l pa
  end.

End run.

(** ** Address spaces

    [maps c k la n pa]: an access of kind [k] to [[la, la + n)] goes to [[pa, pa + n)]. *)

Definition maps (c : cpu) (k : access) (la n pa : Z) : Prop :=
  forall i, 0 <= i < n -> translate k (la + i) c = Ok (pa + i).

(** Two states with the same address space, where [T] is the memory of the page tables. *)
Record same_space (T : Z → Prop) (c c' : cpu) : Prop := {
  space_cr0 : mc_cr0 (mach c') = mc_cr0 (mach c);
  space_cr3 : mc_cr3 (mach c') = mc_cr3 (mach c);
  space_cr4 : cr4 c' = cr4 c;
  space_tables : forall a, T a -> load8 (cpu_mem c') a = load8 (cpu_mem c) a
}.

#[global] Instance same_space_preorder (T : Z → Prop) : PreOrder (same_space T).
Proof.
  split; [by intros c; split|]. intros c1 c2 c3 [] []. split; try congruence.
  intros a Ha. rewrite space_tables1, space_tables0; done.
Qed.

(** Translation looks at the bytes [T] and at no others. *)
Definition pinned (T : Z → Prop) (c : cpu) : Prop :=
  forall m', (forall a, T a -> load8 m' a = load8 (cpu_mem c) a) ->
  forall k la, u32_range la ->
    page_access (mc_cr0 (mach c)) (mc_cr3 (mach c)) (cr4 c) m' k la = translate k la c.

Lemma pinned_step (T : Z → Prop) (c c' : cpu) : same_space T c c' -> pinned T c -> pinned T c'.
Proof.
  intros [E0 E3 E4 Em] Hp m' Hm' k la Hla. unfold translate. rewrite E0, E3, E4.
  rewrite (Hp m'), (Hp (cpu_mem c')); [done|done|done| |done].
  intros a Ha. by rewrite Hm', Em.
Qed.

Lemma maps_step (T : Z → Prop) (c c' : cpu) (k : access) (la n pa : Z) :
  pinned T c -> same_space T c c' -> 0 <= la -> la + n <= 2 ^ 32 -> maps c k la n pa -> maps c' k la n pa.
Proof.
  intros Hp [E0 E3 E4 Em] Hla Hn Hm i Hi. rewrite <- (Hm i Hi). unfold translate at 1.
  rewrite E0, E3, E4. apply Hp; [done|lia].
Qed.

Lemma maps_sub (c : cpu) (k : access) (la n pa la' n' : Z) :
  maps c k la n pa -> la <= la' -> la' + n' <= la + n -> maps c k la' n' (pa + (la' - la)).
Proof.
  intros Hm H1 H2 i Hi. replace (la' + i) with (la + (la' - la + i)) by lia.
  rewrite Hm by lia. f_equal. lia.
Qed.

(** With paging off every address is its own. *)
Lemma unpaged_maps (c : cpu) (k : access) (la n : Z) :
  Z.testbit (mc_cr0 (mach c)) CR0_PG_BIT = false -> maps c k la n la.
Proof. intros Hpg i Hi. unfold translate, page_access, mmu. rewrite Hpg. by destruct k; cbn; rewrite ?andb_false_r. Qed.

Lemma unpaged_pinned (c : cpu) :
  Z.testbit (mc_cr0 (mach c)) CR0_PG_BIT = false -> pinned (fun _ => False) c.
Proof. intros Hpg m' _ k la _. unfold translate, page_access, mmu. by rewrite Hpg. Qed.

Lemma span_ok (c : cpu) (k : access) (n : nat) (la pa : Z) :
  0 <= la -> la + Z.of_nat n <= 2 ^ 32 -> maps c k la (Z.of_nat n) pa ->
  span k n la c = Ok (seqZ pa (Z.of_nat n)).
Proof.
  revert la pa. induction n as [|n IH]; intros la pa H1 H2 Hm; [done|].
  cbn [span]. rewrite Z.mod_small by lia. rewrite <- (Z.add_0_r la) at 1. rewrite Hm, ok_bind by lia.
  rewrite (IH (la + 1) (pa + 1)); [|lia|lia|].
  - rewrite ok_bind, Z.add_0_r, (seqZ_cons pa (Z.of_nat (S n))) by lia.
    do 3 f_equal; lia.
  - replace (pa + 1) with (pa + (la + 1 - la)) by lia. apply (maps_sub _ _ _ _ _ _ _ Hm); lia.
Qed.

Lemma store_at_seqZ (m : mem) (pa : Z) (bs : list Z) :
  store_at m (seqZ pa (Z.of_nat (length bs))) bs = store_bytes m pa bs.
Proof.
  revert m pa. induction bs as [|b bs IH]; intros m pa; [by rewrite store_bytes_nil|].
  rewrite store_bytes_cons, <- IH, seqZ_cons by (cbn [length]; lia). cbn [store_at length].
  f_equal. rewrite Z.add_1_r. f_equal. lia.
Qed.

Lemma set_mem_mem (m : mem) (c : cpu) : cpu_mem (set_mem m c) = m.
Proof. by destruct c as [??????????????? []]. Qed.

Lemma set_mem_set_mem (m m' : mem) (c : cpu) : set_mem m (set_mem m' c) = set_mem m c.
Proof. by destruct c as [??????????????? []]. Qed.

Lemma set_mem_segments (m : mem) (c : cpu) :
  cs (set_mem m c) = cs c /\ ds (set_mem m c) = ds c /\ ss (set_mem m c) = ss c /\ esp (set_mem m c) = esp c.
Proof. by destruct c as [??????????????? []]. Qed.

Lemma set_mem_mach (m : mem) (c : cpu) :
  mach (set_mem m c) =
    mkMachine (mc_writer (mach c)) (mc_alloc (mach c)) (mc_panicking (mach c)) m (mc_cr3 (mach c)) (mc_cr0 (mach c)).
Proof. by destruct c as [??????????????? []]. Qed.

Lemma set_mem_space (T : Z → Prop) (m : mem) (c : cpu) :
  (forall a, T a -> load8 m a = load8 (cpu_mem c) a) -> same_space T c (set_mem m c).
Proof. intros Hm. split; rewrite ?set_mem_mem; try done; by destruct c as [??????????????? []]. Qed.

Section access.
Context (n : Z) (Hn : 0 <= n).

Lemma load_linear_ok (c : cpu) (la pa : Z) :
  0 <= la -> la + n <= 2 ^ 32 -> maps c Read la n pa -> load_linear n la c = Ok (load_le n (cpu_mem c) pa).
Proof.
  intros H1 H2 Hm. unfold load_linear. rewrite (span_ok c Read _ la pa); rewrite ?Z2Nat.id by done; try done.
Qed.

Lemma store_linear_ok (c : cpu) (la pa x : Z) :
  0 <= la -> la + n <= 2 ^ 32 -> maps c Write la n pa ->
  store_linear n la x c = (Ok tt, set_mem (store_le n (cpu_mem c) pa x) c).
Proof.
  intros H1 H2 Hm. unfold store_linear.
  rewrite (bind_reads _ _ _ (seqZ pa n)).
  - unfold modify. do 2 f_equal. rewrite store_le_bytes.
    replace n with (Z.of_nat (length (Z_to_little_endian n 8 x))) at 1 by (rewrite length_Z_to_little_endian; lia).
    apply store_at_seqZ.
  - rewrite (span_ok c Write _ la pa); rewrite ?Z2Nat.id by done; done.
Qed.

(** A data segment over the whole linear space. *)
Definition flat_data (s : segment_reg) : Prop := exists dpl, hidden s = flat_segment false dpl.

Definition flat_code (s : segment_reg) : Prop := exists dpl, hidden s = flat_segment true dpl.

Lemma linear_flat (k : access) (code : bool) (dpl off : Z) :
  seg_allows k (flat_segment code dpl) = true -> 0 <= off -> off + n <= 2 ^ 32 -> 1 <= n ->
  linear k (flat_segment code dpl) off n = Ok off.
Proof.
  intros Hk H1 H2 H3. unfold linear. rewrite Hk. cbn [flat_segment seg_present seg_32bit seg_last seg_base andb].
  rewrite (proj2 (Z.leb_le _ _)) by lia. by rewrite Z.add_0_l, Z.mod_small by lia.
Qed.

Lemma vload_ok (c : cpu) (s : segment_reg) (off pa : Z) :
  flat_data s -> 0 <= off -> off + n <= 2 ^ 32 -> 1 <= n -> maps c Read off n pa ->
  vload n s off c = (Ok (load_le n (cpu_mem c) pa), c).
Proof.
  intros [dpl Hs] H1 H2 H3 Hm. unfold vload. rewrite Hs, linear_flat, bind_lift by done.
  unfold reads. by rewrite (load_linear_ok c off pa).
Qed.

Lemma vstore_ok (c : cpu) (s : segment_reg) (off pa x : Z) :
  flat_data s -> 0 <= off -> off + n <= 2 ^ 32 -> 1 <= n -> maps c Write off n pa ->
  vstore n s off x c = (Ok tt, set_mem (store_le n (cpu_mem c) pa x) c).
Proof.
  intros [dpl Hs] H1 H2 H3 Hm. unfold vstore. rewrite Hs, linear_flat, bind_lift by done.
  by apply store_linear_ok.
Qed.

End access.

Lemma push_ok (c : cpu) (x pa : Z) :
  flat_data (ss c) -> 4 <= esp c < 2 ^ 32 -> maps c Write (esp c - 4) 4 pa ->
  push x c = (Ok tt, set_reg ESP (esp c - 4) (set_mem (store32 (cpu_mem c) pa x) c)).
Proof.
  intros Hs He Hm. unfold push. rewrite (bind_reads _ _ _ c) by done. cbv zeta. rewrite Z.mod_small by lia.
  by rewrite (bind_ok _ _ _ _ _ (vstore_ok 4 ltac:(lia) c (ss c) (esp c - 4) pa x Hs ltac:(lia) ltac:(lia) ltac:(lia) Hm)).
Qed.

Lemma pop_ok (c : cpu) (pa : Z) :
  flat_data (ss c) -> 0 <= esp c -> esp c + 4 < 2 ^ 32 -> maps c Read (esp c) 4 pa ->
  pop c = (Ok (load32 (cpu_mem c) pa), set_reg ESP (esp c + 4) c).
Proof.
  intros Hs He1 He2 Hm. unfold pop. rewrite (bind_reads _ _ _ c) by done.
  rewrite (bind_ok _ _ _ _ _ (vload_ok 4 ltac:(lia) c (ss c) (esp c) pa Hs ltac:(lia) ltac:(lia) ltac:(lia) Hm)).
  by rewrite Z.mod_small by lia.
Qed.

Lemma argument_ok (c : cpu) (i pa : Z) :
  flat_data (ss c) -> 0 <= esp c -> 0 <= i -> esp c + 8 + 4 * i <= 2 ^ 32 -> maps c Read (esp c + 4 + 4 * i) 4 pa ->
  argument i c = (Ok (load32 (cpu_mem c) pa), c).
Proof. intros Hs He1 Hi He2 Hm. apply (vload_ok 4); done || lia. Qed.

Section blocks.
Context {E : Encoding} (code : Z → option item).

Lemma run_reaches (c c' : cpu) (n fuel : nat) : reaches code c n c' -> run code (n + fuel) c = run code fuel c'.
Proof.
  induction 1 as [|c c1 n c' Hs _ IH]; [done|]. cbn [Nat.add run]. by rewrite (bind_ok _ _ _ _ _ Hs).
Qed.

Lemma reaches_app (c c1 c2 : cpu) (n k : nat) :
  reaches code c n c1 -> reaches code c1 k c2 -> reaches code c (n + k) c2.
Proof. induction 1; intros H2; [done|]. cbn [Nat.add]. econstructor; eauto. Qed.

Lemma offset_S (prog : list instr) (k : nat) (i : instr) :
  prog !! k = Some i -> offset prog (S k) = offset prog k + isize i.
Proof.
  revert k. induction prog as [|j prog IH]; intros [|k] Hk; try done; cbn [lookup list_lookup] in Hk.
  - simplify_eq. destruct prog; cbn [offset]; lia.
  - specialize (IH k Hk). change (isize j + offset prog (S k) = isize j + offset prog k + isize i). lia.
Qed.

Lemma offset_bounds (prog : list instr) (k : nat) : 0 <= offset prog k <= text_length prog.
Proof.
  unfold text_length. revert k. induction prog as [|i prog IH]; intros [|k]; cbn [offset length]; try lia.
  - pose proof (IH (length prog)). pose proof (isize_bounds i). lia.
  - pose proof (IH k). pose proof (isize_bounds i). lia.
Qed.

Lemma placed_lookup (pa : Z) (prog : list instr) (k : nat) (i : instr) :
  placed code pa prog -> prog !! k = Some i -> code (pa + offset prog k) = Some (Instr i).
Proof.
  revert pa k. induction prog as [|j prog IH]; intros pa [|k] Hp Hk; try done; cbn [lookup list_lookup offset] in *;
    destruct Hp as [Hc Hp].
  - simplify_eq. by rewrite Z.add_0_r.
  - rewrite Z.add_assoc. by apply IH.
Qed.

(** The block [prog] can be executed at [va]. *)
Record executable (c : cpu) (va pa : Z) (prog : list instr) : Prop := {
  ex_cs : flat_code (cs c);
  ex_range : 0 <= va /\ va + text_length prog < 2 ^ 32;
  ex_maps : maps c Execute va (text_length prog) pa;
  ex_placed : placed code pa prog
}.

Lemma fetch_native (c : cpu) (pa : Z) (f : M cpu status) :
  flat_code (cs c) -> u32_range (eip c) -> maps c Execute (eip c) 1 pa -> code pa = Some (Native f) ->
  step code c = f c.
Proof.
  intros [dpl Hcs] Hip Hm Hc. unfold step. rewrite (bind_reads _ _ _ (Native f)); [done|].
  unfold fetch. rewrite Hcs, linear_flat, ok_bind by (done || lia).
  pose proof (Hm 0 ltac:(lia)) as Ht. rewrite !Z.add_0_r in Ht. by rewrite Ht, ok_bind, Hc.
Qed.

(** One instruction of a block. *)
Lemma step_at (c c1 : cpu) (va pa : Z) (prog : list instr) (k : nat) (i : instr) :
  executable c va pa prog -> eip c = va + offset prog k -> prog !! k = Some i ->
  exec i (set_eip (va + offset prog (S k)) c) = (Ok tt, c1) ->
  step code c = (Ok Running, c1).
Proof.
  intros [[dpl Hcs] [Hva Hlen] Hm Hp] Hip Hk He.
  pose proof (offset_S prog k i Hk) as HS. pose proof (offset_bounds prog k). pose proof (offset_bounds prog (S k)).
  pose proof (isize_bounds i) as Hi. pose proof (placed_lookup _ _ _ _ Hp Hk) as Hc.
  assert (maps c Execute (eip c) (isize i) (pa + offset prog k)) as Hm'.
  { replace (pa + offset prog k) with (pa + (eip c - va)) by lia. apply (maps_sub _ _ _ _ _ _ _ Hm); lia. }
  unfold step. rewrite (bind_reads _ _ _ (Instr i)).
  - erewrite bind_ok by reflexivity. rewrite Z.mod_small by lia.
    replace (eip c + isize i) with (va + offset prog (S k)) by lia. by rewrite (bind_ok _ _ _ _ _ He).
  - unfold fetch. rewrite Hcs, linear_flat, ok_bind by (done || lia).
    pose proof (Hm' 0 ltac:(lia)) as Ht. rewrite !Z.add_0_r in Ht. rewrite Ht, ok_bind, Hc.
    rewrite linear_flat, ok_bind by (done || lia).
    rewrite (span_ok c Execute _ (eip c) (pa + offset prog k)); rewrite ?Z2Nat.id by lia; try (done || lia).
    by rewrite ok_bind, bool_decide_true.
Qed.

(** A block stays executable while the page tables and [cs] are left alone. *)
Lemma executable_step (T : Z → Prop) (c c' : cpu) (va pa : Z) (prog : list instr) :
  pinned T c -> same_space T c c' -> flat_code (cs c') -> executable c va pa prog -> executable c' va pa prog.
Proof.
  intros Hp Hs Hcs [_ [Hva Hlen] Hm Hpl]. split; [done|done| |done]. apply (maps_step T c); done || lia.
Qed.

End blocks.

(** ** The instructions that use the stack *)

Lemma exec_push_reg (r : reg32) (c : cpu) (pa : Z) :
  flat_data (ss c) -> 4 <= esp c < 2 ^ 32 -> maps c Write (esp c - 4) 4 pa ->
  exec (PushR r) c = (Ok tt, set_reg ESP (esp c - 4) (set_mem (store32 (cpu_mem c) pa (get_reg r c)) c)).
Proof. intros. cbn [exec]. rewrite (bind_reads _ _ _ c) by done. by apply push_ok. Qed.

Lemma exec_call (t : Z) (c : cpu) (pa : Z) :
  flat_data (ss c) -> 4 <= esp c < 2 ^ 32 -> maps c Write (esp c - 4) 4 pa ->
  exec (Call t) c = (Ok tt, set_eip t (set_reg ESP (esp c - 4) (set_mem (store32 (cpu_mem c) pa (eip c)) c))).
Proof.
  intros Hs He Hm. cbn [exec]. rewrite (bind_reads _ _ _ c) by done.
  by rewrite (bind_ok _ _ _ _ _ (push_ok c (eip c) pa Hs He Hm)).
Qed.

Lemma exec_ret (c : cpu) (pa : Z) :
  flat_data (ss c) -> 0 <= esp c -> esp c + 4 < 2 ^ 32 -> maps c Read (esp c) 4 pa ->
  exec Ret c = (Ok tt, set_eip (load32 (cpu_mem c) pa) (set_reg ESP (esp c + 4) c)).
Proof.
  intros Hs He1 He2 Hm. cbn [exec]. by rewrite (bind_ok _ _ _ _ _ (pop_ok c pa Hs He1 He2 Hm)).
Qed.

Lemma exec_mov_control (d : control_register) (s : reg32) (c : cpu) :
  (d = CR0 -> Z.testbit (get_reg s c) CR0_PE_BIT = true) ->
  exec (MovCR d s) c = (Ok tt, set_control d (get_reg s c) c).
Proof.
  intros Hd. cbn [exec]. rewrite (bind_reads _ _ _ c) by done. cbv zeta. destruct d; [|done|done].
  by rewrite Hd, andb_false_r.
Qed.

(** Evaluates the register updates of an explicit processor state. *)
Ltac cpu_cbn :=
  cbn [exec get_reg set_reg set_eip set_mem set_mach set_segment set_cs set_gdtr set_iflag get_control set_control
       mach mc_mem mc_cr0 mc_cr3 mc_writer mc_alloc mc_panicking
       eax ebx ecx esi esp eip cs ds es fs gs ss gdtr cr4 iflag].

(** One instruction of a block, from a state with the address space of [c0]. *)
Lemma step_within {E : Encoding} (code : Z → option item) (T : Z → Prop) (c0 c c1 : cpu) (va pa : Z)
    (prog : list instr) (k n : nat) (i : instr) (c' : cpu) :
  executable code c0 va pa prog -> pinned T c0 -> same_space T c0 c -> flat_code (cs c) ->
  eip c = va + offset prog k -> prog !! k = Some i ->
  exec i (set_eip (va + offset prog (S k)) c) = (Ok tt, c1) ->
  reaches code c1 n c' -> reaches code c (S n) c'.
Proof.
  intros Hex Hp Hs Hcs Hip Hk He Hr. econstructor; [|exact Hr].
  eapply step_at; [|done..]. by apply (executable_step code T c0).
Qed.

(** The next instruction of a block: leaves what it does and the rest of the run. *)
Ltac block_step Hex Hp j :=
  eapply step_within with (k := j); [exact Hex|exact Hp| |assumption|try reflexivity|reflexivity| |].
