(* ===== verification/Gdt.v ===== *)
(** * [src/gdt.rs]: the descriptor table and its installation

    The segment descriptors as the 64-bit words the code packs, [write_gdt], and
    [install_gdt], the naked assembly routine, run instruction by instruction on the
    processor of [Cpu], whose segment loads read the table back. *)

From S2P Require Import Prelude Rust Memory Address Layout Frame Paging Mmu Vga Machine Cpu.

Definition GDT_BASE : Z := 0x00000800.

Definition GDT_ENTRY_COUNT : Z := 7.

Definition KERNEL_CODE_SELECTOR : Z := 8.

Definition KERNEL_DATA_SELECTOR : Z := 16.

Definition KERNEL_STACK_SELECTOR : Z := 24.

Module index.

Definition NULL : Z := 0.

Definition KERNEL_CODE : Z := 1.

Definition KERNEL_DATA : Z := 2.

Definition KERNEL_STACK : Z := 3.

Definition USER_CODE : Z := 4.

Definition USER_DATA : Z := 5.

Definition USER_STACK : Z := 6.

End index.

Record Gdtr := mkGdtr {
  gdtr_limit : Z;
  gdtr_base : Z
}.

Inductive PrivilegeLevel := Ring0 | Ring1 | Ring2 | Ring3.

Definition PrivilegeLevel_as_u8 (p : PrivilegeLevel) : Z :=
  match p with Ring0 => 0 | Ring1 => 1 | Ring2 => 2 | Ring3 => 3 end.

Record RawDescriptor := mkRawDescriptor { raw_descriptor : Z }.

Record SegmentDescriptor := mkSegmentDescriptor { segment_descriptor : Z }.

Module RawDescriptor.

Definition null : RawDescriptor := mkRawDescriptor 0.

End RawDescriptor.

Module SegmentDescriptor.

Definition raw (self : SegmentDescriptor) : RawDescriptor := mkRawDescriptor (segment_descriptor self).

Definition flat (access : Z) : SegmentDescriptor :=
  let flags := Z.lor (wrapping_shl 64 1 2) (wrapping_shl 64 1 3) in
  let limit := 0xFFFFF in
  let raw := Z.land limit 0xFFFF in
  let raw := Z.lor raw (wrapping_shl 64 access 40) in
  let raw := Z.lor raw (wrapping_shl 64 (Z.land (Z.shiftr limit 16) 0xF) 48) in
  let raw := Z.lor raw (wrapping_shl 64 (Z.land flags 0xF) 52) in
  mkSegmentDescriptor raw.

Definition flat_code (privilege : PrivilegeLevel) : SegmentDescriptor :=
  flat (Z.lor 154 (wrapping_shl 8 (PrivilegeLevel_as_u8 privilege) 5)).

Definition flat_data (privilege : PrivilegeLevel) : SegmentDescriptor :=
  flat (Z.lor 146 (wrapping_shl 8 (PrivilegeLevel_as_u8 privilege) 5)).

End SegmentDescriptor.

Module Gdt.

(** [Gdt.entries] *)
Definition bootstrap : list RawDescriptor :=
  [ RawDescriptor.null;
    SegmentDescriptor.raw (SegmentDescriptor.flat_code Ring0);
    SegmentDescriptor.raw (SegmentDescriptor.flat_data Ring0);
    SegmentDescriptor.raw (SegmentDescriptor.flat_data Ring0);
    SegmentDescriptor.raw (SegmentDescriptor.flat_code Ring3);
    SegmentDescriptor.raw (SegmentDescriptor.flat_data Ring3);
    SegmentDescriptor.raw (SegmentDescriptor.flat_data Ring3) ].

(** [size_of::<Gdt>()] *)
Definition size_of : Z := GDT_ENTRY_COUNT * 8.

End Gdt.

(** [ptr::write] of the table and of a packed [Gdtr], through the data segment. *)
Fixpoint write_descriptors (addr : Z) (l : list RawDescriptor) : M cpu unit :=
  match l with
  | [] => mret tt
  | d :: l =>
      c ← reads Ok;
      vstore 8 (ds c) addr (raw_descriptor d);;
      write_descriptors (addr + 8) l
  end.

Definition write_gdtr (addr : Z) (g : Gdtr) : M cpu unit :=
  c ← reads Ok;
  vstore 2 (ds c) addr (gdtr_limit g);;
  vstore 4 (ds c) (addr + 2) (gdtr_base g).

Definition write_gdt (dst_addr out_gdtr : Z) : M cpu unit :=
  write_descriptors dst_addr Gdt.bootstrap;;
  write_gdtr out_gdtr (mkGdtr ((Gdt.size_of - 1) mod 2 ^ 16) dst_addr).

(** [write_gdt] entered by a call, with the C calling convention: it may leave anything in
    the registers the caller has to save, [ax] in EAX and [cx] in ECX. *)
Definition write_gdt_entry (ax cx : Z) : M cpu status :=
  dst_addr ← argument 0;
  out_gdtr ← argument 1;
  write_gdt dst_addr out_gdtr;;
  modify (set_reg EAX ax);;
  modify (set_reg ECX cx);;
  exec Ret;;
  mret Running.

(** [label] is the address of the local label [2:]. *)
Definition install_gdt (label write_gdt : Z) : list instr :=
  [ SubRI ESP 6;
    MovRR EAX ESP;
    PushR EAX;
    PushI GDT_BASE;
    Call write_gdt;
    AddRI ESP 8;
    LgdtEsp;
    MovAxI KERNEL_DATA_SELECTOR;
    MovSegAx DS;
    MovSegAx ES;
    MovSegAx FS;
    MovSegAx GS;
    MovAxI KERNEL_STACK_SELECTOR;
    MovSegAx SS;
    PushI KERNEL_CODE_SELECTOR;
    LeaR EAX label;
    PushR EAX;
    Retf;
    AddRI ESP 6;
    Ret ].

(** The instructions before the label. *)
Definition LABEL_INDEX : nat := 18.

(** ** The table in memory *)

(** What the writes do to physical memory. *)
Fixpoint store_descriptors (m : mem) (addr : Z) (l : list RawDescriptor) : mem :=
  match l with
  | [] => m
  | d :: l => store_descriptors (store64 m addr (raw_descriptor d)) (addr + 8) l
  end.

(** The table at a physical address: each entry as the code writes it, or marked
    accessed by the processor. *)
Definition table_at (m : mem) (pg : Z) : Prop :=
  forall i d, Gdt.bootstrap !! i = Some d ->
    load_le 8 m (pg + 8 * Z.of_nat i) = raw_descriptor d \/
    load_le 8 m (pg + 8 * Z.of_nat i) = Z.lor (raw_descriptor d) ACCESSED.

Lemma store_descriptors_kept (m : mem) (addr a : Z) (l : list RawDescriptor) :
  a < addr \/ addr + 8 * Z.of_nat (length l) <= a -> load8 (store_descriptors m addr l) a = load8 m a.
Proof.
  revert m addr. induction l as [|d l IH]; intros m addr Ha; [done|]. cbn [store_descriptors length] in *.
  rewrite IH by lia. apply load8_store_le_ne; lia.
Qed.

Lemma load_store_descriptors (m : mem) (addr : Z) (l : list RawDescriptor) (i : nat) (d : RawDescriptor) :
  l !! i = Some d -> u64_range (raw_descriptor d) ->
  load_le 8 (store_descriptors m addr l) (addr + 8 * Z.of_nat i) = raw_descriptor d.
Proof.
  revert m addr i. induction l as [|d' l IH]; intros m addr [|i] Hi Hd; try done; cbn [store_descriptors]; simplify_eq/=.
  - rewrite Z.mul_0_r, Z.add_0_r. rewrite (load_le_ext 8 _ (store64 m addr (raw_descriptor d))).
    + rewrite load_le_store_le by lia. by apply Z.mod_small.
    + intros b Hb. apply store_descriptors_kept. lia.
  - replace (addr + 8 * Z.of_nat (S i)) with (addr + 8 + 8 * Z.of_nat i) by lia. by apply IH.
Qed.

Lemma bootstrap_descriptor (i : nat) (d : RawDescriptor) : Gdt.bootstrap !! i = Some d -> u64_range (raw_descriptor d).
Proof. intros Hi. do 7 (destruct i as [|i]; [simplify_eq/=; vm_compute; split; congruence|]). done. Qed.

Lemma table_at_ext (m m' : mem) (pg : Z) :
  (forall a, pg <= a < pg + 56 -> load8 m' a = load8 m a) -> table_at m pg -> table_at m' pg.
Proof.
  intros Hm Ht i d Hi. pose proof (lookup_lt_Some _ _ _ Hi) as Hlt. change (length Gdt.bootstrap) with 7%nat in Hlt.
  rewrite (load_le_ext 8 m' m) by (intros; apply Hm; lia). by apply Ht.
Qed.

Lemma write_descriptors_ok (T : Z → Prop) (c : cpu) (addr pa : Z) (l : list RawDescriptor) :
  pinned T c -> flat_data (ds c) -> 0 <= addr -> addr + 8 * Z.of_nat (length l) <= 2 ^ 32 ->
  maps c Write addr (8 * Z.of_nat (length l)) pa ->
  (forall a, T a -> a < pa \/ pa + 8 * Z.of_nat (length l) <= a) ->
  write_descriptors addr l c = (Ok tt, set_mem (store_descriptors (cpu_mem c) pa l) c).
Proof.
  revert c addr pa. induction l as [|d l IH]; intros c addr pa Hp Hd Ha1 Ha2 Hm HT; cbn [write_descriptors length] in *.
  { unfold mret, M_ret. do 2 f_equal. by destruct c as [??????????????? []]. }
  rewrite (bind_reads _ _ _ c) by done.
  assert (maps c Write addr 8 pa) as Hm8.
  { replace pa with (pa + (addr - addr)) by lia. apply (maps_sub _ _ _ _ _ _ _ Hm); lia. }
  rewrite (bind_ok _ _ _ _ _ (vstore_ok 8 ltac:(lia) c (ds c) addr pa _ Hd Ha1 ltac:(lia) ltac:(lia) Hm8)).
  set (c1 := set_mem _ c).
  assert (same_space T c c1) as Hs.
  { apply set_mem_space. intros a Hta. apply load8_store_le_ne; [lia|]. apply HT in Hta. lia. }
  rewrite (IH c1 (addr + 8) (pa + 8)).
  - subst c1. by rewrite set_mem_mem, set_mem_set_mem.
  - by apply (pinned_step T c).
  - subst c1. by rewrite (proj1 (proj2 (set_mem_segments _ c))).
  - lia.
  - lia.
  - apply (maps_step T c); [done|done|lia|lia|].
    replace (pa + 8) with (pa + (addr + 8 - addr)) by lia. apply (maps_sub _ _ _ _ _ _ _ Hm); lia.
  - intros a Hta. apply HT in Hta. lia.
Qed.

Lemma write_gdt_ok (T : Z → Prop) (c : cpu) (pg out po : Z) :
  pinned T c -> flat_data (ds c) -> 0 <= out -> out + 6 <= 2 ^ 32 ->
  maps c Write GDT_BASE 56 pg -> maps c Write out 6 po -> (po + 6 <= pg \/ pg + 56 <= po) ->
  (forall a, T a -> (a < pg \/ pg + 56 <= a) /\ (a < po \/ po + 6 <= a)) ->
  exists m', write_gdt GDT_BASE out c = (Ok tt, set_mem m' c) /\
    (forall i d, Gdt.bootstrap !! i = Some d -> load_le 8 m' (pg + 8 * Z.of_nat i) = raw_descriptor d) /\
    load_le 2 m' po = 55 /\ load32 m' (po + 2) = GDT_BASE /\
    forall a, (a < pg \/ pg + 56 <= a) -> (a < po \/ po + 6 <= a) -> load8 m' a = load8 (cpu_mem c) a.
Proof.
  intros Hp Hd Ho1 Ho2 Hg Ho Hdis HT. unfold write_gdt, write_gdtr. cbn [gdtr_limit gdtr_base].
  change ((Gdt.size_of - 1) mod 2 ^ 16) with 55.
  set (m1 := store_descriptors (cpu_mem c) pg Gdt.bootstrap).
  assert (forall a, a < pg \/ pg + 56 <= a -> load8 m1 a = load8 (cpu_mem c) a) as Hm1.
  { intros a Ha. apply store_descriptors_kept. change (length Gdt.bootstrap) with 7%nat. lia. }
  rewrite (bind_ok _ _ _ tt (set_mem m1 c)); cycle 1.
  { apply (write_descriptors_ok T); [done|done|done|done|done|]. intros a Hta. apply (HT a Hta). }
  set (c1 := set_mem m1 c). destruct (set_mem_segments m1 c) as (_ & Eds & _). fold c1 in Eds.
  assert (same_space T c c1) as Hs1 by (apply set_mem_space; intros a Hta; apply Hm1, (HT a Hta)).
  rewrite (bind_reads _ _ _ c1) by done. rewrite Eds.
  assert (forall n d, 0 <= d -> 0 <= n -> d + n <= 6 -> maps c Write (out + d) n (po + d)) as Hsub.
  { intros n d Hd1 Hn1 Hdn. replace (po + d) with (po + (out + d - out)) by lia. apply (maps_sub _ _ _ _ _ _ _ Ho); lia. }
  erewrite bind_ok; cycle 1.
  { apply (vstore_ok 2 ltac:(lia) c1 (ds c) out po); [done|lia|lia|lia|]. apply (maps_step T c); [done|done|lia|lia|].
    specialize (Hsub 2 0 ltac:(lia) ltac:(lia) ltac:(lia)). by rewrite !Z.add_0_r in Hsub. }
  set (m2 := store_le 2 (cpu_mem c1) po 55).
  assert (same_space T c (set_mem m2 c1)) as Hs2.
  { transitivity c1; [done|]. apply set_mem_space. intros a Hta. apply load8_store_le_ne; [lia|]. apply (HT a) in Hta. lia. }
  rewrite (vstore_ok 4 ltac:(lia) _ (ds c) (out + 2) (po + 2)); [|done|lia|lia|lia|].
  2: { apply (maps_step T c); [done|done|lia|lia|]. apply Hsub; lia. }
  subst c1. rewrite set_mem_mem, set_mem_set_mem, set_mem_set_mem. eexists. split; [reflexivity|].
  subst m2. rewrite set_mem_mem. split_and!.
  - intros i d Hi. pose proof (lookup_lt_Some _ _ _ Hi) as Hlt. change (length Gdt.bootstrap) with 7%nat in Hlt.
    rewrite !load_le_store_le_ne by lia. apply load_store_descriptors; [done|by eapply bootstrap_descriptor].
  - by rewrite load_le_store_le_ne, load_le_store_le by lia.
  - by rewrite load_le_store_le by lia.
  - intros a H1 H2. rewrite !load8_store_le_ne by lia. by apply Hm1.
Qed.

(** ** Segment loads from the table *)

Lemma bootstrap_accessed (i : nat) (d : RawDescriptor) :
  Gdt.bootstrap !! i = Some d ->
  Z.testbit (raw_descriptor d) 40 = false /\ Z.testbit (Z.lor (raw_descriptor d) ACCESSED) 40 = true /\
  decode (Z.lor (raw_descriptor d) ACCESSED) = decode (raw_descriptor d) /\
  u64_range (Z.lor (raw_descriptor d) ACCESSED).
Proof.
  intros Hi. do 7 (destruct i as [|i]; [simplify_eq/=; vm_compute; split_and!; congruence|]). done.
Qed.

(** The register points at the table, the table is mapped, and the page tables are
    elsewhere. *)
Record gdt_loaded (T : Z → Prop) (pg : Z) (c : cpu) : Prop := {
  loaded_gdtr : gdtr c = mkTableRegister 55 GDT_BASE;
  loaded_table : table_at (cpu_mem c) pg;
  loaded_read : maps c Read GDT_BASE 56 pg;
  loaded_write : maps c Write GDT_BASE 56 pg;
  loaded_pinned : pinned T c;
  loaded_apart : forall a, T a -> a < pg \/ pg + 56 <= a
}.

Lemma gdt_loaded_step (T : Z → Prop) (pg : Z) (c c' : cpu) :
  same_space T c c' -> gdtr c' = gdtr c -> table_at (cpu_mem c') pg -> gdt_loaded T pg c -> gdt_loaded T pg c'.
Proof.
  intros Hs Hg Ht [H1 H2 H3 H4 H5 H6]. split; try done; [congruence|..].
  - apply (maps_step T c); done.
  - apply (maps_step T c); done.
  - by apply (pinned_step T c).
Qed.

Lemma load_descriptor_ok (T : Z → Prop) (pg : Z) (c : cpu) (i : nat) (d : RawDescriptor) (sel : Z)
    (allowed : segment → bool) :
  gdt_loaded T pg c -> Gdt.bootstrap !! i = Some d -> sel = 8 * Z.of_nat i -> (0 < i)%nat ->
  allowed (decode (raw_descriptor d)) = true ->
  exists m', load_descriptor sel allowed c =
      (Ok (mkSegmentReg sel (decode (raw_descriptor d))), set_mem m' c) /\
    table_at m' pg /\ forall a, a < pg \/ pg + 56 <= a -> load8 m' a = load8 (cpu_mem c) a.
Proof.
  intros [Hg Ht Hr Hw Hp HT] Hi Hsel Hpos Hall.
  pose proof (lookup_lt_Some _ _ _ Hi) as Hlt. change (length Gdt.bootstrap) with 7%nat in Hlt.
  destruct (bootstrap_accessed i d Hi) as (Hb0 & Hb1 & Hdec & Hrange).
  unfold load_descriptor. rewrite (bind_reads _ _ _ c) by done. rewrite Hg.
  assert (descriptor_address sel (mkTableRegister 55 GDT_BASE) = Ok (GDT_BASE + 8 * Z.of_nat i)) as ->.
  { subst sel. do 7 (destruct i as [|i]; [first [lia|reflexivity]|]). lia. }
  rewrite bind_lift.
  assert (forall k, maps c k GDT_BASE 56 pg -> maps c k (GDT_BASE + 8 * Z.of_nat i) 8 (pg + 8 * Z.of_nat i)) as Hsub.
  { intros k Hk. replace (pg + 8 * Z.of_nat i) with (pg + (GDT_BASE + 8 * Z.of_nat i - GDT_BASE)) by lia.
    apply (maps_sub _ _ _ _ _ _ _ Hk); lia. }
  unfold GDT_BASE in *.
  rewrite (bind_reads _ _ _ (load_le 8 (cpu_mem c) (pg + 8 * Z.of_nat i))); cycle 1.
  { apply load_linear_ok; [lia|lia|lia|by apply Hsub]. }
  destruct (Ht i d Hi) as [E|E]; rewrite E.
  - rewrite Hall, Hb0, (bind_ok _ _ _ _ _ (store_linear_ok 8 ltac:(lia) c (2048 + 8 * Z.of_nat i) _ _
      ltac:(lia) ltac:(lia) (Hsub Write Hw))).
    eexists. split; [reflexivity|]. split.
    + intros j dj Hj. destruct (decide (j = i)) as [->|Hne].
      * right. rewrite load_le_store_le by lia. simplify_eq. by apply Z.mod_small.
      * rewrite load_le_store_le_ne by lia. by apply Ht.
    + intros a Ha. apply load8_store_le_ne; lia.
  - rewrite Hdec, Hall, Hb1. exists (cpu_mem c). split; [|done].
    erewrite bind_ok by reflexivity. unfold mret, M_ret. f_equal. by destruct c as [??????????????? []].
Qed.

(** A data segment register. *)
Lemma load_segment_ok (T : Z → Prop) (pg : Z) (c : cpu) (r : segment_register) (i : nat) :
  gdt_loaded T pg c -> (i = 2 \/ i = 3)%nat -> eax c mod 2 ^ 16 = 8 * Z.of_nat i -> cpl c = 0 ->
  exists m', exec (MovSegAx r) c =
      (Ok tt, set_segment r (mkSegmentReg (8 * Z.of_nat i) (flat_segment false 0)) (set_mem m' c)) /\
    table_at m' pg /\ forall a, a < pg \/ pg + 56 <= a -> load8 m' a = load8 (cpu_mem c) a.
Proof.
  intros Hl Hi Hsel Hcpl. set (d := SegmentDescriptor.raw (SegmentDescriptor.flat_data Ring0)).
  assert (Gdt.bootstrap !! i = Some d) as Hd by (destruct Hi as [-> | ->]; reflexivity).
  destruct (load_descriptor_ok T pg c i d (8 * Z.of_nat i)
    (segment_allowed r (8 * Z.of_nat i) 0) Hl Hd eq_refl ltac:(lia)) as (m' & E & Ht & Hk).
  { destruct Hi as [-> | ->]; by destruct r. }
  exists m'. split; [|done]. cbn [exec]. rewrite (bind_reads _ _ _ c) by done. cbv zeta.
  rewrite Hsel, Hcpl, (bind_ok _ _ _ _ _ E). reflexivity.
Qed.

(** ** [install_gdt]

    Entered at [va] with the return address on the stack.  [ps] is the physical
    address of the stack pointer, [pg] that of the table; 18 bytes of stack are used. *)
Record install_ready {E : Encoding} (code : Z → option item) (T : Z → Prop) (va label wg ps pg : Z) (c : cpu) : Prop := {
  ir_eip : eip c = va;
  ir_label : label = va + offset (install_gdt label wg) LABEL_INDEX;
  ir_text : exists pa, executable code c va pa (install_gdt label wg);
  ir_write_gdt : u32_range wg /\ exists wpa ax cx, maps c Execute wg 1 wpa /\ code wpa = Some (Native (write_gdt_entry ax cx));
  ir_pinned : pinned T c;
  ir_stack : forall k, k <> Execute -> maps c k (esp c - 18) 22 (ps - 18);
  ir_esp : 18 <= esp c /\ esp c + 4 < 2 ^ 32;
  ir_gdt : forall k, k <> Execute -> maps c k GDT_BASE 56 pg;
  ir_apart : ps + 4 <= pg \/ pg + 56 <= ps - 18;
  ir_tables : forall a, T a -> (a < ps - 18 \/ ps <= a) /\ (a < pg \/ pg + 56 <= a);
  ir_data : flat_data (ds c) /\ flat_data (ss c);
  ir_cpl : cpl c = 0
}.

Section install.
Context {E : Encoding} (code : Z → option item) (T : Z → Prop) (va label wg ps pg : Z).
Context (a b e i p ip : Z) (s1 s2 s3 s4 s5 s6 : segment_reg) (g : table_register) (r4 : Z) (f : bool).
Context (w : VgaWriter) (al : FrameBitmap) (pk : bool) (m : mem) (r3 r0 : Z).

#[local] Abbreviation prog := (install_gdt label wg).
#[local] Abbreviation state x y sp ip c1 d1 e1 f1 g1 h1 gd mm :=
  (mkCpu x b y i sp ip c1 d1 e1 f1 g1 h1 gd r4 f (mkMachine w al pk mm r3 r0)).
#[local] Abbreviation c0 := (state a e p ip s1 s2 s3 s4 s5 s6 g m).

Context (R : install_ready code T va label wg ps pg c0).

(** A memory that differs from the first one off the page tables. *)
Definition tables_kept (m' : mem) : Prop := forall x, T x -> load8 m' x = load8 m x.

Lemma state_space (x y sp ip' : Z) c1 d1 e1 f1 g1 h1 gd (m' : mem) :
  tables_kept m' -> same_space T c0 (state x y sp ip' c1 d1 e1 f1 g1 h1 gd m').
Proof. by split. Qed.

Lemma stack_maps (c : cpu) (k : access) (d n : Z) :
  same_space T c0 c -> k <> Execute -> 0 <= n -> d <= 18 -> n - d <= 4 -> maps c k (p - d) n (ps - d).
Proof.
  intros Hs Hk Hn H1 H2. destruct (ir_esp _ _ _ _ _ _ _ _ R) as [He1 He2]. cbn [esp] in *.
  apply (maps_step T c0); [apply R|done|lia|lia|].
  replace (ps - d) with (ps - 18 + (p - d - (p - 18))) by lia.
  apply (maps_sub _ _ _ _ _ _ _ (ir_stack _ _ _ _ _ _ _ _ R k Hk)); cbn [esp]; lia.
Qed.

(** The three words pushed for [write_gdt]. *)
Definition frame_mem : mem :=
  store32 (store32 (store32 m (ps - 10) (p - 6)) (ps - 14) GDT_BASE) (ps - 18) (va + offset prog 5).

Lemma store_stack_kept (m' : mem) (d x : Z) :
  tables_kept m' -> 4 <= d <= 18 -> tables_kept (store32 m' (ps - d) x).
Proof.
  intros Hm Hd y Hy. rewrite load8_store_le_ne; [by apply Hm|lia|].
  apply (ir_tables _ _ _ _ _ _ _ _ R) in Hy. lia.
Qed.

(** Up to the call. *)
Lemma install_frame :
  reaches code c0 5 (state (p - 6) e (p - 18) wg s1 s2 s3 s4 s5 s6 g frame_mem) /\ tables_kept frame_mem.
Proof.
  destruct (ir_text _ _ _ _ _ _ _ _ R) as [pa Hex]. pose proof (ir_pinned _ _ _ _ _ _ _ _ R) as Hp.
  pose proof (ex_cs _ _ _ _ _ Hex) as Hcs. destruct (ir_esp _ _ _ _ _ _ _ _ R) as [He1 He2].
  destruct (ir_data _ _ _ _ _ _ _ _ R) as [_ Hss]. pose proof (ir_eip _ _ _ _ _ _ _ _ R) as Hip.
  cbn [esp cs ss eip] in *.
  assert (tables_kept m) as K0 by done.
  pose proof (store_stack_kept _ 10 (p - 6) K0 ltac:(lia)) as K1.
  pose proof (store_stack_kept _ 14 GDT_BASE K1 ltac:(lia)) as K2.
  pose proof (store_stack_kept _ 18 (va + offset prog 5) K2 ltac:(lia)) as K3.
  split; [|exact K3].
  block_step Hex Hp 0%nat; [by apply state_space|cbn [eip]; change (offset prog 0) with 0; lia|reflexivity|].
  cpu_cbn. rewrite Z.mod_small by lia.
  block_step Hex Hp 1%nat; [by apply state_space|reflexivity|]. cpu_cbn.
  block_step Hex Hp 2%nat; [by apply state_space| |].
  { apply (exec_push_reg _ _ (ps - 10)); cpu_cbn; [done|lia|]. replace (p - 6 - 4) with (p - 10) by lia.
    by apply stack_maps; [apply state_space| |lia..]. }
  cpu_cbn.
  block_step Hex Hp 3%nat; [by apply state_space| |].
  { apply (push_ok _ _ (ps - 14)); cpu_cbn; [done|lia|]. replace (p - 6 - 4 - 4) with (p - 14) by lia.
    by apply stack_maps; [apply state_space| |lia..]. }
  cpu_cbn.
  block_step Hex Hp 4%nat; [by apply state_space| |].
  { apply (exec_call _ _ (ps - 18)); cpu_cbn; [done|lia|]. replace (p - 6 - 4 - 4 - 4) with (p - 18) by lia.
    by apply stack_maps; [apply state_space| |lia..]. }
  cpu_cbn. replace (p - 6 - 4 - 4 - 4) with (p - 18) by lia. constructor.
Qed.

(** Bytes that neither the table nor the scratch area covers. *)
Definition kept (m' : mem) : Prop :=
  forall x, (x < pg \/ pg + 56 <= x) -> (x < ps - 18 \/ ps <= x) -> load8 m' x = load8 m x.

Lemma kept_tables (m' : mem) : kept m' -> tables_kept m'.
Proof. intros Hk x Hx. apply (ir_tables _ _ _ _ _ _ _ _ R) in Hx as [H1 H2]. by apply Hk. Qed.

Lemma frame_mem_words :
  load32 frame_mem (ps - 14) = GDT_BASE /\ load32 frame_mem (ps - 10) = p - 6 /\
  load32 frame_mem (ps - 18) = va + offset prog 5 /\ kept frame_mem.
Proof.
  destruct (ir_text _ _ _ _ _ _ _ _ R) as [pa [_ [Hva Hlen] _ _]]. pose proof (offset_bounds prog 5).
  destruct (ir_esp _ _ _ _ _ _ _ _ R) as [He1 He2]. cbn [esp] in *. unfold frame_mem. split_and!.
  - by rewrite load_le_store_le_ne, load_le_store_le by lia.
  - rewrite !load_le_store_le_ne, load_le_store_le by lia. apply Z.mod_small. lia.
  - rewrite load_le_store_le by lia. apply Z.mod_small. lia.
  - intros x _ Hx. by rewrite !load8_store_le_ne by lia.
Qed.

(** [write_gdt] returns, with the table written. *)
Lemma install_call :
  exists x y m4, reaches code (state (p - 6) e (p - 18) wg s1 s2 s3 s4 s5 s6 g frame_mem) 1
      (state x y (p - 14) (va + offset prog 5) s1 s2 s3 s4 s5 s6 g m4) /\
    kept m4 /\ table_at m4 pg /\ load_le 2 m4 (ps - 6) = 55 /\ load32 m4 (ps - 4) = GDT_BASE.
Proof.
  destruct (ir_text _ _ _ _ _ _ _ _ R) as [pa Hex]. pose proof (ir_pinned _ _ _ _ _ _ _ _ R) as Hp.
  destruct (ir_write_gdt _ _ _ _ _ _ _ _ R) as (Hwg & wpa & ax & cx & Hwm & Hwc).
  pose proof (ex_cs _ _ _ _ _ Hex) as Hcs. destruct (ir_esp _ _ _ _ _ _ _ _ R) as [He1 He2].
  destruct (ir_data _ _ _ _ _ _ _ _ R) as [Hds Hss]. pose proof (ir_apart _ _ _ _ _ _ _ _ R) as Hap.
  destruct install_frame as [_ K3]. destruct frame_mem_words as (Ha0 & Ha1 & Hret & Hk3). cbn [esp cs ss ds eip] in *.
  set (c3 := state (p - 6) e (p - 18) wg s1 s2 s3 s4 s5 s6 g frame_mem).
  assert (same_space T c0 c3) as Hs3 by (by apply state_space).
  destruct (write_gdt_ok T c3 pg (p - 6) (ps - 6)) as (m4 & E4 & Hent & Hlim & Hbase & Hk4);
    [by apply (pinned_step T c0)|done|lia|lia| |by apply stack_maps; [| |lia..]|lia| |].
  { apply (maps_step T c0); [done|done|done|done|]. by apply R. }
  { intros x Hx. apply (ir_tables _ _ _ _ _ _ _ _ R) in Hx. lia. }
  cbn [c3 mach mc_mem] in Hk4.
  assert (kept m4) as Hkept.
  { intros x H1 H2. rewrite Hk4 by lia. by apply Hk3. }
  exists ax, cx, m4. split_and!; [|done|by intros i' d Hi; left; apply Hent|done|by replace (ps - 4) with (ps - 6 + 2) by lia].
  econstructor; [|constructor]. rewrite (fetch_native code c3 wpa (write_gdt_entry ax cx)); [|done|done| |done].
  2: { apply (maps_step T c0); [done|done|cbn; lia|cbn; lia|done]. }
  unfold write_gdt_entry.
  erewrite bind_ok; [|apply (argument_ok c3 0 (ps - 14)); [done|cbn [c3 esp]; lia|lia|cbn [c3 esp]; lia|]].
  2: { cbn [c3 esp]. replace (p - 18 + 4 + 4 * 0) with (p - 14) by lia. by apply stack_maps; [| |lia..]. }
  erewrite bind_ok; [|apply (argument_ok c3 1 (ps - 10)); [done|cbn [c3 esp]; lia|lia|cbn [c3 esp]; lia|]].
  2: { cbn [c3 esp]. replace (p - 18 + 4 + 4 * 1) with (p - 10) by lia. by apply stack_maps; [| |lia..]. }
  cbn [c3 mach mc_mem]. rewrite Ha0, Ha1. fold c3. rewrite (bind_ok _ _ _ _ _ E4).
  do 2 (erewrite bind_ok; [|reflexivity]).
  erewrite bind_ok; [|apply (exec_ret _ (ps - 18)); subst c3; cpu_cbn; [done|lia|lia|]].
  2: { by apply stack_maps; [apply state_space, kept_tables| |lia..]. }
  subst c3. cpu_cbn. rewrite (load_le_ext 4 m4 frame_mem) by (intros; apply Hk4; lia). rewrite Hret.
  replace (p - 18 + 4) with (p - 14) by lia. reflexivity.
Qed.

(** [lgdt] *)
Lemma install_table :
  exists x y m4, reaches code c0 8 (state x y (p - 6) (va + offset prog 7) s1 s2 s3 s4 s5 s6
      (mkTableRegister 55 GDT_BASE) m4) /\ kept m4 /\ table_at m4 pg.
Proof.
  destruct (ir_text _ _ _ _ _ _ _ _ R) as [pa Hex]. pose proof (ir_pinned _ _ _ _ _ _ _ _ R) as Hp.
  pose proof (ex_cs _ _ _ _ _ Hex) as Hcs. destruct (ir_esp _ _ _ _ _ _ _ _ R) as [He1 He2].
  destruct (ir_data _ _ _ _ _ _ _ _ R) as [_ Hss].
  destruct install_frame as [R1 _]. destruct install_call as (x & y & m4 & R2 & Hk & Ht & Hlim & Hbase). cbn [esp cs ss] in *.
  exists x, y, m4. split; [|done]. eapply (reaches_app code _ _ _ 6 2); [exact (reaches_app code _ _ _ 5 1 R1 R2)|].
  pose proof (kept_tables m4 Hk) as K4.
  block_step Hex Hp 5%nat; [by apply state_space|reflexivity|].
  cpu_cbn. rewrite Z.mod_small by lia. replace (p - 14 + 8) with (p - 6) by lia.
  block_step Hex Hp 6%nat; [by apply state_space| |constructor].
  cpu_cbn. rewrite bind_reads with (a := state x y (p - 6) (va + offset prog 7) s1 s2 s3 s4 s5 s6 g m4) by done.
  cpu_cbn. erewrite bind_ok; [|apply (vload_ok 2 ltac:(lia) _ _ _ (ps - 6)); [done|lia|lia|lia|]].
  2: { by apply stack_maps; [apply state_space| |lia..]. }
  erewrite bind_ok; [|apply (vload_ok 4 ltac:(lia) _ _ _ (ps - 4)); [done|lia|lia|lia|]].
  2: { replace (p - 6 + 2) with (p - 4) by lia. by apply stack_maps; [apply state_space| |lia..]. }
  cpu_cbn. by rewrite Hlim, Hbase.
Qed.

(** The state once the table is loaded, and a segment load from it. *)
Lemma state_loaded (x y sp ip' : Z) c1 d1 e1 f1 g1 h1 (m' : mem) :
  kept m' -> table_at m' pg ->
  gdt_loaded T pg (state x y sp ip' c1 d1 e1 f1 g1 h1 (mkTableRegister 55 GDT_BASE) m').
Proof.
  intros Hk Ht. assert (forall c, same_space T c0 c -> forall k, k <> Execute -> maps c k GDT_BASE 56 pg) as Hm.
  { intros c Hs k Hne. apply (maps_step T c0); [apply R|done|done|done|by apply R]. }
  pose proof (kept_tables m' Hk) as K. split; try done.
  - by apply Hm; [apply state_space|].
  - by apply Hm; [apply state_space|].
  - by apply (pinned_step T c0); [apply state_space|apply R].
  - intros z Hz. by apply (ir_tables _ _ _ _ _ _ _ _ R) in Hz as [_ Hz].
Qed.

Lemma kept_table (m' m'' : mem) :
  kept m' -> (forall x, x < pg \/ pg + 56 <= x -> load8 m'' x = load8 m' x) -> kept m''.
Proof. intros Hk Hm x H1 H2. rewrite Hm by done. by apply Hk. Qed.

Lemma install_segment (x y ip' : Z) c1 d1 e1 f1 g1 h1 (m' : mem) (r : segment_register) (j : nat) (c : cpu) :
  c = state x y (p - 6) ip' c1 d1 e1 f1 g1 h1 (mkTableRegister 55 GDT_BASE) m' ->
  kept m' -> table_at m' pg -> (j = 2 \/ j = 3)%nat -> x mod 2 ^ 16 = 8 * Z.of_nat j -> selector c1 mod 4 = 0 ->
  exists m'', exec (MovSegAx r) c =
      (Ok tt, set_segment r (mkSegmentReg (8 * Z.of_nat j) (flat_segment false 0)) (set_mem m'' c)) /\
    kept m'' /\ table_at m'' pg.
Proof.
  intros -> Hk Ht Hj Hx Hcpl.
  destruct (load_segment_ok T pg (state x y (p - 6) ip' c1 d1 e1 f1 g1 h1 (mkTableRegister 55 GDT_BASE) m') r j)
    as (m'' & E'' & Ht'' & Hk''); [by apply state_loaded|done|done|done|].
  exists m''. split; [exact E''|]. split; [by apply (kept_table m')|done].
Qed.

(** The data and stack segment registers. *)
Lemma install_segments (x y : Z) (m4 : mem) :
  kept m4 -> table_at m4 pg ->
  let data := mkSegmentReg KERNEL_DATA_SELECTOR (flat_segment false 0) in
  let stack := mkSegmentReg KERNEL_STACK_SELECTOR (flat_segment false 0) in
  exists x' m5, reaches code (state x y (p - 6) (va + offset prog 7) s1 s2 s3 s4 s5 s6
      (mkTableRegister 55 GDT_BASE) m4) 7
      (state x' y (p - 6) (va + offset prog 14) s1 data data data data stack (mkTableRegister 55 GDT_BASE) m5) /\
    kept m5 /\ table_at m5 pg.
Proof.
  intros Hk Ht data stack.
  destruct (ir_text _ _ _ _ _ _ _ _ R) as [pa Hex]. pose proof (ir_pinned _ _ _ _ _ _ _ _ R) as Hp.
  pose proof (ex_cs _ _ _ _ _ Hex) as Hcs. destruct (ir_esp _ _ _ _ _ _ _ _ R) as [He1 He2].
  pose proof (ir_cpl _ _ _ _ _ _ _ _ R) as Hcpl. unfold cpl in Hcpl. cbn [esp cs] in *.
  set (x1 := x / 2 ^ 16 * 2 ^ 16 + KERNEL_DATA_SELECTOR).
  assert (x1 mod 2 ^ 16 = 8 * Z.of_nat 2) as Hx1 by (subst x1; unfold KERNEL_DATA_SELECTOR; zdiv).
  set (x2 := x1 / 2 ^ 16 * 2 ^ 16 + KERNEL_STACK_SELECTOR).
  assert (x2 mod 2 ^ 16 = 8 * Z.of_nat 3) as Hx2 by (subst x2; unfold KERNEL_STACK_SELECTOR; zdiv).
  exists x2.
  assert (forall m', kept m' -> tables_kept m') as K by apply kept_tables.
  edestruct (install_segment x1 y (va + offset prog 9) s1 s2 s3 s4 s5 s6 m4 DS 2) as (m5 & E5 & Hk5 & Ht5);
    [reflexivity|done|done|by left|done|done|].
  edestruct (install_segment x1 y (va + offset prog 10) s1 data s3 s4 s5 s6 m5 ES 2) as (m6 & E6 & Hk6 & Ht6);
    [reflexivity|done|done|by left|done|done|].
  edestruct (install_segment x1 y (va + offset prog 11) s1 data data s4 s5 s6 m6 FS 2) as (m7 & E7 & Hk7 & Ht7);
    [reflexivity|done|done|by left|done|done|].
  edestruct (install_segment x1 y (va + offset prog 12) s1 data data data s5 s6 m7 GS 2) as (m8 & E8 & Hk8 & Ht8);
    [reflexivity|done|done|by left|done|done|].
  edestruct (install_segment x2 y (va + offset prog 14) s1 data data data data s6 m8 SS 3) as (m9 & E9 & Hk9 & Ht9);
    [reflexivity|done|done|by right|done|done|].
  exists m9. split; [|done].
  block_step Hex Hp 7%nat; [by apply state_space, K|reflexivity|]. cpu_cbn. fold x1.
  block_step Hex Hp 8%nat; [by apply state_space, K|exact E5|]. cpu_cbn.
  block_step Hex Hp 9%nat; [by apply state_space, K|exact E6|]. cpu_cbn.
  block_step Hex Hp 10%nat; [by apply state_space, K|exact E7|]. cpu_cbn.
  block_step Hex Hp 11%nat; [by apply state_space, K|exact E8|]. cpu_cbn.
  block_step Hex Hp 12%nat; [by apply state_space, K|reflexivity|]. cpu_cbn. fold x2.
  block_step Hex Hp 13%nat; [by apply state_space, K|exact E9|]. cpu_cbn. constructor.
Qed.

(** [retf] with the label and the code selector on the stack. *)
Lemma install_retf (x y ip' : Z) c1 d1 e1 f1 g1 (h1 : segment_reg) (m2 : mem) :
  kept m2 -> table_at m2 pg -> flat_data h1 -> selector c1 mod 4 = 0 ->
  load32 m2 (ps - 14) = label -> load32 m2 (ps - 10) = KERNEL_CODE_SELECTOR ->
  exists m6, exec Retf (state x y (p - 14) ip' c1 d1 e1 f1 g1 h1 (mkTableRegister 55 GDT_BASE) m2) =
      (Ok tt, state x y (p - 6) label (mkSegmentReg KERNEL_CODE_SELECTOR (flat_segment true 0)) d1 e1 f1 g1 h1
        (mkTableRegister 55 GDT_BASE) m6) /\ kept m6 /\ table_at m6 pg.
Proof.
  intros Hk Ht Hss Hcpl Hl Hsel. destruct (ir_esp _ _ _ _ _ _ _ _ R) as [He1 He2]. cbn [esp] in *.
  pose proof (kept_tables m2 Hk) as K.
  set (c2 := state x y (p - 6) ip' c1 d1 e1 f1 g1 h1 (mkTableRegister 55 GDT_BASE) m2).
  destruct (load_descriptor_ok T pg c2 1 (SegmentDescriptor.raw (SegmentDescriptor.flat_code Ring0)) KERNEL_CODE_SELECTOR
    (code_allowed KERNEL_CODE_SELECTOR 0)) as (m6 & E6 & Ht6 & Hk6);
    [by apply state_loaded|reflexivity|reflexivity|lia|reflexivity|].
  exists m6. split; [|split; [by apply (kept_table m2)|done]].
  cpu_cbn. erewrite bind_ok; [|apply (pop_ok _ (ps - 14)); cpu_cbn; [done|lia|lia|]].
  2: { by apply stack_maps; [apply state_space| |lia..]. }
  cpu_cbn. replace (p - 14 + 4) with (p - 10) by lia.
  erewrite bind_ok; [|apply (pop_ok _ (ps - 10)); cpu_cbn; [done|lia|lia|]].
  2: { by apply stack_maps; [apply state_space| |lia..]. }
  cpu_cbn. replace (p - 10 + 4) with (p - 6) by lia. rewrite Hl, Hsel.
  fold c2. rewrite (bind_reads _ _ _ c2) by done. cbv zeta.
  change (KERNEL_CODE_SELECTOR mod 2 ^ 16) with KERNEL_CODE_SELECTOR.
  assert (cpl c2 = 0) as -> by exact Hcpl. by rewrite (bind_ok _ _ _ _ _ E6).
Qed.

(** The far return loads [cs] and comes back to the caller. *)
Lemma install_far_return (x y : Z) c1 d1 e1 f1 g1 (h1 : segment_reg) (m' : mem) :
  kept m' -> table_at m' pg -> flat_data h1 -> flat_code c1 -> selector c1 mod 4 = 0 ->
  exists m6, reaches code (state x y (p - 6) (va + offset prog 14) c1 d1 e1 f1 g1 h1 (mkTableRegister 55 GDT_BASE) m') 4
      (state label y (p - 6) label (mkSegmentReg KERNEL_CODE_SELECTOR (flat_segment true 0)) d1 e1 f1 g1 h1
        (mkTableRegister 55 GDT_BASE) m6) /\ kept m6 /\ table_at m6 pg.
Proof.
  intros Hk Ht Hss Hcs Hcpl.
  destruct (ir_text _ _ _ _ _ _ _ _ R) as [pa Hex]. pose proof (ir_pinned _ _ _ _ _ _ _ _ R) as Hp.
  destruct (ir_esp _ _ _ _ _ _ _ _ R) as [He1 He2]. pose proof (ir_label _ _ _ _ _ _ _ _ R) as Hlabel.
  pose proof (ir_apart _ _ _ _ _ _ _ _ R) as Hap. destruct (ex_range _ _ _ _ _ Hex) as [Hva Hlen].
  pose proof (offset_bounds prog LABEL_INDEX) as Hoff. cbn [esp] in *.
  set (m1 := store32 m' (ps - 10) KERNEL_CODE_SELECTOR). set (m2 := store32 m1 (ps - 14) label).
  assert (kept m1) as Hk1 by (intros z H1 H2; subst m1; rewrite load8_store_le_ne by lia; by apply Hk).
  assert (kept m2) as Hk2 by (intros z H1 H2; subst m2; rewrite load8_store_le_ne by lia; by apply Hk1).
  assert (table_at m2 pg) as Ht2.
  { apply (table_at_ext m'); [|done]. intros z Hz. subst m2 m1. by rewrite !load8_store_le_ne by lia. }
  assert (forall n, kept n -> tables_kept n) as K by apply kept_tables.
  destruct (install_retf label y (va + offset prog 18) c1 d1 e1 f1 g1 h1 m2) as (m6 & E6 & Hk6 & Ht6); try done.
  { subst m2. rewrite load_le_store_le by lia. apply Z.mod_small. lia. }
  { subst m2 m1. by rewrite load_le_store_le_ne, load_le_store_le by lia. }
  exists m6. split; [|done].
  block_step Hex Hp 14%nat; [by apply state_space, K| |].
  { apply (push_ok _ _ (ps - 10)); cpu_cbn; [done|lia|]. replace (p - 6 - 4) with (p - 10) by lia.
    by apply stack_maps; [apply state_space, K| |lia..]. }
  cpu_cbn. fold m1. replace (p - 6 - 4) with (p - 10) by lia.
  block_step Hex Hp 15%nat; [by apply state_space, K|reflexivity|]. cpu_cbn.
  block_step Hex Hp 16%nat; [by apply state_space, K| |].
  { apply (exec_push_reg _ _ (ps - 14)); cpu_cbn; [done|lia|]. replace (p - 10 - 4) with (p - 14) by lia.
    by apply stack_maps; [apply state_space, K| |lia..]. }
  cpu_cbn. fold m2. replace (p - 10 - 4) with (p - 14) by lia.
  block_step Hex Hp 17%nat; [by apply state_space, K|exact E6|constructor].
Qed.

(** The whole routine. *)
Lemma install_run :
  let data := mkSegmentReg KERNEL_DATA_SELECTOR (flat_segment false 0) in
  let stack := mkSegmentReg KERNEL_STACK_SELECTOR (flat_segment false 0) in
  exists y m', reaches code c0 21 (state label y (p + 4) (load32 m ps)
      (mkSegmentReg KERNEL_CODE_SELECTOR (flat_segment true 0)) data data data data stack
      (mkTableRegister 55 GDT_BASE) m') /\ kept m' /\ table_at m' pg.
Proof.
  intros data stack. destruct (ir_text _ _ _ _ _ _ _ _ R) as [pa Hex]. pose proof (ir_pinned _ _ _ _ _ _ _ _ R) as Hp.
  destruct (ir_esp _ _ _ _ _ _ _ _ R) as [He1 He2]. pose proof (ir_label _ _ _ _ _ _ _ _ R) as Hlabel.
  pose proof (ir_apart _ _ _ _ _ _ _ _ R) as Hap. pose proof (ir_cpl _ _ _ _ _ _ _ _ R) as Hcpl.
  pose proof (ex_cs _ _ _ _ _ Hex) as Hcs. unfold cpl in Hcpl. cbn [esp cs] in *.
  destruct install_table as (x0 & y & m4 & R1 & Hk4 & Ht4).
  destruct (install_segments x0 y m4 Hk4 Ht4) as (x & m5 & R2 & Hk5 & Ht5).
  destruct (install_far_return x y s1 data data data data stack m5) as (m6 & R3 & Hk6 & Ht6); try done; [by exists 0|].
  exists y, m6. split; [|done]. pose proof (kept_tables m6 Hk6) as K.
  pose proof (reaches_app code _ _ _ _ _ R1 R2) as R12. pose proof (reaches_app code _ _ _ _ _ R12 R3) as R123.
  refine (reaches_app code _ _ _ 19 2 R123 _).
  assert (flat_code (mkSegmentReg KERNEL_CODE_SELECTOR (flat_segment true 0))) as Hcs' by (by exists 0).
  block_step Hex Hp 18%nat; [by apply state_space|exact Hlabel|reflexivity|]. cpu_cbn. rewrite Z.mod_small by lia.
  replace (p - 6 + 6) with p by lia.
  block_step Hex Hp 19%nat; [by apply state_space| |].
  { apply (exec_ret _ ps); cpu_cbn; [by exists 0|lia|lia|]. pose proof (stack_maps
      (state label y p (va + offset prog 20) (mkSegmentReg KERNEL_CODE_SELECTOR (flat_segment true 0)) data data data data
         stack (mkTableRegister 55 GDT_BASE) m6) Read 0 4) as Hm. rewrite !Z.sub_0_r in Hm.
    apply Hm; [by apply state_space|done|lia..]. }
  cpu_cbn. rewrite (load_le_ext 4 m6 m) by (intros; apply Hk6; lia). constructor.
Qed.

End install.

(** What [install_gdt], entered in [c] with its return address at the physical address
    [ps], leaves in [c']. *)
Record gdt_installed (ps pg : Z) (c c' : cpu) : Prop := {
  gi_gdtr : gdtr c' = mkTableRegister 55 GDT_BASE;
  gi_table : table_at (cpu_mem c') pg;
  gi_cs : cs c' = mkSegmentReg KERNEL_CODE_SELECTOR (flat_segment true 0);
  gi_data : [ds c'; es c'; fs c'; gs c'] = replicate 4 (mkSegmentReg KERNEL_DATA_SELECTOR (flat_segment false 0));
  gi_ss : ss c' = mkSegmentReg KERNEL_STACK_SELECTOR (flat_segment false 0);
  gi_eip : eip c' = load32 (cpu_mem c) ps;
  gi_esp : esp c' = esp c + 4;
  gi_regs : (ebx c', esi c', cr4 c', iflag c') = (ebx c, esi c, cr4 c, iflag c);
  gi_mach : mach c' = mach (set_mem (cpu_mem c') c);
  gi_kept : forall a, (a < pg \/ pg + 56 <= a) -> (a < ps - 18 \/ ps <= a) ->
    load8 (cpu_mem c') a = load8 (cpu_mem c) a
}.

Lemma install_gdt_ok {E : Encoding} (code : Z → option item) (T : Z → Prop) (va label wg ps pg : Z) (c : cpu) :
  install_ready code T va label wg ps pg c ->
  exists c', reaches code c 21 c' /\ gdt_installed ps pg c c'.
Proof.
  destruct c as [a b e i p ip s1 s2 s3 s4 s5 s6 g r4 f [w al pk m r3 r0]]. intros R.
  destruct (install_run code T va label wg ps pg a b e i p ip s1 s2 s3 s4 s5 s6 g r4 f w al pk m r3 r0 R)
    as (y & m' & Hr & Hk & Ht).
  eexists. split; [exact Hr|]. by split.
Qed.

(** C31: Every descriptor the code builds is flat: for each privilege level, code and data
    descriptors are present 32-bit segments from 0 to 4 GiB - 1 with that level,
    readable code and writable data; the table holds null, kernel code, data and
    stack, user code, data and stack in this order, and each selector names the
    entry its index constant names, with privilege 0. *)
Theorem gdt_descriptors_flat (p : PrivilegeLevel) :
  decode (segment_descriptor (SegmentDescriptor.flat_code p)) = flat_segment true (PrivilegeLevel_as_u8 p) ∧
  decode (segment_descriptor (SegmentDescriptor.flat_data p)) = flat_segment false (PrivilegeLevel_as_u8 p) ∧
  Z.of_nat (length Gdt.bootstrap) = GDT_ENTRY_COUNT ∧
  raw_descriptor <$> (Gdt.bootstrap !! Z.to_nat index.NULL) = Some 0 ∧
  (∀ i code dpl, (i, code, dpl) ∈
      [(index.KERNEL_CODE, true, 0); (index.KERNEL_DATA, false, 0); (index.KERNEL_STACK, false, 0);
       (index.USER_CODE, true, 3); (index.USER_DATA, false, 3); (index.USER_STACK, false, 3)] →
    (decode ∘ raw_descriptor) <$> (Gdt.bootstrap !! Z.to_nat i) = Some (flat_segment code dpl)) ∧
  KERNEL_CODE_SELECTOR = index.KERNEL_CODE * 8 ∧ KERNEL_DATA_SELECTOR = index.KERNEL_DATA * 8 ∧
  KERNEL_STACK_SELECTOR = index.KERNEL_STACK * 8.
Proof.
  split_and!; [by destruct p|by destruct p|done|done| |done|done|done].
  intros i code dpl Hin. repeat (apply elem_of_cons in Hin as [Hin|Hin]; [by simplify_eq|]). set_solver.
Qed.

(** C28: [install_gdt] does its job and nothing else, with paging off or with the table
    and 22 bytes around the stack pointer mapped: entered in ring 0 it runs through 20
    instructions and [write_gdt] without a fault, every segment load passes the
    processor's checks, the table is behind 0x800 with a matching register, [cs], the
    data registers and [ss] hold the kernel's selectors with flat segments behind them,
    control returns to the caller with the stack pointer it had before the call, the
    registers that carry the boot information are as they were, and no byte changes but
    the table and 18 bytes of scratch below the stack pointer. *)
Theorem install_gdt_correct {E : Encoding} (code : Z → option item) (T : Z → Prop) (va label wg ps pg : Z) (c : cpu) :
  install_ready code T va label wg ps pg c →
  ∃ c', (∀ fuel, run code (21 + fuel) c = run code fuel c') ∧ gdt_installed ps pg c c'.
Proof.
  intros R. destruct (install_gdt_ok code T va label wg ps pg c R) as (c' & Hr & Hi). exists c'. split; [|done].
  intros fuel. by apply run_reaches.
Qed.

(** Every instruction is given five bytes; the routine lies at 0x203000, [write_gdt] at
    0x203100, and the stack below 0x260FF0, paging being off. *)
#[local] Instance sample_encoding : Encoding.
Proof. refine {| isize _ := 5 |}. lia. Defined.

Definition sample_code : Z → option item :=
  code_map (layout 0x203000 (install_gdt 0x20305A 0x203100) ++ [(0x203100, Native (write_gdt_entry 0xBAD 0xBAD))]).

Definition sample_cpu : cpu :=
  let code := mkSegmentReg 0x08 (flat_segment true 0) in
  let data := mkSegmentReg 0x10 (flat_segment false 0) in
  mkCpu 0 0x9500 0 0x2BADB002 0x260FEC 0x203000 code data data data data data (mkTableRegister 0 0) 0 false
    (mkMachine VgaWriter.new FrameBitmap.new false (store32 ∅ 0x260FEC 0x201020) 0 0x11).

Lemma sample_cpu_ready :
  install_ready sample_code (fun _ => False) 0x203000 0x20305A 0x203100 0x260FEC GDT_BASE sample_cpu.
Proof.
  assert (Z.testbit (mc_cr0 (mach sample_cpu)) CR0_PG_BIT = false) as Hpg by reflexivity.
  split; try reflexivity.
  - exists 0x203000. split; [by exists 0|vm_compute; split; congruence|by apply unpaged_maps|].
    vm_compute. repeat split.
  - split; [lia|]. exists 0x203100, 0xBAD, 0xBAD. split; [by apply unpaged_maps|reflexivity].
  - by apply unpaged_pinned.
  - intros k _. by apply unpaged_maps.
  - vm_compute. split; congruence.
  - intros k _. by apply unpaged_maps.
  - right. vm_compute. congruence.
  - done.
  - split; by exists 0.
Qed.

Lemma install_gdt_correct_witness :
  ∃ c', (∀ fuel, run sample_code (21 + fuel) sample_cpu = run sample_code fuel c') ∧
    gdt_installed 0x260FEC GDT_BASE sample_cpu c'.
Proof.
  exact (install_gdt_correct sample_code (fun _ => False) 0x203000 0x20305A 0x203100 0x260FEC GDT_BASE sample_cpu
    sample_cpu_ready).
Defined.

(** C40: The stack is misaligned where [install_gdt] calls Rust code: from the 16-byte
    aligned stack pointer [boot.asm] arranges for its call, [write_gdt] is entered
    with its arguments at an address that is 14 modulo 16, not even a multiple of 4,
    where the ABI of an [extern] "C" function wants 0. *)
Theorem install_gdt_misaligned_call {E : Encoding} (code : Z → option item) (T : Z → Prop)
    (va label wg ps pg : Z) (c : cpu) :
  install_ready code T va label wg ps pg c → (esp c + 4) mod 16 = 0 →
  ∃ c', reaches code c 5 c' ∧ eip c' = wg ∧ (esp c' + 4) mod 16 = 14.
Proof.
  destruct c as [a b e i p ip s1 s2 s3 s4 s5 s6 g r4 f [w al pk m r3 r0]]. cbn [esp]. intros R Hal.
  destruct (install_frame code T va label wg ps pg a b e i p ip s1 s2 s3 s4 s5 s6 g r4 f w al pk m r3 r0 R) as [Hr _].
  eexists. split; [exact Hr|]. split; [reflexivity|]. cbn [esp]. zdiv.
Qed.

Lemma install_gdt_misaligned_call_witness :
  ∃ c', reaches sample_code sample_cpu 5 c' ∧ eip c' = 0x203100 ∧ (esp c' + 4) mod 16 = 14.
Proof.
  apply (install_gdt_misaligned_call sample_code (fun _ => False) 0x203000 0x20305A 0x203100 0x260FEC GDT_BASE sample_cpu
    sample_cpu_ready). reflexivity.
Defined.
