(* ===== verification/Stack.v ===== *)
(** * [src/stack.rs]: the bounds-checked stack dump *)

From S2P Require Import Prelude Rust Fmt Memory Address Layout Frame FrameSpec Paging Mmu AddressSpace Volatile Vga Machine Cpu.

#[local] Open Scope string_scope.
#[local] Open Scope Z_scope.

Section dump.
Context `{BuildProfile} {I : KernelImage}.

(** The loop body. *)
Definition dump_dword (addr i : Z) : M machine unit :=
  addr ← lift (offset ← usize_mul i 4; usize_add addr offset);
  value ← read_volatile addr;
  printk (hex_pad 10 addr ++ ": " ++ hex_pad 10 value ++ nl).

Definition dump_stack_from (addr dword_count : Z) : M machine unit :=
  printk "stack dump: ";;
  let misalignment := addr mod 4 in
  addr ← lift (usize_sub addr misalignment);
  let sb := stack_bottom_addr in
  let st := stack_top_addr in
  if (addr <? sb) || (st <=? addr) then
    printk (hex_pad 10 addr ++ " not within stack bounds " ++ hex_pad 10 sb ++ "-" ++ hex_pad 10 st ++ nl)
  else
    room ← lift (usize_sub st addr);
    let available_dwords := room / 4 in
    let dword_count := Z.min dword_count available_dwords in
    printk (dec dword_count ++ "/" ++ dec available_dwords);;
    (if misalignment =? 0 then mret tt
     else start ← lift (usize_add addr misalignment);
          printk (" misaligned start address " ++ hex_pad 10 start));;
    printk nl;;
    for_in (range 0 dword_count) (dump_dword addr).

End dump.

(** [current_esp!] and [dump_stack!] *)
Definition current_esp : M cpu Z := reads (fun c => Ok (esp c)).

Definition dump_stack `{BuildProfile} {I : KernelImage} (dword_count : Z) : M cpu unit :=
  esp ← current_esp;
  zoom (T := machine) (dump_stack_from esp dword_count).

(** ** What the dump prints *)

(** The word at an address of the high half. *)
Definition stack_word (m : mem) (va : Z) : Z := load32 m (va - KERNEL_VIRTUAL_BASE).

Definition dword_line (m : mem) (addr i : Z) : string :=
  hex_pad 10 (addr + i * 4) ++ ": " ++ hex_pad 10 (stack_word m (addr + i * 4)) ++ nl.

Definition dump_text {I : KernelImage} (m : mem) (addr dword_count : Z) : string :=
  let a := addr - addr mod 4 in
  "stack dump: " ++
  (if (a <? stack_bottom) || (stack_top <=? a) then
     hex_pad 10 a ++ " not within stack bounds " ++ hex_pad 10 stack_bottom ++ "-" ++ hex_pad 10 stack_top ++ nl
   else
     let available := (stack_top - a) / 4 in
     let n := Z.min dword_count available in
     (dec n ++ "/" ++ dec available) ++
     (if addr mod 4 =? 0 then "" else " misaligned start address " ++ hex_pad 10 addr) ++
     nl ++ lines (dword_line m a <$> range 0 n)).

(** The stack's pages are mapped to the memory the image is loaded at, whatever the
    text buffer holds. *)
Definition stack_mapped {I : KernelImage} (s : machine) : Prop :=
  forall m', confined (mc_mem s) m' -> forall va, stack_bottom <= va < stack_top ->
    exists t, walk m' (mc_cr3 s) va = Some t /\ tr_phys t = va - KERNEL_VIRTUAL_BASE.

Section dump_ok.
Context {P : BuildProfile} {I : KernelImage} {HI : ImageOk I}.

Lemma stack_mapped_step s s' : console_step s s' -> stack_mapped s -> stack_mapped s'.
Proof.
  intros [] Hm m' Hc va Hva. rewrite cstep_cr3. apply Hm; [|done]. by transitivity (mc_mem s').
Qed.

Lemma stack_word_step s s' va :
  console_step s s' -> stack_bottom <= va -> stack_word (mc_mem s') va = stack_word (mc_mem s) va.
Proof.
  intros Hs Hva. destruct HI. unfold stack_word, KERNEL_VIRTUAL_BASE in *.
  apply load_le_ext. intros b Hb. apply (cstep_mem _ _ Hs). unfold VGA_BUFFER. lia.
Qed.

(** Printing does not change what is on the stack. *)
Lemma dump_text_step s s' addr count :
  console_step s s' -> dump_text (mc_mem s') addr count = dump_text (mc_mem s) addr count.
Proof.
  intros Hs. unfold dump_text. cbv zeta. set (a := addr - addr mod 4). f_equal.
  destruct (Z.ltb_spec a stack_bottom), (Z.leb_spec stack_top a); cbn [orb]; try done.
  do 4 f_equal. apply list_fmap_ext. intros j i Hi. unfold range in Hi. apply lookup_seqZ in Hi as [-> _].
  unfold dword_line. by rewrite (stack_word_step s s') by (done || lia).
Qed.

Lemma dump_dword_ok k addr i s s' :
  stack_bottom <= addr + i * 4 < stack_top -> 0 <= addr -> 0 <= i < 2 ^ 30 ->
  console_ok k s' -> stack_mapped s' -> console_step s s' ->
  exists s'', dump_dword addr i s' = (Ok tt, s'') /\ printed (styled k (dword_line (mc_mem s) addr i)) s' s''.
Proof.
  intros Hin Ha Hi Hok Hm Hs. unfold dump_dword. pose proof HI as HI'. destruct HI'. unfold KERNEL_VIRTUAL_BASE in *.
  rewrite usize_mul_ok, ok_bind, usize_add_ok, bind_lift by lia.
  destruct (Hm (mc_mem s') (reflexivity _) _ Hin) as (t & Ht & Hp).
  assert (read_volatile (addr + i * 4) s' = (Ok (stack_word (mc_mem s) (addr + i * 4)), s')) as Er.
  { rewrite <- (stack_word_step s s') by (done || lia). unfold read_volatile, reads. by rewrite Ht, Hp. }
  rewrite (bind_ok _ _ _ _ _ Er). by apply printk_at.
Qed.

Lemma dump_stack_ok k addr count s :
  u32_range addr -> 0 <= count -> console_ok k s -> stack_mapped s ->
  exists s', dump_stack_from addr count s = (Ok tt, s') /\ printed (styled k (dump_text (mc_mem s) addr count)) s s'.
Proof.
  intros Ha Hcount Hok Hm. pose proof HI as HI'. destruct HI'. unfold KERNEL_VIRTUAL_BASE in *.
  unfold dump_stack_from, dump_text. cbv zeta. rewrite styled_app.
  assert (forall s', console_step s s' -> console_ok k s') as Hok' by (intros; by apply (console_ok_step k s)).
  apply printed_seq; [by apply printk_at|]. intros s1 [H1 _].
  rewrite usize_sub_ok, bind_lift by zdiv. set (a := addr - addr mod 4).
  assert (0 <= a /\ a mod 4 = 0) as [Ha0 Ha4] by (subst a; zdiv).
  unfold stack_bottom_addr, stack_top_addr.
  destruct (Z.ltb_spec a stack_bottom), (Z.leb_spec stack_top a); cbn [orb]; try (by apply printk_at, Hok').
  rewrite usize_sub_ok, bind_lift by lia. rewrite !styled_app.
  rewrite <- !styled_app, (styled_app k (dec _ ++ _)).
  apply printed_seq; [by apply printk_at, Hok'|]. intros s2 [H2 _].
  assert (console_step s s2) as H02 by (by transitivity s1). rewrite styled_app.
  apply printed_seq.
  { destruct (addr mod 4 =? 0); [exists s2; split; [done|apply printed_nil]|].
    replace (a + addr mod 4) with addr by (subst a; lia). rewrite usize_add_ok, bind_lift by (subst a; zdiv).
    replace (a + addr mod 4) with addr by (subst a; lia). by apply printk_at, Hok'. }
  intros s3 [H3 _]. assert (console_step s s3) as H03 by (by transitivity s2). rewrite styled_app.
  apply printed_seq; [by apply printk_at, Hok'|]. intros s4 [H4 _].
  assert (console_step s s4) as H04 by (by transitivity s3).
  set (n := Z.min count ((stack_top - a) / 4)). assert (0 <= n /\ a + n * 4 <= stack_top) as [Hn Hlast] by (subst n; zdiv).
  rewrite styled_lines. apply printed_for_in. intros i s' Hi Hs.
  unfold range in Hi. apply elem_of_seqZ in Hi. assert (console_step s s') by (by transitivity s4).
  apply dump_dword_ok; [lia|lia|lia|by apply Hok'|by apply (stack_mapped_step s)|done].
Qed.

End dump_ok.

(** The bootstrap directory maps the stack, as long as it is not in the text buffer. *)
Lemma bootstrap_stack_mapped {I : KernelImage} {HI : ImageOk I} (s : machine) :
  u32_range (mc_cr3 s) -> mc_cr3 s mod 4096 = 0 -> mc_cr3 s <> VGA_BUFFER ->
  directory_at (mc_mem s) (mc_cr3 s) boot_entries -> stack_mapped s.
Proof.
  intros Hcr Hal Hne Hdir m' Hc va Hva. destruct HI. unfold KERNEL_VIRTUAL_BASE in *.
  rewrite (bootstrap_walk m' (mc_cr3 s) va Hcr Hal); [|..|lia].
  - unfold bootstrap_space, KERNEL_VIRTUAL_BASE.
    destruct (Z.leb_spec 3221225472 va), (Z.ltb_spec va (3221225472 + 4194304)); try lia.
    rewrite orb_true_r. eexists. split; [reflexivity|]. cbn [tr_phys]. zdiv.
  - intros i e Hi. rewrite <- (Hdir i e Hi). apply load_le_ext. intros b Hb. apply Hc.
    apply lookup_lt_Some in Hi. unfold boot_entries in Hi. rewrite !length_insert, length_replicate in Hi.
    unfold VGA_BUFFER in *. zdiv.
Qed.

(** And the text buffer. *)
Lemma bootstrap_screen_mapped (s : machine) :
  u32_range (mc_cr3 s) -> mc_cr3 s mod 4096 = 0 -> mc_cr3 s <> VGA_BUFFER ->
  directory_at (mc_mem s) (mc_cr3 s) boot_entries -> text_buffer_mapped s = true.
Proof.
  intros Hcr Hal Hne Hdir. unfold text_buffer_mapped, identity_page. apply andb_true_intro. split.
  { rewrite (bootstrap_walk _ _ VGA_BUFFER Hcr Hal Hdir) by (unfold VGA_BUFFER; lia). by unfold bootstrap_space, VGA_BUFFER. }
  unfold walk_frames. cbv zeta. rewrite address_mask_div by done.
  replace (mc_cr3 s / 4096 * 4096 + 4 * VirtAddr.pd_index (VirtAddr.new VGA_BUFFER)) with (mc_cr3 s + 4 * Z.of_nat 0)
    by (change (VirtAddr.pd_index (VirtAddr.new VGA_BUFFER)) with 0; zdiv).
  rewrite (Hdir 0%nat (mkPDE 0x83) eq_refl). cbn [pde_raw]. rewrite table_frame_div by done.
  cbn [FrameNumber.index frame_index forallb]. unfold VGA_BUFFER in *. rewrite (proj2 (Z.eqb_neq _ _)) by zdiv. reflexivity.
Qed.

(** C30: The stack dump is safe and right at any address: for every start address and
    count it returns without a panic or a page fault when of all memory only the stack
    and the text buffer are known to be mapped, so it reads nothing outside
    [[stack_bottom, stack_top)]; it prints exactly the report of [dump_text], with the words that lie on the stack, at most [dword_count]
    of them and none past the top, or the diagnostic line when the start is not on the
    stack; and it changes nothing but the console. *)
Theorem dump_stack_bounded `{BuildProfile} {I : KernelImage} (addr dword_count : Z) (s : machine) :
  ImageOk I → u32_range addr → 0 <= dword_count → screen_ok s → stack_mapped s →
  ∃ s', dump_stack_from addr dword_count s = (Ok tt, s') ∧ console_step s s' ∧
    machine_term s' =
      foldl term_emit (machine_term s) (styled (color (mc_writer s)) (dump_text (mc_mem s) addr dword_count)).
Proof.
  intros HI Ha Hc Hw Hm.
  destruct (dump_stack_ok (color (mc_writer s)) addr dword_count s Ha Hc (conj Hw eq_refl) Hm) as (s' & E & [Hs Ht]).
  by exists s'.
Qed.

(** The kernel just entered, on the bootstrap directory. *)
Definition booted_machine : machine :=
  mkMachine VgaWriter.new FrameBitmap.new false booted_mem 0x201000 0x80000011.

Lemma booted_machine_stack : @stack_mapped (link sample_sections) booted_machine.
Proof.
  apply (@bootstrap_stack_mapped _ sample_image_ok); cbn [booted_machine mc_cr3 mc_mem].
  - lia.
  - reflexivity.
  - unfold VGA_BUFFER. lia.
  - apply booted_directory.
Qed.

Lemma booted_machine_screen : screen_ok booted_machine.
Proof.
  split; [split; simpl; lia|]. apply bootstrap_screen_mapped; cbn [booted_machine mc_cr3 mc_mem].
  - lia.
  - reflexivity.
  - unfold VGA_BUFFER. lia.
  - apply booted_directory.
Qed.

Lemma dump_stack_bounded_witness :
  ∃ s', @dump_stack_from dev (link sample_sections) 0xC0240001 16 booted_machine = (Ok tt, s') ∧
    console_step booted_machine s' ∧
    machine_term s' = foldl term_emit (machine_term booted_machine)
      (styled 15 (@dump_text (link sample_sections) booted_mem 0xC0240001 16)).
Proof.
  exact (@dump_stack_bounded dev (link sample_sections) 0xC0240001 16 booted_machine sample_image_ok
    ltac:(lia) ltac:(lia) booted_machine_screen booted_machine_stack).
Defined.
