(* ===== verification/Kernel.v ===== *)
(** * [src/lib.rs], [src/memory/mod.rs] and [print_memory_map]: the boot path

    [kernel_main] from the Multiboot hand-off to the idle loop, with the panic
    handler; the endings that never return (the idle loop, the halt loop) are the
    return of the model.  The end-to-end theorem puts the components together. *)

From S2P Require Import Prelude Rust Bits Fmt Memory Address Layout Multiboot Frame FrameSpec.
From S2P Require Import Paging Mmu AddressSpace Volatile Vga Machine Cpu Stack.

#[local] Open Scope string_scope.
#[local] Open Scope Z_scope.

Section kernel.
Context `{BuildProfile} {I : KernelImage}.

(** ** [multiboot::print_memory_map] *)

Definition region_line (region : MemoryRegion) : string :=
  let base := MemoryRegion.base region in
  let stop := saturating_add 64 base (MemoryRegion.length region) in
  let kib := MemoryRegion.length region / 1024 in
  "  [" ++ hex_pad 12 base ++ ", " ++ hex_pad 12 stop ++ ") " ++ dec_right 9 kib ++ " KiB  " ++
  RegionKind.fmt (MemoryRegion.kind region) ++ nl.

(** The loop over the map, with [usable_bytes]; one unit of fuel per call of [next]. *)
Fixpoint print_regions (fuel : nat) (map : MapRef) (usable_bytes : Z) : M machine Z :=
  match fuel with
  | O => lift OutOfFuel
  | S fuel =>
      item ← reads (fun s => MapRef.next (mc_mem s) map);
      match item with
      | None => mret usable_bytes
      | Some (region, map) =>
          printk (region_line region);;
          usable_bytes ← lift
            (if MemoryRegion.is_available region then
               bytes ← MemoryRegion.addressable_bytes region; u64_add usable_bytes bytes
             else Ok usable_bytes);
          print_regions fuel map usable_bytes
      end
  end.

(** The loader's pointers are physical addresses, dereferenced through the directory
    in use: every page of the bytes must be mapped to itself, or the access faults. *)
Definition identity_mapped (s : machine) (addr n : Z) : bool :=
  forallb (fun p => identity_page (mc_mem s) (mc_cr3 s) (mc_cr0 s) false (p * 4096))
    (range (addr / 4096) ((addr + n + 4095) / 4096)).

(** [info.memory_map()]: [info] is the address of the structure, whose fields are read
    when they are used.  The pages of the buffer are checked here for all of its reads:
    nothing changes the directory while the reference lives. *)
Definition memory_map_of (info : Z) : M machine (option MapRef) :=
  reads (fun s =>
    if identity_mapped s info 52 then
      map ← MultibootInfo.memory_map (read_info (mc_mem s) info);
      match map with
      | None => Ok None
      | Some buf =>
          if identity_mapped s (ref_addr buf) (ref_len buf) then Ok map
          else Panic (CpuException 14)
      end
    else Panic (CpuException 14)).

Definition print_memory_map (info : Z) : M machine unit :=
  map ← memory_map_of info;
  match map with
  | None => printk_color (Color.as_u8 Yellow) ("multiboot: no memory map provided" ++ nl)
  | Some map =>
      printk ("multiboot memory map:" ++ nl);;
      usable_bytes ← print_regions (MapRef.fuel map) map 0;
      printk ("usable RAM: " ++ dec (usable_bytes / 1024) ++ " KiB" ++ nl)
  end.

(** ** [memory::init] *)

Definition no_memory_map : string :=
  "multiboot supplied no memory map; cannot build the frame allocator".

(** [allocator.init] writes only the allocator, so the bytes it walks are those the map
    has when it is called. *)
Definition memory_init (info : Z) : M machine unit :=
  map ← memory_map_of info;
  map ← lift (expect no_memory_map map);
  map ← reads (fun s => Ok (MapRef.view (mc_mem s) map));
  zoom (T := paging_state FrameBitmap) (zoom (T := FrameBitmap) (FrameBitmap.init map);; Paging.init).

(** ** [kernel_main] and the panic handler *)

Definition kernel_main (magic info : Z) : M machine unit :=
  if negb (magic =? BOOTLOADER_MAGIC) then
    lift (Panic (Message ("not booted by a multiboot loader: magic=" ++ hex magic)))
  else
    lift (deref_check align_of_MultibootInfo info);;
    on_screen VgaWriter.clear;;
    printk ("zkrnl32 booting" ++ nl);;
    print_memory_map info;;
    memory_init info;;
    printk ("memory: paging active, frame allocator online" ++ nl).

(** [PANICKING.swap(true)] *)
Definition swap_panicking : M machine bool := fun s =>
  (Ok (mc_panicking s), mkMachine (mc_writer s) (mc_alloc s) true (mc_mem s) (mc_cr3 s) (mc_cr0 s)).

(** [info] is the rendered [PanicInfo]; the halt loop is run once. *)
Definition panic (info : string) : M cpu unit :=
  already ← zoom (T := machine) swap_panicking;
  (if already : bool then mret tt
   else
     zoom (T := machine) (printk_color (Color.on White Red) (nl ++ "KERNEL PANIC" ++ nl ++ info ++ nl));;
     dump_stack 16);;
  exec Cli;;
  exec Hlt.

End kernel.

(** ** The memory-map report *)

(** The usable bytes of a list of regions. *)
Definition usable_total (rs : list MemoryRegion) : Z :=
  foldr (fun r acc => (if MemoryRegion.is_available r then usable_part r else 0) + acc) 0 rs.

(** The lines of the report, and the text of the whole boot path. *)
Definition region_lines (rs : list MemoryRegion) : string := lines (region_line <$> rs).

Definition no_map_line : string := "multiboot: no memory map provided" ++ nl.

Definition map_report (rs : list MemoryRegion) : string :=
  ("multiboot memory map:" ++ nl) ++ region_lines rs ++
  ("usable RAM: " ++ dec (usable_total rs / 1024) ++ " KiB" ++ nl).

Definition boot_text (rs : list MemoryRegion) : string :=
  ("zkrnl32 booting" ++ nl) ++ map_report rs ++ ("memory: paging active, frame allocator online" ++ nl).

(** The buffer is not under the text buffer, so printing does not change its bytes. *)
Definition ref_clear (r : MapRef) : Prop := ref_addr r + ref_len r <= VGA_BUFFER \/ VGA_BUFFER + 4000 <= ref_addr r.

Lemma view_step (r : MapRef) (s s' : machine) :
  ref_clear r -> console_step s s' -> MapRef.view (mc_mem s') r = MapRef.view (mc_mem s) r.
Proof.
  intros Hc Hs. unfold MapRef.view. f_equal. apply load_bytes_ext. intros a Ha. apply (cstep_mem _ _ Hs).
  unfold ref_clear in Hc. lia.
Qed.

Lemma print_regions_ok `{BuildProfile} (k : Z) (fuel : nat) (map : MapRef) (usable : Z) (s : machine) :
  ref_clear map -> 0 <= ref_offset map ->
  0 <= usable -> usable + 2 ^ 32 * Z.of_nat fuel < 2 ^ 64 -> console_ok k s ->
  exists s', print_regions fuel map usable s =
      (rs ← collect MemoryMap.next fuel (MapRef.view (mc_mem s) map); Ok (usable + usable_total rs), s') /\ console_step s s' /\
    forall rs, collect MemoryMap.next fuel (MapRef.view (mc_mem s) map) = Ok rs -> printed (styled k (region_lines rs)) s s'.
Proof.
  revert map usable s. induction fuel as [|fuel IH]; intros map usable s Hclear Hoff Hu Hmax Hok; [by exists s|].
  cbn [print_regions]. rewrite collect_S. unfold MapRef.next. set (v := MapRef.view (mc_mem s) map).
  destruct (next_cases v (load_bytes_bytes _ _ _) Hoff) as [[_ E]|(_ & e & He & Hb & Hl & E)].
  { exists s. rewrite E. erewrite bind_reads by (unfold v in E; by rewrite E). cbn. rewrite Z.add_0_r. split_and!; [done|done|].
    intros rs [= <-]. apply printed_nil. }
  rewrite E. destruct (usize_add (entry_size e) 4) as [stride|p|] eqn:Es;
    [|by exists s; unfold mbind at 1, M_bind, reads; unfold v in E; rewrite E..].
  assert (0 <= stride).
  { unfold usize_add, arith in Es. destruct (_ && _) eqn:Eb; [simplify_eq; lia|].
    destruct debug_build; simplify_eq. apply Z.mod_pos_bound. lia. }
  rewrite !ok_bind. erewrite bind_reads by (unfold v in E; by rewrite E, !ok_bind). cbn [mbind option_bind].
  set (map1 := {| ref_addr := ref_addr map; ref_len := _; ref_offset := _ |}).
  destruct (printk_at k (region_line (region_of e)) s Hok) as (s1 & E1 & H1). rewrite (bind_ok _ _ _ _ _ E1).
  destruct (addressable_bytes_ok (region_of e) Hb Hl) as [Ea Hr].
  set (part := if MemoryRegion.is_available (region_of e) then usable_part (region_of e) else 0).
  assert (0 <= part <= 2 ^ 32) as Hp by (subst part; destruct (MemoryRegion.is_available _); lia).
  assert ((if MemoryRegion.is_available (region_of e)
    then bytes ← MemoryRegion.addressable_bytes (region_of e); u64_add usable bytes else Ok usable) = Ok (usable + part)) as ->.
  { subst part. destruct (MemoryRegion.is_available _); [|by rewrite Z.add_0_r].
    rewrite Ea, ok_bind. apply arith_ok. lia. }
  rewrite bind_lift. destruct (IH map1 (usable + part) s1) as (s2 & E2 & H2 & Hp2);
    [done|subst map1 v; cbn [ref_offset map_offset MapRef.view]; unfold saturating_add; lia|lia|lia|by apply (console_ok_step k s); [apply H1|]|].
  rewrite (view_step map1 s s1 Hclear (pr_step _ _ _ H1)) in E2, Hp2.
  change (MapRef.view (mc_mem s) map1) with {| map_buf := map_buf v; map_offset := saturating_add 32 (map_offset v) stride |} in E2, Hp2.
  exists s2. rewrite E2. split_and!; [|transitivity s1; [apply H1|done]|].
  - destruct (collect MemoryMap.next fuel _) as [rs| |]; [|done|done]. cbn. unfold usable_total. cbn [foldr].
    fold part. by rewrite Z.add_assoc.
  - destruct (collect MemoryMap.next fuel _) as [rs| |]; [|done|done]. intros ? [= <-].
    unfold region_lines. csimpl. cbn [lines foldr]. rewrite styled_app. by apply (printed_app _ _ _ s1); [|apply Hp2].
Qed.

(** ** The state the boot stub leaves *)

(** The console's cursor is on the screen, the allocator is as the image holds it, and
    [CR3] points at the bootstrap directory, which is part of the loaded image. *)
Record boot_ready {I : KernelImage} (s : machine) : Prop := {
  br_writer : writer_ok (mc_writer s);
  br_alloc : mc_alloc s = FrameBitmap.new;
  br_cr3 : kernel_phys_start <= mc_cr3 s /\ mc_cr3 s + 4096 <= kernel_phys_end;
  br_aligned : mc_cr3 s mod 4096 = 0;
  br_dir : directory_at (mc_mem s) (mc_cr3 s) boot_entries
}.

(** The loader's structures lie in the memory the bootstrap directory maps, and the
    information structure not under the text buffer. *)
Record in_reach (s : machine) (info : Z) : Prop := {
  ir_info : 0 <= info /\ info + 52 <= 0x400000;
  ir_clear : info + 52 <= VGA_BUFFER \/ VGA_BUFFER + 4000 <= info;
  ir_map : let i := read_info (mc_mem s) info in info_mmap_addr i + info_mmap_length i <= 0x400000
}.

(** And its pointers are valid: the structure is aligned and neither it nor the map it
    announces is at address 0. *)
Record handoff (s : machine) (info : Z) : Prop := {
  ho_reach : in_reach s info;
  ho_info : info <> 0 /\ info mod align_of_MultibootInfo = 0;
  ho_map : let i := read_info (mc_mem s) info in MultibootInfo.map_ref i <> None -> info_mmap_addr i <> 0
}.

(** The memory map the structure describes. *)
Definition map_of (s : machine) (info : Z) : option MemoryMap :=
  MapRef.view (mc_mem s) <$> MultibootInfo.map_ref (read_info (mc_mem s) info).

Section boot.
Context {P : BuildProfile} {I : KernelImage} {HI : ImageOk I}.

Lemma boot_ready_step s s' : console_step s s' -> boot_ready s -> boot_ready s'.
Proof.
  intros [Hw Hcol Ha Hp H3 H0 Hm] [Rw Ra Rc Ral Rd]. destruct HI.
  split; rewrite ?H3, ?Ha; auto. intros i e Hi. rewrite <- (Rd i e Hi). apply load_le_ext.
  intros b Hb. apply Hm. unfold VGA_BUFFER. lia.
Qed.

Lemma boot_ready_stack s : boot_ready s -> stack_mapped s.
Proof.
  intros [Rw Ra Rc Ral Rd]. pose proof HI as HI'. destruct HI'. unfold KERNEL_VIRTUAL_BASE in *.
  apply bootstrap_stack_mapped; [lia|done|unfold VGA_BUFFER; lia|done].
Qed.

Lemma boot_ready_screen s : boot_ready s -> screen_ok s.
Proof.
  intros [Rw Ra Rc Ral Rd]. split; [done|]. pose proof HI as HI'. destruct HI'. unfold KERNEL_VIRTUAL_BASE in *.
  apply bootstrap_screen_mapped; [lia|done|unfold VGA_BUFFER; lia|done].
Qed.

(** The allocator does not own the bootstrap directory when it keeps the image. *)
Lemma boot_ready_paging s b :
  boot_ready s ->
  (forall f, kernel_phys_start <= f * FRAME_SIZE < kernel_phys_end -> frame_free b f = false) ->
  on_bootstrap (mkPagingState b (mc_mem s) (mc_cr3 s) (mc_cr0 s)).
Proof.
  intros [Rw Ra Rc Ral Rd] Himg. pose proof HI as HI'. destruct HI'. unfold KERNEL_VIRTUAL_BASE in *.
  split; cbn [ps_mem ps_cr3 ps_alloc]; [done|lia|done|]. change (frame_free b (mc_cr3 s / 4096) = false).
  apply Himg; unfold FRAME_SIZE; zdiv.
Qed.

Lemma read_info_ext (m m' : mem) info :
  (forall a, info <= a < info + 52 -> load8 m' a = load8 m a) -> read_info m' info = read_info m info.
Proof.
  intros Hm. assert (forall k, 0 <= k <= 48 -> load32 m' (info + k) = load32 m (info + k)) as Hl.
  { intros k Hk. apply load_le_ext. intros b Hb. apply Hm. lia. }
  rewrite !(proj2 (read_info_offsets _ info)), (Hl 44), (Hl 48) by lia. f_equal.
  - specialize (Hl 0). rewrite Z.add_0_r in Hl. apply Hl. lia.
  - apply list_fmap_ext. intros i x Hx. apply lookup_seqZ in Hx as [-> ?].
    rewrite <- !Z.add_assoc. apply Hl. lia.
Qed.

Lemma read_info_step s s' info : console_step s s' -> in_reach s info ->
  read_info (mc_mem s') info = read_info (mc_mem s) info.
Proof.
  intros Hs [_ Hclear _]. apply read_info_ext. intros a Ha. apply (cstep_mem _ _ Hs). unfold VGA_BUFFER in *. lia.
Qed.

(** The map depends on the structure and on the bytes it points at. *)
Lemma map_of_ext s s' info :
  read_info (mc_mem s') info = read_info (mc_mem s) info ->
  (let i := read_info (mc_mem s) info in forall a, info_mmap_addr i <= a < info_mmap_addr i + info_mmap_length i ->
    load8 (mc_mem s') a = load8 (mc_mem s) a) ->
  map_of s' info = map_of s info.
Proof.
  cbv zeta. intros E Hm. unfold map_of, MultibootInfo.map_ref. rewrite E. destruct (_ =? 0); [done|].
  cbn. unfold MapRef.view. do 2 f_equal. by apply load_bytes_ext.
Qed.

Lemma in_reach_step s s' info : console_step s s' -> in_reach s info -> in_reach s' info.
Proof.
  intros Hs Hh. pose proof (read_info_step _ _ _ Hs Hh) as E. destruct Hh. split; [done|done|by rewrite E].
Qed.

Lemma handoff_step s s' info : console_step s s' -> handoff s info -> handoff s' info.
Proof.
  intros Hs [Hr Hi Hm]. split; [by apply (in_reach_step s)|done|]. by rewrite (read_info_step _ _ _ Hs Hr).
Qed.

Lemma identity_mapped_boot s addr n :
  boot_ready s -> 0 <= addr -> addr + n <= 0x400000 -> identity_mapped s addr n = true.
Proof.
  intros [Rw Ra Rc Ral Rd] Ha Hn. destruct HI. unfold KERNEL_VIRTUAL_BASE in *.
  unfold identity_mapped. apply forallb_forall. intros p Hp%list_elem_of_In.
  unfold range in Hp. apply elem_of_seqZ in Hp.
  assert (0 <= p * 4096 < 0x400000) as Hr by zdiv.
  assert (u32_range (mc_cr3 s)) as Hcr by lia.
  unfold identity_page. rewrite (bootstrap_walk _ _ _ Hcr Ral Rd) by lia. unfold bootstrap_space.
  rewrite (proj2 (Z.ltb_lt _ _)) by lia. cbn [orb tr_phys]. by rewrite Z.mod_small, Z.eqb_refl by lia.
Qed.

(** [memory_map] on a structure in reach: its checks, and the reference. *)
Lemma memory_map_of_run s info :
  boot_ready s -> in_reach s info -> memory_map_of info s = (MultibootInfo.memory_map (read_info (mc_mem s) info), s).
Proof.
  intros Hb [Hi Hc Hm]. unfold memory_map_of, reads. rewrite identity_mapped_boot by (done || lia).
  unfold MultibootInfo.memory_map. destruct (_ =? 0); [done|]. destruct (from_raw_parts_check _ _); [|done|done]. cbn [mbind outcome_bind].
  rewrite identity_mapped_boot; [done|done| |done]. apply (load_le_bound 4). lia.
Qed.

Lemma memory_map_of_ok s info :
  boot_ready s -> handoff s info ->
  memory_map_of info s = (Ok (MultibootInfo.map_ref (read_info (mc_mem s) info)), s).
Proof.
  intros Hb [Hr Hi Hm]. rewrite memory_map_of_run by done. destruct Hr as [_ _ Hr]. revert Hr Hm. cbv zeta.
  unfold MultibootInfo.memory_map, MultibootInfo.map_ref. intros Hr Hm.
  destruct (_ =? 0); [done|]. rewrite from_raw_parts_check_ok; [done|by apply Hm|].
  pose proof (load_le_bound 4 (mc_mem s) (info + offset_of info_sizes 3)) as Hb4. cbn [read_info info_mmap_addr info_mmap_length] in *. lia.
Qed.

(** What the walk of a map in memory starts from. *)
Lemma map_of_wf s info map :
  map_of s info = Some map ->
  Forall (fun b => 0 <= b < 2 ^ 8) (map_buf map) /\ map_offset map = 0 /\ Z.of_nat (length (map_buf map)) < 2 ^ 32.
Proof.
  unfold map_of, MultibootInfo.map_ref. destruct (_ =? 0); [done|]. intros ?. simplify_eq/=.
  split; [apply load_bytes_bytes|]. split; [done|]. rewrite length_load_bytes.
  pose proof (load_le_bound 4 (mc_mem s) (info + offset_of info_sizes 2)). lia.
Qed.

(** The map is still there after printing, unless it lies under the text buffer. *)
Definition map_clear (s : machine) (info : Z) : Prop :=
  let i := read_info (mc_mem s) info in
  info_mmap_addr i + info_mmap_length i <= VGA_BUFFER \/ VGA_BUFFER + 4000 <= info_mmap_addr i.

(** The reference behind a map, and that it is walked with the same fuel. *)
Lemma map_of_ref s info map :
  map_clear s info -> map_of s info = Some map ->
  exists r, MultibootInfo.map_ref (read_info (mc_mem s) info) = Some r /\ MapRef.view (mc_mem s) r = map /\
    ref_clear r /\ ref_offset r = 0 /\ MapRef.fuel r = MemoryMap.fuel map.
Proof.
  unfold map_of, map_clear, MultibootInfo.map_ref. intros Hc. destruct (_ =? 0); [done|]. intros [= <-].
  eexists. split_and!; [done|done|done|done|]. unfold MapRef.fuel, MemoryMap.fuel. cbn [ref_len map_buf MapRef.view].
  rewrite length_load_bytes, Z2Nat.id; [done|]. apply (load_le_bound 4). lia.
Qed.

Lemma map_of_some s info map :
  map_of s info = Some map ->
  exists r, MultibootInfo.map_ref (read_info (mc_mem s) info) = Some r /\ MapRef.view (mc_mem s) r = map.
Proof. unfold map_of. destruct (MultibootInfo.map_ref _) as [r|]; [|done]. intros [= <-]. by exists r. Qed.

Lemma map_of_none s info : map_of s info = None -> MultibootInfo.map_ref (read_info (mc_mem s) info) = None.
Proof. unfold map_of. by destruct (MultibootInfo.map_ref _). Qed.

Lemma print_memory_map_ok k s info :
  boot_ready s -> handoff s info -> map_of s info = None \/ map_clear s info -> color (mc_writer s) = k ->
  exists s', print_memory_map info s =
      (match map_of s info with None => Ok tt | Some map => MemoryMap.regions map ≫= fun _ => Ok tt end, s') /\
    console_step s s' /\
    (forall map rs, map_of s info = Some map -> MemoryMap.regions map = Ok rs -> printed (styled k (map_report rs)) s s') /\
    (map_of s info = None -> printed (styled (Color.as_u8 Yellow) no_map_line) s s').
Proof.
  intros Hb Hh Hc Hk. assert (console_ok k s) as Hok by (by split; [apply boot_ready_screen|]).
  unfold print_memory_map. rewrite (bind_ok _ _ _ _ _ (memory_map_of_ok _ _ Hb Hh)).
  destruct (map_of s info) as [map|] eqn:Em; cycle 1.
  { rewrite (map_of_none _ _ Em). destruct (printk_color_ok (Color.as_u8 Yellow) ("multiboot: no memory map provided" ++ nl) s (boot_ready_screen _ Hb) ltac:(done))
      as (s' & E & Hs). exists s'. split_and!; [done|apply Hs|done|done]. }
  destruct Hc as [?|Hc]; [congruence|]. destruct (map_of_ref _ _ _ Hc Em) as (r & -> & Hview & Hclear & Hoff & Hfuel). rewrite Hfuel.
  apply map_of_wf in Em as (_ & _ & Hlen).
  destruct (printk_at k ("multiboot memory map:" ++ nl) s Hok) as (s1 & E1 & H1). rewrite (bind_ok _ _ _ _ _ E1).
  pose proof (console_ok_step k s s1 (pr_step _ _ _ H1) Hok) as Hok1.
  destruct (print_regions_ok k (MemoryMap.fuel map) r 0 s1 Hclear) as (s2 & E2 & H2 & Hp2);
    [lia|lia|unfold MemoryMap.fuel; zdiv|done|].
  rewrite (view_step r s s1 Hclear (pr_step _ _ _ H1)), Hview in E2, Hp2.
  assert (console_step s s2) as H02 by (by transitivity s1; [apply H1|]).
  fold (MemoryMap.regions map) in E2, Hp2. destruct (MemoryMap.regions map) as [rs|p|] eqn:Ers; cbn in E2 |- *.
  - rewrite (bind_ok _ _ _ _ _ E2).
    destruct (printk_at k ("usable RAM: " ++ dec ((0 + usable_total rs) / 1024) ++ " KiB" ++ nl) s2) as (s3 & E3 & H3).
    { by apply (console_ok_step k s). }
    exists s3. split; [exact E3|]. split; [transitivity s2; [done|apply H3]|]. split; [|done]. intros ? rs' [= <-] Hrs'.
    rewrite Ers in Hrs'. injection Hrs' as <-. unfold map_report. rewrite styled_app. apply (printed_app _ _ _ s1); [done|]. rewrite styled_app.
    by apply (printed_app _ _ _ s2); [apply Hp2|].
  - exists s2. rewrite (bind_panic _ _ _ _ _ E2). split_and!; [done..| |done]. intros ? rs [= <-] Hrs. congruence.
  - exists s2. unfold mbind, M_bind. rewrite E2. split_and!; [done..| |done]. intros ? rs [= <-] Hrs. congruence.
Qed.

End boot.

(** ** Bringing memory up *)

(** The frames the map offers and the kernel does not keep. *)
Definition usable_frame {I : KernelImage} (rs : list MemoryRegion) (f : Z) : bool :=
  negb ((kernel_phys_start <? (f + 1) * FRAME_SIZE) && (f * FRAME_SIZE <? kernel_phys_end)) &&
  negb (f =? 0) && existsb (fun r => region_frames r f) rs.

(** How many of them the bootstrap identity map reaches. *)
Definition low_usable {I : KernelImage} (rs : list MemoryRegion) : nat :=
  length (filter (fun f => usable_frame rs f = true) (seqZ 0 1024)).

(** A map the kernel can boot from: its regions end below 4 GiB, it does not offer the
    text buffer's frame as RAM, and three usable frames lie below 4 MiB. *)
Record map_ok {I : KernelImage} (rs : list MemoryRegion) : Prop := {
  mo_limit : Forall region_below_limit rs;
  mo_vga : usable_frame rs (VGA_BUFFER / 4096) = false;
  mo_low : (3 <= low_usable rs)%nat
}.

(** What [memory::init] leaves. *)
Record memory_up {I : KernelImage} (rs : list MemoryRegion) (s s' : machine) (pd : Z) (tabs : Z → option Z) : Prop := {
  up_repr : pd_repr (mc_mem s') pd tabs page_word;
  up_slots : forall k, k <> 0 -> k <> 768 -> tabs k = None;
  up_cr3 : mc_cr3 s' = pd * 4096;
  up_cr0 : mc_cr0 s' = Z.lor (mc_cr0 s) CR0_WP;
  up_alloc : bitmap_wf (mc_alloc s');
  up_tables : usable_frame rs pd = true /\ forall i t, tabs i = Some t -> usable_frame rs t = true;
  up_taken : frame_free (mc_alloc s') pd = false /\ forall i t, tabs i = Some t -> frame_free (mc_alloc s') t = false;
  up_free : forall f, 0 <= f < FRAME_COUNT -> frame_free (mc_alloc s') f = true -> usable_frame rs f = true;
  up_kept : forall a, u32_range a -> usable_frame rs (a / 4096) = false -> load8 (mc_mem s') a = load8 (mc_mem s) a;
  up_console : mc_writer s' = mc_writer s /\ mc_panicking s' = mc_panicking s
}.

Section memory.
Context {P : BuildProfile} {I : KernelImage} {HI : ImageOk I}.

(** [memory::init] once the map is known. *)
Lemma memory_init_run s info map b :
  boot_ready s -> handoff s info -> map_of s info = Some map ->
  FrameBitmap.init map FrameBitmap.new = (Ok tt, b) ->
  memory_init info s =
    let '(o, p) := Paging.init (mkPagingState b (mc_mem s) (mc_cr3 s) (mc_cr0 s)) in
    (o, mkMachine (mc_writer s) (ps_alloc p) (mc_panicking s) (ps_mem p) (ps_cr3 p) (ps_cr0 p)).
Proof.
  intros Hb Hh Hm Hi. unfold memory_init. rewrite (bind_ok _ _ _ _ _ (memory_map_of_ok _ _ Hb Hh)).
  destruct (map_of_some _ _ _ Hm) as (r & -> & Hv). cbn [expect]. rewrite bind_lift, (bind_reads _ _ _ map) by (by rewrite Hv).
  unfold zoom at 1. cbn [view machine_paging].
  erewrite bind_ok; [|unfold zoom; cbn [view put ps_alloc_lens ps_alloc]; rewrite (br_alloc _ Hb), Hi; reflexivity].
  cbn [ps_mem ps_cr3 ps_cr0]. done.
Qed.

(** The allocator [paging::init] starts from offers exactly the usable frames. *)
Lemma allocator_up s map rs :
  boot_ready s -> MemoryMap.regions map = Ok rs -> Forall region_below_limit rs ->
  exists b, FrameBitmap.init map FrameBitmap.new = (Ok tt, b) /\ fs_ok b /\
    (forall f, 0 <= f < FRAME_COUNT -> frame_free b f = usable_frame rs f) /\
    on_bootstrap (mkPagingState b (mc_mem s) (mc_cr3 s) (mc_cr0 s)) /\ size (low_frames b) = low_usable rs.
Proof.
  intros Hb Hrs Hlim. pose proof HI as HI'. destruct HI'. unfold KERNEL_VIRTUAL_BASE in *.
  destruct (init_ok map rs FrameBitmap.new new_wf Hrs Hlim) as (b & Eb & Hwf & Hhint & Hfree); [lia|lia|].
  assert (forall f, 0 <= f < FRAME_COUNT -> frame_free b f = usable_frame rs f) as Hf.
  { intros f Hr. rewrite Hfree, new_occupied, orb_false_r by done. done. }
  exists b. split_and!; [done| |done| |].
  - split_and!; [exact Hwf| |].
    + intros f Hf0. cbn [FrameBitmap.new search_hint] in Hhint. unfold WORD_BITS in Hf0. lia.
    + rewrite Hf by (unfold FRAME_COUNT; lia). unfold usable_frame. by rewrite andb_false_r.
  - apply boot_ready_paging; [done|]. intros f Hfr. unfold FRAME_SIZE in *.
    rewrite Hf by (unfold FRAME_COUNT; lia). unfold usable_frame, FRAME_SIZE.
    by rewrite !(proj2 (Z.ltb_lt _ _)) by lia.
  - unfold low_usable. rewrite <- (size_list_to_set (C := gset Z)) by (apply NoDup_filter, NoDup_seqZ). f_equal. apply set_eq. intros f.
    rewrite elem_of_list_to_set, list_elem_of_filter, elem_of_low_frames, elem_of_seqZ.
    change (fs_free b f) with (frame_free b f). unfold FRAME_COUNT in Hf.
    split; intros [H1 H2]; (split; [|lia || rewrite Hf in * by lia; done]); rewrite ?Hf in * by lia; lia || done.
Qed.

Lemma memory_init_ok s info map rs :
  boot_ready s -> handoff s info -> map_of s info = Some map -> MemoryMap.regions map = Ok rs -> map_ok rs ->
  exists s' pd tabs, memory_init info s = (Ok tt, s') /\ memory_up rs s s' pd tabs.
Proof.
  intros Hb Hh Hm Hrs [Hlim Hvga Hlow]. destruct (allocator_up s map rs Hb Hrs Hlim) as (b & Eb & Hok & Hf & Hboot & Hsize).
  set (p := mkPagingState b (mc_mem s) (mc_cr3 s) (mc_cr0 s)) in *.
  rewrite <- Hsize in Hlow.
  destruct (init_build p Hboot Hok Hlow) as (pd & tabs & s1 & HB & Hslots & E).
  eexists _, pd, tabs. split.
  { rewrite (memory_init_run s info map b Hb Hh Hm Eb). fold p. rewrite E. reflexivity. }
  destruct (bl_from _ _ _ _ _ HB) as [Hpd Htabs]. pose proof (bl_repr _ _ _ _ _ HB) as R.
  change (fs_free (ps_alloc p)) with (frame_free b) in *.
  pose proof (repr_pd _ _ _ _ R). split; cbn [ps_mem ps_cr3 ps_cr0 ps_alloc mc_mem mc_cr3 mc_cr0 mc_alloc mc_writer mc_panicking p].
  - exact R.
  - exact Hslots.
  - done.
  - done.
  - apply (bl_ok _ _ _ _ _ HB).
  - split; [rewrite <- Hf by (unfold FRAME_COUNT; lia); done|]. intros i t Ht.
    destruct (repr_range _ _ _ _ R i t Ht) as (_ & ? & _). rewrite <- Hf by (unfold FRAME_COUNT; lia). by apply (Htabs i).
  - apply (bl_used _ _ _ _ _ HB).
  - intros f Hr Hff. rewrite <- Hf by done. apply (bl_mono _ _ _ _ _ HB); [lia|exact Hff].
  - intros a Ha Hu. apply (bl_frame _ _ _ _ _ HB). change (frame_free b (a / 4096) = false).
    rewrite Hf; [done|unfold FRAME_COUNT; zdiv].
  - done.
Qed.

(** The new directory maps the text buffer, from tables that lie elsewhere. *)
Lemma repr_screen (s : machine) pd tabs :
  pd_repr (mc_mem s) pd tabs page_word -> mc_cr3 s = pd * 4096 ->
  pd <> VGA_BUFFER / 4096 -> (forall i t, tabs i = Some t -> t <> VGA_BUFFER / 4096) -> text_buffer_mapped s = true.
Proof.
  intros R E Hpd Ht. pose proof (repr_pd _ _ _ _ R) as Hr. unfold text_buffer_mapped, identity_page, walk_frames.
  rewrite E, (repr_walk _ _ _ _ R) by (unfold VGA_BUFFER; lia).
  rewrite address_mask_div, table_frame_div by lia. replace (pd * 4096 / 4096) with pd by zdiv.
  change (VirtAddr.pd_index (VirtAddr.new VGA_BUFFER)) with 0. rewrite (repr_dir _ _ _ _ R) by lia.
  cbn [Z.eqb forallb FrameNumber.index frame_index]. rewrite (proj2 (Z.eqb_neq _ _) Hpd).
  apply andb_true_intro. split.
  - rewrite (proj2 (Z.ltb_lt _ _)) by (unfold VGA_BUFFER, RECURSIVE_WINDOW; lia). pose proof HI as HI'. destruct HI'.
    unfold kernel_space, VGA_BUFFER, KERNEL_VIRTUAL_BASE in *. repeat zcase; cbn [andb]; first [lia|by cbn [tr_phys tr_writable]; rewrite Z.eqb_refl].
  - destruct (tabs 0) as [t|] eqn:Et; [|done]. destruct (repr_range _ _ _ _ R _ _ Et) as (_ & Htr & _).
    cbn [negb andb]. destruct (_ && _); [|done]. rewrite table_frame_div by lia. cbn [forallb FrameNumber.index frame_index].
    replace ((t * 4096 + 3) / 4096) with t by zdiv. by rewrite (proj2 (Z.eqb_neq _ _) (Ht 0 t Et)).
Qed.

(** Printing afterwards leaves the tables alone. *)
Lemma memory_up_step rs s s' s'' pd tabs :
  usable_frame rs (VGA_BUFFER / 4096) = false ->
  memory_up rs s s' pd tabs -> console_step s' s'' -> pd_repr (mc_mem s'') pd tabs page_word.
Proof.
  intros Hvga Hup Hs. apply (pd_repr_mem (mc_mem s')); [|apply Hup]. destruct (up_tables _ _ _ _ _ Hup) as [Hpd Htabs].
  intros a Ha. apply (cstep_mem _ _ Hs).
  assert (a / 4096 <> VGA_BUFFER / 4096).
  { intros E. rewrite <- E in Hvga. destruct Ha as [Ha|[i Hi]]; [congruence|]. apply Htabs in Hi. congruence. }
  unfold VGA_BUFFER in *. zdiv.
Qed.

(** Bringing memory up does not touch the screen. *)
Lemma memory_up_term rs s s' pd tabs :
  usable_frame rs (VGA_BUFFER / 4096) = false -> memory_up rs s s' pd tabs -> machine_term s' = machine_term s.
Proof.
  intros Hvga Hup. destruct (up_console _ _ _ _ _ Hup) as [Hw _]. unfold machine_term, term_of. cbn [writer con_mem].
  rewrite Hw. f_equal. apply screen_ext. intros a Ha. unfold VGA_BUFFER in *.
  apply (up_kept _ _ _ _ _ Hup); [lia|]. by replace (a / 4096) with (753664 / 4096) by zdiv.
Qed.

End memory.

(** ** What the boot path guarantees *)

Section main.
Context {P : BuildProfile} {I : KernelImage} {HI : ImageOk I}.

(** A blank screen, with the cursor where it was. *)
Definition cleared (t : terminal) : terminal :=
  mkTerminal (replicate 25 (blank_row (t_color t))) (t_row t) (t_col t) (t_color t).

Lemma clear_step s :
  screen_ok s ->
  exists s', on_screen VgaWriter.clear s = (Ok tt, s') /\ console_step s s' /\
    machine_term s' = cleared (machine_term s).
Proof.
  intros [Hok Hmap]. destruct (clear_ok (mkConsole (mc_writer s) (mc_mem s)) (ok_color _ Hok)) as (m' & E & Hs & Hc).
  exists (put (Lens := machine_console) (mkConsole (mc_writer s) m') s). split_and!.
  - rewrite on_screen_ok by done. unfold zoom. cbn [view machine_console]. rewrite E. done.
  - by split.
  - unfold machine_term, term_of, cleared. cbn [put machine_console mc_writer mc_mem writer con_mem t_color t_row t_col] in *.
    by rewrite Hs.
Qed.

(** What is left of [kernel_main] after the banner. *)
Definition after_banner (info : Z) : M machine unit :=
  print_memory_map info;;
  memory_init info;;
  printk ("memory: paging active, frame allocator online" ++ nl).

Lemma kernel_main_banner k s info :
  boot_ready s -> info <> 0 /\ info mod align_of_MultibootInfo = 0 -> color (mc_writer s) = k ->
  exists s1, console_step s s1 /\ kernel_main BOOTLOADER_MAGIC info s = after_banner info s1 /\
    machine_term s1 = foldl term_emit (cleared (machine_term s)) (styled k ("zkrnl32 booting" ++ nl)).
Proof.
  intros Hb [Hn Ha] Hk. unfold kernel_main. rewrite Z.eqb_refl. cbn [negb]. rewrite deref_check_ok, bind_lift by done.
  destruct (clear_step s (boot_ready_screen _ Hb)) as (s0 & E0 & H0 & T0). rewrite (bind_ok _ _ _ _ _ E0).
  destruct (printk_at k ("zkrnl32 booting" ++ nl) s0) as (s1 & E1 & [H1 T1]).
  { apply (console_ok_step k s); [done|]. by split; [apply boot_ready_screen|]. }
  exists s1. split_and!; [by transitivity s0|by rewrite (bind_ok _ _ _ _ _ E1)|by rewrite T1, T0].
Qed.

Lemma map_of_step s s' info :
  console_step s s' -> in_reach s info -> map_clear s info -> map_of s' info = map_of s info.
Proof.
  intros Hs Hh Hc. apply map_of_ext; [by apply read_info_step|]. intros i a Ha. apply (cstep_mem _ _ Hs).
  unfold map_clear in Hc. subst i. lia.
Qed.

Lemma map_clear_step s s' info : console_step s s' -> in_reach s info -> map_clear s info -> map_clear s' info.
Proof. intros Hs Hh. unfold map_clear. by rewrite (read_info_step _ _ _ Hs Hh). Qed.

(** The panic handler. *)
Definition panic_out (text : string) (c : cpu) : list cell :=
  styled (Color.on White Red) (nl ++ "KERNEL PANIC" ++ nl ++ text ++ nl) ++
  styled (color (mc_writer (mach c))) (dump_text (mc_mem (mach c)) (esp c) 16).

Definition with_panicking (s : machine) : machine :=
  mkMachine (mc_writer s) (mc_alloc s) true (mc_mem s) (mc_cr3 s) (mc_cr0 s).

Lemma zoom_machine {A} (m : M machine A) c o s' :
  m (mach c) = (o, s') -> zoom (T := machine) m c = (o, set_mach s' c).
Proof. intros E. unfold zoom. cbn [view put cpu_machine]. by rewrite E. Qed.

Lemma panic_again text c :
  mc_panicking (mach c) = true -> panic text c = (Ok tt, set_iflag false c).
Proof.
  intros Hp. unfold panic. erewrite bind_ok; [|by apply zoom_machine]. rewrite Hp.
  destruct c as [a b e i p ip s1 s2 s3 s4 s5 s6 g r4 f [w al pk m r3 r0]]. cbn [mach mc_panicking] in Hp. by subst pk.
Qed.

Lemma panic_ok text c :
  u32_range (esp c) -> screen_ok (mach c) -> stack_mapped (mach c) -> mc_panicking (mach c) = false ->
  exists s', panic text c = (Ok tt, set_iflag false (set_mach s' c)) /\
    printed (panic_out text c) (with_panicking (mach c)) s'.
Proof.
  intros Hesp Hok Hm Hp. unfold panic. erewrite bind_ok; [|by apply zoom_machine]. rewrite Hp.
  set (s0 := with_panicking (mach c)). set (k := color (mc_writer (mach c))).
  assert (0 <= Color.on White Red < 256) as Hk by (vm_compute; split; congruence).
  destruct (printk_color_ok (Color.on White Red) (nl ++ "KERNEL PANIC" ++ nl ++ text ++ nl) s0 Hok Hk) as (s1 & E1 & H1).
  pose proof (console_ok_step k s0 s1 (pr_step _ _ _ H1) (conj Hok eq_refl)) as Hok1.
  destruct (dump_stack_ok k (esp c) 16 s1 Hesp ltac:(lia) Hok1) as (s2 & E2 & H2).
  { apply (stack_mapped_step s0 s1); [apply H1|exact Hm]. }
  exists s2. split.
  - erewrite bind_ok; [|erewrite bind_ok; [|apply zoom_machine; destruct c; exact E1]; unfold dump_stack, current_esp;
      erewrite bind_reads by reflexivity; apply zoom_machine; destruct c; exact E2].
    by destruct c.
  - apply (printed_app _ _ _ s1); [done|].
    rewrite (dump_text_step s0 s1 (esp c) 16 (pr_step _ _ _ H1)) in H2. exact H2.
Qed.

(** It reaches the halt, once and again. *)
Lemma panic_ends text c :
  u32_range (esp c) -> screen_ok (mach c) -> stack_mapped (mach c) ->
  exists c', panic text c = (Ok tt, c') /\ mc_panicking (mach c') = true /\ iflag c' = false /\
    console_step (with_panicking (mach c)) (mach c') /\
    machine_term (mach c') =
      if mc_panicking (mach c) then machine_term (mach c) else foldl term_emit (machine_term (mach c)) (panic_out text c).
Proof.
  intros He Hw Hm. destruct (mc_panicking (mach c)) eqn:Ep.
  - eexists. split; [by apply panic_again|]. destruct c as [a b e i p ip s1 s2 s3 s4 s5 s6 g r4 f [w al pk m r3 r0]].
    cbn [mach mc_panicking] in Ep. subst pk. by split_and!.
  - destruct (panic_ok text c He Hw Hm Ep) as (s' & E & [Hs Ht]). eexists. split; [exact E|].
    destruct c as [a b e i p ip s1 s2 s3 s4 s5 s6 g r4 f s0]. cbn [set_mach set_iflag mach iflag] in *.
    split_and!; [apply (cstep_panicking _ _ Hs)|done|done|exact Ht].
Qed.

End main.

(** A panic [p] in [s] that the handler can report: no exception of the processor, and
    from every stack pointer and for every message the handler prints and halts. *)
Definition panic_survived {I : KernelImage} (p : panic_info) (s : machine) : Prop :=
  (forall v, p <> CpuException v) /\
  forall text c, mach c = s -> u32_range (esp c) ->
    exists c', @panic dev I text c = (Ok tt, c') /\ mc_panicking (mach c') = true /\ iflag c' = false /\
      machine_term (mach c') = foldl term_emit (machine_term s) (panic_out text c).

Lemma panic_survives {I : KernelImage} {HI : ImageOk I} (p : panic_info) (s : machine) :
  (forall v, p <> CpuException v) -> screen_ok s -> stack_mapped s -> mc_panicking s = false ->
  panic_survived p s.
Proof.
  intros Hv Hw Hm Hp. split; [done|]. intros text c <- He.
  destruct (@panic_ends dev I HI text c He Hw Hm) as (c' & E & ? & ? & _ & Ht). rewrite Hp in Ht. by exists c'.
Qed.

(** The directory in use: its tables lie in frames the map offered and the allocator
    offers no longer. *)
Record in_place {I : KernelImage} (rs : list MemoryRegion) (s : machine) (pd : Z) (tabs : Z → option Z) : Prop := {
  ip_repr : pd_repr (mc_mem s) pd tabs page_word;
  ip_slots : forall k, k <> 0 -> k <> 768 -> tabs k = None;
  ip_cr3 : mc_cr3 s = pd * 4096;
  ip_usable : usable_frame rs pd = true /\ forall i t, tabs i = Some t -> usable_frame rs t = true;
  ip_taken : frame_free (mc_alloc s) pd = false /\ forall i t, tabs i = Some t -> frame_free (mc_alloc s) t = false
}.

(** The machine at the idle loop, entered in [s] with a map of the regions [rs]. *)
Record kernel_up {I : KernelImage} (rs : list MemoryRegion) (s s' : machine) : Prop := {
  ku_space : forall va, 0 <= va < RECURSIVE_WINDOW -> walk (mc_mem s') (mc_cr3 s') va = kernel_space va;
  ku_built : exists pd tabs, in_place rs s' pd tabs;
  ku_cr0 : mc_cr0 s' = Z.lor (mc_cr0 s) CR0_WP;
  ku_alloc : bitmap_wf (mc_alloc s');
  ku_writer : writer_ok (mc_writer s');
  ku_free : forall f, f ∈ free_set (mc_alloc s') -> usable_frame rs f = true;
  ku_kept : forall a, u32_range a -> usable_frame rs (a / 4096) = false -> a / 4096 <> VGA_BUFFER / 4096 ->
    load8 (mc_mem s') a = load8 (mc_mem s) a;
  ku_term : machine_term s' =
    foldl term_emit (cleared (machine_term s)) (styled (color (mc_writer s)) (boot_text rs))
}.

Lemma kernel_boots_ok `{BuildProfile} {I : KernelImage} {HI : ImageOk I} (s : machine) (info : Z) (map : MemoryMap)
    (rs : list MemoryRegion) :
  boot_ready s -> handoff s info -> map_clear s info ->
  map_of s info = Some map -> MemoryMap.regions map = Ok rs -> map_ok rs ->
  exists s', kernel_main BOOTLOADER_MAGIC info s = (Ok tt, s') /\ kernel_up rs s s'.
Proof.
  intros Hb Hh Hc Hm Hrs Hmap. set (k := color (mc_writer s)).
  destruct (kernel_main_banner k s info Hb (ho_info _ _ Hh) eq_refl) as (s1 & H1 & -> & T1).
  pose proof (boot_ready_step _ _ H1 Hb) as Hb1. pose proof (handoff_step _ _ _ H1 Hh) as Hh1.
  rewrite <- (map_of_step _ _ _ H1 (ho_reach _ _ Hh) Hc) in Hm.
  destruct (print_memory_map_ok k s1 info Hb1 Hh1 (or_intror (map_clear_step _ _ _ H1 (ho_reach _ _ Hh) Hc)) (cstep_color _ _ H1)) as (s2 & E2 & H2 & Hp2 & _).
  destruct (Hp2 map rs Hm Hrs) as [_ T2]. rewrite Hm, Hrs in E2. clear Hp2.
  assert (console_step s s2) as H12 by (by transitivity s1).
  pose proof (boot_ready_step _ _ H12 Hb) as Hb2. pose proof (handoff_step _ _ _ H12 Hh) as Hh2.
  rewrite (map_of_step _ _ _ H1 (ho_reach _ _ Hh) Hc), <- (map_of_step _ _ _ H12 (ho_reach _ _ Hh) Hc) in Hm.
  destruct (memory_init_ok s2 info map rs Hb2 Hh2 Hm Hrs Hmap) as (s3 & pd & tabs & E3 & Hup).
  destruct (up_console _ _ _ _ _ Hup) as [Hw3 _].
  assert (console_ok k s3) as Hok3.
  { split; [split|]; rewrite ?Hw3; [apply Hb2| |apply (cstep_color _ _ H12)].
    destruct (up_tables _ _ _ _ _ Hup) as [Hpd Htabs]. pose proof (mo_vga _ Hmap) as Hvga.
    apply (repr_screen s3 pd tabs); [apply Hup|apply Hup|congruence|]. intros i t Ht. specialize (Htabs i t Ht). congruence. }
  destruct (printk_at k ("memory: paging active, frame allocator online" ++ nl) s3 Hok3) as (s4 & E4 & [H4 T4]).
  exists s4. split.
  { unfold after_banner. by rewrite (bind_ok _ _ _ _ _ E2), (bind_ok _ _ _ _ _ E3). }
  pose proof (memory_up_step rs s2 s3 s4 pd tabs (mo_vga _ Hmap) Hup H4) as R.
  split; rewrite ?(cstep_cr3 _ _ H4), ?(cstep_cr0 _ _ H4), ?(cstep_alloc _ _ H4), ?(up_cr3 _ _ _ _ _ Hup), ?(up_cr0 _ _ _ _ _ Hup).
  - intros va Hva. rewrite (repr_walk _ _ _ _ R) by (unfold RECURSIVE_WINDOW in *; lia).
    by rewrite (proj2 (Z.ltb_lt _ _)) by lia.
  - exists pd, tabs. split; rewrite ?(cstep_cr3 _ _ H4), ?(cstep_alloc _ _ H4); [done|apply Hup..].
  - by rewrite (cstep_cr0 _ _ H12).
  - apply Hup.
  - by apply (cstep_writer _ _ H4), Hok3.
  - intros f [Hr Hf]%elem_of_free_set. by apply (up_free _ _ _ _ _ Hup).
  - intros a Ha Hu Hv. assert (a < VGA_BUFFER \/ VGA_BUFFER + 4000 <= a) as Hout by (unfold VGA_BUFFER in *; zdiv).
    rewrite (cstep_mem _ _ H4 a Hout), (up_kept _ _ _ _ _ Hup a Ha Hu). by apply (cstep_mem _ _ H12).
  - rewrite T4, (memory_up_term rs s2 s3 pd tabs (mo_vga _ Hmap) Hup), T2, T1. unfold boot_text. fold k.
    by rewrite (styled_app k ("zkrnl32 booting" ++ nl) (_ ++ _)), (styled_app k (map_report rs)), !foldl_app.
Qed.

(** A memory with the same tables means the same address space. *)
Lemma in_place_walk {I : KernelImage} {HI : ImageOk I} rs s pd tabs m' va :
  in_place rs s pd tabs ->
  (forall a, a / 4096 = pd \/ (exists i, tabs i = Some (a / 4096)) -> load8 m' a = load8 (mc_mem s) a) ->
  0 <= va < RECURSIVE_WINDOW -> walk m' (mc_cr3 s) va = kernel_space va.
Proof.
  intros [R _ Hcr _ _] Hm' Hva. rewrite Hcr.
  rewrite (repr_walk m' pd tabs _ (pd_repr_mem _ _ _ _ _ Hm' R)) by (unfold RECURSIVE_WINDOW in *; lia).
  by rewrite (proj2 (Z.ltb_lt _ _)) by lia.
Qed.

(** The memory map does not offer the text buffer as RAM. *)
Definition map_spares_screen (s : machine) (info : Z) : Prop :=
  forall map rs, map_of s info = Some map -> @MemoryMap.regions dev map = Ok rs ->
    existsb (fun r => region_frames r (VGA_BUFFER / 4096)) rs = false.

(** In the [dev] build [memory::init] ends for any map: it returns, or panics with the
    bootstrap directory untouched; the text buffer is mapped either way. *)
Lemma memory_init_dev {I : KernelImage} {HI : ImageOk I} s info :
  boot_ready s -> handoff s info -> map_spares_screen s info ->
  (forall map, map_of s info = Some map -> exists rs, @MemoryMap.regions dev map = Ok rs) ->
  exists o s', @memory_init dev I info s = (o, s') /\ mc_panicking s' = mc_panicking s /\ screen_ok s' /\
    (o = Ok tt \/ exists p, o = Panic p /\ (forall v, p <> CpuException v) /\ stack_mapped s').
Proof.
  intros Hb Hh Hspare Hends. pose proof HI as HI'. destruct HI'. unfold KERNEL_VIRTUAL_BASE in *.
  destruct (map_of s info) as [map|] eqn:Em; cycle 1.
  { eexists _, s. split.
    - unfold memory_init. by rewrite (bind_ok _ _ _ _ _ (memory_map_of_ok _ _ Hb Hh)), (map_of_none _ _ Em).
    - split_and!; [done|by apply boot_ready_screen|]. right. eexists. split_and!; [done|done|by apply boot_ready_stack]. }
  destruct (Hends map eq_refl) as [rs Hrs]. specialize (Hspare map rs Em Hrs).
  pose proof (map_of_wf _ _ _ Em) as (Hbytes & Hoff & Hlen).
  destruct (init_dev map Hbytes Hoff Hlen) as (o & b & Eb & [-> | (-> & Hwf & Hpk & Hnull & Himg & Hoff')]).
  { eexists _, (mkMachine (mc_writer s) b (mc_panicking s) (mc_mem s) (mc_cr3 s) (mc_cr0 s)). split.
    - unfold memory_init. rewrite (bind_ok _ _ _ _ _ (memory_map_of_ok _ _ Hb Hh)).
      destruct (map_of_some _ _ _ Em) as (r & -> & Hv). cbn [expect]. rewrite bind_lift, (bind_reads _ _ _ map) by (by rewrite Hv).
      unfold zoom at 1. cbn [view machine_paging].
      erewrite bind_panic; [|unfold zoom; cbn [view put ps_alloc_lens ps_alloc]; rewrite (br_alloc _ Hb), Eb; reflexivity].
      done.
    - split_and!; [done|exact (boot_ready_screen s Hb)|]. right. exists ArithmeticOverflow.
      split_and!; [done|done|]. exact (boot_ready_stack s Hb). }
  rewrite (memory_init_run s info map b Hb Hh Em Eb). set (p := mkPagingState b (mc_mem s) (mc_cr3 s) (mc_cr0 s)).
  assert (fs_ok (ps_alloc p)) as Hok by (by split_and!).
  assert (on_bootstrap p) as Hboot by (by apply boot_ready_paging).
  destruct (decide (3 <= size (low_frames (ps_alloc p)))%nat) as [Hsize|Hsize].
  - destruct (init_build (P := dev) p Hboot Hok Hsize) as (pd & tabs & s1 & HB & _ & E).
    eexists (Ok tt), _. split; [rewrite E; reflexivity|]. split; [done|]. split; [|by left].
    split; [apply Hb|]. pose proof (bl_repr _ _ _ _ _ HB) as R. pose proof (repr_pd _ _ _ _ R).
    destruct (bl_from _ _ _ _ _ HB) as [Hpd Htabs]. change (fs_free (ps_alloc p)) with (frame_free b) in *.
    assert (forall f, 0 <= f < 1024 -> frame_free b f = true -> f <> VGA_BUFFER / 4096) as Hne.
    { intros f Hr Hf ->. rewrite (Hoff' rs _ Hrs) in Hspare; [done|unfold FRAME_COUNT; lia|done]. }
    apply (repr_screen _ pd tabs); cbn [mc_mem mc_cr3]; [exact R|done|by apply Hne|].
    intros i t Ht. destruct (repr_range _ _ _ _ R i t Ht) as (_ & Htr & _). apply Hne; [done|by apply (Htabs i)].
  - destruct (init_fail (P := dev) p Hboot Hok ltac:(lia)) as (q & s1 & E & Hq & H3 & H0 & Hkept).
    assert (directory_at (ps_mem s1) (mc_cr3 s) boot_entries) as Hdir.
    { intros i e Hi. rewrite <- (br_dir _ Hb i e Hi). apply load_le_ext. intros a Ha. apply Hkept.
      change (frame_free b (a / 4096) = false). apply Himg. unfold FRAME_SIZE. pose proof (br_cr3 _ Hb). pose proof (br_aligned _ Hb).
      apply lookup_lt_Some in Hi. unfold boot_entries in Hi. rewrite !length_insert, length_replicate in Hi. zdiv. }
    cbn [p ps_cr3] in H3. destruct Hb as [Rw Ra Rc Ral Rd].
    eexists (Panic q), _. split; [rewrite E; reflexivity|]. split_and!; [done| |].
    + split; [done|]. apply bootstrap_screen_mapped; cbn [mc_cr3 mc_mem]; rewrite ?H3; [lia|done|unfold VGA_BUFFER; lia|done].
    + right. exists q. split_and!; [done|intros v ->; by destruct Hq as [?|(? & ? & ?)]|].
      apply bootstrap_stack_mapped; cbn [mc_cr3 mc_mem]; rewrite ?H3; [lia|done|unfold VGA_BUFFER; lia|done].
Qed.

Lemma regions_dev (m : MemoryMap) :
  Forall (fun b => 0 <= b < 2 ^ 8) (map_buf m) -> 0 <= map_offset m -> Z.of_nat (length (map_buf m)) < 2 ^ 32 ->
  (exists rs, @MemoryMap.regions dev m = Ok rs) \/ @MemoryMap.regions dev m = Panic ArithmeticOverflow.
Proof.
  intros Hb Ho Hl. unfold MemoryMap.regions, MemoryMap.fuel. set (n := Z.of_nat (length (map_buf m))) in *.
  replace (Z.to_nat (n / 4 + 2)) with (S (Z.to_nat (n / 4 + 1))) by zdiv.
  apply collect_ends; try done. fold n. zdiv.
Qed.

(** A panic of [kernel_main] on the bootstrap directory is survived. *)
Lemma boot_panic_survived {I : KernelImage} {HI : ImageOk I} (p : panic_info) (s : machine) :
  (forall v, p <> CpuException v) -> boot_ready s -> mc_panicking s = false -> panic_survived p s.
Proof. intros Hv Hb Hp. apply panic_survives; [done|by apply boot_ready_screen|by apply boot_ready_stack|done]. Qed.

(** The part of the boot path that follows the map: with its pointers valid, any bytes. *)
Lemma after_banner_total {I : KernelImage} {HI : ImageOk I} (info : Z) (s : machine) :
  boot_ready s -> handoff s info -> map_clear s info -> map_spares_screen s info -> mc_panicking s = false ->
  exists o s', @after_banner dev I info s = (o, s') /\ (o = Ok tt \/ exists p, o = Panic p /\ panic_survived p s').
Proof.
  intros Hb Hh Hc Hspare Hp. unfold after_banner.
  destruct (@print_memory_map_ok dev I HI _ s info Hb Hh (or_intror Hc) eq_refl) as (s2 & E2 & H2 & _ & _).
  pose proof (boot_ready_step _ _ H2 Hb) as Hb2. pose proof (handoff_step _ _ _ H2 Hh) as Hh2.
  assert (mc_panicking s2 = false) as Hp2 by (by rewrite (cstep_panicking _ _ H2)).
  pose proof (map_of_step _ _ _ H2 (ho_reach _ _ Hh) Hc) as Em2.
  assert (map_spares_screen s2 info) as Hspare2 by (unfold map_spares_screen; by rewrite Em2).
  assert ((∀ map, map_of s2 info = Some map → ∃ rs, @MemoryMap.regions dev map = Ok rs) ∧
      @print_memory_map dev info s = (Ok tt, s2) ∨
    @print_memory_map dev info s = (Panic ArithmeticOverflow, s2)) as [[Hends Eok]|Ep].
  { rewrite Em2 in *. destruct (map_of s info) as [map|] eqn:Em; [|by left].
    apply map_of_wf in Em as (Hbytes & Hoff & Hlen).
    destruct (regions_dev map Hbytes ltac:(lia) Hlen) as [[rs Er]|Er]; rewrite Er in E2; cbn in E2; [left|by right].
    split; [|done]. intros ? [= <-]. eauto. }
  2: { eexists _, s2. split; [by rewrite (bind_panic _ _ _ _ _ Ep)|]. right. eexists.
       split; [done|]. by apply boot_panic_survived. }
  rewrite (bind_ok _ _ _ _ _ Eok).
  destruct (memory_init_dev s2 info Hb2 Hh2 Hspare2 Hends) as (o & s4 & E4 & Hp4 & Hw4 & [-> |(p & -> & Hv & Hm4)]).
  - rewrite (bind_ok _ _ _ _ _ E4). destruct (@printk_ok dev ("memory: paging active, frame allocator online" ++ nl) s4 Hw4)
      as (s5 & E5 & _). exists (Ok tt), s5. split; [exact E5|by left].
  - eexists _, s4. split; [by rewrite (bind_panic _ _ _ _ _ E4)|]. right. exists p. split; [done|].
    apply panic_survives; [done|done|done|congruence].
Qed.

(** Without a valid pointer to the structure a [dev] build stops before it does anything. *)
Lemma kernel_main_null `{BuildProfile} {I : KernelImage} (info : Z) (s : machine) :
  debug_build = true -> ~ (info <> 0 /\ info mod align_of_MultibootInfo = 0) ->
  kernel_main BOOTLOADER_MAGIC info s = (Panic InvalidPointer, s).
Proof.
  intros Hd Hi. unfold kernel_main, deref_check. rewrite Z.eqb_refl, Hd. cbn [negb andb].
  destruct (Z.eqb_spec info 0), (Z.eqb_spec (info mod align_of_MultibootInfo) 0); done || naive_solver.
Qed.

(** A map pointer that is null stops [print_memory_map] at the check. *)
Lemma after_banner_null `{BuildProfile} {I : KernelImage} {HI : ImageOk I} (info : Z) (s : machine) :
  debug_build = true -> boot_ready s -> in_reach s info -> MultibootInfo.map_ref (read_info (mc_mem s) info) <> None ->
  info_mmap_addr (read_info (mc_mem s) info) = 0 -> after_banner info s = (Panic InvalidPointer, s).
Proof.
  intros Hd Hb Hr Hm Hz. unfold after_banner. apply bind_panic. unfold print_memory_map. apply bind_panic.
  rewrite (memory_map_of_run s info Hb Hr). revert Hm Hz. unfold MultibootInfo.map_ref, MultibootInfo.memory_map.
  destruct (_ =? 0); [done|]. intros _ ->. unfold from_raw_parts_check. by rewrite Hd.
Qed.

(** The boot path of the [dev] build never hangs and never dies silently: whatever magic it
    is handed, whatever pointers into its reach and whatever bytes the memory map holds,
    as long as the map is not under the text buffer and does not offer it as RAM,
    [kernel_main] ends in the idle loop or in a panic of its own, which the handler
    survives. *)
Lemma kernel_main_total {I : KernelImage} {HI : ImageOk I} (magic info : Z) (s : machine) :
  boot_ready s -> in_reach s info -> map_clear s info -> map_spares_screen s info -> mc_panicking s = false ->
  exists o s', @kernel_main dev I magic info s = (o, s') /\ (o = Ok tt \/ exists p, o = Panic p /\ panic_survived p s').
Proof.
  intros Hb Hr Hc Hspare Hp.
  destruct (Z.eqb_spec magic BOOTLOADER_MAGIC) as [->|Hne]; cycle 1.
  { eexists _, s. split; [unfold kernel_main; by rewrite (proj2 (Z.eqb_neq _ _) Hne)|]. right. eexists.
    split; [done|]. by apply boot_panic_survived. }
  destruct (decide (info <> 0 /\ info mod align_of_MultibootInfo = 0)) as [Hi|Hi]; cycle 1.
  { exists (Panic InvalidPointer), s. split; [|right; eexists; split; [done|by apply boot_panic_survived]].
    by apply (@kernel_main_null dev). }
  destruct (@kernel_main_banner dev I HI _ s info Hb Hi eq_refl) as (s1 & H1 & -> & _).
  pose proof (boot_ready_step _ _ H1 Hb) as Hb1. pose proof (in_reach_step _ _ _ H1 Hr) as Hr1.
  pose proof (map_clear_step _ _ _ H1 Hr Hc) as Hc1.
  assert (mc_panicking s1 = false) as Hp1 by (by rewrite (cstep_panicking _ _ H1)).
  assert (map_spares_screen s1 info) as Hspare1 by (unfold map_spares_screen; by rewrite (map_of_step _ _ _ H1 Hr Hc)).
  destruct (decide (info_mmap_addr (read_info (mc_mem s1) info) = 0)) as [Hz|Hz]; cycle 1.
  { by apply after_banner_total. }
  destruct (MultibootInfo.map_ref (read_info (mc_mem s1) info)) eqn:Em.
  - exists (Panic InvalidPointer), s1. split; [apply (@after_banner_null dev); by rewrite ?Em|].
    right. eexists. split; [done|]. by apply boot_panic_survived.
  - by apply after_banner_total.
Qed.

(** C8: The kernel boots: handed a valid magic and a memory map it can use, it runs from
    [kernel_main] to the idle loop in either build.  It is then in its own address
    space with write protection on, the allocator is well-formed and offers only
    frames that the map offers and the kernel does not need, no byte of any other
    frame but the text buffer's has changed since entry, and on a blank screen the
    banner, one line per region of the map, the usable total and the closing line
    have been printed, in this order and nothing else. *)
Theorem kernel_boots `{BuildProfile} {I : KernelImage} (s : machine) (info : Z) (map : MemoryMap)
    (rs : list MemoryRegion) :
  ImageOk I → boot_ready s → handoff s info → map_clear s info →
  map_of s info = Some map → MemoryMap.regions map = Ok rs → map_ok rs →
  ∃ s', kernel_main BOOTLOADER_MAGIC info s = (Ok tt, s') ∧ kernel_up rs s s'.
Proof. intros HI. apply kernel_boots_ok. Qed.

(** A machine with 128 MiB: GRUB's structures in low memory, the bootstrap directory in
    the image. *)
Definition grub_mem : mem :=
  store_bytes (store32 (store32 (store32 ∅ 0x9500 0x40) 0x952C 100) 0x9530 0x9600) 0x9600 (encode_map sample_map).

Definition grub_machine : machine :=
  mkMachine VgaWriter.new FrameBitmap.new false (store_words grub_mem 0x201000 (pde_raw <$> boot_entries))
    0x201000 0x80000011.

Lemma grub_machine_ready : @boot_ready (link sample_sections) grub_machine.
Proof.
  split; cbn [grub_machine mc_writer mc_alloc mc_cr3 mc_mem].
  - split; simpl; lia.
  - done.
  - vm_compute. split; congruence.
  - done.
  - apply store_words_directory. unfold boot_entries.
    do 2 (apply Forall_insert; [|simpl; lia]). apply Forall_replicate. simpl. lia.
Qed.

Lemma grub_machine_handoff : handoff grub_machine 0x9500.
Proof.
  split; [|done|vm_compute; congruence].
  split; [lia|unfold VGA_BUFFER; lia|]. apply Z.leb_le. vm_compute. reflexivity.
Qed.

Lemma grub_machine_map : map_of grub_machine 0x9500 = Some sample_mmap.
Proof. vm_compute. reflexivity. Qed.

Lemma sample_map_ok : @map_ok (link sample_sections) (region_of <$> sample_map.*1).
Proof.
  split.
  - cbn. repeat (apply Forall_cons_2); try apply Forall_nil_2;
      (split_and!; unfold MemoryRegion.LIMIT; cbn; intros; first [lia|discriminate]).
  - vm_compute. reflexivity.
  - apply Nat.leb_le. vm_compute. reflexivity.
Qed.

Lemma kernel_boots_witness :
  ∃ s', @kernel_main dev (link sample_sections) BOOTLOADER_MAGIC 0x9500 grub_machine = (Ok tt, s') ∧
    @kernel_up (link sample_sections) (region_of <$> sample_map.*1) grub_machine s'.
Proof.
  apply (@kernel_boots dev (link sample_sections) grub_machine 0x9500 sample_mmap (region_of <$> sample_map.*1)
    sample_image_ok grub_machine_ready grub_machine_handoff).
  - left. apply Z.leb_le. vm_compute. reflexivity.
  - exact grub_machine_map.
  - vm_compute. reflexivity.
  - exact sample_map_ok.
Defined.

(** C29: The panic handler is safe to enter at any time: with the stack and the text
    buffer mapped and the cursor on the screen it reaches the halt with interrupts off for every message and
    stack pointer, touching nothing but the console and its own flag; the first time
    it prints the message in white on red and then the dump of at most 16 words of the
    stack, in the console's colour; entered again, it prints nothing and changes
    nothing at all. *)
Theorem panic_handler_reaches_halt `{BuildProfile} {I : KernelImage} (text : string) (c : cpu) :
  ImageOk I → u32_range (esp c) → screen_ok (mach c) → stack_mapped (mach c) →
  ∃ c', panic text c = (Ok tt, c') ∧ mc_panicking (mach c') = true ∧ iflag c' = false ∧
    console_step (with_panicking (mach c)) (mach c') ∧
    machine_term (mach c') =
      (if mc_panicking (mach c) then machine_term (mach c)
       else foldl term_emit (machine_term (mach c)) (panic_out text c)) ∧
    ∀ text', panic text' c' = (Ok tt, c').
Proof.
  intros HI Hesp Hw Hm. destruct (panic_ends text c Hesp Hw Hm) as (c' & E & Hp & Hf & Hs & Ht).
  exists c'. split_and!; try done. intros text'. rewrite panic_again by done. f_equal.
  destruct c' as [a b e i p ip s1 s2 s3 s4 s5 s6 g r4 f m]. cbn [iflag] in Hf. by subst f.
Qed.

(** A kernel that runs on the bootstrap directory, 0x100 bytes into its stack. *)
Definition booted_cpu : cpu :=
  let code := mkSegmentReg 0x08 (flat_segment true 0) in
  let data := mkSegmentReg 0x10 (flat_segment false 0) in
  mkCpu 0 0 0 0 0xC024EF00 0xC0203000 code data data data data data (mkTableRegister 55 0x800) 0x10 true booted_machine.

Lemma panic_handler_reaches_halt_witness :
  ∃ c', @panic dev (link sample_sections) "out of physical frames" booted_cpu = (Ok tt, c') ∧
    mc_panicking (mach c') = true ∧ iflag c' = false ∧
    console_step (with_panicking (mach booted_cpu)) (mach c') ∧
    machine_term (mach c') = foldl term_emit (machine_term (mach booted_cpu))
      (@panic_out (link sample_sections) "out of physical frames" booted_cpu) ∧
    ∀ text', @panic dev (link sample_sections) text' c' = (Ok tt, c').
Proof.
  exact (@panic_handler_reaches_halt dev (link sample_sections) "out of physical frames" booted_cpu
    sample_image_ok ltac:(cbn; lia) booted_machine_screen booted_machine_stack).
Defined.

Lemma usable_total_bound (rs : list MemoryRegion) :
  Forall (fun r => u64_range (region_base r) /\ u64_range (region_length r)) rs →
  0 <= usable_total rs <= 2 ^ 32 * Z.of_nat (length rs).
Proof.
  induction 1 as [|r rs [Hrb Hrl] Hall IH]; [simpl; lia|].
  destruct (@addressable_bytes_ok dev r Hrb Hrl) as [_ Hu]. unfold usable_total in *. cbn [foldr length].
  destruct (MemoryRegion.is_available r); lia.
Qed.

(** The usable-RAM total is right and cannot overflow: for any map in memory the
    loop of [print_memory_map] ends as the walk ends, and when the walk yields regions
    it returns the sum of the bytes below 4 GiB of the available ones, which fits 64
    bits, having changed nothing but the console. *)
Lemma usable_ram_total `{BuildProfile} (map : MapRef) (s : machine) :
  ref_clear map → ref_offset map = 0 → 0 <= ref_len map < 2 ^ 32 → screen_ok s →
  let regions := MemoryMap.regions (MapRef.view (mc_mem s) map) in
  ∃ s', print_regions (MapRef.fuel map) map 0 s = (rs ← regions; Ok (usable_total rs), s') ∧ console_step s s' ∧
    ∀ rs, regions = Ok rs → 0 <= usable_total rs < 2 ^ 64.
Proof.
  intros Hc Ho Hl Hw. unfold MemoryMap.regions. set (v := MapRef.view (mc_mem s) map).
  assert (MemoryMap.fuel v = MapRef.fuel map) as ->.
  { unfold MemoryMap.fuel, MapRef.fuel. cbn [v map_buf MapRef.view]. by rewrite length_load_bytes, Z2Nat.id by lia. }
  destruct (print_regions_ok (color (mc_writer s)) (MapRef.fuel map) map 0 s Hc) as (s' & E & Hs & _);
    [lia|lia|unfold MapRef.fuel; zdiv|by split|].
  exists s'. split; [exact E|]. split; [done|]. intros rs Hrs.
  apply collect_regions in Hrs as [Hn Hall]; [|apply load_bytes_bytes|cbn; lia].
  pose proof (usable_total_bound rs Hall). unfold MapRef.fuel in Hn. zdiv.
Qed.

(** C17: What the user sees: booted with the console as the image holds it, the kernel
    leaves on the screen the last 25 rows of its boot text in white, cut at newlines
    and every 80 characters, the rest blank and the cursor behind the text: the
    banner, the report of the memory map with the usable total, and the closing
    line. *)
Theorem boot_screen `{BuildProfile} {I : KernelImage} (s : machine) (info : Z) (map : MemoryMap)
    (rs : list MemoryRegion) :
  ImageOk I → boot_ready s → handoff s info → map_clear s info →
  map_of s info = Some map → MemoryMap.regions map = Ok rs → map_ok rs → mc_writer s = VgaWriter.new →
  ∃ s' pre cur, kernel_main BOOTLOADER_MAGIC info s = (Ok tt, s') ∧
    machine_term s' = showing (Color.as_u8 White) pre cur ∧ (pre ++ [cur])%list = wrap [] (bytes_of (boot_text rs)).
Proof.
  intros HI Hb Hh Hc Hm Hrs Hmap Hw.
  destruct (kernel_boots_ok s info map rs Hb Hh Hc Hm Hrs Hmap) as (s' & E & Hup).
  destruct (term_put_wrap 15 [] [] (bytes_of (boot_text rs))) as (pre & cur & Ew & Hr).
  exists s', pre, cur. split; [exact E|]. split; [|exact Hr].
  rewrite (ku_term _ _ _ Hup), Hw. change (color VgaWriter.new) with 15. change (Color.as_u8 White) with 15.
  assert (cleared (machine_term s) = showing 15 [] []) as ->.
  { unfold machine_term, cleared, term_of. by rewrite Hw. }
  unfold styled. rewrite <- Ew. exact (emit_own (showing 15 [] []) _).
Qed.

Lemma boot_screen_witness :
  ∃ s' pre cur, @kernel_main dev (link sample_sections) BOOTLOADER_MAGIC 0x9500 grub_machine = (Ok tt, s') ∧
    machine_term s' = showing (Color.as_u8 White) pre cur ∧
    (pre ++ [cur])%list = wrap [] (bytes_of (boot_text (region_of <$> sample_map.*1))).
Proof.
  apply (@boot_screen dev (link sample_sections) grub_machine 0x9500 sample_mmap (region_of <$> sample_map.*1)
    sample_image_ok grub_machine_ready grub_machine_handoff).
  - left. apply Z.leb_le. vm_compute. reflexivity.
  - exact grub_machine_map.
  - vm_compute. reflexivity.
  - exact sample_map_ok.
  - reflexivity.
Defined.
