(* ===== verification/Report.v ===== *)
(** * The memory report read back

    [print_memory_map] writes the loader's map as text.  A reader of that text, and the
    proof that it recovers every entry of the map, its type code included: nothing is
    dropped, reordered, misclassified or printed ambiguously. *)

From S2P Require Import Prelude Rust Bits Fmt Memory Address Layout Multiboot Frame FrameSpec.
From S2P Require Import Paging Mmu AddressSpace Volatile Vga Machine Cpu Stack Kernel.
From Stdlib Require Import Ascii.

#[local] Open Scope string_scope.
#[local] Open Scope Z_scope.

(** ** Reading tokens *)

(** The text behind a keyword. *)
Fixpoint strip (p s : string) : option string :=
  match p, s with
  | "", _ => Some s
  | String a p, String b s => if Ascii.eqb a b then strip p s else None
  | String _ _, "" => None
  end.

(** The value of a character that is a digit. *)
Definition digit_of (radix : Z) (c : ascii) : option Z :=
  d ← char_digit c; if d <? radix then Some d else None.

(** As many digits as there are, and the text behind them. *)
Fixpoint read_digits (radix : Z) (s : string) (acc : Z) : Z * string :=
  match s with
  | "" => (acc, "")
  | String c rest =>
      match digit_of radix c with
      | Some d => read_digits radix rest (acc * radix + d)
      | None => (acc, s)
      end
  end.

Fixpoint skip_blanks (s : string) : string :=
  match s with
  | String " " s => skip_blanks s
  | _ => s
  end.

Definition read_hex (s : string) : option (Z * string) :=
  s ← strip "0x" s; Some (read_digits 16 s 0).

Definition read_dec (s : string) : Z * string := read_digits 10 (skip_blanks s) 0.

(** ** Reading the report *)

(** The Multiboot type code a kind stands for: 1 is available RAM, 3 ACPI reclaimable, 4
    ACPI NVS, 5 defective; a reserved region carries its code. *)
Definition read_kind (s : string) : option (Z * string) :=
  match strip "Available" s, strip "AcpiReclaimable" s, strip "AcpiNvs" s, strip "Defective" s, strip "Reserved(" s with
  | Some s, _, _, _, _ => Some (1, s)
  | _, Some s, _, _, _ => Some (3, s)
  | _, _, Some s, _, _ => Some (4, s)
  | _, _, _, Some s, _ => Some (5, s)
  | _, _, _, _, Some s =>
      let '(raw, s) := read_dec s in
      s ← strip ")" s; if decide (raw ∈ [1; 3; 4; 5]) then None else Some (raw, s)
  | _, _, _, _, _ => None
  end.

(** What a line of the report says of a region: its base, its end, its size and its type
    code. *)
Record row := mkRow { row_base : Z; row_end : Z; row_kib : Z; row_type : Z }.

(** A line, from behind its opening bracket. *)
Definition read_row (s : string) : option (row * string) :=
  '(base, s) ← read_hex s; s ← strip ", " s;
  '(stop, s) ← read_hex s; s ← strip ") " s;
  let '(kib, s) := read_dec s in
  s ← strip " KiB  " s; '(kind, s) ← read_kind s; s ← strip nl s;
  Some (mkRow base stop kib kind, s).

(** The lines and the total; one unit of fuel per line. *)
Fixpoint read_rows (fuel : nat) (s : string) : option (list row * Z) :=
  match fuel with
  | O => None
  | S fuel =>
      match strip "  [" s with
      | Some s => '(r, s) ← read_row s; '(rows, total) ← read_rows fuel s; Some (r :: rows, total)
      | None =>
          s ← strip "usable RAM: " s;
          let '(total, s) := read_dec s in
          s ← strip (" KiB" ++ nl) s; if decide (s = "") then Some ([], total) else None
      end
  end.

Definition read_report (s : string) : option (list row * Z) :=
  s' ← strip ("multiboot memory map:" ++ nl) s; read_rows (String.length s) s'.

(** What the report should say of an entry the loader wrote. *)
Definition row_of (e : MmapEntry) : row :=
  mkRow (entry_base_addr e) (Z.min (entry_base_addr e + entry_length e) (2 ^ 64 - 1)) (entry_length e / 1024)
    (entry_kind e).

(** The bytes below 4 GiB of the entries of type 1. *)
Definition usable_bytes (es : list MmapEntry) : Z :=
  foldr (fun e acc => (if entry_kind e =? 1 then Z.max 0 (Z.min (entry_base_addr e + entry_length e) (2 ^ 32) - entry_base_addr e)
                       else 0) + acc) 0 es.

Lemma usable_bytes_total (es : list MmapEntry) : usable_total (region_of <$> es) = usable_bytes es.
Proof.
  induction es as [|e es IH]; [done|]. unfold usable_total, usable_bytes in *. csimpl. cbn [foldr]. rewrite IH. f_equal.
  unfold MemoryRegion.is_available, region_of. cbn [region_kind]. destruct (Z.eqb_spec (entry_kind e) 1) as [->|Hne]; [done|].
  unfold RegionKind.from_raw. repeat case_match; done.
Qed.

(** ** Reading what was printed *)

Lemma strip_app (p s : string) : strip p (p ++ s) = Some s.
Proof. induction p as [|a p IH]; [done|]. change (String a p ++ s) with (String a (p ++ s)). cbn [strip]. by rewrite Ascii.eqb_refl. Qed.

(** A text that does not go on with a digit. *)
Definition no_digit (radix : Z) (s : string) : Prop :=
  match s with "" => True | String c _ => digit_of radix c = None end.

Lemma read_digits_app (radix acc n : Z) (s t : string) :
  parse_digits radix s acc = Some n -> no_digit radix t -> read_digits radix (s ++ t) acc = (n, t).
Proof.
  revert acc. induction s as [|c s IH]; intros acc Hs Ht; cbn [parse_digits] in Hs.
  - simplify_eq. change ("" ++ t) with t. destruct t as [|c t]; [done|]. cbn [read_digits no_digit] in *. by rewrite Ht.
  - change (String c s ++ t) with (String c (s ++ t)). cbn [read_digits]. unfold digit_of.
    destruct (char_digit c) as [d|]; [|done]. cbn [mbind option_bind] in *.
    destruct (d <? radix); [by apply IH|done].
Qed.

Lemma read_hex_app (w : nat) (n : Z) (t : string) :
  u64_range n -> no_digit 16 t -> read_hex (hex_pad w n ++ t) = Some (n, t).
Proof.
  intros Hn Ht. pose proof (hex_pad_parse w n Hn) as Hp. unfold hex_pad, pad_integral in *. cbv zeta iota in *.
  set (z := (repeat_char _ _ ++ _)) in *. change (parse_digits 16 z 0 = Some n) in Hp.
  unfold read_hex. rewrite append_assoc, strip_app. cbn [mbind option_bind].
  by rewrite (read_digits_app _ _ _ _ _ Hp Ht).
Qed.

Lemma skip_blanks_app (n : nat) (s : string) : skip_blanks (repeat_char n " " ++ s) = skip_blanks s.
Proof. by induction n. Qed.

(** The digits of a number start with no blank. *)
Lemma skip_blanks_digits (radix acc n : Z) (s t : string) :
  parse_digits radix s acc = Some n -> s <> "" -> skip_blanks (s ++ t) = s ++ t.
Proof.
  destruct s as [|c s]; [done|]. intros H _. cbn in H.
  destruct (decide (c = " "%char)) as [-> |Hc]; [done|].
  destruct c as [[] [] [] [] [] [] [] []]; try done.
Qed.

Lemma radix_digits_nonempty (radix n : Z) : radix_digits radix n <> "".
Proof.
  unfold radix_digits. change 64%nat with (S 63). generalize 63%nat. intros fuel. cbn [radix_loop].
  destruct (_ =? 0); [done|]. rewrite radix_loop_app. by destruct (radix_loop fuel _ _ "").
Qed.

Lemma read_dec_app (w : nat) (n : Z) (t : string) :
  u64_range n -> no_digit 10 t -> read_dec (dec_right w n ++ t) = (n, t).
Proof.
  intros Hn Ht. unfold read_dec, dec_right, pad_integral. rewrite append_assoc, skip_blanks_app.
  assert (parse_digits 10 (radix_digits 10 n) 0 = Some n) as Hp by (apply radix_loop_parse; cbn; lia).
  cbn [String.append]. rewrite (skip_blanks_digits _ _ _ _ _ Hp (radix_digits_nonempty _ _)).
  by apply read_digits_app.
Qed.

Lemma read_kind_app (raw : Z) (t : string) :
  u32_range raw -> read_kind (RegionKind.fmt (RegionKind.from_raw raw) ++ t) = Some (raw, t).
Proof.
  intros Hr. destruct (decide (raw ∈ [1; 3; 4; 5])) as [Hin|Hout].
  - apply elem_of_cons in Hin as [-> |Hin]; [done|]. apply elem_of_cons in Hin as [-> |Hin]; [done|].
    apply elem_of_cons in Hin as [-> |Hin]; [done|]. by apply list_elem_of_singleton in Hin as ->.
  - assert (RegionKind.from_raw raw = Reserved raw) as ->.
    { unfold RegionKind.from_raw. repeat case_match; try done; subst; set_solver. }
    cbn [RegionKind.fmt]. unfold debug_tuple. rewrite !append_assoc.
    transitivity (let '(raw, s) := read_dec (dec raw ++ ")" ++ t) in
      s ← strip ")" s; if decide (raw ∈ [1; 3; 4; 5]) then None else Some (raw, s)); [done|].
    rewrite (read_dec_app 0 raw) by (lia || done). rewrite strip_app. cbn [mbind option_bind]. by rewrite decide_False.
Qed.

Lemma read_row_app (e : MmapEntry) (t : string) :
  u64_range (entry_base_addr e) -> u64_range (entry_length e) -> u32_range (entry_kind e) ->
  exists s, region_line (region_of e) ++ t = "  [" ++ s /\ read_row s = Some (row_of e, t).
Proof.
  intros Hb Hl Hk. unfold region_line.
  change (MemoryRegion.base (region_of e)) with (entry_base_addr e).
  change (MemoryRegion.length (region_of e)) with (entry_length e).
  change (MemoryRegion.kind (region_of e)) with (RegionKind.from_raw (entry_kind e)). cbv zeta.
  rewrite !append_assoc. eexists. split; [reflexivity|]. unfold read_row, saturating_add.
  rewrite read_hex_app by done. cbn [mbind option_bind]. rewrite strip_app. cbn [mbind option_bind].
  rewrite read_hex_app by (lia || done). cbn [mbind option_bind]. rewrite strip_app. cbn [mbind option_bind].
  rewrite read_dec_app by (zdiv || done). rewrite strip_app. cbn [mbind option_bind].
  rewrite read_kind_app by done. cbn [mbind option_bind]. by rewrite strip_app.
Qed.

Lemma read_rows_app (es : list MmapEntry) (total : Z) (fuel : nat) :
  Forall (fun e => u64_range (entry_base_addr e) /\ u64_range (entry_length e) /\ u32_range (entry_kind e)) es ->
  u64_range total -> (length es < fuel)%nat ->
  read_rows fuel (region_lines (region_of <$> es) ++ ("usable RAM: " ++ dec total ++ " KiB" ++ nl)) =
    Some (row_of <$> es, total).
Proof.
  intros Hes Ht. revert fuel. induction Hes as [|e es (Hb & Hl & Hk) Hes IH]; intros fuel Hf;
    (destruct fuel as [|fuel]; [simpl in Hf; lia|]); cbn [read_rows].
  - change (region_lines _ ++ ?t) with t. change (strip "  [" _) with (@None string). cbv iota.
    rewrite strip_app. cbn [mbind option_bind]. change (dec total) with (dec_right 0 total).
    by rewrite (read_dec_app 0 total) by done.
  - change (region_lines (region_of <$> e :: es)) with (region_line (region_of e) ++ region_lines (region_of <$> es)).
    rewrite append_assoc.
    destruct (read_row_app e (region_lines (region_of <$> es) ++ "usable RAM: " ++ dec total ++ " KiB" ++ nl) Hb Hl Hk)
      as (s & -> & Hs).
    rewrite strip_app, Hs. cbn [mbind option_bind]. rewrite IH by (simpl in Hf; lia). done.
Qed.

Lemma length_lines (rs : list MemoryRegion) : (length rs <= String.length (region_lines rs))%nat.
Proof.
  induction rs as [|r rs IH]; [simpl; lia|]. unfold region_lines in *. csimpl. cbn [lines foldr].
  rewrite length_append. assert (1 <= String.length (region_line r))%nat; [|lia].
  unfold region_line. rewrite length_append. cbn [String.length]. lia.
Qed.

Lemma read_report_app (es : list MmapEntry) :
  Forall (fun e => u64_range (entry_base_addr e) /\ u64_range (entry_length e) /\ u32_range (entry_kind e)) es ->
  Z.of_nat (length es) < 2 ^ 32 ->
  read_report (map_report (region_of <$> es)) = Some (row_of <$> es, usable_total (region_of <$> es) / 1024).
Proof.
  intros Hes Hlen. unfold read_report, map_report. rewrite strip_app. cbn [mbind option_bind].
  apply read_rows_app; [done| |].
  - assert (0 <= usable_total (region_of <$> es) <= 2 ^ 32 * Z.of_nat (length (region_of <$> es))) as Hu.
    { apply usable_total_bound, Forall_fmap. eapply Forall_impl; [exact Hes|]. intros e (? & ? & _). by split. }
    rewrite length_fmap in Hu. zdiv.
  - rewrite !length_append. pose proof (length_lines (region_of <$> es)) as Hl. rewrite length_fmap in Hl.
    cbn [String.length nl]. lia.
Qed.

(** C33: The memory report is a faithful copy of the loader's map: over a map of
    well-formed entries, with whatever padding, that does not lie under the text buffer
    (where printing would overwrite it), [print_memory_map] returns having changed
    nothing but the console, and from the text it printed one can read back, in order,
    the base, the end (saturated at the top of the 64 bits), the size in KiB and the type
    code of every entry, and the usable total. *)
Theorem memory_report_roundtrip `{BuildProfile} {I : KernelImage} (s : machine) (info : Z)
    (es : list (MmapEntry * list Z)) :
  ImageOk I → boot_ready s → handoff s info → map_clear s info → Forall entry_wf es →
  map_of s info = Some {| map_buf := encode_map es; map_offset := 0 |} →
  ∃ s' text, print_memory_map info s = (Ok tt, s') ∧ console_step s s' ∧
    machine_term s' = foldl term_emit (machine_term s) (styled (color (mc_writer s)) text) ∧
    read_report text = Some (row_of <$> es.*1, usable_bytes es.*1 / 1024).
Proof.
  intros HI Hb Hh Hc Hes Hm. destruct (map_of_wf _ _ _ Hm) as (_ & _ & Hlen). cbn [map_buf] in Hlen.
  assert (MemoryMap.regions {| map_buf := encode_map es; map_offset := 0 |} = Ok (region_of <$> es.*1)) as Hrs.
  { apply (collect_encoded es []); [done|done|]. unfold MemoryMap.fuel. cbn [map_buf]. pose proof (length_encode_map es). zdiv. }
  destruct (print_memory_map_ok _ s info Hb Hh (or_intror Hc) eq_refl) as (s' & E & Hs & Hp & _).
  destruct (Hp _ _ Hm Hrs) as [_ Ht]. rewrite Hm, Hrs in E.
  exists s', (map_report (region_of <$> es.*1)). split_and!; [done|done|done|].
  rewrite <- usable_bytes_total. apply read_report_app.
  - apply Forall_fmap. eapply Forall_impl; [exact Hes|]. by intros [e padding] (_ & ? & ? & ?).
  - rewrite length_fmap. pose proof (length_encode_map es). lia.
Qed.

Lemma memory_report_roundtrip_witness :
  ∃ s' text, @print_memory_map dev 0x9500 grub_machine = (Ok tt, s') ∧ console_step grub_machine s' ∧
    machine_term s' = foldl term_emit (machine_term grub_machine) (styled 15 text) ∧
    read_report text =
      Some ([mkRow 0 0x9FC00 639 1; mkRow 0x9FC00 0xA0000 1 2;
             mkRow 0x100000 0x7FE0000 129920 1; mkRow 0xFFFC0000 0x100000000 256 2], 130559).
Proof.
  apply (@memory_report_roundtrip dev (link sample_sections) grub_machine 0x9500 sample_map
    sample_image_ok grub_machine_ready grub_machine_handoff).
  - left. apply Z.leb_le. vm_compute. reflexivity.
  - repeat constructor; simpl; lia.
  - exact grub_machine_map.
Defined.
