(* ===== verification/Refusal.v ===== *)
(** * How the kernel refuses to boot

    The error paths of [kernel_main], in either build: what it was asked for, what it
    has printed by then, the message it panics with, and the machine it leaves to the
    panic handler. *)

From S2P Require Import Prelude Rust Bits Fmt Memory Address Layout Multiboot Frame FrameSpec.
From S2P Require Import Paging Mmu AddressSpace Volatile Vga Machine Cpu Stack Kernel.

#[local] Open Scope string_scope.
#[local] Open Scope Z_scope.

Definition banner : string := "zkrnl32 booting" ++ nl.

Definition bad_magic (magic : Z) : string := "not booted by a multiboot loader: magic=" ++ hex magic.

(** What a refusal leaves: the registers, the flag, and every byte of memory but the text
    buffer's and those of frames the map offers; [out] on a cleared screen. *)
Record refused {I : KernelImage} (rs : list MemoryRegion) (out : list cell) (s s' : machine) : Prop := {
  rf_regs : mc_cr3 s' = mc_cr3 s /\ mc_cr0 s' = mc_cr0 s;
  rf_panicking : mc_panicking s' = mc_panicking s;
  rf_kept : forall a, u32_range a -> usable_frame rs (a / 4096) = false -> a / 4096 <> VGA_BUFFER / 4096 ->
    load8 (mc_mem s') a = load8 (mc_mem s) a;
  rf_term : usable_frame rs (VGA_BUFFER / 4096) = false ->
    machine_term s' = foldl term_emit (cleared (machine_term s)) out
}.

Section refusal.
Context {P : BuildProfile} {I : KernelImage} {HI : ImageOk I}.

Lemma refused_console (rs : list MemoryRegion) (out : list cell) (s s' : machine) :
  console_step s s' -> machine_term s' = foldl term_emit (cleared (machine_term s)) out -> refused rs out s s'.
Proof.
  intros Hs Ht. split; [by rewrite (cstep_cr3 _ _ Hs), (cstep_cr0 _ _ Hs)|apply Hs| |done].
  intros a Ha _ Hv. apply (cstep_mem _ _ Hs). unfold VGA_BUFFER in *. zdiv.
Qed.

(** With too few low frames [memory::init] panics before the switch. *)
Lemma memory_init_short s info map rs :
  boot_ready s -> handoff s info -> map_of s info = Some map -> MemoryMap.regions map = Ok rs ->
  Forall region_below_limit rs -> (low_usable rs < 3)%nat ->
  exists p s', memory_init info s = (Panic p, s') /\ init_failure p /\
    mc_writer s' = mc_writer s /\ mc_panicking s' = mc_panicking s /\ mc_cr3 s' = mc_cr3 s /\ mc_cr0 s' = mc_cr0 s /\
    forall a, u32_range a -> usable_frame rs (a / 4096) = false -> load8 (mc_mem s') a = load8 (mc_mem s) a.
Proof.
  intros Hb Hh Hm Hrs Hlim Hlow. destruct (allocator_up s map rs Hb Hrs Hlim) as (b & Eb & Hok & Hf & Hboot & Hsize).
  rewrite <- Hsize in Hlow. destruct (init_fail _ Hboot Hok Hlow) as (p & s1 & E & Hp & H3 & H0 & Hkept).
  exists p. eexists. split; [rewrite (memory_init_run s info map b Hb Hh Hm Eb), E; reflexivity|].
  split_and!; [done..|]. intros a Ha Hu. apply Hkept. change (frame_free b (a / 4096) = false).
  rewrite Hf; [done|]. unfold FRAME_COUNT. zdiv.
Qed.

Lemma refuses_magic magic info s :
  magic <> BOOTLOADER_MAGIC -> kernel_main magic info s = (Panic (Message (bad_magic magic)), s).
Proof. intros Hne. unfold kernel_main. by rewrite (proj2 (Z.eqb_neq _ _) Hne). Qed.

Lemma refuses_no_map info s :
  boot_ready s -> handoff s info -> map_of s info = None ->
  exists s', kernel_main BOOTLOADER_MAGIC info s = (Panic (Message no_memory_map), s') /\
    refused [] (styled (color (mc_writer s)) banner ++ styled (Color.as_u8 Yellow) no_map_line)%list s s' /\
    mc_alloc s' = mc_alloc s.
Proof.
  intros Hb Hh Hm. set (k := color (mc_writer s)).
  destruct (kernel_main_banner k s info Hb (ho_info _ _ Hh) eq_refl) as (s1 & H1 & -> & T1).
  pose proof (boot_ready_step _ _ H1 Hb) as Hb1. pose proof (handoff_step _ _ _ H1 Hh) as Hh1.
  assert (forall s', console_step s s' -> map_of s' info = None) as Hnone.
  { intros s' Hs. revert Hm. unfold map_of, MultibootInfo.map_ref. rewrite (read_info_step s s' info Hs (ho_reach _ _ Hh)).
    by destruct (_ =? 0). }
  destruct (print_memory_map_ok k s1 info Hb1 Hh1 (or_introl (Hnone s1 H1)) (cstep_color _ _ H1)) as (s2 & E2 & H2 & _ & Hp2).
  rewrite (Hnone s1 H1) in E2, Hp2. destruct (Hp2 eq_refl) as [_ T2].
  assert (console_step s s2) as H12 by (by transitivity s1).
  exists s2. split_and!; [|by apply refused_console; [|rewrite T2, T1, foldl_app]|apply H12].
  unfold after_banner. rewrite (bind_ok _ _ _ _ _ E2). apply bind_panic. unfold memory_init.
  rewrite (bind_ok _ _ _ _ _ (memory_map_of_ok s2 info (boot_ready_step _ _ H12 Hb) (handoff_step _ _ _ H12 Hh))).
  by rewrite (map_of_none _ _ (Hnone s2 H12)).
Qed.

Lemma refuses_short info map rs s :
  boot_ready s -> handoff s info -> map_clear s info -> map_of s info = Some map -> MemoryMap.regions map = Ok rs ->
  Forall region_below_limit rs -> (low_usable rs < 3)%nat ->
  exists p s', kernel_main BOOTLOADER_MAGIC info s = (Panic p, s') /\ init_failure p /\
    refused rs (styled (color (mc_writer s)) (banner ++ map_report rs)) s s'.
Proof.
  intros Hb Hh Hc Hm Hrs Hlim Hlow. set (k := color (mc_writer s)).
  destruct (kernel_main_banner k s info Hb (ho_info _ _ Hh) eq_refl) as (s1 & H1 & -> & T1).
  pose proof (boot_ready_step _ _ H1 Hb) as Hb1. pose proof (handoff_step _ _ _ H1 Hh) as Hh1.
  pose proof (map_of_step _ _ _ H1 (ho_reach _ _ Hh) Hc) as Em1.
  destruct (print_memory_map_ok k s1 info Hb1 Hh1 (or_intror (map_clear_step _ _ _ H1 (ho_reach _ _ Hh) Hc)) (cstep_color _ _ H1)) as (s2 & E2 & H2 & Hp2 & _).
  rewrite Em1, Hm in E2, Hp2. rewrite Hrs in E2. destruct (Hp2 map rs eq_refl Hrs) as [_ T2].
  assert (console_step s s2) as H12 by (by transitivity s1).
  pose proof (map_of_step _ _ _ H12 (ho_reach _ _ Hh) Hc) as Em2. rewrite Hm in Em2.
  destruct (memory_init_short s2 info map rs (boot_ready_step _ _ H12 Hb) (handoff_step _ _ _ H12 Hh) Em2 Hrs Hlim Hlow)
    as (p & s3 & E3 & Hp & Hw & Hpk & H3 & H0 & Hkept).
  exists p, s3. split_and!; [|done|].
  - unfold after_banner. rewrite (bind_ok _ _ _ _ _ E2). by apply bind_panic.
  - split.
    + by rewrite H3, H0, (cstep_cr3 _ _ H12), (cstep_cr0 _ _ H12).
    + by rewrite Hpk, (cstep_panicking _ _ H12).
    + intros a Ha Hu Hv. rewrite Hkept by done. apply (cstep_mem _ _ H12). unfold VGA_BUFFER in *. zdiv.
    + intros Hvga. assert (machine_term s3 = machine_term s2) as ->.
      { unfold machine_term, term_of. cbn [writer con_mem]. rewrite Hw. f_equal. apply screen_ext. intros a Ha.
        unfold VGA_BUFFER in *. apply Hkept; [lia|]. by replace (a / 4096) with (753664 / 4096) by zdiv. }
      by rewrite T2, T1, styled_app, foldl_app.
Qed.

(** A null map pointer is met by the [dev] build behind the banner. *)
Lemma refuses_null_map info s :
  debug_build = true -> boot_ready s -> in_reach s info -> info <> 0 /\ info mod align_of_MultibootInfo = 0 ->
  map_of s info <> None -> info_mmap_addr (read_info (mc_mem s) info) = 0 ->
  exists s', kernel_main BOOTLOADER_MAGIC info s = (Panic InvalidPointer, s') /\
    refused [] (styled (color (mc_writer s)) banner) s s' /\ mc_alloc s' = mc_alloc s.
Proof.
  intros Hd Hb Hr Hi Hm Hz.
  destruct (kernel_main_banner (color (mc_writer s)) s info Hb Hi eq_refl) as (s1 & H1 & -> & T1).
  pose proof (read_info_step _ _ _ H1 Hr) as Ei.
  exists s1. split_and!; [|by apply refused_console|apply H1].
  apply after_banner_null; [done|by apply (boot_ready_step s)|by apply (in_reach_step s)| |by rewrite Ei].
  rewrite Ei. intros Hn. apply Hm. unfold map_of. by rewrite Hn.
Qed.

End refusal.

(** C14: The kernel refuses cleanly.  In either build, called with a wrong magic it panics
    with that magic before it touches anything.  Without a memory map it prints the
    banner and the warning, in yellow, and panics with the allocator untouched.  With a
    map that is not stored under the text buffer, offers no RAM up to the 4 GiB limit and
    has fewer than three usable frames below 4 MiB it prints the banner and the whole
    report and panics with one of the two messages of [paging::init].  A [dev] build also
    stops at a null or misaligned information pointer, at once, and at a null map
    pointer, behind the banner.  Each time the bootstrap directory is still in [CR3],
    [CR0] and the panic flag are as they were, and no byte in use has changed outside the
    text buffer, which, unless the map offers its frame as RAM, shows what was
    printed. *)
Theorem kernel_refuses `{BuildProfile} {I : KernelImage} (info : Z) (s : machine) :
  ImageOk I → boot_ready s → in_reach s info →
  (∀ magic, magic ≠ BOOTLOADER_MAGIC → kernel_main magic info s = (Panic (Message (bad_magic magic)), s)) ∧
  (handoff s info → map_of s info = None →
    ∃ s', kernel_main BOOTLOADER_MAGIC info s = (Panic (Message no_memory_map), s') ∧
      refused [] (styled (color (mc_writer s)) banner ++ styled (Color.as_u8 Yellow) no_map_line)%list s s' ∧
      mc_alloc s' = mc_alloc s) ∧
  (∀ map rs, handoff s info → map_clear s info → map_of s info = Some map → MemoryMap.regions map = Ok rs →
    Forall region_below_limit rs → (low_usable rs < 3)%nat →
    ∃ p s', kernel_main BOOTLOADER_MAGIC info s = (Panic p, s') ∧ init_failure p ∧
      refused rs (styled (color (mc_writer s)) (banner ++ map_report rs)) s s') ∧
  (debug_build = true →
    if decide (info = 0 ∨ info mod align_of_MultibootInfo ≠ 0) then
      kernel_main BOOTLOADER_MAGIC info s = (Panic InvalidPointer, s)
    else map_of s info ≠ None → info_mmap_addr (read_info (mc_mem s) info) = 0 →
      ∃ s', kernel_main BOOTLOADER_MAGIC info s = (Panic InvalidPointer, s') ∧
        refused [] (styled (color (mc_writer s)) banner) s s' ∧ mc_alloc s' = mc_alloc s).
Proof.
  intros HI Hb Hr. split_and!.
  - intros magic Hne. by apply refuses_magic.
  - by apply refuses_no_map.
  - intros map rs. by apply refuses_short.
  - intros Hd. case_decide as Hi; [apply kernel_main_null; [done|naive_solver]|].
    apply refuses_null_map; [done..|]. split; [naive_solver|]. destruct (decide (info mod align_of_MultibootInfo = 0)); naive_solver.
Qed.

(** Hand-offs that cannot work: no map at 0x9000; at 0x9500 a map whose one entry offers a
    frame below 1 MiB; at 0x9700 a map at address 0. *)
Definition bare_map : list (MmapEntry * list Z) := [(mkMmapEntry 20 0x4000 0x1000 1, [])].

Definition bare_mmap : MemoryMap := {| map_buf := encode_map bare_map; map_offset := 0 |}.

Definition bare_mem : mem :=
  store32 (store_bytes (store32 (store32 (store32 ∅ 0x9500 0x40) 0x952C 24) 0x9530 0x9600) 0x9600 (encode_map bare_map)) 0x9700 0x40.

Definition bare_machine : machine :=
  mkMachine VgaWriter.new FrameBitmap.new false
    (store_words bare_mem 0x201000 (pde_raw <$> boot_entries)) 0x201000 0x80000011.

Lemma bare_machine_ready : @boot_ready (link sample_sections) bare_machine.
Proof.
  split; cbn [bare_machine mc_writer mc_alloc mc_cr3 mc_mem].
  - split; simpl; lia.
  - done.
  - vm_compute. split; congruence.
  - done.
  - apply store_words_directory. unfold boot_entries.
    do 2 (apply Forall_insert; [|simpl; lia]). apply Forall_replicate. simpl. lia.
Qed.

Lemma bare_machine_reach (info : Z) : info = 0x9000 ∨ info = 0x9500 ∨ info = 0x9700 → in_reach bare_machine info.
Proof.
  intros [-> |[-> | ->]]; (split; [lia|unfold VGA_BUFFER; lia|]); apply Z.leb_le; vm_compute; reflexivity.
Qed.

Lemma kernel_refuses_witness :
  @kernel_main dev (link sample_sections) 0 0x9500 bare_machine = (Panic (Message (bad_magic 0)), bare_machine) ∧
  (∃ s', @kernel_main dev (link sample_sections) BOOTLOADER_MAGIC 0x9000 bare_machine = (Panic (Message no_memory_map), s') ∧
    @refused (link sample_sections) [] (styled 15 banner ++ styled 14 no_map_line)%list bare_machine s' ∧
    mc_alloc s' = mc_alloc bare_machine) ∧
  (∃ p s', @kernel_main dev (link sample_sections) BOOTLOADER_MAGIC 0x9500 bare_machine = (Panic p, s') ∧ init_failure p ∧
    @refused (link sample_sections) (region_of <$> bare_map.*1) (styled 15 (banner ++ map_report (region_of <$> bare_map.*1))) bare_machine s') ∧
  ∃ s', @kernel_main dev (link sample_sections) BOOTLOADER_MAGIC 0x9700 bare_machine = (Panic InvalidPointer, s') ∧
    @refused (link sample_sections) [] (styled 15 banner) bare_machine s' ∧ mc_alloc s' = mc_alloc bare_machine.
Proof.
  pose proof (fun info H => @kernel_refuses dev (link sample_sections) info bare_machine sample_image_ok bare_machine_ready
    (bare_machine_reach info H)) as Href.
  split_and!.
  - apply (Href 0x9500); [by right; left|done].
  - apply (Href 0x9000); [by left| |vm_compute; reflexivity].
    split; [apply bare_machine_reach; by left|done|vm_compute; congruence].
  - apply (Href 0x9500 ltac:(by right; left)) with (map := bare_mmap).
    + split; [apply bare_machine_reach; by right; left|done|vm_compute; congruence].
    + left. apply Z.leb_le. vm_compute. reflexivity.
    + vm_compute. reflexivity.
    + vm_compute. reflexivity.
    + repeat constructor; vm_compute; congruence.
    + apply Nat.ltb_lt. vm_compute. reflexivity.
  - destruct (Href 0x9700 ltac:(by right; right)) as (_ & _ & _ & Hn). specialize (Hn eq_refl).
    apply Hn; vm_compute; congruence.
Defined.
