(* ===== verification/Builds.v ===== *)
(** * The two builds

    Cargo's [dev] build checks arithmetic, [debug_assert!]s and pointers, [release] does
    not.
    Both run the same source: up to the first check that fails they do the same, step
    by step, and when no check fails they are indistinguishable.  [follows] is that
    relation between a computation of the one build and of the other, with a rule per
    construct of the language; it is then carried through every function of the
    kernel by following its text.  What makes it useful is that the checks do not fail:
    [builds_agree] puts it together with the endings proved of [dev]. *)

From S2P Require Import Prelude Rust Bits Fmt Memory Address Layout Multiboot Frame FrameSpec.
From S2P Require Import Paging Mmu AddressSpace Volatile Vga Machine Cpu Stack Kernel Refusal.

(** ** The relation *)

(** The conditions of the [debug_assert!]s in the source. *)
Definition DEBUG_ASSERTIONS : list string :=
  ["start_bit < WORD_BITS"; "start < FRAME_COUNT"; "len.get() <= FRAME_COUNT - start";
   "a 4 MiB page must be aligned to a 4 MiB boundary"].

(** The panics of checks that only the [dev] build makes. *)
Definition dev_check (p : panic_info) : bool :=
  match p with
  | ArithmeticOverflow | InvalidPointer => true
  | AssertionFailed m => bool_decide (m ∈ DEBUG_ASSERTIONS)
  | _ => false
  end.

(** [release] computes what [dev] computes, unless a check stopped [dev]. *)
Definition agrees {A} (d r : outcome A) : Prop := d = r ∨ ∃ p, d = Panic p ∧ dev_check p = true.

(** The same of effectful computations; the states agree too. *)
Definition follows {S A} (d r : M S A) : Prop :=
  ∀ s, d s = r s ∨ ∃ p s', d s = (Panic p, s') ∧ dev_check p = true.

Create HintDb builds discriminated.
#[export] Hint Constants Opaque : builds.

(** ** Rules for pure computations *)

Lemma agrees_refl {A} (o : outcome A) : agrees o o.
Proof. by left. Qed.

Lemma agrees_bind {A B} (d r : outcome A) (f g : A → outcome B) :
  agrees d r → (∀ a, agrees (f a) (g a)) → agrees (d ≫= f) (r ≫= g).
Proof.
  intros [-> |(p & -> & Hp)] Hf; [|right; by exists p].
  destruct r as [a| |]; cbn; [apply Hf|by left|by left].
Qed.

Lemma arith_agrees (w x : Z) : agrees (@arith dev w x) (@arith release w x).
Proof. unfold arith. destruct (_ && _); [by left|]. right. by exists ArithmeticOverflow. Qed.

Lemma shift_amount_agrees (w n : Z) : agrees (@shift_amount dev w n) (@shift_amount release w n).
Proof. unfold shift_amount. destruct (_ && _); [by left|]. right. by exists ArithmeticOverflow. Qed.

Lemma debug_assert_agrees (b : bool) (m : string) :
  bool_decide (m ∈ DEBUG_ASSERTIONS) = true → agrees (@debug_assert dev b m) (@debug_assert release b m).
Proof. intros Hm. destruct b; [by left|]. right. by exists (AssertionFailed m). Qed.

Lemma deref_check_agrees (align p : Z) : agrees (@deref_check dev align p) (@deref_check release align p).
Proof. unfold deref_check. cbn [debug_build dev release andb]. destruct (_ || _); [|by left]. right. by exists InvalidPointer. Qed.

Lemma from_raw_parts_check_agrees (p len : Z) :
  agrees (@from_raw_parts_check dev p len) (@from_raw_parts_check release p len).
Proof.
  unfold from_raw_parts_check. cbn [debug_build dev release andb]. destruct (_ || _); [|by left]. right. by exists InvalidPointer.
Qed.

Lemma shl_agrees (w a n : Z) : agrees (@shl dev w a n) (@shl release w a n).
Proof. apply agrees_bind; [apply shift_amount_agrees|by left]. Qed.

Lemma shr_agrees (w a n : Z) : agrees (@shr dev w a n) (@shr release w a n).
Proof. apply agrees_bind; [apply shift_amount_agrees|by left]. Qed.

(** ** Rules for effects *)

Section follows.
Context {S : Type}.

Lemma follows_refl {A} (m : M S A) : follows m m.
Proof. by left. Qed.

Lemma follows_lift {A} (d r : outcome A) : agrees d r → follows (S := S) (lift d) (lift r).
Proof. intros [-> |(p & -> & Hp)] s; [by left|]. right. by exists p, s. Qed.

Lemma follows_reads {A} (f g : S → outcome A) : (∀ s, agrees (f s) (g s)) → follows (reads f) (reads g).
Proof.
  intros H s. unfold reads. destruct (H s) as [-> |(p & -> & Hp)]; [by left|]. right. by exists p, s.
Qed.

Lemma follows_bind {A B} (d r : M S A) (f g : A → M S B) :
  follows d r → (∀ a, follows (f a) (g a)) → follows (d ≫= f) (r ≫= g).
Proof.
  intros Hm Hf s. unfold mbind, M_bind. destruct (Hm s) as [-> |(p & s' & -> & Hp)].
  - destruct (r s) as [[a| |] s']; [apply Hf|by left|by left].
  - right. by exists p, s'.
Qed.

Lemma follows_for_in {A} (l : list A) (f g : A → M S unit) :
  (∀ x, follows (f x) (g x)) → follows (for_in l f) (for_in l g).
Proof.
  intros H. induction l as [|x l IH]; [apply follows_refl|]. cbn [for_in].
  apply follows_bind; [apply H|done].
Qed.

Lemma follows_for_each {St A} (n n' : St → outcome (option (A * St))) (f g : A → M S unit) (fuel : nat) (st : St) :
  (∀ st, agrees (n st) (n' st)) → (∀ x, follows (f x) (g x)) →
  follows (for_each n f fuel st) (for_each n' g fuel st).
Proof.
  intros Hn Hf. revert st. induction fuel as [|fuel IH]; intros st; [apply follows_refl|]. cbn [for_each].
  apply follows_bind; [apply follows_lift, Hn|]. intros [[x st']|]; [|apply follows_refl].
  apply follows_bind; [apply Hf|]. intros _. apply IH.
Qed.

Lemma follows_zoom {T A} `{Lens S T} (d r : M T A) : follows d r → follows (S := S) (zoom d) (zoom r).
Proof.
  intros Hm s. unfold zoom. destruct (Hm (view s)) as [-> |(p & t & -> & Hp)]; [by left|].
  right. by exists p, (put t s).
Qed.
End follows.

(** Follows the text of the two computations, one construct at a time; calls are
    closed by the lemmas of the callees. *)
Ltac follow_step :=
  match goal with
  | |- forall _, _ => intros ?
  | |- agrees (mbind _ _) _ => apply agrees_bind
  | |- agrees (match ?x with _ => _ end) _ => destruct x
  | |- follows (mbind _ _) _ => apply follows_bind
  | |- follows (match ?x with _ => _ end) _ => destruct x
  | |- follows (lift _) _ => apply follows_lift
  | |- follows (reads _) _ => apply follows_reads
  | |- follows (zoom _) _ => apply follows_zoom
  | |- follows (for_in _ _) _ => apply follows_for_in
  | |- follows (for_each _ _ _ _) _ => apply follows_for_each
  | |- agrees _ _ => first [solve [eauto 2 with builds nocore] | apply agrees_refl]
  | |- follows _ _ => first [solve [eauto 2 with builds nocore] | apply follows_refl]
  end.

Ltac follow := repeat follow_step.

#[export] Hint Resolve shl_agrees shr_agrees deref_check_agrees from_raw_parts_check_agrees : builds.
#[export] Hint Extern 0 (agrees (usize_add _ _) _) => apply arith_agrees : builds.
#[export] Hint Extern 0 (agrees (usize_sub _ _) _) => apply arith_agrees : builds.
#[export] Hint Extern 0 (agrees (usize_mul _ _) _) => apply arith_agrees : builds.
#[export] Hint Extern 0 (agrees (u64_add _ _) _) => apply arith_agrees : builds.
#[export] Hint Extern 0 (agrees (u64_sub _ _) _) => apply arith_agrees : builds.
#[export] Hint Extern 0 (agrees (debug_assert _ _) _) => apply debug_assert_agrees; vm_compute; reflexivity : builds.

(** ** The kernel's functions *)

Lemma mask_agrees (s len : Z) :
  agrees (@clipped_bit_range_mask dev s len) (@clipped_bit_range_mask release s len).
Proof. unfold clipped_bit_range_mask. follow. Qed.
#[export] Hint Resolve mask_agrees : builds.

Lemma base_addr_agrees (f : FrameNumber) : agrees (@FrameNumber.base_addr dev f) (@FrameNumber.base_addr release f).
Proof. unfold FrameNumber.base_addr. follow. Qed.

Lemma addressable_bytes_agrees (r : MemoryRegion) :
  agrees (@MemoryRegion.addressable_bytes dev r) (@MemoryRegion.addressable_bytes release r).
Proof. unfold MemoryRegion.addressable_bytes. follow. Qed.

Lemma map_next_agrees (m : MemoryMap) : agrees (@MemoryMap.next dev m) (@MemoryMap.next release m).
Proof. unfold MemoryMap.next. follow. Qed.
#[export] Hint Resolve base_addr_agrees addressable_bytes_agrees map_next_agrees : builds.

Lemma ref_next_agrees (m : mem) (r : MapRef) : agrees (@MapRef.next dev m r) (@MapRef.next release m r).
Proof. unfold MapRef.next. follow. Qed.

Lemma memory_map_agrees (i : MultibootInfo) :
  agrees (@MultibootInfo.memory_map dev i) (@MultibootInfo.memory_map release i).
Proof. unfold MultibootInfo.memory_map. follow. Qed.
#[export] Hint Resolve ref_next_agrees memory_map_agrees : builds.

(** *** The frame allocator *)

Lemma run_new_agrees (s len : Z) : agrees (@FrameRun.new dev s len) (@FrameRun.new release s len).
Proof. unfold FrameRun.new. follow. Qed.

Lemma masks_next_agrees (st : word_masks_state) : agrees (@word_masks_next dev st) (@word_masks_next release st).
Proof. unfold word_masks_next. follow. Qed.
#[export] Hint Resolve run_new_agrees masks_next_agrees : builds.

Lemma set_free_follows (s : FrameNumber) (len : Z) :
  follows (@FrameBitmap.set_free dev s len) (@FrameBitmap.set_free release s len).
Proof. unfold FrameBitmap.set_free. follow. Qed.

Lemma set_occupied_follows (s : FrameNumber) (len : Z) :
  follows (@FrameBitmap.set_occupied dev s len) (@FrameBitmap.set_occupied release s len).
Proof. unfold FrameBitmap.set_occupied. follow. Qed.

Lemma iter_any_agrees {St A} (n n' : St → outcome (option (A * St))) (p : A → outcome bool) (fuel : nat) (st : St) :
  (∀ st, agrees (n st) (n' st)) → agrees (iter_any n p fuel st) (iter_any n' p fuel st).
Proof.
  intros Hn. revert st. induction fuel as [|fuel IH]; intros st; [apply agrees_refl|]. cbn [iter_any].
  apply agrees_bind; [apply Hn|]. intros [[x st']|]; follow.
Qed.

Lemma any_free_in_agrees (b : FrameBitmap) (s len : Z) :
  agrees (@FrameBitmap.any_free_in dev b s len) (@FrameBitmap.any_free_in release b s len).
Proof. apply iter_any_agrees, masks_next_agrees. Qed.

Lemma is_free_agrees (b : FrameBitmap) (f : Z) : agrees (@FrameBitmap.is_free dev b f) (@FrameBitmap.is_free release b f).
Proof. unfold FrameBitmap.is_free. follow. Qed.
#[export] Hint Resolve set_free_follows set_occupied_follows any_free_in_agrees is_free_agrees : builds.

Lemma scan_loop_agrees (b : FrameBitmap) (count : Z) (n : nat) (f s len : Z) :
  agrees (@FrameBitmap.scan_loop dev b count n f s len) (@FrameBitmap.scan_loop release b count n f s len).
Proof.
  revert f s len. induction n as [|n IH]; intros f s len; [apply agrees_refl|]. cbn [FrameBitmap.scan_loop].
  follow.
Qed.

Lemma scan_for_run_agrees (b : FrameBitmap) (from count : Z) :
  agrees (@FrameBitmap.scan_for_run dev b from count) (@FrameBitmap.scan_for_run release b from count).
Proof. apply scan_loop_agrees. Qed.
#[export] Hint Resolve scan_for_run_agrees : builds.

Lemma find_free_run_agrees (b : FrameBitmap) (count : Z) :
  agrees (@FrameBitmap.find_free_run dev b count) (@FrameBitmap.find_free_run release b count).
Proof. unfold FrameBitmap.find_free_run. follow. Qed.
#[export] Hint Resolve find_free_run_agrees : builds.

Lemma allocate_follows (count : Z) : follows (@FrameBitmap.allocate dev count) (@FrameBitmap.allocate release count).
Proof. unfold FrameBitmap.allocate. follow. Qed.

Lemma free_follows (run : FrameRun) : follows (@FrameBitmap.free dev run) (@FrameBitmap.free release run).
Proof. unfold FrameBitmap.free. follow. Qed.

Lemma mark_free_follows (s : FrameNumber) (n : Z) :
  follows (@FrameBitmap.mark_free dev s n) (@FrameBitmap.mark_free release s n).
Proof. unfold FrameBitmap.mark_free. follow. Qed.

Lemma reserve_bytes_follows (a len : Z) :
  follows (@FrameBitmap.reserve_bytes dev a len) (@FrameBitmap.reserve_bytes release a len).
Proof. unfold FrameBitmap.reserve_bytes. follow. Qed.
#[export] Hint Resolve allocate_follows mark_free_follows reserve_bytes_follows : builds.

Lemma init_region_follows (r : MemoryRegion) :
  follows (@FrameBitmap.init_region dev r) (@FrameBitmap.init_region release r).
Proof. unfold FrameBitmap.init_region. follow. Qed.
#[export] Hint Resolve init_region_follows : builds.

Lemma allocator_init_follows {I : KernelImage} (m : MemoryMap) :
  follows (@FrameBitmap.init dev I m) (@FrameBitmap.init release I m).
Proof. unfold FrameBitmap.init. follow. Qed.
#[export] Hint Resolve allocator_init_follows : builds.

(** *** The page directory *)

Lemma for_table_agrees (f : FrameNumber) (k : PageFlags) :
  agrees (@PageDirectoryEntry.for_table dev f k) (@PageDirectoryEntry.for_table release f k).
Proof. unfold PageDirectoryEntry.for_table. follow. Qed.

Lemma pte_new_agrees (f : FrameNumber) (k : PageFlags) :
  agrees (@PageTableEntry.new dev f k) (@PageTableEntry.new release f k).
Proof. unfold PageTableEntry.new. follow. Qed.

Lemma frame_ptr_agrees (f : FrameNumber) :
  agrees (@bootstrap_frame_ptr dev f) (@bootstrap_frame_ptr release f).
Proof. unfold bootstrap_frame_ptr. follow. Qed.
#[export] Hint Resolve for_table_agrees pte_new_agrees frame_ptr_agrees : builds.

Section paging.
Context {I : KernelImage}.

Lemma alloc_frame_follows :
  follows (@alloc_frame dev FrameBitmap _) (@alloc_frame release FrameBitmap _).
Proof. unfold alloc_frame. follow. apply (allocate_follows 1). Qed.

Lemma zero_frame_follows (f : FrameNumber) :
  follows (@zero_frame dev FrameBitmap f) (@zero_frame release FrameBitmap f).
Proof. unfold zero_frame. follow. Qed.
#[local] Hint Resolve alloc_frame_follows zero_frame_follows : builds.

Lemma map_bootstrap_follows (pd : Z) (va : VirtAddr) (pa : PhysAddr) (k : PageFlags) :
  follows (@map_bootstrap dev FrameBitmap _ pd va pa k) (@map_bootstrap release FrameBitmap _ pd va pa k).
Proof. unfold map_bootstrap. follow. Qed.
#[local] Hint Resolve map_bootstrap_follows : builds.

Lemma paging_init_follows : follows (@Paging.init dev FrameBitmap _ I) (@Paging.init release FrameBitmap _ I).
Proof. unfold Paging.init, map_kernel_page, map_low_page. follow. Qed.

End paging.
#[export] Hint Resolve paging_init_follows : builds.

(** *** The console *)

Lemma copy_follows (size src dst count : Z) :
  follows (@Volatile.copy dev size src dst count) (@Volatile.copy release size src dst count).
Proof. unfold Volatile.copy. follow. Qed.

Lemma clear_cell_follows (buf i : Z) :
  follows (@VgaWriter.clear_cell dev buf i) (@VgaWriter.clear_cell release buf i).
Proof. unfold VgaWriter.clear_cell. follow. Qed.
#[export] Hint Resolve copy_follows clear_cell_follows : builds.

Lemma clear_row_follows (r : Z) : follows (@VgaWriter.clear_row dev r) (@VgaWriter.clear_row release r).
Proof. unfold VgaWriter.clear_row. follow. Qed.

Lemma clear_follows : follows (@VgaWriter.clear dev) (@VgaWriter.clear release).
Proof. unfold VgaWriter.clear. follow. Qed.
#[export] Hint Resolve clear_row_follows clear_follows : builds.

Lemma scroll_follows : follows (@VgaWriter.scroll dev) (@VgaWriter.scroll release).
Proof. unfold VgaWriter.scroll. cbv zeta. follow. Qed.
#[export] Hint Resolve scroll_follows : builds.

Lemma newline_follows : follows (@VgaWriter.newline dev) (@VgaWriter.newline release).
Proof. unfold VgaWriter.newline. follow. Qed.
#[export] Hint Resolve newline_follows : builds.

Lemma write_byte_follows (b : Z) : follows (@VgaWriter.write_byte dev b) (@VgaWriter.write_byte release b).
Proof. unfold VgaWriter.write_byte. follow. Qed.
#[export] Hint Resolve write_byte_follows : builds.

Lemma write_str_follows (t : string) : follows (@VgaWriter.write_str dev t) (@VgaWriter.write_str release t).
Proof. unfold VgaWriter.write_str, VgaWriter.write. follow. Qed.
#[export] Hint Resolve write_str_follows : builds.

Lemma on_screen_follows {A} (d r : M console A) : follows d r → follows (on_screen d) (on_screen r).
Proof. intros H. unfold on_screen. follow. Qed.
#[export] Hint Resolve on_screen_follows : builds.

Lemma printk_follows (t : string) : follows (@printk dev t) (@printk release t).
Proof. apply on_screen_follows, write_str_follows. Qed.

Lemma printk_color_follows (k : Z) (t : string) : follows (@printk_color dev k t) (@printk_color release k t).
Proof. apply on_screen_follows. unfold print_color. follow. Qed.
#[export] Hint Resolve printk_follows printk_color_follows : builds.

(** *** The boot path and the panic handler *)

Section kernel.
Context {I : KernelImage}.

Lemma print_regions_follows (fuel : nat) (map : MapRef) (n : Z) :
  follows (@print_regions dev fuel map n) (@print_regions release fuel map n).
Proof.
  revert map n. induction fuel as [|fuel IH]; intros map n; [apply follows_refl|]. cbn [print_regions]. follow.
Qed.
#[local] Hint Resolve print_regions_follows : builds.

Lemma memory_map_of_follows (info : Z) : follows (@memory_map_of dev info) (@memory_map_of release info).
Proof. unfold memory_map_of. follow. Qed.
#[local] Hint Resolve memory_map_of_follows : builds.

Lemma print_memory_map_follows (info : Z) :
  follows (@print_memory_map dev info) (@print_memory_map release info).
Proof. unfold print_memory_map. follow. Qed.

Lemma memory_init_follows (info : Z) : follows (@memory_init dev I info) (@memory_init release I info).
Proof. unfold memory_init. follow. Qed.
#[local] Hint Resolve print_memory_map_follows memory_init_follows : builds.

Lemma kernel_main_follows (magic info : Z) :
  follows (@kernel_main dev I magic info) (@kernel_main release I magic info).
Proof. unfold kernel_main. follow. Qed.

Lemma dump_stack_from_follows (addr n : Z) :
  follows (@dump_stack_from dev I addr n) (@dump_stack_from release I addr n).
Proof. unfold dump_stack_from, dump_dword. cbv zeta. follow. Qed.
#[local] Hint Resolve dump_stack_from_follows : builds.

Lemma panic_follows (text : string) : follows (@panic dev I text) (@panic release I text).
Proof. unfold panic, dump_stack. follow. Qed.

End kernel.

(** Where no check fails the two builds are one. *)
Lemma follows_clean {S A} (d r : M S A) (s s' : S) (o : outcome A) :
  follows d r → d s = (o, s') → (∀ p, o = Panic p → dev_check p = false) → r s = (o, s').
Proof.
  intros H E Ho. destruct (H s) as [<- |(p & s1 & E' & Hp)]; [done|]. rewrite E in E'. simplify_eq.
  by rewrite (Ho p) in Hp.
Qed.

Lemma init_failure_clean (p : panic_info) : init_failure p → dev_check p = false.
Proof.
  intros [-> |(phys & _ & ->)]; [done|]. cbn [dev_check]. apply bool_decide_false.
  unfold above_identity_map, DEBUG_ASSERTIONS. intros Hin. repeat (apply elem_of_cons in Hin as [Hin|Hin]; [cbv [String.append] in Hin; discriminate Hin|]).
  by apply not_elem_of_nil in Hin.
Qed.

(** ** What the boot comes to *)

(** How [kernel_main] ends, decided by the magic, the map and how much low memory it
    offers. *)
Definition boot_verdict {I : KernelImage} (magic : Z) (map : option MemoryMap) (o : outcome unit) : Prop :=
  if magic =? BOOTLOADER_MAGIC then
    match map with
    | None => o = Panic (Message no_memory_map)
    | Some map => ∃ rs, @MemoryMap.regions dev map = Ok rs ∧
        if (3 <=? low_usable rs)%nat then o = Ok tt else ∃ p, o = Panic p ∧ init_failure p
    end
  else o = Panic (Message (bad_magic magic)).

(** The map can be walked, and what it offers as RAM ends below 4 GiB and is not the text
    buffer. *)
Definition map_sound {I : KernelImage} (map : MemoryMap) : Prop :=
  ∃ rs, @MemoryMap.regions dev map = Ok rs ∧ Forall region_below_limit rs ∧ usable_frame rs (VGA_BUFFER / 4096) = false.

Lemma verdict_clean {I : KernelImage} magic map o p : boot_verdict magic map o → o = Panic p → dev_check p = false.
Proof.
  unfold boot_verdict. intros H ->. destruct (magic =? _); [|by simplify_eq].
  destruct map as [map|]; [|by simplify_eq]. destruct H as (rs & _ & H). destruct (_ <=? _)%nat; [done|].
  destruct H as (q & [= <-] & Hq). by apply init_failure_clean.
Qed.

Lemma kernel_main_verdict {I : KernelImage} {HI : ImageOk I} magic info s :
  boot_ready s → handoff s info → map_clear s info → (∀ map, map_of s info = Some map → map_sound map) →
  ∃ o s', @kernel_main dev I magic info s = (o, s') ∧ boot_verdict magic (map_of s info) o.
Proof.
  intros Hb Hh Hc Hm. unfold boot_verdict. destruct (Z.eqb_spec magic BOOTLOADER_MAGIC) as [->|Hne]; cycle 1.
  { eexists _, s. split; [by apply refuses_magic|done]. }
  destruct (map_of s info) as [map|] eqn:Em; cycle 1.
  { destruct (@refuses_no_map dev I HI info s Hb Hh Em) as (s' & E & _). eauto. }
  destruct (Hm map eq_refl) as (rs & Hrs & Hlim & Hvga).
  destruct (3 <=? low_usable rs)%nat eqn:El.
  - apply Nat.leb_le in El. destruct (@kernel_boots_ok dev I HI s info map rs Hb Hh Hc Em Hrs ltac:(by split)) as (s' & E & _).
    exists (Ok tt), s'. split; [done|]. exists rs. split; [done|]. by rewrite (proj2 (Nat.leb_le _ _) El).
  - apply Nat.leb_gt in El. destruct (@refuses_short dev I HI info map rs s Hb Hh Hc Em Hrs Hlim El) as (p & s' & E & Hp & _).
    exists (Panic p), s'. split; [done|]. exists rs. split; [done|]. rewrite (proj2 (Nat.leb_gt _ _) El). eauto.
Qed.

(** C9: The checks of the [dev] build never fire, and the two builds are one program.  For
    any magic, from a hand-off whose map can be walked, offers no RAM up to the 4 GiB
    limit and not the text buffer, both builds of [kernel_main] end alike and in the same
    state: in the idle loop exactly when the magic is right, there is a map and it offers
    three usable frames below 4 MiB, and otherwise in the panic for the first of these
    that fails.  Neither does a check fire in the panic handler, nor in the allocator:
    not in an allocation of any size from any bitmap, nor in freeing any run of frames,
    also one that is free already. *)
Theorem builds_agree {I : KernelImage} :
  ImageOk I →
  (∀ magic info s, boot_ready s → handoff s info → map_clear s info → (∀ map, map_of s info = Some map → map_sound map) →
    ∃ o s', @kernel_main dev I magic info s = (o, s') ∧ @kernel_main release I magic info s = (o, s') ∧
      boot_verdict magic (map_of s info) o) ∧
  (∀ text c, u32_range (esp c) → screen_ok (mach c) → stack_mapped (mach c) →
    ∃ c', @panic dev I text c = (Ok tt, c') ∧ @panic release I text c = (Ok tt, c')) ∧
  (∀ b count, bitmap_wf b → 0 < count →
    ∃ r b', @FrameBitmap.allocate dev count b = (Ok r, b') ∧ @FrameBitmap.allocate release count b = (Ok r, b')) ∧
  (∀ b run, bitmap_wf b → 0 <= frame_index (run_start run) → 0 <= run_len run →
    frame_index (run_start run) + run_len run <= FRAME_COUNT →
    ∃ o b', @FrameBitmap.free dev run b = (o, b') ∧ @FrameBitmap.free release run b = (o, b') ∧
      (o = Ok tt ∨ o = Panic (Message "double free of physical frames"))).
Proof.
  intros HI. split_and!.
  - intros magic info s Hb Hh Hc Hm. destruct (kernel_main_verdict magic info s Hb Hh Hc Hm) as (o & s' & E & Hv).
    exists o, s'. split_and!; [done| |done]. apply (follows_clean _ _ _ _ _ (kernel_main_follows magic info) E).
    intros p. by apply (verdict_clean magic (map_of s info)).
  - intros text c He Hw Hs. destruct (@panic_ends dev I HI text c He Hw Hs) as (c' & E & _). exists c'. split; [done|].
    by apply (follows_clean _ _ _ _ _ (panic_follows text) E).
  - intros b count Hwf Hc. destruct (@allocate_ok dev b count Hwf Hc) as (r & b' & E & _). exists r, b'. split; [done|].
    by apply (follows_clean _ _ _ _ _ (allocate_follows count) E).
  - intros b run Hwf H0 Hl Hc.
    destruct (@free_ok dev b run Hwf H0 Hl Hc) as [[_ E]|(_ & b' & E & _)]; eexists _, _; (split; [exact E|split; [|by auto]]);
      apply (follows_clean _ _ _ _ _ (free_follows run) E); by intros p [= <-].
Qed.

Lemma builds_agree_witness :
  (∃ s', @kernel_main dev (link sample_sections) BOOTLOADER_MAGIC 0x9500 grub_machine = (Ok tt, s') ∧
    @kernel_main release (link sample_sections) BOOTLOADER_MAGIC 0x9500 grub_machine = (Ok tt, s')) ∧
  ∃ c', @panic dev (link sample_sections) "out of physical frames" booted_cpu = (Ok tt, c') ∧
    @panic release (link sample_sections) "out of physical frames" booted_cpu = (Ok tt, c').
Proof.
  destruct (@builds_agree (link sample_sections) sample_image_ok) as (Hk & Hp & _). split.
  - destruct (Hk BOOTLOADER_MAGIC 0x9500 grub_machine grub_machine_ready grub_machine_handoff) as (o & s' & Ed & Er & Hv).
    + left. apply Z.leb_le. vm_compute. reflexivity.
    + intros map Hm. rewrite grub_machine_map in Hm. injection Hm as <-.
      exists (region_of <$> sample_map.*1). split_and!; [vm_compute; reflexivity|apply sample_map_ok|apply sample_map_ok].
    + rewrite grub_machine_map in Hv. destruct Hv as (rs & Hrs & Ho).
      assert (@MemoryMap.regions dev sample_mmap = Ok (region_of <$> sample_map.*1)) as Hs by (vm_compute; reflexivity).
      assert (rs = region_of <$> sample_map.*1) as -> by congruence.
      rewrite (proj2 (Nat.leb_le _ _) (@mo_low (link sample_sections) _ sample_map_ok)) in Ho. subst o. exists s'. split; [exact Ed|exact Er].
  - exact (Hp "out of physical frames" booted_cpu ltac:(cbn; lia) booted_machine_screen booted_machine_stack).
Defined.
