(* ===== verification/Boot.v ===== *)
(** * [boot/boot.asm]: the boot stub, and the way from GRUB to the idle loop

    The two blocks of assembly, the entry points they call, and where the linker
    puts them.  The stub is run instruction by instruction on the processor of [Cpu]:
    it starts with paging off, turns it on in the middle of its code, jumps to the
    high half, sets up the stack, calls [install_gdt] and enters [kernel_main]. *)

From S2P Require Import Prelude Rust Bits Fmt Memory Address Layout Multiboot Frame FrameSpec.
From S2P Require Import Paging Mmu AddressSpace Volatile Vga Machine Cpu Gdt Stack Kernel.

(** ** The Multiboot header *)

Definition MBALIGN : Z := Z.shiftl 1 0.

Definition MEMINFO : Z := Z.shiftl 1 1.

Definition MBFLAGS : Z := Z.lor MBALIGN MEMINFO.

Definition MAGIC : Z := 0x1BADB002.

Definition CHECKSUM : Z := (- (MAGIC + MBFLAGS)) mod 2 ^ 32.

Definition multiboot_header : list Z := [MAGIC; MBFLAGS; CHECKSUM].

(** The loader accepts the header: its words sum to zero, and it asks for the map. *)
Lemma multiboot_header_valid :
  foldr Z.add 0 multiboot_header mod 2 ^ 32 = 0 /\ Forall (fun w => u32_range w) multiboot_header /\
  Z.testbit MBFLAGS 1 = true.
Proof. split_and!; [reflexivity| |reflexivity]. repeat constructor; vm_compute; congruence. Qed.

(** ** The code *)

(** Addresses the assembler and the linker assign. *)
Class BootSymbols := {
  start_addr : Z;
  boot_page_directory : Z;
  higher_half : Z;
  hang : Z;
  install_gdt_addr : Z;
  install_gdt_label : Z;
  write_gdt_addr : Z;
  kernel_main_addr : Z
}.

Section text.
Context {B : BootSymbols} {I : KernelImage}.

(** [_start], in [.boot.text] *)
Definition start_text : list instr :=
  [ MovRR ESI EAX;
    MovRI EAX boot_page_directory;
    MovCR CR3 EAX;
    MovRC EAX CR4;
    OrRI EAX (Z.shiftl 1 4);
    MovCR CR4 EAX;
    MovRC EAX CR0;
    OrRI EAX (Z.shiftl 1 31);
    MovCR CR0 EAX;
    MovRI ECX higher_half;
    JmpR ECX ].

(** [higher_half], in [.text] *)
Definition higher_half_text : list instr :=
  [ MovRI ESP stack_top;
    SubRI ESP 8;
    PushR EBX;
    PushR ESI;
    Call install_gdt_addr;
    Call kernel_main_addr;
    Cli;
    Hlt;
    Jmp hang ].

(** [kernel_main] entered by the call; it never returns. *)
Definition kernel_main_entry `{BuildProfile} : M cpu status :=
  magic ← argument 0;
  info ← argument 1;
  zoom (T := machine) (kernel_main magic info);;
  mret Idle.

End text.

(** ** The loaded image

    Where the linker script puts the code, as the loader leaves it in memory: [_start]
    and the bootstrap directory in the identity-linked part, the rest in the read-only
    part of the high half, loaded at the physical address below it. *)
Section image.
Context {P : BuildProfile} {I : KernelImage} {B : BootSymbols} {E : Encoding}.

Definition in_text (va n : Z) : Prop := kernel_virt_start <= va /\ va + n <= kernel_data_start.

Record boot_image (code : Z → option item) : Prop := {
  bi_start : kernel_phys_start <= start_addr /\
    start_addr + text_length start_text <= kernel_virt_start - KERNEL_VIRTUAL_BASE;
  bi_start_code : placed code start_addr start_text;
  bi_high : in_text higher_half (text_length higher_half_text);
  bi_high_code : placed code (higher_half - KERNEL_VIRTUAL_BASE) higher_half_text;
  bi_hang : hang = higher_half + offset higher_half_text 7;
  bi_install : in_text install_gdt_addr (text_length (install_gdt install_gdt_label write_gdt_addr));
  bi_install_code : placed code (install_gdt_addr - KERNEL_VIRTUAL_BASE) (install_gdt install_gdt_label write_gdt_addr);
  bi_label : install_gdt_label =
    install_gdt_addr + offset (install_gdt install_gdt_label write_gdt_addr) LABEL_INDEX;
  bi_write_gdt : in_text write_gdt_addr 1;
  bi_write_gdt_code : exists ax cx, code (write_gdt_addr - KERNEL_VIRTUAL_BASE) = Some (Native (write_gdt_entry ax cx));
  bi_main : in_text kernel_main_addr 1;
  bi_main_code : code (kernel_main_addr - KERNEL_VIRTUAL_BASE) = Some (Native kernel_main_entry);
  bi_directory : boot_page_directory mod 4096 = 0 /\ kernel_phys_start <= boot_page_directory /\
    boot_page_directory + 4096 <= kernel_virt_start - KERNEL_VIRTUAL_BASE
}.

(** The machine state the Multiboot specification promises at the entry point, with
    the image's initialised data in memory. *)
Record multiboot_entry (magic info : Z) (c : cpu) : Prop := {
  me_eip : eip c = start_addr;
  me_eax : eax c = magic /\ u32_range magic;
  me_ebx : ebx c = info /\ u32_range info;
  me_cs : flat_code (cs c) /\ cpl c = 0;
  me_data : flat_data (ds c) /\ flat_data (ss c);
  me_cr0 : Z.testbit (mc_cr0 (mach c)) CR0_PE_BIT = true /\ Z.testbit (mc_cr0 (mach c)) CR0_PG_BIT = false;
  me_cr4 : Z.testbit (cr4 c) CR4_PAE_BIT = false;
  me_iflag : iflag c = false;
  me_directory : forall entries, BOOT_PAGE_DIRECTORY = Ok entries ->
    directory_at (cpu_mem c) boot_page_directory entries;
  me_statics : mc_writer (mach c) = VGA_WRITER /\ mc_alloc (mach c) = FRAME_ALLOCATOR /\
    mc_panicking (mach c) = false
}.

(** The page table bytes of the bootstrap directory, and the state once it is in use. *)
Definition directory_bytes (a : Z) : Prop := boot_page_directory <= a < boot_page_directory + 4096.

Record boot_paging (c : cpu) : Prop := {
  bp_pg : Z.testbit (mc_cr0 (mach c)) CR0_PG_BIT = true;
  bp_pse : Z.testbit (cr4 c) CR4_PSE_BIT = true;
  bp_pae : Z.testbit (cr4 c) CR4_PAE_BIT = false;
  bp_cr3 : mc_cr3 (mach c) = boot_page_directory;
  bp_dir : directory_at (cpu_mem c) boot_page_directory boot_entries
}.

Context {HI : ImageOk I} (code : Z → option item) (BI : boot_image code).

Lemma directory_ext (m m' : mem) :
  (forall a, directory_bytes a -> load8 m' a = load8 m a) ->
  directory_at m boot_page_directory boot_entries -> directory_at m' boot_page_directory boot_entries.
Proof.
  intros Hm Hd i e Hi. rewrite <- (Hd i e Hi). apply load_le_ext. intros b Hb. apply Hm.
  apply lookup_lt_Some in Hi. unfold boot_entries in Hi. rewrite !length_insert, length_replicate in Hi.
  unfold directory_bytes. lia.
Qed.

(** Under the bootstrap directory the first 4 MiB appear twice. *)
Lemma boot_access (c : cpu) (m' : mem) (k : access) (la : Z) :
  boot_paging c -> directory_at m' boot_page_directory boot_entries -> u32_range la ->
  page_access (mc_cr0 (mach c)) (mc_cr3 (mach c)) (cr4 c) m' k la =
    match bootstrap_space la with Some t => Ok (tr_phys t) | None => Panic (CpuException 14) end.
Proof.
  intros [Hpg Hpse Hpae H3 _] Hd Hla. destruct (bi_directory _ BI) as (Hal & Hd1 & Hd2).
  pose proof HI as HI'. destruct HI'. unfold KERNEL_VIRTUAL_BASE in *.
  unfold page_access, mmu. rewrite Hpg, Hpae, Hpse, H3. cbn [negb].
  assert (u32_range boot_page_directory) as Hcr by lia. rewrite (bootstrap_walk m' _ la Hcr Hal Hd Hla). unfold bootstrap_space.
  destruct (_ || _); [|done]. cbn [tr_writable tr_phys negb]. by destruct k; rewrite ?andb_false_r.
Qed.

Lemma boot_pinned (c : cpu) : boot_paging c -> pinned directory_bytes c.
Proof.
  intros Hb m' Hm' k la Hla. unfold translate.
  rewrite !boot_access; [done|done|apply Hb|done|done| |done].
  apply (directory_ext (cpu_mem c)); [done|apply Hb].
Qed.

Lemma boot_maps_low (c : cpu) (k : access) (la n : Z) :
  boot_paging c -> 0 <= la -> la + n <= 0x400000 -> maps c k la n la.
Proof.
  intros Hb H1 H2 i Hi. unfold translate. rewrite boot_access; [|done|apply Hb|lia].
  unfold bootstrap_space. rewrite (proj2 (Z.ltb_lt _ _)) by lia. cbn [orb tr_phys]. f_equal. apply Z.mod_small. lia.
Qed.

Lemma boot_maps_high (c : cpu) (k : access) (la n : Z) :
  boot_paging c -> KERNEL_VIRTUAL_BASE <= la -> la + n <= KERNEL_VIRTUAL_BASE + 0x400000 ->
  maps c k la n (la - KERNEL_VIRTUAL_BASE).
Proof.
  intros Hb H1 H2 i Hi. unfold KERNEL_VIRTUAL_BASE in *. unfold translate.
  rewrite boot_access; [|done|apply Hb|lia]. unfold bootstrap_space, KERNEL_VIRTUAL_BASE.
  rewrite (proj2 (Z.leb_le 3221225472 _)), (proj2 (Z.ltb_lt _ (3221225472 + 4194304))) by lia.
  rewrite orb_true_r. cbn [tr_phys]. f_equal. zdiv.
Qed.

(** ** [_start] *)

(** Its code runs at its physical address before and after paging is on. *)
Lemma start_executable (c : cpu) :
  flat_code (cs c) -> Z.testbit (mc_cr0 (mach c)) CR0_PG_BIT = false \/ boot_paging c ->
  executable code c start_addr start_addr start_text.
Proof.
  intros Hcs Hpg. destruct (bi_start _ BI) as [H1 H2]. pose proof HI as HI'. destruct HI'.
  unfold KERNEL_VIRTUAL_BASE in *. split; [done|lia| |apply BI].
  destruct Hpg as [Hpg|Hb]; [by apply unpaged_maps|by apply boot_maps_low; [|lia..]].
Qed.

Section start.
Context (a b e i p ip : Z) (s1 s2 s3 s4 s5 s6 : segment_reg) (g : table_register) (r4 : Z) (f : bool).
Context (w : VgaWriter) (al : FrameBitmap) (pk : bool) (m : mem) (r3 r0 : Z).

#[local] Abbreviation state x c1 i1 ip1 q4 q3 q0 :=
  (mkCpu x b c1 i1 p ip1 s1 s2 s3 s4 s5 s6 g q4 f (mkMachine w al pk m q3 q0)).

Lemma start_paging (x c1 i1 ip1 : Z) :
  Z.testbit r4 CR4_PAE_BIT = false -> directory_at m boot_page_directory boot_entries ->
  boot_paging (state x c1 i1 ip1 (Z.lor r4 (Z.shiftl 1 4)) boot_page_directory (Z.lor r0 (Z.shiftl 1 31))).
Proof.
  intros Hpae Hd. split; cbn [mach mc_cr0 mc_cr3 mc_mem cr4]; try done.
  - rewrite Z.lor_spec. apply orb_true_r.
  - rewrite Z.lor_spec. apply orb_true_r.
  - by rewrite Z.lor_spec, Hpae.
Qed.

(** Eleven instructions later the processor is in the high half, with paging on. *)
Lemma start_run :
  ip = start_addr -> flat_code s1 -> Z.testbit r0 CR0_PE_BIT = true -> Z.testbit r0 CR0_PG_BIT = false ->
  Z.testbit r4 CR4_PAE_BIT = false -> directory_at m boot_page_directory boot_entries ->
  reaches code (state a e i ip r4 r3 r0) 11
    (state (Z.lor r0 (Z.shiftl 1 31)) higher_half a higher_half
       (Z.lor r4 (Z.shiftl 1 4)) boot_page_directory (Z.lor r0 (Z.shiftl 1 31))).
Proof.
  intros -> Hcs Hpe Hpg Hpae Hd.
  assert (forall x c1 i1 ip1 q4 q3, executable code (state x c1 i1 ip1 q4 q3 r0) start_addr start_addr start_text) as Hoff.
  { intros. apply start_executable; [done|by left]. }
  assert (forall x c1 i1 ip1, executable code (state x c1 i1 ip1 (Z.lor r4 (Z.shiftl 1 4)) boot_page_directory
    (Z.lor r0 (Z.shiftl 1 31))) start_addr start_addr start_text) as Hon.
  { intros. apply start_executable; [done|right; by apply start_paging]. }
  econstructor; [eapply (step_at code) with (k := 0%nat); [apply Hoff| |reflexivity|reflexivity]|].
  { cbn [eip]. change (offset start_text 0) with 0. lia. }
  cpu_cbn.
  do 7 (econstructor; [eapply (step_at code); [apply Hoff|reflexivity|reflexivity|
    first [by apply exec_mov_control|reflexivity]]|]; cpu_cbn).
  econstructor; [eapply (step_at code); [apply Hoff|reflexivity|reflexivity|]|].
  { apply exec_mov_control. intros _. cpu_cbn. by rewrite Z.lor_spec, Hpe. }
  cpu_cbn.
  do 2 (econstructor; [eapply (step_at code); [apply Hon|reflexivity|reflexivity|reflexivity]|]; cpu_cbn).
  constructor.
Qed.

End start.

(** ** [higher_half] *)

Lemma high_executable (c : cpu) :
  flat_code (cs c) -> boot_paging c ->
  executable code c higher_half (higher_half - KERNEL_VIRTUAL_BASE) higher_half_text.
Proof.
  intros Hcs Hb. destruct (bi_high _ BI) as [H1 H2]. pose proof HI as HI'. destruct HI'.
  unfold KERNEL_VIRTUAL_BASE in *. split; [done|lia| |apply BI].
  apply boot_maps_high; [done|unfold KERNEL_VIRTUAL_BASE; lia..].
Qed.

(** The physical address of the top of the stack. *)
Definition stack_phys : Z := stack_top - KERNEL_VIRTUAL_BASE.

Lemma stack_maps_boot (c : cpu) (k : access) (d n : Z) :
  boot_paging c -> n <= d <= 65536 -> maps c k (stack_top - d) n (stack_phys - d).
Proof.
  intros Hb Hd. pose proof HI as HI'. destruct HI'.
  replace (stack_phys - d) with (stack_top - d - KERNEL_VIRTUAL_BASE) by (unfold stack_phys; lia).
  unfold KERNEL_VIRTUAL_BASE in *. apply boot_maps_high; [done|unfold KERNEL_VIRTUAL_BASE; lia..].
Qed.

Lemma directory_store (m : mem) (d x : Z) :
  directory_at m boot_page_directory boot_entries -> 4 <= d <= 65536 ->
  directory_at (store32 m (stack_phys - d) x) boot_page_directory boot_entries.
Proof.
  intros Hm Hd. apply (directory_ext m); [|done]. intros y Hy. apply load8_store_le_ne; [lia|].
  destruct (bi_directory _ BI) as (_ & H1 & H2). pose proof HI as HI'. destruct HI'.
  unfold directory_bytes, stack_phys, KERNEL_VIRTUAL_BASE in *. lia.
Qed.

Section high.
Context (x b e i p : Z) (s1 s2 s3 s4 s5 s6 : segment_reg) (g : table_register) (q4 : Z) (f : bool).
Context (w : VgaWriter) (al : FrameBitmap) (pk : bool) (m : mem) (q0 : Z).

#[local] Abbreviation state sp ip mm :=
  (mkCpu x b e i sp ip s1 s2 s3 s4 s5 s6 g q4 f (mkMachine w al pk mm boot_page_directory q0)).

Lemma state_paging (sp ip sp' ip' : Z) (m' : mem) :
  boot_paging (state sp ip m) -> directory_at m' boot_page_directory boot_entries -> boot_paging (state sp' ip' m').
Proof. intros [] Hd. by split. Qed.

(** The argument frame and the return address of [install_gdt]. *)
Definition arguments_mem (mm : mem) : mem :=
  store32 (store32 mm (stack_phys - 12) b) (stack_phys - 16) i.

Lemma high_run :
  flat_code s1 -> flat_data s6 -> boot_paging (state p higher_half m) ->
  let m3 := store32 (arguments_mem m) (stack_phys - 20) (higher_half + offset higher_half_text 5) in
  reaches code (state p higher_half m) 5 (state (stack_top - 20) install_gdt_addr m3) /\
  boot_paging (state (stack_top - 20) install_gdt_addr m3).
Proof.
  intros Hcs Hss Hb m3. pose proof HI as HI'. destruct HI'. unfold KERNEL_VIRTUAL_BASE in *.
  pose proof (bp_dir _ Hb : directory_at m _ _) as D0.
  pose proof (directory_store _ 12 b D0 ltac:(lia)) as D1.
  pose proof (directory_store _ 16 i D1 ltac:(lia)) as D2.
  pose proof (directory_store _ 20 (higher_half + offset higher_half_text 5) D2 ltac:(lia)) as D3.
  assert (forall sp ip m', directory_at m' boot_page_directory boot_entries -> boot_paging (state sp ip m')) as Hp.
  { intros. by apply (state_paging p higher_half). }
  assert (forall sp ip m', directory_at m' boot_page_directory boot_entries ->
    executable code (state sp ip m') higher_half (higher_half - KERNEL_VIRTUAL_BASE) higher_half_text) as Hex.
  { intros. apply high_executable; [done|by apply Hp]. }
  split; [|by apply Hp].
  econstructor; [eapply (step_at code) with (k := 0%nat); [by apply Hex| |reflexivity|reflexivity]|].
  { cbn [eip]. change (offset higher_half_text 0) with 0. lia. }
  cpu_cbn. econstructor; [eapply (step_at code); [by apply Hex|reflexivity|reflexivity|reflexivity]|].
  cpu_cbn. rewrite Z.mod_small by lia.
  econstructor; [eapply (step_at code); [by apply Hex|reflexivity|reflexivity|]|].
  { apply (exec_push_reg _ _ (stack_phys - 12)); cpu_cbn; [done|lia|].
    replace (stack_top - 8 - 4) with (stack_top - 12) by lia. by apply stack_maps_boot; [apply Hp|lia]. }
  cpu_cbn. replace (stack_top - 8 - 4) with (stack_top - 12) by lia.
  econstructor; [eapply (step_at code); [by apply Hex|reflexivity|reflexivity|]|].
  { apply (exec_push_reg _ _ (stack_phys - 16)); cpu_cbn; [done|lia|].
    replace (stack_top - 12 - 4) with (stack_top - 16) by lia. by apply stack_maps_boot; [apply Hp|lia]. }
  cpu_cbn. replace (stack_top - 12 - 4) with (stack_top - 16) by lia.
  econstructor; [eapply (step_at code); [by apply Hex|reflexivity|reflexivity|]|].
  { apply (exec_call _ _ (stack_phys - 20)); cpu_cbn; [done|lia|].
    replace (stack_top - 16 - 4) with (stack_top - 20) by lia. by apply stack_maps_boot; [apply Hp|lia]. }
  cpu_cbn. replace (stack_top - 16 - 4) with (stack_top - 20) by lia. constructor.
Qed.

End high.

Lemma boot_install_ready (c : cpu) :
  boot_paging c -> eip c = install_gdt_addr -> esp c = stack_top - 20 -> flat_code (cs c) ->
  flat_data (ds c) -> flat_data (ss c) -> cpl c = 0 ->
  install_ready code directory_bytes install_gdt_addr install_gdt_label write_gdt_addr (stack_phys - 20) GDT_BASE c.
Proof.
  intros Hb Hip Hsp Hcs Hds Hss Hcpl. pose proof HI as HI'. destruct HI'.
  destruct (bi_install _ BI) as [H1 H2]. destruct (bi_write_gdt _ BI) as [H3 H4].
  destruct (bi_directory _ BI) as (_ & H5 & H6). unfold stack_phys, GDT_BASE, KERNEL_VIRTUAL_BASE in *.
  split; try done; try lia.
  - apply BI.
  - exists (install_gdt_addr - 3221225472). split; [done|lia| |apply BI].
    apply boot_maps_high; [done|unfold KERNEL_VIRTUAL_BASE; lia..].
  - destruct (bi_write_gdt_code _ BI) as (ax & cx & Hwg).
    split; [lia|]. exists (write_gdt_addr - 3221225472), ax, cx. split; [|exact Hwg].
    apply boot_maps_high; [done|unfold KERNEL_VIRTUAL_BASE; lia..].
  - by apply boot_pinned.
  - intros k _. rewrite Hsp. replace (stack_top - 20 - 18) with (stack_top - 38) by lia.
    replace (stack_top - 3221225472 - 20 - 18) with (stack_top - 38 - 3221225472) by lia.
    apply boot_maps_high; [done|unfold KERNEL_VIRTUAL_BASE; lia..].
  - intros k _. apply boot_maps_low; [done|lia|lia].
  - intros a Ha. unfold directory_bytes in Ha. lia.
Qed.

(** ** The entry of [kernel_main] *)

(** Where the stub, started in [c], enters [kernel_main]: in the high half, on the
    kernel's stack with the arguments in place, on the bootstrap directory and with
    the kernel's own segments. *)
Record kernel_entered (magic info : Z) (c c1 : cpu) : Prop := {
  ke_eip : eip c1 = kernel_main_addr;
  ke_esp : esp c1 = stack_top - 20;
  ke_magic : load32 (cpu_mem c1) (stack_phys - 16) = magic;
  ke_info : load32 (cpu_mem c1) (stack_phys - 12) = info;
  ke_paging : boot_paging c1;
  ke_gdtr : gdtr c1 = mkTableRegister 55 GDT_BASE;
  ke_table : table_at (cpu_mem c1) GDT_BASE;
  ke_cs : cs c1 = mkSegmentReg KERNEL_CODE_SELECTOR (flat_segment true 0);
  ke_data : [ds c1; es c1; fs c1; gs c1] = replicate 4 (mkSegmentReg KERNEL_DATA_SELECTOR (flat_segment false 0));
  ke_ss : ss c1 = mkSegmentReg KERNEL_STACK_SELECTOR (flat_segment false 0);
  ke_iflag : iflag c1 = iflag c;
  ke_cr0 : mc_cr0 (mach c1) = Z.lor (mc_cr0 (mach c)) (Z.shiftl 1 31);
  ke_statics : mc_writer (mach c1) = mc_writer (mach c) /\ mc_alloc (mach c1) = mc_alloc (mach c) /\
    mc_panicking (mach c1) = mc_panicking (mach c);
  ke_kept : forall a, (a < GDT_BASE \/ GDT_BASE + 56 <= a) -> (a < stack_phys - 38 \/ stack_phys <= a) ->
    load8 (cpu_mem c1) a = load8 (cpu_mem c) a
}.

(** From the return of [install_gdt] to [kernel_main]. *)
Lemma call_kernel_main (c1 c2 : cpu) :
  boot_paging c1 -> esp c1 = stack_top - 20 -> gdt_installed (stack_phys - 20) GDT_BASE c1 c2 ->
  load32 (cpu_mem c1) (stack_phys - 20) = higher_half + offset higher_half_text 5 ->
  boot_paging c2 /\
  step code c2 = (Ok Running, set_eip kernel_main_addr (set_reg ESP (stack_top - 20)
    (set_mem (store32 (cpu_mem c2) (stack_phys - 20) (higher_half + offset higher_half_text 6)) c2))).
Proof.
  intros Hb Hsp [Gg Gt Gcs Gd Gs Gip Gsp Gr Gm Gk] Hret. pose proof HI as HI'. destruct HI'.
  destruct (bi_directory _ BI) as (_ & H5 & H6). unfold KERNEL_VIRTUAL_BASE in *.
  assert (boot_paging c2) as Hb2.
  { assert (directory_at (cpu_mem c2) boot_page_directory boot_entries) as Hd.
    { apply (directory_ext (cpu_mem c1)); [|apply Hb]. intros y Hy. apply Gk;
        unfold directory_bytes, stack_phys, GDT_BASE, KERNEL_VIRTUAL_BASE in *; lia. }
    assert (cr4 c2 = cr4 c1) as E4 by congruence.
    rewrite set_mem_mach in Gm. destruct Hb as [B1 B2 B3 B4 _].
    split; [by rewrite Gm|by rewrite E4|by rewrite E4|by rewrite Gm|exact Hd]. }
  split; [done|]. destruct c2 as [a b e i p ip s1 s2 s3 s4 s5 s6 g r4 f [w al pk m r3 r0]].
  cbn [esp eip cs ss mach mc_mem] in *. eapply (step_at code).
  - apply high_executable; [by subst s1; exists 0|done].
  - by rewrite <- Hret, <- Gip.
  - reflexivity.
  - rewrite (exec_call _ _ (stack_phys - 20)); cpu_cbn.
    + by replace (p - 4) with (stack_top - 20) by lia.
    + subst s6. by exists 0.
    + lia.
    + replace (p - 4) with (stack_top - 20) by lia. apply stack_maps_boot; [|lia]. destruct Hb2. by split.
Qed.

(** The arguments are where the pushes left them, and little else has changed. *)
Lemma stub_memory (magic info x y : Z) (m m' : mem) :
  u32_range magic -> u32_range info ->
  (forall a, (a < GDT_BASE \/ GDT_BASE + 56 <= a) -> (a < stack_phys - 20 - 18 \/ stack_phys - 20 <= a) ->
    load8 m' a = load8 (store32 (arguments_mem info magic m) (stack_phys - 20) x) a) ->
  let m4 := store32 m' (stack_phys - 20) y in
  load32 m4 (stack_phys - 16) = magic /\ load32 m4 (stack_phys - 12) = info /\
  (table_at m' GDT_BASE -> table_at m4 GDT_BASE) /\
  forall a, (a < GDT_BASE \/ GDT_BASE + 56 <= a) -> (a < stack_phys - 38 \/ stack_phys <= a) ->
    load8 m4 a = load8 m a.
Proof.
  intros Hmg Hin Hk m4. pose proof HI as HI'. destruct HI'.
  assert (GDT_BASE + 56 <= stack_phys - 38) as Hap by (unfold GDT_BASE, stack_phys, KERNEL_VIRTUAL_BASE in *; lia).
  assert (forall a, stack_phys - 16 <= a -> load8 m4 a = load8 (arguments_mem info magic m) a) as Hargs.
  { intros a Ha. subst m4. rewrite load8_store_le_ne, Hk, load8_store_le_ne by lia. done. }
  unfold arguments_mem in *. split_and!.
  - rewrite (load_le_ext 4 m4 (store32 (store32 m (stack_phys - 12) info) (stack_phys - 16) magic))
      by (intros; apply Hargs; lia).
    rewrite load_le_store_le by lia. by apply Z.mod_small.
  - rewrite (load_le_ext 4 m4 (store32 (store32 m (stack_phys - 12) info) (stack_phys - 16) magic))
      by (intros; apply Hargs; lia).
    rewrite load_le_store_le_ne, load_le_store_le by lia. by apply Z.mod_small.
  - apply table_at_ext. intros a Ha. subst m4. apply load8_store_le_ne; lia.
  - intros a H1 H2. subst m4. rewrite load8_store_le_ne, Hk, !load8_store_le_ne by lia. done.
Qed.

(** The whole stub. *)
Lemma stub_run (magic info : Z) (c : cpu) :
  multiboot_entry magic info c ->
  exists c2 c1, reaches code c 16 c2 /\ eip c2 = install_gdt_addr /\ esp c2 = stack_top - 20 /\
    reaches code c2 22 c1 /\ kernel_entered magic info c c1.
Proof.
  destruct c as [a b e i p ip s1 s2 s3 s4 s5 s6 g r4 f [w al pk m r3 r0]].
  intros [Hip [Ha Ham] [Hbx Hbi] [Hcs Hcpl] [Hds Hss] [Hpe Hpg] Hpae Hif Hdir Hst].
  cbn [eip eax ebx cs ds ss mach mc_cr0 mc_mem cr4 iflag] in *. subst a b.
  specialize (Hdir boot_entries bootstrap_ok).
  pose proof (start_run magic info e i p ip s1 s2 s3 s4 s5 s6 g r4 f w al pk m r3 r0 Hip Hcs Hpe Hpg Hpae Hdir) as R1.
  set (q0 := Z.lor r0 (Z.shiftl 1 31)) in *. set (q4 := Z.lor r4 (Z.shiftl 1 4)) in *.
  destruct (high_run q0 info higher_half magic p s1 s2 s3 s4 s5 s6 g q4 f w al pk m q0 Hcs Hss) as [R2 Hb2].
  { apply (start_paging info p s1 s2 s3 s4 s5 s6 g r4 f w al pk m r0); done. }
  set (m3 := store32 _ _ _) in *.
  match type of Hb2 with boot_paging ?x => set (c2 := x) in * end.
  destruct (install_gdt_ok code directory_bytes install_gdt_addr install_gdt_label write_gdt_addr (stack_phys - 20)
    GDT_BASE c2) as (c3 & R3 & Hi); [by apply boot_install_ready|].
  assert (load32 (cpu_mem c2) (stack_phys - 20) = higher_half + offset higher_half_text 5) as Hret.
  { cbn [c2 mach mc_mem]. subst m3. rewrite load_le_store_le by lia. apply Z.mod_small.
    pose proof (offset_bounds higher_half_text 5). destruct (bi_high _ BI). pose proof HI as HI'. destruct HI'.
    unfold KERNEL_VIRTUAL_BASE in *. lia. }
  destruct (call_kernel_main c2 c3 Hb2 eq_refl Hi Hret) as [Hb3 R4].
  eexists c2, _. split; [exact (reaches_app code _ _ _ 11 5 R1 R2)|]. split; [reflexivity|]. split; [reflexivity|].
  split; [apply (reaches_app code c2 c3 _ 21 1 R3); econstructor; [exact R4|constructor]|]. clear R1 R2 R3 R4.
  destruct Hi as [Gg Gt Gcs Gd Gs Gip Gsp Gr Gm Gk].
  destruct (stub_memory magic info (higher_half + offset higher_half_text 5) (higher_half + offset higher_half_text 6)
    m (cpu_mem c3) Ham Hbi Gk) as (Hmg & Hin & Htab & Hkept).
  destruct c3 as [a3 b3 e3 i3 p3 ip3 t1 t2 t3 t4 t5 t6 g3 r43 f3 [w3 al3 pk3 mm3 r33 r03]].
  rewrite set_mem_mach in Gm. cbn [c2 mach mc_mem mc_writer mc_alloc mc_panicking mc_cr3 mc_cr0 ebx ecx esi cr4 iflag
    gdtr cs ds es fs gs ss esp eip] in *.
  injection Gm as -> -> -> -> ->. injection Gr as -> -> -> ->.
  split; cpu_cbn; try assumption; try reflexivity; [|by apply Htab|by split_and!].
  destruct Hb3 as [B1 B2 B3 B4 B5]. split; try assumption. cbn [mach mc_mem].
  apply directory_store; [exact B5|lia].
Qed.

(** The call enters [kernel_main] with the two arguments. *)
Lemma kernel_main_step (magic info : Z) (c c1 : cpu) :
  kernel_entered magic info c c1 ->
  step code c1 =
    let '(o, s') := kernel_main magic info (mach c1) in
    (o ≫= fun _ => Ok Idle, set_mach s' c1).
Proof.
  intros K. pose proof HI as HI'. destruct HI'. destruct (bi_main _ BI) as [H1 H2].
  pose proof (ke_esp _ _ _ _ K) as Hsp. pose proof (ke_paging _ _ _ _ K) as Hb. unfold KERNEL_VIRTUAL_BASE in *.
  assert (flat_data (ss c1)) as Hss by (rewrite (ke_ss _ _ _ _ K); by exists 0).
  rewrite (fetch_native code c1 (kernel_main_addr - KERNEL_VIRTUAL_BASE) kernel_main_entry);
    rewrite ?(ke_eip _ _ _ _ K); [|by rewrite (ke_cs _ _ _ _ K); exists 0|lia| |apply BI].
  2: { unfold KERNEL_VIRTUAL_BASE. apply boot_maps_high; [done|unfold KERNEL_VIRTUAL_BASE; lia..]. }
  unfold kernel_main_entry.
  erewrite bind_ok; [|apply (argument_ok c1 0 (stack_phys - 16)); [done|lia|lia|lia|]].
  2: { rewrite Hsp. replace (stack_top - 20 + 4 + 4 * 0) with (stack_top - 16) by lia. apply stack_maps_boot; [done|lia]. }
  erewrite bind_ok; [|apply (argument_ok c1 1 (stack_phys - 12)); [done|lia|lia|lia|]].
  2: { rewrite Hsp. replace (stack_top - 20 + 4 + 4 * 1) with (stack_top - 12) by lia. apply stack_maps_boot; [done|lia]. }
  rewrite (ke_magic _ _ _ _ K), (ke_info _ _ _ _ K). unfold zoom, mbind, M_bind. cbn [view put cpu_machine].
  by destruct (kernel_main magic info (mach c1)) as [[] s'].
Qed.

(** What the kernel needs of the loader beyond the specification: its structures are
    neither in the image nor where the descriptor table goes. *)
Definition apart (a n b k : Z) : Prop := a + n <= b \/ b + k <= a.

Definition clear_of_kernel (a n : Z) : Prop :=
  apart a n GDT_BASE 56 /\ apart a n kernel_phys_start (kernel_phys_end - kernel_phys_start).

Definition loader_clear (s : machine) (info : Z) : Prop :=
  let i := read_info (mc_mem s) info in
  clear_of_kernel info 52 /\ clear_of_kernel (info_mmap_addr i) (info_mmap_length i).

(** The hand-off survives the stub. *)
Lemma entered_clear (magic info : Z) (c c1 : cpu) (a n : Z) :
  kernel_entered magic info c c1 -> clear_of_kernel a n ->
  forall b, a <= b < a + n -> load8 (cpu_mem c1) b = load8 (cpu_mem c) b.
Proof.
  intros K [[H1|H1] [H2|H2]] b Hb; apply (ke_kept _ _ _ _ K); pose proof HI as HI'; destruct HI';
    unfold stack_phys, KERNEL_VIRTUAL_BASE in *; lia.
Qed.

Lemma entered_ready (magic info : Z) (c c1 : cpu) :
  multiboot_entry magic info c -> kernel_entered magic info c c1 -> boot_ready (mach c1).
Proof.
  intros Hm K. destruct (me_statics _ _ _ Hm) as (Hw & Ha & Hp). destruct (ke_statics _ _ _ _ K) as (Ew & Ea & Ep).
  destruct (ke_paging _ _ _ _ K) as [_ _ _ H3 Hd]. destruct (bi_directory _ BI) as (Hal & H1 & H2).
  pose proof HI as HI'. destruct HI'. unfold KERNEL_VIRTUAL_BASE in *. split; rewrite ?H3, ?Ew, ?Ea, ?Hw, ?Ha.
  - split; cbn; lia.
  - reflexivity.
  - lia.
  - exact Hal.
  - exact Hd.
Qed.

Lemma entered_reach (magic info : Z) (c c1 : cpu) :
  kernel_entered magic info c c1 -> in_reach (mach c) info -> loader_clear (mach c) info ->
  read_info (cpu_mem c1) info = read_info (cpu_mem c) info /\ in_reach (mach c1) info /\
  map_of (mach c1) info = map_of (mach c) info.
Proof.
  intros K [H1 H2 H3] [L1 L2].
  assert (read_info (cpu_mem c1) info = read_info (cpu_mem c) info) as Ei
    by (apply read_info_ext; intros; by apply (entered_clear magic info c c1 info 52)).
  split; [done|]. split; [split; [done|done|by rewrite Ei]|].
  apply map_of_ext; [done|]. intros i a Ha. by apply (entered_clear magic info c c1 _ _ K L2).
Qed.

Lemma entered_handoff (magic info : Z) (c c1 : cpu) :
  kernel_entered magic info c c1 -> handoff (mach c) info -> loader_clear (mach c) info ->
  read_info (cpu_mem c1) info = read_info (cpu_mem c) info /\ handoff (mach c1) info /\
  map_of (mach c1) info = map_of (mach c) info.
Proof.
  intros K [Hr H1 H2] Hl. destruct (entered_reach _ _ _ _ K Hr Hl) as (Ei & Hr1 & Em).
  split_and!; [done| |done]. split; [done|done|by rewrite Ei].
Qed.

(** Under the directory [paging::init] leaves, the segments still find their table, the
    stack and the code are where they were. *)
Lemma kernel_maps (rs : list MemoryRegion) (c1 : cpu) (s' : machine) (k : access) (la n pa : Z) :
  boot_paging c1 -> kernel_up rs (mach c1) s' -> 0 <= la -> la + n <= RECURSIVE_WINDOW ->
  (forall i, 0 <= i < n -> exists t, kernel_space (la + i) = Some t /\ tr_phys t = pa + i /\
    (k = Write -> tr_writable t = true)) ->
  maps (set_mach s' c1) k la n pa.
Proof.
  intros [Hpg Hpse Hpae _ _] Hup H1 H2 Hs i Hi. destruct (Hs i Hi) as (t & Ht & Hp & Hw).
  unfold translate, page_access, mmu.
  assert (cr4 (set_mach s' c1) = cr4 c1 /\ mach (set_mach s' c1) = s') as [-> ->] by (by destruct c1).
  rewrite (ku_cr0 _ _ _ Hup), (Z.lor_spec _ _ CR0_PG_BIT), Hpg, Hpae, Hpse. cbn [orb negb].
  rewrite (ku_space _ _ _ Hup), Ht by lia. destruct k; rewrite ?Hp; try done.
  by rewrite Hw, andb_false_r.
Qed.

Lemma kernel_up_table (rs : list MemoryRegion) (s s' : machine) :
  kernel_up rs s s' -> table_at (mc_mem s) GDT_BASE -> table_at (mc_mem s') GDT_BASE.
Proof.
  intros Hup. apply table_at_ext. intros a Ha. unfold GDT_BASE in Ha. apply (ku_kept _ _ _ Hup).
  - lia.
  - replace (a / 4096) with 0 by zdiv. unfold usable_frame. by rewrite Z.eqb_refl, andb_false_r.
  - unfold VGA_BUFFER. zdiv.
Qed.

(** Nothing in the image changes after the entry. *)
Lemma kernel_up_image (rs : list MemoryRegion) (s s' : machine) (a : Z) :
  kernel_up rs s s' -> kernel_phys_start <= a < kernel_phys_end -> load8 (mc_mem s') a = load8 (mc_mem s) a.
Proof.
  intros Hup Ha. pose proof HI as HI'. destruct HI'. unfold KERNEL_VIRTUAL_BASE in *. apply (ku_kept _ _ _ Hup).
  - lia.
  - unfold usable_frame, FRAME_SIZE.
    rewrite (proj2 (Z.ltb_lt kernel_phys_start _)), (proj2 (Z.ltb_lt _ kernel_phys_end)) by zdiv. done.
  - unfold VGA_BUFFER. zdiv.
Qed.

Lemma kernel_space_low (va : Z) :
  0 <= va < kernel_phys_start -> kernel_space va = Some {| tr_phys := va; tr_writable := true; tr_user := false |}.
Proof.
  intros Hva. pose proof HI as HI'. destruct HI'. unfold kernel_space, KERNEL_VIRTUAL_BASE in *.
  repeat zcase; cbn [andb]; done || lia.
Qed.

Lemma kernel_space_high (va : Z) :
  kernel_virt_start <= va < stack_guard \/ stack_bottom <= va < kernel_virt_end ->
  kernel_space va =
    Some {| tr_phys := va - KERNEL_VIRTUAL_BASE; tr_writable := kernel_data_start <=? va; tr_user := false |}.
Proof.
  intros Hva. pose proof HI as HI'. destruct HI'. unfold kernel_space, KERNEL_VIRTUAL_BASE in *.
  repeat zcase; cbn [andb]; done || lia.
Qed.

(** From the loader to the idle loop. *)
Lemma idle_run (info : Z) (c : cpu) (map : MemoryMap) (rs : list MemoryRegion) :
  multiboot_entry BOOTLOADER_MAGIC info c ->
  handoff (mach c) info -> map_clear (mach c) info -> loader_clear (mach c) info ->
  map_of (mach c) info = Some map -> MemoryMap.regions map = Ok rs -> map_ok rs ->
  exists c1 s', kernel_entered BOOTLOADER_MAGIC info c c1 /\
    (forall fuel, run code (39 + fuel) c = (Ok tt, set_mach s' c1)) /\ kernel_up rs (mach c1) s'.
Proof.
  intros Hm Hh Hc Hl Hmap Hrs Hok. destruct (stub_run _ info c Hm) as (c2 & c1 & R1 & _ & _ & R2 & K).
  destruct (entered_handoff _ _ _ _ K Hh Hl) as (Ei & Hh1 & Emap).
  assert (map_clear (mach c1) info) as Hc1 by (unfold map_clear; by rewrite Ei).
  rewrite <- Emap in Hmap.
  destruct (kernel_boots_ok (mach c1) info map rs (entered_ready _ _ _ _ Hm K) Hh1 Hc1 Hmap Hrs Hok) as (s' & Ek & Hup).
  exists c1, s'. split_and!; [done| |done].
  intros fuel. change (39 + fuel)%nat with (16 + (22 + (1 + fuel)))%nat. rewrite (run_reaches _ _ _ _ _ R1), (run_reaches _ _ _ _ _ R2).
  cbn [Nat.add run]. rewrite (bind_ok _ _ _ Idle (set_mach s' c1)); [done|].
  by rewrite (kernel_main_step _ _ _ _ K), Ek.
Qed.

(** Should [kernel_main] ever return, the processor parks: woken from [hlt] any number of
    times, it comes back to it and touches nothing. *)
Lemma hang_parks (c : cpu) (pa : Z) (n : nat) :
  executable code c higher_half pa higher_half_text -> eip c = hang ->
  reaches code c (2 * n) c.
Proof.
  intros Hex Hip. destruct c as [a b e i p ip s1 s2 s3 s4 s5 s6 g r4 f s]. cbn [eip] in Hip.
  pose proof (bi_hang _ BI) as Hh. set (c0 := mkCpu a b e i p ip s1 s2 s3 s4 s5 s6 g r4 f s) in *.
  assert (step code c0 = (Ok Running, set_eip (higher_half + offset higher_half_text 8) c0)) as E1.
  { eapply (step_at code) with (k := 7%nat); [exact Hex| |reflexivity|reflexivity]. cbn [c0 eip]. congruence. }
  assert (step code (set_eip (higher_half + offset higher_half_text 8) c0) = (Ok Running, c0)) as E2.
  { eapply (step_at code) with (k := 8%nat); [|reflexivity|reflexivity|].
    - destruct Hex. by split.
    - cbn [c0 set_eip exec]. unfold modify. cbn [set_eip]. by rewrite <- Hip. }
  induction n as [|n IH]; [constructor|]. replace (2 * S n)%nat with (S (S (2 * n))) by lia.
  econstructor; [exact E1|]. econstructor; [exact E2|exact IH].
Qed.

End image.

(** ** An image and a machine

    The typical image of [Layout], every instruction five bytes long, the bootstrap
    directory in the second page of [.boot], on the machine of [Kernel] as GRUB
    leaves it: paging off, the table register undefined. *)
#[local] Existing Instance sample_encoding.

#[local] Instance sample_symbols : BootSymbols :=
  {| start_addr := 0x200010;
     boot_page_directory := 0x201000;
     higher_half := 0xC0202000;
     hang := 0xC0202023;
     install_gdt_addr := 0xC0202100;
     install_gdt_label := 0xC020215A;
     write_gdt_addr := 0xC0202200;
     kernel_main_addr := 0xC0203000 |}.

#[local] Existing Instance dev.

#[local] Abbreviation image := (link sample_sections).

Definition image_code : Z → option item :=
  code_map (layout 0x200010 start_text ++ layout 0x202000 (higher_half_text (I := image)) ++
    layout 0x202100 (install_gdt install_gdt_label write_gdt_addr) ++
    [(0x202200, Native (write_gdt_entry 0xBAD 0xBAD)); (0x203000, Native (kernel_main_entry (I := image)))]).

Definition grub_cpu (magic : Z) : cpu :=
  let code := mkSegmentReg 0x10 (flat_segment true 0) in
  let data := mkSegmentReg 0x18 (flat_segment false 0) in
  mkCpu magic 0x9500 0 0 0 0x200010 code data data data data data (mkTableRegister 0 0) 0 false
    (mkMachine VGA_WRITER FRAME_ALLOCATOR false (mc_mem grub_machine) 0 0x11).

Lemma image_code_ok : boot_image (I := image) image_code.
Proof.
  split; try reflexivity.
  all: lazymatch goal with
       | |- exists ax cx, _ = Some (Native (write_gdt_entry ax cx)) => exists 0xBAD, 0xBAD; reflexivity
       | |- placed _ _ _ => repeat (split; [reflexivity|]); exact Logic.I
       | _ => vm_compute; repeat split; congruence
       end.
Qed.

Lemma grub_cpu_entry (magic : Z) : u32_range magic -> multiboot_entry magic 0x9500 (grub_cpu magic).
Proof.
  intros Hm. split; try reflexivity.
  - by split.
  - by split.
  - split; [by exists 0|reflexivity].
  - split; by exists 0.
  - by split.
  - intros entries He. assert (entries = boot_entries) as -> by (unfold BOOT_PAGE_DIRECTORY in He; rewrite bootstrap_ok in He; congruence).
    exact (br_dir _ grub_machine_ready).
  - by split_and!.
Qed.

Lemma grub_cpu_handoff (magic : Z) : handoff (mach (grub_cpu magic)) 0x9500.
Proof. destruct grub_machine_handoff as [[H1 H2 H3] H4 H5]. split; [split; [exact H1|exact H2|exact H3]|exact H4|exact H5]. Qed.

Lemma grub_cpu_clear (magic : Z) : loader_clear (I := image) (mach (grub_cpu magic)) 0x9500.
Proof.
  change (loader_clear (I := image) grub_machine 0x9500). unfold loader_clear, clear_of_kernel, apart.
  split_and!; first [left; apply Z.leb_le; vm_compute; reflexivity|right; apply Z.leb_le; vm_compute; reflexivity].
Qed.

Lemma grub_cpu_map_clear (magic : Z) : map_clear (mach (grub_cpu magic)) 0x9500.
Proof. left. apply Z.leb_le. vm_compute. reflexivity. Qed.

Lemma grub_cpu_spares (magic : Z) : map_spares_screen (mach (grub_cpu magic)) 0x9500.
Proof.
  intros map rs Hm. assert (map = sample_mmap) as ->.
  { change (map_of grub_machine 0x9500 = Some map) in Hm. rewrite grub_machine_map in Hm. congruence. }
  assert (@MemoryMap.regions dev sample_mmap = Ok (region_of <$> sample_map.*1)) as -> by (vm_compute; reflexivity).
  intros [= <-]. vm_compute. reflexivity.
Qed.

(** ** From the loader to the kernel *)

(** C12: The boot stub reaches the kernel: from the state the Multiboot specification
    promises, for any magic and any information pointer, 38 steps lead to
    [kernel_main] without a fault: paging goes on under the running code, which goes
    on at its high address; [install_gdt] and [kernel_main] are both called with a
    16-byte aligned stack pointer; the two words the loader handed over are the
    arguments; the segment registers hold the kernel's flat segments from the table at
    0x800; interrupts are still off, the statics are as the image holds them, and no
    byte of memory has changed but the table and the top 38 bytes of the stack. *)
Theorem boot_stub_enters_kernel `{BuildProfile} {I : KernelImage} {B : BootSymbols} {E : Encoding}
    (code : Z → option item) (magic info : Z) (c : cpu) :
  ImageOk I → boot_image code → multiboot_entry magic info c →
  ∃ c2 c1, reaches code c 16 c2 ∧ eip c2 = install_gdt_addr ∧ (esp c2 + 4) mod 16 = 0 ∧
    reaches code c2 22 c1 ∧ (esp c1 + 4) mod 16 = 0 ∧ kernel_entered magic info c c1.
Proof.
  intros HI BI Hm. destruct (stub_run code BI magic info c Hm) as (c2 & c1 & R1 & Hip & Hsp & R2 & K).
  exists c2, c1. rewrite (ke_esp _ _ _ _ K), Hsp. pose proof HI as HI'. destruct HI'.
  assert ((stack_top - 20 + 4) mod 16 = 0) as Hal by zdiv. by split_and!.
Qed.

Lemma boot_stub_enters_kernel_witness :
  ∃ c2 c1, reaches image_code (grub_cpu 0x1234) 16 c2 ∧ eip c2 = install_gdt_addr ∧ (esp c2 + 4) mod 16 = 0 ∧
    reaches image_code c2 22 c1 ∧ (esp c1 + 4) mod 16 = 0 ∧
    kernel_entered (I := image) 0x1234 0x9500 (grub_cpu 0x1234) c1.
Proof.
  exact (boot_stub_enters_kernel image_code 0x1234 0x9500 (grub_cpu 0x1234) sample_image_ok image_code_ok
    (grub_cpu_entry 0x1234 ltac:(lia))).
Defined.

(** C1: From GRUB to the idle loop: an image laid out by the linker script, entered as the
    specification promises with a memory map the kernel can use, runs 39 steps to the
    idle loop and nothing else can happen.  There the kernel is in its own address
    space, with the allocator and the screen as [kernel_up] says; the descriptor table
    the segment registers came from is still in memory and still mapped at 0x800,
    writable for the accessed bits, the text buffer and the stack are mapped where
    they were, the stack with the arguments on it, and the code still runs at its
    address. *)
Theorem grub_to_idle `{BuildProfile} {I : KernelImage} {B : BootSymbols} {E : Encoding}
    (code : Z → option item) (info : Z) (c : cpu) (map : MemoryMap) (rs : list MemoryRegion) :
  ImageOk I → boot_image code → multiboot_entry BOOTLOADER_MAGIC info c →
  handoff (mach c) info → map_clear (mach c) info → loader_clear (mach c) info →
  map_of (mach c) info = Some map → MemoryMap.regions map = Ok rs → map_ok rs →
  ∃ c1 c', kernel_entered BOOTLOADER_MAGIC info c c1 ∧
    (∀ fuel, run code (39 + fuel) c = (Ok tt, c')) ∧ c' = set_mach (mach c') c1 ∧
    kernel_up rs (mach c1) (mach c') ∧ table_at (cpu_mem c') GDT_BASE ∧
    (∀ k, maps c' k GDT_BASE 56 GDT_BASE) ∧ (∀ k, maps c' k VGA_BUFFER 4000 VGA_BUFFER) ∧ (∀ k, maps c' k (stack_top - 65536) 65536 (stack_phys - 65536)) ∧
    load32 (cpu_mem c') (stack_phys - 16) = BOOTLOADER_MAGIC ∧ load32 (cpu_mem c') (stack_phys - 12) = info ∧
    (∀ va n, in_text va n → maps c' Execute va n (va - KERNEL_VIRTUAL_BASE)).
Proof.
  intros HI BI Hm Hh Hc Hl Hmap Hrs Hok.
  destruct (idle_run code BI info c map rs Hm Hh Hc Hl Hmap Hrs Hok) as (c1 & s' & K & Hrun & Hup).
  exists c1, (set_mach s' c1). assert (mach (set_mach s' c1) = s') as -> by (by destruct c1).
  split; [done|]. split; [exact Hrun|].
  split; [done|]. split; [done|]. split; [by apply (kernel_up_table rs (mach c1)); [|apply K]|].
  clear Hrun Hmap Hrs. pose proof HI as HI'. destruct HI'. pose proof (ke_paging _ _ _ _ K) as Hb.
  assert (∀ d, 4 <= d <= 16 → load32 (mc_mem s') (stack_phys - d) = load32 (cpu_mem c1) (stack_phys - d)) as Hst.
  { intros d Hd. apply load_le_ext. intros a Ha. apply (kernel_up_image rs _ _ _ Hup).
    unfold stack_phys, KERNEL_VIRTUAL_BASE in *. lia. }
  rewrite !Hst by lia. split_and!; [..|apply K|apply K|].
  - intros k. apply (kernel_maps rs); [done|done|done|done|]. unfold GDT_BASE. intros i Hi.
    rewrite kernel_space_low by lia. eexists. split; [reflexivity|]. by split.
  - intros k. apply (kernel_maps rs); [done|done|done|done|]. unfold VGA_BUFFER. intros i Hi.
    rewrite kernel_space_low by lia. eexists. split; [reflexivity|]. by split.
  - intros k. unfold KERNEL_VIRTUAL_BASE, stack_phys in *.
    apply (kernel_maps rs); [done|done|lia|unfold RECURSIVE_WINDOW; lia|]. intros i Hi.
    rewrite kernel_space_high by lia. eexists. split; [reflexivity|]. cbn [tr_phys tr_writable].
    split; [unfold KERNEL_VIRTUAL_BASE; lia|]. intros _. apply Z.leb_le. lia.
  - intros va n [H1 H2]. unfold KERNEL_VIRTUAL_BASE in *.
    apply (kernel_maps rs); [done|done|lia|unfold RECURSIVE_WINDOW; lia|]. intros i Hi.
    rewrite kernel_space_high by lia. eexists. split; [reflexivity|]. cbn [tr_phys]. split; [unfold KERNEL_VIRTUAL_BASE; lia|done].
Qed.

Lemma grub_to_idle_witness :
  let rs := region_of <$> sample_map.*1 in
  ∃ c1 c', kernel_entered (I := image) BOOTLOADER_MAGIC 0x9500 (grub_cpu BOOTLOADER_MAGIC) c1 ∧
    (∀ fuel, run image_code (39 + fuel) (grub_cpu BOOTLOADER_MAGIC) = (Ok tt, c')) ∧ c' = set_mach (mach c') c1 ∧
    kernel_up (I := image) rs (mach c1) (mach c') ∧ table_at (cpu_mem c') GDT_BASE ∧
    (∀ k, maps c' k GDT_BASE 56 GDT_BASE) ∧ (∀ k, maps c' k VGA_BUFFER 4000 VGA_BUFFER) ∧
    (∀ k, maps c' k (@stack_top image - 65536) 65536 (stack_phys (I := image) - 65536)) ∧
    load32 (cpu_mem c') (stack_phys (I := image) - 16) = BOOTLOADER_MAGIC ∧
    load32 (cpu_mem c') (stack_phys (I := image) - 12) = 0x9500 ∧
    (∀ va n, in_text (I := image) va n → maps c' Execute va n (va - KERNEL_VIRTUAL_BASE)).
Proof.
  apply (grub_to_idle image_code 0x9500 (grub_cpu BOOTLOADER_MAGIC) sample_mmap (region_of <$> sample_map.*1)
    sample_image_ok image_code_ok (grub_cpu_entry BOOTLOADER_MAGIC ltac:(vm_compute; split; congruence))
    (grub_cpu_handoff _)).
  - apply grub_cpu_map_clear.
  - apply grub_cpu_clear.
  - exact grub_machine_map.
  - vm_compute. reflexivity.
  - exact sample_map_ok.
Defined.

(** C13: The [dev] kernel never dies silently, from the loader on: for any magic and any
    bytes in the memory map, pointers that are null or misaligned included, as long as the
    loader's structures are in the low 4 MiB, clear of the kernel and of the text buffer,
    and the map does not offer the text buffer as RAM, the boot ends after 39 steps in the idle loop, or in a panic of the
    kernel that the handler can report from any stack pointer.  No triple fault, no
    endless loop. *)
Theorem grub_never_silent {I : KernelImage} {B : BootSymbols} {E : Encoding}
    (code : Z → option item) (magic info : Z) (c : cpu) :
  ImageOk I → boot_image (P := dev) code → multiboot_entry (P := dev) magic info c →
  in_reach (mach c) info → map_clear (mach c) info → map_spares_screen (mach c) info → loader_clear (mach c) info →
  ∃ o c', (∀ fuel, run code (39 + fuel) c = (o, c')) ∧ (o = Ok tt ∨ ∃ p, o = Panic p ∧ panic_survived p (mach c')).
Proof.
  intros HI BI Hm Hh Hc Hs Hl. destruct (stub_run (P := dev) code BI _ info c Hm) as (c2 & c1 & R1 & _ & _ & R2 & K).
  destruct (entered_reach _ _ _ _ K Hh Hl) as (Ei & Hh1 & Emap).
  assert (mc_panicking (mach c1) = false) as Hp.
  { destruct (ke_statics _ _ _ _ K) as (_ & _ & ->). apply Hm. }
  assert (map_clear (mach c1) info) as Hc1 by (unfold map_clear; by rewrite Ei).
  assert (map_spares_screen (mach c1) info) as Hs1 by (unfold map_spares_screen; by rewrite Emap).
  destruct (kernel_main_total magic info (mach c1) (entered_ready (P := dev) code BI _ _ _ _ Hm K) Hh1 Hc1 Hs1 Hp) as (o & s' & Ek & Ho).
  exists o, (set_mach s' c1). assert (mach (set_mach s' c1) = s') as -> by (by destruct c1). split; [|done].
  intros fuel. change (39 + fuel)%nat with (16 + (22 + (1 + fuel)))%nat.
  rewrite (run_reaches _ _ _ _ _ R1), (run_reaches _ _ _ _ _ R2). cbn [Nat.add run].
  assert (step code c1 = (o ≫= fun _ => Ok Idle, set_mach s' c1)) as Es
    by (by rewrite (kernel_main_step (P := dev) code BI _ _ _ _ K), Ek).
  destruct Ho as [-> |(p & -> & _)]; [by rewrite (bind_ok _ _ _ _ _ Es)|by rewrite (bind_panic _ _ _ _ _ Es)].
Qed.

Lemma grub_never_silent_witness :
  ∃ o c', (∀ fuel, run image_code (39 + fuel) (grub_cpu 0x1234) = (o, c')) ∧
    (o = Ok tt ∨ ∃ p, o = Panic p ∧ panic_survived (I := image) p (mach c')).
Proof.
  exact (grub_never_silent image_code 0x1234 0x9500 (grub_cpu 0x1234) sample_image_ok image_code_ok
    (grub_cpu_entry 0x1234 ltac:(lia)) (ho_reach _ _ (grub_cpu_handoff _)) (grub_cpu_map_clear _) (grub_cpu_spares _) (grub_cpu_clear _)).
Defined.
