(* ===== verification/Protection.v ===== *)
(** * What the address space protects

    Once booted, the kernel's own mistakes hit the page tables: a store to its code, an
    access to memory it does not own and a stack that outgrows its 64 KiB fault on the
    processor of [Cpu] before a byte is written.  [boot/boot.asm] and [src/stack.rs]
    promise the last of the guard page. *)

From S2P Require Import Prelude Rust Bits Fmt Memory Address Layout Multiboot Frame FrameSpec.
From S2P Require Import Paging Mmu AddressSpace Volatile Vga Machine Cpu Gdt Stack Kernel Boot.

(** The processor runs in the kernel's address space, built from frames of [rs], with
    write protection on and flat segments. *)
Record in_kernel_space {I : KernelImage} (rs : list MemoryRegion) (c : cpu) : Prop := {
  ks_cr0 : Z.testbit (mc_cr0 (mach c)) CR0_PG_BIT = true /\ Z.testbit (mc_cr0 (mach c)) CR0_WP_BIT = true;
  ks_cr4 : Z.testbit (cr4 c) CR4_PSE_BIT = true /\ Z.testbit (cr4 c) CR4_PAE_BIT = false;
  ks_space : forall m', (forall a, usable_frame rs (a / 4096) = true -> load8 m' a = load8 (cpu_mem c) a) ->
    forall va, 0 <= va < RECURSIVE_WINDOW -> walk m' (mc_cr3 (mach c)) va = kernel_space va;
  ks_data : flat_data (ds c) /\ flat_data (ss c)
}.

Section protection.
Context {I : KernelImage} {HI : ImageOk I} (rs : list MemoryRegion).

(** ** Faults *)

Lemma translate_space (c : cpu) (k : access) (la : Z) :
  in_kernel_space rs c -> 0 <= la < RECURSIVE_WINDOW ->
  translate k la c =
    match kernel_space la with
    | Some t => if bool_decide (k = Write) && negb (tr_writable t) then Panic (CpuException 14) else Ok (tr_phys t)
    | None => Panic (CpuException 14)
    end.
Proof.
  intros [[Hpg Hwp] [Hpse Hpae] Hs _] Hla. unfold translate, page_access, mmu.
  rewrite Hpg, Hpse, Hpae, Hwp, (Hs (cpu_mem c) ltac:(done) la Hla). cbn [negb].
  destruct (kernel_space la) as [t|]; [|done]. by destruct k.
Qed.

Lemma span_fault (c : cpu) (k : access) (n : nat) (la : Z) (p : panic_info) :
  (1 <= n)%nat -> u32_range la -> translate k la c = Panic p -> span k n la c = Panic p.
Proof. intros Hn Hla Ht. destruct n; [lia|]. cbn [span]. by rewrite Z.mod_small, Ht by lia. Qed.

Lemma vstore_fault (c : cpu) (n off x : Z) (s : segment_reg) :
  flat_data s -> 0 <= off -> off + n <= 2 ^ 32 -> 1 <= n -> translate Write off c = Panic (CpuException 14) ->
  vstore n s off x c = (Panic (CpuException 14), c).
Proof.
  intros [dpl Hs] H1 H2 H3 Ht. unfold vstore. rewrite Hs, linear_flat, bind_lift by done.
  unfold store_linear. apply bind_panic. unfold reads. rewrite (span_fault c Write _ off (CpuException 14)); [done|lia|lia|done].
Qed.

Lemma vload_fault (c : cpu) (n off : Z) (s : segment_reg) :
  flat_data s -> 0 <= off -> off + n <= 2 ^ 32 -> 1 <= n -> translate Read off c = Panic (CpuException 14) ->
  vload n s off c = (Panic (CpuException 14), c).
Proof.
  intros [dpl Hs] H1 H2 H3 Ht. unfold vload. rewrite Hs, linear_flat, bind_lift by done.
  unfold reads, load_linear. by rewrite (span_fault c Read _ off (CpuException 14)) by (done || lia).
Qed.

(** ** The stack *)

(** Bytes of the image are in no frame the map offers. *)
Lemma image_not_usable (a : Z) : kernel_phys_start <= a < kernel_phys_end -> usable_frame rs (a / 4096) = false.
Proof.
  intros Ha. pose proof HI as HI'. destruct HI'. unfold usable_frame, FRAME_SIZE, KERNEL_VIRTUAL_BASE in *.
  by rewrite (proj2 (Z.ltb_lt kernel_phys_start _)), (proj2 (Z.ltb_lt _ kernel_phys_end)) by zdiv.
Qed.

(** A push with room. *)
Lemma push_in_stack (c : cpu) (x : Z) :
  in_kernel_space rs c -> stack_bottom + 4 <= esp c <= stack_top ->
  let pa := esp c - 4 - KERNEL_VIRTUAL_BASE in
  let c' := set_reg ESP (esp c - 4) (set_mem (store32 (cpu_mem c) pa x) c) in
  push x c = (Ok tt, c') /\ in_kernel_space rs c' /\ esp c' = esp c - 4 /\ cpu_mem c' = store32 (cpu_mem c) pa x.
Proof.
  intros K He pa c'. pose proof HI as HI'. destruct HI'. unfold KERNEL_VIRTUAL_BASE in *.
  assert (maps c Write (esp c - 4) 4 pa) as Hm.
  { intros i Hi. rewrite translate_space by (done || unfold RECURSIVE_WINDOW; lia).
    rewrite kernel_space_high by lia. cbn [tr_writable tr_phys].
    rewrite (proj2 (Z.leb_le _ _)) by lia. cbn. f_equal. unfold KERNEL_VIRTUAL_BASE. lia. }
  pose proof (push_ok c x pa (proj2 (ks_data _ _ K)) ltac:(lia) Hm) as E. fold c' in E.
  destruct c as [r1 r2 r3 r4 sp ip s1 s2 s3 s4 s5 s6 g c4 f [w al pk m r c0]]. split; [exact E|]. split; [|done].
  destruct K as [K0 K4 Ks Kd]. split; try done. cbn [c' set_reg set_mem set_mach mach mc_mem mc_cr3 esp] in *.
  intros m' Hm' va Hva. apply Ks; [|done]. intros a Ha. rewrite Hm' by done.
  apply load8_store_le_ne; [lia|]. destruct (decide (pa <= a < pa + 4)) as [Hin|]; [|lia].
  rewrite image_not_usable in Ha; [done|]. subst pa. cbn [esp] in *. lia.
Qed.

(** A push without. *)
Lemma push_overflow (c : cpu) (x : Z) :
  in_kernel_space rs c -> stack_guard + 4 <= esp c < stack_bottom + 4 -> push x c = (Panic (CpuException 14), c).
Proof.
  intros K He. pose proof HI as HI'. destruct HI'. unfold KERNEL_VIRTUAL_BASE in *.
  unfold push. rewrite (bind_reads _ _ _ c) by done. cbv zeta. rewrite Z.mod_small by lia. apply bind_panic.
  apply vstore_fault; [apply K|lia|lia|lia|].
  rewrite translate_space by (done || unfold RECURSIVE_WINDOW; lia).
  unfold kernel_space. repeat zcase; cbn [andb]; done || lia.
Qed.

(** Any number of pushes: as many as fit are done, the next one faults, and memory outside
    the stack's free part is not written. *)
Lemma pushes (l : list Z) (c : cpu) (room : Z) :
  in_kernel_space rs c -> 0 <= room -> esp c = stack_bottom + 4 * room -> esp c <= stack_top ->
  exists c', for_in l push c = (if Z.of_nat (length l) <=? room then Ok tt else Panic (CpuException 14), c') /\
    esp c' = esp c - 4 * Z.min (Z.of_nat (length l)) room /\
    forall a, (a < stack_bottom - KERNEL_VIRTUAL_BASE \/ esp c - KERNEL_VIRTUAL_BASE <= a) ->
      load8 (cpu_mem c') a = load8 (cpu_mem c) a.
Proof.
  revert c room. induction l as [|x l IH]; intros c room K Hr He Ht.
  { exists c. cbn [for_in length]. rewrite (proj2 (Z.leb_le _ _)) by lia. split_and!; [done|lia|done]. }
  cbn [for_in length]. pose proof HI as HI'. destruct HI'. destruct (decide (room = 0)) as [->|Hroom].
  - exists c. rewrite (bind_panic _ _ _ _ _ (push_overflow c x K ltac:(lia))), (proj2 (Z.leb_gt _ _)) by lia.
    split_and!; [done|lia|done].
  - destruct (push_in_stack c x K ltac:(lia)) as (E & K' & Ee & Em). set (c1 := set_reg _ _ _) in *.
    destruct (IH c1 (room - 1) K' ltac:(lia) ltac:(lia) ltac:(lia)) as (c' & E' & Hsp & Hk). exists c'.
    rewrite (bind_ok _ _ _ _ _ E), E'. split_and!; [|lia|].
    + replace (Z.of_nat (S (length l)) <=? room) with (Z.of_nat (length l) <=? room - 1) by zbool. done.
    + intros a Ha. rewrite Hk, Em by lia. apply load8_store_le_ne; lia.
Qed.

Lemma entered_space {P : BuildProfile} {B : BootSymbols} {E : Encoding} (magic info : Z) (c c1 : cpu) (s' : machine) :
  kernel_entered magic info c c1 -> kernel_up rs (mach c1) s' -> in_kernel_space rs (set_mach s' c1).
Proof.
  intros K Hup. destruct (ke_paging _ _ _ _ K) as [Hpg Hpse Hpae _ _].
  assert (flat_data (ds c1) /\ flat_data (ss c1)) as Hd.
  { pose proof (ke_data _ _ _ _ K) as Hd. injection Hd as Hd _ _ _. rewrite Hd, (ke_ss _ _ _ _ K). split; by exists 0. }
  destruct c1 as [r1 r2 r3 r4 sp ip s1 s2 s3 s4 s5 s6 g c4 f m]. split; cbn [set_mach mach cr4 ds ss cpu_mem] in *; try done.
  - rewrite (ku_cr0 _ _ _ Hup), !Z.lor_spec, Hpg. split; [done|]. apply orb_true_r.
  - intros m' Hm' va Hva. destruct (ku_built _ _ _ Hup) as (pd & tabs & Hip). destruct (ip_usable _ _ _ _ Hip) as [Hpd Ht].
    apply (in_place_walk rs s' pd tabs m' va Hip); [|done]. intros a Ha. apply Hm'. destruct Ha as [-> |[i Hi]]; [done|by apply (Ht i)].
Qed.

End protection.

(** C10: The booted kernel is protected from itself.  From the idle loop reached from the
    loader, on the processor: a store of any size to the code or the read-only data
    faults and changes nothing; so does reading the guard page or any address between
    the low memory and the image or behind it, up to the recursive window; and any run
    of pushes either stays within the 64 KiB of the stack or, at the first word that
    does not fit, hits the guard page and faults, with no byte outside the stack
    written. *)
Theorem kernel_memory_protected `{BuildProfile} {I : KernelImage} {B : BootSymbols} {E : Encoding}
    (code : Z → option item) (info : Z) (c : cpu) (map : MemoryMap) (rs : list MemoryRegion) :
  ImageOk I → boot_image code → multiboot_entry BOOTLOADER_MAGIC info c →
  handoff (mach c) info → map_clear (mach c) info → loader_clear (mach c) info →
  map_of (mach c) info = Some map → MemoryMap.regions map = Ok rs → map_ok rs →
  ∃ c', (∀ fuel, run code (39 + fuel) c = (Ok tt, c')) ∧ esp c' = stack_top - 20 ∧
    (∀ n va x, 1 <= n → va + n <= 2 ^ 32 → kernel_virt_start <= va < kernel_data_start →
      vstore n (ds c') va x c' = (Panic (CpuException 14), c')) ∧
    (∀ n va, 1 <= n → va + n <= 2 ^ 32 →
      kernel_phys_start <= va < kernel_virt_start ∨ stack_guard <= va < stack_bottom ∨ kernel_virt_end <= va < RECURSIVE_WINDOW →
      vload n (ds c') va c' = (Panic (CpuException 14), c')) ∧
    (∀ l, ∃ c'', for_in l push c' = (if Z.of_nat (length l) <=? 16379 then Ok tt else Panic (CpuException 14), c'') ∧
      ∀ a, a < stack_bottom - KERNEL_VIRTUAL_BASE ∨ esp c' - KERNEL_VIRTUAL_BASE <= a →
        load8 (cpu_mem c'') a = load8 (cpu_mem c') a).
Proof.
  intros HI BI Hm Hh Hc Hl Hmap Hrs Hok.
  destruct (idle_run code BI info c map rs Hm Hh Hc Hl Hmap Hrs Hok) as (c1 & s' & K & Hrun & Hup).
  pose proof (entered_space rs _ _ _ _ _ K Hup) as S. pose proof (ke_esp _ _ _ _ K) as He.
  exists (set_mach s' c1). assert (esp (set_mach s' c1) = esp c1) as Ee by (by destruct c1).
  clear Hmap Hrs Hup. set (c' := set_mach s' c1) in *. pose proof HI as HI'. destruct HI'.
  split; [exact Hrun|]. clear Hrun. split; [congruence|]. unfold KERNEL_VIRTUAL_BASE in *. split_and!.
  - intros n va x H1 H2 H3. apply vstore_fault; [apply S|lia|lia|lia|].
    rewrite (translate_space rs) by (done || unfold RECURSIVE_WINDOW; lia). rewrite kernel_space_high by lia.
    cbn [tr_writable]. by rewrite (proj2 (Z.leb_gt _ _)) by lia.
  - intros n va H1 H2 H3. unfold RECURSIVE_WINDOW in *. apply vload_fault; [apply S|lia|lia|lia|].
    rewrite (translate_space rs) by (done || unfold RECURSIVE_WINDOW; lia). unfold kernel_space.
    repeat zcase; cbn [andb]; done || lia.
  - intros l. destruct (pushes rs l c' 16379 S ltac:(lia) ltac:(lia) ltac:(lia)) as (c'' & E' & _ & Hk). by exists c''.
Qed.

(** On the image and the machine of [Boot]. *)
#[local] Existing Instance sample_encoding.
#[local] Existing Instance sample_symbols.
#[local] Existing Instance dev.
#[local] Abbreviation image := (link sample_sections).

Lemma kernel_memory_protected_witness :
  ∃ c', (∀ fuel, run image_code (39 + fuel) (grub_cpu BOOTLOADER_MAGIC) = (Ok tt, c')) ∧
    esp c' = @stack_top image - 20 ∧
    (∀ n va x, 1 <= n → va + n <= 2 ^ 32 → @kernel_virt_start image <= va < @kernel_data_start image →
      vstore n (ds c') va x c' = (Panic (CpuException 14), c')) ∧
    (∀ n va, 1 <= n → va + n <= 2 ^ 32 →
      @kernel_phys_start image <= va < @kernel_virt_start image ∨ @stack_guard image <= va < @stack_bottom image ∨
      @kernel_virt_end image <= va < RECURSIVE_WINDOW →
      vload n (ds c') va c' = (Panic (CpuException 14), c')) ∧
    (∀ l, ∃ c'', for_in l push c' = (if Z.of_nat (length l) <=? 16379 then Ok tt else Panic (CpuException 14), c'') ∧
      ∀ a, a < @stack_bottom image - KERNEL_VIRTUAL_BASE ∨ esp c' - KERNEL_VIRTUAL_BASE <= a →
        load8 (cpu_mem c'') a = load8 (cpu_mem c') a).
Proof.
  apply (kernel_memory_protected image_code 0x9500 (grub_cpu BOOTLOADER_MAGIC) sample_mmap (region_of <$> sample_map.*1)
    sample_image_ok image_code_ok (grub_cpu_entry BOOTLOADER_MAGIC ltac:(vm_compute; split; congruence))
    (grub_cpu_handoff _) (grub_cpu_map_clear _) (grub_cpu_clear _)).
  - exact grub_machine_map.
  - vm_compute. reflexivity.
  - exact sample_map_ok.
Defined.
