(* ===== verification/Services.v ===== *)
(** * The running kernel: its services together

    After the boot the kernel's parts live on in one machine: the frame allocator, the
    console, the panic handler and the page tables in memory.  A step relation for their
    use by clients that write only to frames they hold, an abstract machine for each
    part, and the proof that they never disturb each other: along any sequence of steps
    the allocator moves as its contract says, the memory holds what the clients wrote,
    the screen shows what was printed, and the address space stays as it was built. *)

From S2P Require Import Prelude Rust Bits Fmt Memory Address Layout Multiboot Frame FrameSpec.
From S2P Require Import Paging Mmu AddressSpace Volatile Vga Machine Cpu Gdt Stack Kernel Boot.

#[local] Open Scope Z_scope.

(** ** Steps *)

Inductive action :=
  | Call (e : event)
  | Print (text : string)
  | Write (addr value : Z).

Definition with_alloc (b : FrameBitmap) (s : machine) : machine :=
  mkMachine (mc_writer s) b (mc_panicking s) (mc_mem s) (mc_cr3 s) (mc_cr0 s).

Definition with_mem (m : mem) (s : machine) : machine :=
  mkMachine (mc_writer s) (mc_alloc s) (mc_panicking s) m (mc_cr3 s) (mc_cr0 s).

(** A call of the allocator, a print, or a byte a client stores in a run it holds. *)
Inductive service `{BuildProfile} : machine * list FrameRun → action → machine * list FrameRun → Prop :=
  | service_call s live e b live' :
      FrameSpec.step (mc_alloc s, live) e (b, live') →
      service (s, live) (Call e) (with_alloc b s, live')
  | service_print s live text s' :
      printk text s = (Ok tt, s') → service (s, live) (Print text) (s', live)
  | service_write s live run addr value :
      run ∈ live → addr / FRAME_SIZE ∈ run_frames run →
      service (s, live) (Write addr value) (with_mem (store8 (mc_mem s) addr value) s, live).

(** ** What the steps mean to each part *)

Definition calls (acts : list action) : list event :=
  omap (fun a => match a with Call e => Some e | _ => None end) acts.

Definition prints (acts : list action) : string :=
  lines ((fun a => match a with Print text => text | _ => EmptyString end) <$> acts).

Definition writes (acts : list action) (m : mem) : mem :=
  foldl (fun m a => match a with Write addr value => store8 m addr value | _ => m end) m acts.

(** The address is not in the text buffer. *)
Definition off_screen (a : Z) : Prop := a < VGA_BUFFER ∨ VGA_BUFFER + 4000 <= a.

(** ** The invariant *)

Section services.
Context {P : BuildProfile} {I : KernelImage} {HI : ImageOk I}.
Context (rs : list MemoryRegion) (s0 : machine) (pd : Z) (tabs : Z → option Z).
Context (Hvga : usable_frame rs (VGA_BUFFER / 4096) = false).
Context (Hfree : ∀ f, f ∈ free_set (mc_alloc s0) → usable_frame rs f = true).
Context (Hip : in_place rs s0 pd tabs).

(** [serving s live]: the state between two steps. *)
Record serving (s : machine) (live : list FrameRun) : Prop := {
  sv_wf : bitmap_wf (mc_alloc s);
  sv_owned : owned (free_set (mc_alloc s0)) (free_set (mc_alloc s), live);
  sv_screen : screen_ok s;
  sv_repr : pd_repr (mc_mem s) pd tabs page_word;
  sv_cr3 : mc_cr3 s = pd * 4096;
  sv_color : color (mc_writer s) = color (mc_writer s0)
}.

(** A frame the machine started with as free holds neither a table nor the screen. *)
Lemma free_not_table f : f ∈ free_set (mc_alloc s0) → f ≠ pd ∧ ∀ i, tabs i ≠ Some f.
Proof.
  intros [_ Hf]%elem_of_free_set. destruct (ip_taken _ _ _ _ Hip) as [Hpd Ht].
  split; [congruence|]. intros i Hi. apply Ht in Hi. congruence.
Qed.

Lemma free_not_screen f : f ∈ free_set (mc_alloc s0) → f ≠ VGA_BUFFER / 4096.
Proof. intros Hf%Hfree ->. congruence. Qed.

Lemma live_free s live run addr :
  serving s live → run ∈ live → addr / FRAME_SIZE ∈ run_frames run → addr / 4096 ∈ free_set (mc_alloc s0).
Proof. intros [_ Hown _ _ _ _] Hr Ha. apply (owned_all _ _ Hown). right. by exists run. Qed.

Lemma serving_screen s :
  pd_repr (mc_mem s) pd tabs page_word → mc_cr3 s = pd * 4096 → text_buffer_mapped s = true.
Proof.
  intros R E. destruct (ip_usable _ _ _ _ Hip) as [Hpd Ht].
  apply (repr_screen s pd tabs); [done|done|congruence|]. intros i t Hi. specialize (Ht i t Hi). congruence.
Qed.

(** The screen can be written without harm to the tables. *)
Lemma repr_confined m m' : confined m m' → pd_repr m pd tabs page_word → pd_repr m' pd tabs page_word.
Proof.
  intros Hc. apply pd_repr_mem. intros a Hat. apply Hc. destruct (ip_usable _ _ _ _ Hip) as [Hpd Htab].
  assert (a / 4096 ≠ VGA_BUFFER / 4096); [|unfold VGA_BUFFER in *; zdiv].
  intros Ea. rewrite Ea in Hat. destruct Hat as [Hat|[i Hat]]; [congruence|]. apply Htab in Hat. congruence.
Qed.

(** One step: the invariant, and the step of each abstract part. *)
Lemma service_sim s live act s' live' :
  serving s live → service (s, live) act (s', live') →
  serving s' live' ∧
  steps spec_step (free_set (mc_alloc s), live) (calls [act]) (free_set (mc_alloc s'), live') ∧
  (∀ a, off_screen a → load8 (mc_mem s') a = load8 (writes [act] (mc_mem s)) a) ∧
  machine_term s' = foldl term_emit (machine_term s) (styled (color (mc_writer s0)) (prints [act])).
Proof.
  intros Hs Hstep. pose proof Hs as [Hwf Hown Hscr R Hcr Hcol].
  inversion Hstep as [? ? e b ? He|? ? text ? Hp|? ? run addr value Hr Ha]; subst; cbn [calls omap list_omap writes foldl].
  - destruct (step_sim _ _ _ _ _ _ Hwf Hown He) as [Hwf' Hspec]. split_and!; [|by econstructor; [|constructor]|done|done].
    split; [done|by eapply spec_step_owned|exact Hscr|done|done|done].
  - destruct (printk_ok text s Hscr) as (s1 & E & [Hc Ht]). rewrite E in Hp. simplify_eq.
    split_and!; [|rewrite (cstep_alloc _ _ Hc); apply steps_nil|by apply Hc|].
    2: { rewrite Ht, Hcol. unfold prints. csimpl. cbn [lines foldr]. by rewrite styled_app, app_nil_r. }
    split; rewrite ?(cstep_alloc _ _ Hc), ?(cstep_cr3 _ _ Hc), ?(cstep_color _ _ Hc); try done.
    + by apply (screen_ok_step s).
    + apply (repr_confined (mc_mem s)); [apply Hc|done].
  - pose proof (live_free _ _ _ _ Hs Hr Ha) as Hf. pose proof (free_not_screen _ Hf) as Hns.
    pose proof (free_not_table _ Hf) as [Hnp Hnt].
    assert (∀ a, a / 4096 ≠ addr / 4096 → load8 (store8 (mc_mem s) addr value) a = load8 (mc_mem s) a) as Hst.
    { intros a Hne. rewrite load8_store8. case_decide; [congruence|done]. }
    assert (pd_repr (store8 (mc_mem s) addr value) pd tabs page_word) as R'.
    { apply (pd_repr_mem (mc_mem s)); [|done]. intros a Hat. apply Hst. intros Ea. rewrite Ea in Hat.
      destruct Hat as [Hat|[i Hat]]; [congruence|by apply (Hnt i)]. }
    split_and!; [|apply steps_nil|done|].
    + split; try done. split; [apply Hscr|by apply serving_screen].
    + change (styled _ (prints _)) with (@nil cell). cbn [foldl].
      unfold machine_term, term_of. cbn [writer con_mem mc_writer mc_mem with_mem]. f_equal. apply screen_ext. intros a Hab. apply Hst. unfold VGA_BUFFER in *. zdiv.
Qed.

Lemma writes_ext acts m m' a : load8 m a = load8 m' a → load8 (writes acts m) a = load8 (writes acts m') a.
Proof.
  revert m m'. induction acts as [|act acts IH]; intros m m' E; [done|]. cbn [writes foldl]. apply IH.
  destruct act; try done. rewrite !load8_store8. by case_decide.
Qed.

Lemma steps_app {S E} (R : S → E → S → Prop) st es st' es' st'' :
  steps R st es st' → steps R st' es' st'' → steps R st (es ++ es') st''.
Proof. induction 1; [done|]. intros. cbn. econstructor; eauto. Qed.

(** Any sequence of steps, by induction on it. *)
Lemma services_sim st acts st' :
  steps service st acts st' → serving st.1 st.2 →
  serving st'.1 st'.2 ∧
  steps spec_step (free_set (mc_alloc st.1), st.2) (calls acts) (free_set (mc_alloc st'.1), st'.2) ∧
  (∀ a, off_screen a → load8 (mc_mem st'.1) a = load8 (writes acts (mc_mem st.1)) a) ∧
  machine_term st'.1 = foldl term_emit (machine_term st.1) (styled (color (mc_writer s0)) (prints acts)).
Proof.
  induction 1 as [[s live]|[s live] act [s1 live1] acts [s' live'] Hstep Hsteps IH]; cbn [fst snd] in *; intros Hs.
  { split_and!; [done|apply steps_nil|done|done]. }
  destruct (service_sim _ _ _ _ _ Hs Hstep) as (Hs1 & C1 & W1 & T1). destruct (IH Hs1) as (Hs' & C2 & W2 & T2).
  split_and!; [done| | |].
  - change (calls (act :: acts)) with (calls ([act] ++ acts)). unfold calls. rewrite omap_app. by eapply steps_app.
  - intros a Ha. rewrite W2 by done. change (writes (act :: acts) (mc_mem s)) with (writes acts (writes [act] (mc_mem s))).
    by apply writes_ext, W1.
  - rewrite T2, T1, <- foldl_app, <- styled_app. f_equal. f_equal. unfold prints. csimpl. cbn [lines foldr].
    by rewrite append_assoc.
Qed.

(** What the parts go on to promise between two steps. *)
Lemma serving_space s live m' va :
  serving s live → confined (mc_mem s) m' → 0 <= va < RECURSIVE_WINDOW → walk m' (mc_cr3 s) va = kernel_space va.
Proof.
  intros Hs Hc Hva. rewrite (sv_cr3 _ _ Hs). pose proof (repr_confined _ _ Hc (sv_repr _ _ Hs)) as R.
  rewrite (repr_walk _ _ _ _ R) by (unfold RECURSIVE_WINDOW in *; lia). by rewrite (proj2 (Z.ltb_lt _ _)) by lia.
Qed.

Lemma serving_stack s live : serving s live → stack_mapped s.
Proof.
  intros Hs m' Hc va Hva. pose proof HI as HI'. destruct HI'. unfold KERNEL_VIRTUAL_BASE in *.
  rewrite (serving_space s live m' va Hs Hc) by (unfold RECURSIVE_WINDOW; lia).
  rewrite kernel_space_high by lia. eexists. by split.
Qed.

End services.

(** C2: The booted kernel's services never disturb each other.  From the idle loop reached
    from the loader, along any sequence of allocations, frees, prints and stores by
    clients to frames they hold: the allocator moves as its contract says and ownership
    holds; every byte outside the text buffer is what the clients' stores made of it
    since the boot; the screen shows exactly what was printed on top of the boot text;
    the address space is still the one that was built; and each service goes on: any
    allocation returns, any held run can be freed, any text can be printed, and the
    panic handler reaches the halt from any stack pointer. *)
Theorem kernel_services_isolated `{BuildProfile} {I : KernelImage} {B : BootSymbols} {E : Encoding}
    (code : Z → option item) (info : Z) (c : cpu) (map : MemoryMap) (rs : list MemoryRegion) :
  ImageOk I → boot_image code → multiboot_entry BOOTLOADER_MAGIC info c →
  handoff (mach c) info → map_clear (mach c) info → loader_clear (mach c) info →
  map_of (mach c) info = Some map → MemoryMap.regions map = Ok rs → map_ok rs →
  ∃ c', (∀ fuel, run code (39 + fuel) c = (Ok tt, c')) ∧
    let s := mach c' in
    ∀ acts t live, steps service (s, []) acts (t, live) →
      steps spec_step (free_set (mc_alloc s), []) (calls acts) (free_set (mc_alloc t), live) ∧
      owned (free_set (mc_alloc s)) (free_set (mc_alloc t), live) ∧
      (∀ a, off_screen a → load8 (mc_mem t) a = load8 (writes acts (mc_mem s)) a) ∧
      machine_term t = foldl term_emit (machine_term s) (styled (color (mc_writer s)) (prints acts)) ∧
      (∀ va, 0 <= va < RECURSIVE_WINDOW → walk (mc_mem t) (mc_cr3 t) va = kernel_space va) ∧
      (∀ count, 0 < count → ∃ r b, FrameBitmap.allocate count (mc_alloc t) = (Ok r, b)) ∧
      (∀ run, run ∈ live → ∃ b, FrameBitmap.free run (mc_alloc t) = (Ok tt, b)) ∧
      (∀ text, ∃ t', printk text t = (Ok tt, t')) ∧
      (∀ text c1, mach c1 = t → u32_range (esp c1) →
        ∃ c2, panic text c1 = (Ok tt, c2) ∧ mc_panicking (mach c2) = true ∧ iflag c2 = false).
Proof.
  intros HI BI Hm Hh Hc Hl Hmap Hrs Hok.
  destruct (idle_run code BI info c map rs Hm Hh Hc Hl Hmap Hrs Hok) as (c1 & s' & K & Hrun & Hup).
  exists (set_mach s' c1). split; [exact Hrun|]. assert (mach (set_mach s' c1) = s') as -> by (by destruct c1).
  intros s acts t live Hsteps. subst s. destruct (ku_built _ _ _ Hup) as (pd & tabs & Hip). pose proof (mo_vga _ Hok) as Hvga.
  pose proof (ku_free _ _ _ Hup) as Hfree.
  assert (serving s' pd tabs s' []) as Hs.
  { split; [apply Hup|apply owned_init| |apply Hip|apply Hip|done].
    split; [apply Hup|]. apply (serving_screen rs s' pd tabs Hvga Hip); apply Hip. }
  destruct (services_sim rs s' pd tabs Hvga Hfree Hip _ _ _ Hsteps Hs) as (Ht & Hc1 & Hw & Hterm). cbn [fst snd] in *.
  split_and!; [done|apply Ht|done|done| | | | |].
  - intros va Hva. by apply (serving_space rs s' pd tabs Hvga Hip t live).
  - intros count Hcount. destruct (allocate_ok (mc_alloc t) count (sv_wf _ _ _ _ _ Ht) Hcount) as (r & b & Ea & _). by exists r, b.
  - intros run Hr. by apply (held_run_freed (mc_alloc s') (mc_alloc t) live); [apply Ht|apply Ht|].
  - intros text. destruct (printk_ok text t (sv_screen _ _ _ _ _ Ht)) as (t' & Ep & _). by exists t'.
  - intros text c2 Ec He. destruct (panic_ends text c2 He) as (c3 & Ep & Hpk & Hif & _); rewrite ?Ec; [apply Ht| |by exists c3].
    by apply (serving_stack rs s' pd tabs Hvga Hip t live).
Qed.

(** On the image and the machine of [Boot]: a line is printed and four frames are asked
    for. *)
#[local] Existing Instance sample_encoding.
#[local] Existing Instance sample_symbols.
#[local] Existing Instance dev.
#[local] Abbreviation image := (link sample_sections).

Lemma kernel_services_isolated_witness :
  ∃ c' r t live, (∀ fuel, run image_code (39 + fuel) (grub_cpu BOOTLOADER_MAGIC) = (Ok tt, c')) ∧
    steps service (mach c', []) [Print "ready"; Call (Allocate 4 r)] (t, live) ∧
    owned (free_set (mc_alloc (mach c'))) (free_set (mc_alloc t), live) ∧
    machine_term t = foldl term_emit (machine_term (mach c')) (styled (color (mc_writer (mach c'))) "ready") ∧
    walk (mc_mem t) (mc_cr3 t) 0xB8000 = Some (mkTranslation 0xB8000 true false).
Proof.
  destruct (kernel_services_isolated image_code 0x9500 (grub_cpu BOOTLOADER_MAGIC) sample_mmap (region_of <$> sample_map.*1)
    sample_image_ok image_code_ok (grub_cpu_entry BOOTLOADER_MAGIC ltac:(vm_compute; split; congruence))
    (grub_cpu_handoff BOOTLOADER_MAGIC) (grub_cpu_map_clear BOOTLOADER_MAGIC) (grub_cpu_clear BOOTLOADER_MAGIC)
    grub_machine_map ltac:(vm_compute; reflexivity) sample_map_ok) as (c' & Hrun & Hsafe).
  destruct (Hsafe [] _ _ (steps_nil _ _)) as (_ & _ & _ & _ & _ & _ & _ & Hprint & _).
  destruct (Hprint "ready"%string) as (t1 & E1).
  pose proof (steps_cons service _ _ _ _ _ (service_print _ [] _ _ E1) (steps_nil _ _)) as H1.
  destruct (Hsafe _ _ _ H1) as (_ & _ & _ & _ & _ & Halloc & _).
  destruct (Halloc 4 ltac:(lia)) as (r & b & E2).
  assert (∃ live, FrameSpec.step (mc_alloc t1, []) (Allocate 4 r) (b, live)) as [live E3].
  { destruct r as [run|]; eexists; [by apply step_allocate|by apply step_exhausted]. }
  pose proof (steps_app _ _ _ _ _ _ H1 (steps_cons service _ _ _ _ _ (service_call _ _ _ _ _ E3) (steps_nil _ _))) as H2.
  destruct (Hsafe _ _ _ H2) as (_ & Hown & _ & Hterm & Hspace & _).
  exists c', r, (with_alloc b t1), live. split_and!; [done|exact H2|exact Hown|exact Hterm|].
  rewrite Hspace by (unfold RECURSIVE_WINDOW; lia). vm_compute. reflexivity.
Defined.
