(* ===== verification/Window.v ===== *)
(** * Editing the page tables through the recursive window

    [src/memory/paging.rs] points the directory's last slot at the directory, so that
    every page table is reachable through the top 4 MiB.  On the processor of [Cpu], in
    the booted kernel: a store of an entry to its place in the window changes the
    mapping of that page, and of no other; where a slot has no table the store faults. *)

From S2P Require Import Prelude Rust Bits Fmt Memory Address Layout Multiboot Frame FrameSpec.
From S2P Require Import Paging Mmu AddressSpace Volatile Vga Machine Cpu Gdt Stack Kernel Boot Protection.

(** What an entry makes of an address in its page. *)
Definition entry_space (e : PageTableEntry) (va : Z) : option translation :=
  if PageTableEntry.is_present e then
    Some {| tr_phys := FrameNumber.index (PageTableEntry.frame e) * PAGE_SIZE + va mod PAGE_SIZE;
            tr_writable := PageFlags.contains (PageTableEntry.flags e) PageFlags.WRITABLE;
            tr_user := false |}
  else None.

(** The address in the window of the entry of page [p]. *)
Definition entry_addr (p : Z) : Z := RECURSIVE_WINDOW + 4 * p.

Lemma entry_space_word (e : PageTableEntry) (va : Z) :
  u32_range (pte_raw e) ->
  entry_space e va =
    let w := pte_raw e in
    if Z.odd w then
      Some {| tr_phys := w / 4096 * 4096 + va mod 4096; tr_writable := Z.testbit w 1; tr_user := false |}
    else None.
Proof.
  intros He. unfold entry_space, PageTableEntry.is_present, PageTableEntry.flags, PageTableEntry.frame.
  change PageFlags.WRITABLE with (mkPageFlags (2 ^ 1)).
  rewrite present_odd, flags_bit, address_mask_div by (done || lia). cbv zeta.
  unfold PhysAddr.frame_floor, PhysAddr.new, FrameNumber.index, FRAME_SIZE, PAGE_SIZE. cbn [phys_raw frame_index].
  by replace (pte_raw e / 4096 * 4096 / 4096) with (pte_raw e / 4096) by zdiv.
Qed.

(** Paging is on with 4 MiB pages, and data segments are flat. *)
Record paged (c : cpu) : Prop := {
  pg_on : Z.testbit (mc_cr0 (mach c)) CR0_PG_BIT = true;
  pg_cr4 : Z.testbit (cr4 c) CR4_PSE_BIT = true /\ Z.testbit (cr4 c) CR4_PAE_BIT = false;
  pg_data : flat_data (ds c)
}.

Section window.
Context (pd : Z) (tabs : Z → option Z).

(** The window of a directory in use, whatever its tables hold. *)
Lemma translate_window (pages : Z → Z) (c : cpu) (k : access) (p i : Z) :
  paged c -> pd_repr (cpu_mem c) pd tabs pages -> mc_cr3 (mach c) = pd * 4096 ->
  0 <= p < 1023 * 1024 -> 0 <= i < 4 ->
  translate k (entry_addr p + i) c =
    match tabs (p / 1024) with
    | Some t => Ok (t * 4096 + 4 * (p mod 1024) + i)
    | None => Panic (CpuException 14)
    end.
Proof.
  intros [Hpg [Hpse Hpae] _] R Hcr Hp Hi. unfold translate, page_access, mmu, entry_addr, RECURSIVE_WINDOW.
  rewrite Hpg, Hpse, Hpae, Hcr. cbn [negb]. rewrite (walk_recursive _ _ _ _ R) by zdiv. cbv zeta.
  replace ((0xFFC00000 + 4 * p + i) / 4096 - 1023 * 1024) with (p / 1024) by zdiv.
  rewrite (proj2 (Z.eqb_neq (p / 1024) 1023)) by zdiv. destruct (tabs (p / 1024)) as [t|]; [|done]. cbn [tr_writable tr_phys negb].
  replace (t * 4096 + _) with (t * 4096 + 4 * (p mod 1024) + i) by zdiv. by destruct k; rewrite ?andb_false_r.
Qed.

(** A store to the entry of a page whose slot has a table. *)
Lemma window_store (pages : Z → Z) (c : cpu) (p w t : Z) :
  paged c -> pd_repr (cpu_mem c) pd tabs pages -> mc_cr3 (mach c) = pd * 4096 ->
  0 <= p < 1023 * 1024 -> tabs (p / 1024) = Some t -> u32_range w ->
  exists c', vstore 4 (ds c) (entry_addr p) w c = (Ok tt, c') /\ paged c' /\ mc_cr3 (mach c') = mc_cr3 (mach c) /\
    pd_repr (cpu_mem c') pd tabs (fun q => if q =? p then w else pages q) /\
    (forall a, a / 4096 <> t -> load8 (cpu_mem c') a = load8 (cpu_mem c) a).
Proof.
  intros K R Hcr Hp Ht Hw. set (pa := t * 4096 + 4 * (p mod 1024)).
  assert (maps c Write (entry_addr p) 4 pa) as Hm.
  { intros i Hi. by rewrite (translate_window pages c Write p i K R Hcr Hp Hi), Ht. }
  eexists. split.
  { apply (vstore_ok 4 ltac:(lia) c (ds c) (entry_addr p) pa w); [apply K|..|done];
      unfold entry_addr, RECURSIVE_WINDOW; lia. }
  destruct c as [r1 r2 r3 r4 sp ip s1 s2 s3 s4 s5 s6 g c4 f [wr al pk m r c0]], K as [K1 K2 K3]. split; [by split|]. split; [done|].
  unfold cpu_mem, set_mem, set_mach in *. cbn [mach mc_mem] in *. split.
  - replace (fun q => if q =? p then w else pages q)
      with (fun q => if q =? p / 1024 * 1024 + p mod 1024 then w else pages q)
      by (by replace (p / 1024 * 1024 + p mod 1024) with p by zdiv).
    apply pd_repr_write; [done|done|zdiv|done].
  - intros a Ha. apply load8_store_le_ne; [lia|]. subst pa. zdiv.
Qed.

(** The whole edit, in a directory that is as it was built. *)
Lemma window_edit {I : KernelImage} {HI : ImageOk I} (c : cpu) (p : Z) (e : PageTableEntry) (t : Z) :
  paged c -> pd_repr (cpu_mem c) pd tabs page_word -> mc_cr3 (mach c) = pd * 4096 ->
  0 <= p < 1023 * 1024 -> tabs (p / 1024) = Some t -> u32_range (pte_raw e) ->
  exists c', vstore 4 (ds c) (entry_addr p) (pte_raw e) c = (Ok tt, c') /\
    vload 4 (ds c') (entry_addr p) c' = (Ok (pte_raw e), c') /\ mc_cr3 (mach c') = mc_cr3 (mach c) /\
    (forall va, 0 <= va < RECURSIVE_WINDOW ->
      walk (cpu_mem c') (mc_cr3 (mach c')) va = if va / PAGE_SIZE =? p then entry_space e va else kernel_space va) /\
    (forall a, a / PAGE_SIZE <> t -> load8 (cpu_mem c') a = load8 (cpu_mem c) a).
Proof.
  intros K R Hcr Hp Ht He. destruct (window_store _ c p _ t K R Hcr Hp Ht He) as (c' & E & K' & H3 & R' & Hk).
  exists c'. rewrite H3. split_and!; [done| |done| |exact Hk].
  - rewrite Hcr in H3. rewrite (vload_ok 4 ltac:(lia) c' (ds c') (entry_addr p) (t * 4096 + 4 * (p mod 1024)));
      [|apply K'|unfold entry_addr, RECURSIVE_WINDOW; lia..|].
    + change (load_le 4) with load32. rewrite (repr_tab _ _ _ _ R' _ _ _ Ht) by zdiv.
      by rewrite (proj2 (Z.eqb_eq _ _)) by zdiv.
    + intros i Hi. by rewrite (translate_window _ c' Read p i K' R' H3 Hp Hi), Ht.
  - intros va Hva. unfold RECURSIVE_WINDOW in Hva. rewrite Hcr, (walk_pages _ _ _ _ R') by zdiv. unfold PAGE_SIZE.
    destruct (Z.eqb_spec (va / 4096) p); [by rewrite entry_space_word|]. apply page_word_space. lia.
Qed.

End window.

Lemma in_kernel_space_paged {I : KernelImage} (rs : list MemoryRegion) (c : cpu) : in_kernel_space rs c -> paged c.
Proof. intros [[] ? _ []]. by split. Qed.

(** C11: The page tables of the booted kernel are edited through the recursive window.  From
    the idle loop reached from the loader, on the processor: storing an entry at its
    place in the window, for any page of the two slots that have a table, succeeds,
    reads back, and makes that page translate as the entry says; every other page below
    the window keeps its translation, and no byte outside the table changes.  For a page
    of any other slot the store faults and changes nothing. *)
Theorem recursive_window_edits `{BuildProfile} {I : KernelImage} {B : BootSymbols} {E : Encoding}
    (code : Z → option item) (info : Z) (c : cpu) (map : MemoryMap) (rs : list MemoryRegion) :
  ImageOk I → boot_image code → multiboot_entry BOOTLOADER_MAGIC info c →
  handoff (mach c) info → map_clear (mach c) info → loader_clear (mach c) info →
  map_of (mach c) info = Some map → MemoryMap.regions map = Ok rs → map_ok rs →
  ∃ c', (∀ fuel, run code (39 + fuel) c = (Ok tt, c')) ∧
    ∀ p e, 0 <= p < 1023 * 1024 → u32_range (pte_raw e) →
      if decide (p / 1024 = 0 ∨ p / 1024 = 768) then
        ∃ c'' t, vstore 4 (ds c') (entry_addr p) (pte_raw e) c' = (Ok tt, c'') ∧
          vload 4 (ds c'') (entry_addr p) c'' = (Ok (pte_raw e), c'') ∧
          mc_cr3 (mach c'') = mc_cr3 (mach c') ∧
          (∀ va, 0 <= va < RECURSIVE_WINDOW →
            walk (cpu_mem c'') (mc_cr3 (mach c'')) va =
              if va / PAGE_SIZE =? p then entry_space e va else kernel_space va) ∧
          usable_frame rs t = true ∧
          (∀ a, a / PAGE_SIZE ≠ t → load8 (cpu_mem c'') a = load8 (cpu_mem c') a)
      else vstore 4 (ds c') (entry_addr p) (pte_raw e) c' = (Panic (CpuException 14), c').
Proof.
  intros HI BI Hm Hh Hc Hl Hmap Hrs Hok.
  destruct (idle_run code BI info c map rs Hm Hh Hc Hl Hmap Hrs Hok) as (c1 & s' & K & Hrun & Hup).
  pose proof (in_kernel_space_paged _ _ (entered_space rs _ _ _ _ _ K Hup)) as S. destruct (ku_built _ _ _ Hup) as (pd & tabs & Hip).
  exists (set_mach s' c1). assert (mach (set_mach s' c1) = s') as Es by (by destruct c1).
  split; [exact Hrun|]. clear Hrun Hmap Hrs K. set (c' := set_mach s' c1) in *. rewrite <- Es in Hip. clearbody c'.
  destruct Hip as [R Hslots Hcr [_ Hus] _]. change (mc_mem (mach c')) with (cpu_mem c') in R. intros p e Hp He.
  destruct (repr_tables _ _ _ R) as [[t0 T0] [t768 T768]]. case_decide as Hd.
  - assert (∃ t, tabs (p / 1024) = Some t) as [t Ht] by (destruct Hd as [-> | ->]; eauto).
    destruct (window_edit pd tabs c' p e t S R Hcr Hp Ht He) as (c'' & E1 & E2 & E3 & Hw & Hk).
    exists c'', t. split_and!; try done. by apply (Hus (p / 1024)).
  - apply vstore_fault; [apply S|unfold entry_addr, RECURSIVE_WINDOW; lia..|].
    rewrite <- (Z.add_0_r (entry_addr p)), (translate_window pd tabs _ c' Write p 0 S R Hcr Hp) by lia.
    by rewrite Hslots by (intros ?; apply Hd; auto).
Qed.

(** On the image and the machine of [Boot]: the guard page of the stack is mapped to a
    frame of high memory. *)
#[local] Existing Instance sample_encoding.
#[local] Existing Instance sample_symbols.
#[local] Existing Instance dev.
#[local] Abbreviation image := (link sample_sections).

Lemma recursive_window_edits_witness :
  ∃ c' c'', (∀ fuel, run image_code (39 + fuel) (grub_cpu BOOTLOADER_MAGIC) = (Ok tt, c')) ∧
    vstore 4 (ds c') (entry_addr (@stack_guard image / 4096)) 0x7000003 c' = (Ok tt, c'') ∧
    walk (cpu_mem c'') (mc_cr3 (mach c'')) (@stack_guard image + 16) = Some (mkTranslation 0x7000010 true false) ∧
    walk (cpu_mem c'') (mc_cr3 (mach c'')) 0xB8000 = Some (mkTranslation 0xB8000 true false).
Proof.
  destruct (recursive_window_edits image_code 0x9500 (grub_cpu BOOTLOADER_MAGIC) sample_mmap (region_of <$> sample_map.*1)
    sample_image_ok image_code_ok (grub_cpu_entry BOOTLOADER_MAGIC ltac:(vm_compute; split; congruence))
    (grub_cpu_handoff _) (grub_cpu_map_clear _) (grub_cpu_clear _)
    grub_machine_map ltac:(vm_compute; reflexivity) sample_map_ok) as (c' & Hrun & Hedit).
  specialize (Hedit (@stack_guard image / 4096) (mkPTE 0x7000003)).
  destruct Hedit as (c'' & t & E1 & _ & _ & Hw & _); [vm_compute; split; congruence|cbn; lia|].
  exists c', c''. split_and!; [done|exact E1| |]; rewrite Hw by (vm_compute; split; congruence); vm_compute; reflexivity.
Defined.
